(* ===== verification/_CoqProject ===== *)
-Q . S2P
Prelude.v
Types.v
Frame.v
Ledger.v
Pallet.v
SponsorSpec.v
PalletProofs.v
Weights.v
Payment.v
Extension.v
ExtensionProofs.v
Lifecycle.v
Mock.v
PalletTheorems.v
ExtensionTheorems.v
LifecycleTheorems.v
Template.v
Runtime.v
RuntimeTheorems.v
Codec.v
StateCodec.v
Client.v
ClientTheorems.v
Node.v
NodeTheorems.v
Extrinsic.v
Blocks.v
Promise.v
Demo.v
RuntimeClient.v
BlockTheorems.v
PromiseTheorems.v
UnitTests.v
DemoTheorems.v
Service.v
ServiceTheorems.v
Command.v
CommandTheorems.v
Xcm.v
XcmTheorems.v
Apis.v
ApisTheorems.v
Wiring.v
WiringTheorems.v
Typing.v
