(* ===== verification/Prelude.v ===== *)
(** * Sponsored native fees: a verification of the repository's core

    The repository is a parachain template with one pallet of its own.  An account registers
    as a _sponsor_, escrows a budget as a hold on its balance and names the accounts that may
    spend it; a transaction that names the sponsor in its payment extension then has its fee
    paid out of that budget.  This library models that pallet and its extension as they are
    written, the template pallet, and the parts of the runtime, the demo client and the node
    that compute something, and proves what makes them correct.

    ** Parts and where they are modelled

    - The pallet, [pallets/sponsored-tx/src/lib.rs] and [types.rs].  [Types] has the data:
      hold reasons, configuration, policies, sponsor records, events, errors, and the state
      [Chain] (the rest of the storage as [World], the [Sponsors] map, the event record).
      [Pallet] has every function of [impl Pallet<T>] and the seven dispatchables, each with
      its guards in source order; [dispatch] adds the storage layer FRAME puts around a call.
    - The payment extension, [pallets/sponsored-tx/src/extension.rs]: [Extension] has
      [weight], [validate], [prepare], [post_dispatch_details] and [settle_sponsored_fee];
      [Codec] its derived wire format.  [StateCodec] has the derived codecs of the stored
      state and of the calls.
    - Weights, [pallets/sponsored-tx/src/weights.rs]: [Weights].
    - The mock runtime, [mock.rs]: [Ledger] is a concrete ledger with holds at the mock's
      types, [Mock] a concrete fee model, the fixtures and some scenarios.  No theorem about
      the pallet depends on them; they are where hypotheses are shown to hold.  [UnitTests]
      has the rest of the mock and the twelve tests of [tests.rs], as computations.
    - The template pallet, [pallets/template/src/], with its benchmarks and tests:
      [Template].
    - The runtime, [runtime/src/lib.rs], [configs/mod.rs] and [weights/]: [Runtime] has the
      units, the weight constants and their sanity tests, the arguments of the block weight
      builder, the fee polynomial and the pallet's configuration; [Wiring] how the SDK's
      pallets are configured to work together: hooks, message queues, delivery prices.
    - Genesis presets and the node's choices, [runtime/src/genesis_config_presets.rs],
      [node/src/chain_spec.rs], [cli.rs] and [command.rs]: [Node] and [Command] ([run] is all
      that [main.rs] calls).
    - The node's service and RPC, [node/src/service.rs] and [rpc.rs]: [Service], with the
      tasks the service spawns as part of the state.
    - The runtime APIs and the composition of the runtime, [runtime/src/apis.rs], [lib.rs] and
      [benchmarks.rs]: [Apis].
    - The XCM configuration, [runtime/src/configs/xcm_config.rs] and the origins of
      [configs/mod.rs]: [Xcm], where each composition of SDK types is an expression.
    - The demo client, [examples/subxt-sponsor-client/src/main.rs]: [Client] has its pieces,
      [Demo] the script itself as a program over a client of a chain.

    The parts meet in three files.  [Extrinsic] is the life of a signed extrinsic through the
    pallet's extension and the dispatch of its call, in the order of
    [docs/architecture_review.md]; [Blocks] makes histories of such extrinsics, with the
    activity of other pallets in between.  [RuntimeClient] is a client whose chain is this model, so
    that the script runs against the pallet: its bytes are decoded by [Codec], its calls go
    through [Extrinsic], and what it reads is the pallet's storage.  On the node's side,
    [Command] runs the service of [Service].

    ** How code is modelled

    A function on storage is a computation [M S E A]: it takes the state and returns a result
    and the state it left, _also when it fails_, because Rust's [?] does not undo writes;
    rolling back belongs to [with_storage_layer].  Integers are [N] with the saturation and
    truncation of the source written out at its width.  Logging is left out.  Events are
    appended to one record for the whole history (FRAME starts a new record with each block).
    All recursion is structural, so there is no fuel anywhere.

    Code that is not in the repository is a class of operations and, separately, a class of
    the laws its documentation states: [FungibleHold] and [FungibleHoldSpec] for
    [pallet_balances], [FungibleHoldLive] for when holding and releasing succeed,
    [FeeDestination], [TransactionPayment] for [pallet_transaction_payment] (without any law;
    [ChargeSpec] adds what is documented for a signer who can pay, [ChargeFrame] what it
    leaves alone), [OtherPallets] for the calls of all other pallets,
    [Weights] and [SdkWeights] for [sp_weights] and [Perbill], [Codec] for SCALE,
    [DefaultExtrinsicParams] and [ValueOps] for Subxt, [ChainClient] for the connection,
    [GenesisEnv], [CliTypes], [NodeEnv] and [ServiceEnv] for the node's libraries, [ApiEnv] for
    what the APIs forward to, [XcmBuilder] for the building blocks of XCM, [DeliveryPrices] for
    what a delivery costs, [ExtensionNames] for the names of the SDK's extensions.  Definitions take
    the operations, theorems the laws they need; each class of laws has a concrete instance.

    ** What the theorems show

    - [SponsorSpec] specifies a sponsor abstractly: one account with free, budget and pending
      funds, and what each call does to it.  [PalletProofs] proves the refinement;
      [PalletTheorems] states it with its consequences: every call has the specified outcome,
      which is an error of the balances pallet exactly where that pallet refuses the move, and
      preserves the pallet's invariant, conserves the caller's funds, leaves everybody else and
      all pending funds alone, and a failed one writes nothing; the policy check decides
      exactly non-emptiness and distinctness; sponsors get their budget back.
    - [ExtensionProofs] and [ExtensionTheorems]: validation decides exactly the documented
      rules in their order; reservation succeeds after validation; settlement charges the
      actual fee clamped to the estimate, splits it into fee and tip, and returns the rest as
      far as the balances pallet allows; the signer pays nothing.
    - [Lifecycle] is the protocol as a step relation (calls, other pallets' activity,
      preparation, settlement in any order the runtime allows); [LifecycleTheorems] proves by
      induction over its runs that pending funds are exactly those in flight, that the event
      record accounts for all escrowed funds, that transactions in flight settle and idle
      sponsors can leave.
    - [Promise] specifies the whole component, pallet and extension, as a machine on accounts
      in which a fee needs the sponsor's consent; [PromiseTheorems] proves that the life cycle
      and every history of extrinsics refine it, and that every fee ever paid had consent.
    - [Blocks] and [BlockTheorems]: applying any extrinsic, sponsored or not, accepted or
      refused, is a run of that relation between idle states, so its invariants hold after
      every extrinsic of every history; what a sponsor deposited, got back and spent, measured on
      its balances, is what the events record, and the rest is what it has left; and without
      deposits sponsorship comes to an end, after at most the budget divided by the least fee.
    - [StateCodec]: stored states and calls decode to themselves, and the declared maximal
      length holds.
    - [UnitTests]: the pallet's test suite passes on the model.
    - [RuntimeTheorems]: fees cross between the two balance types without loss; calls fit a
      block; block limits are consistent; what the fee polynomial charges; and that the weight
      the extension returns after dispatch exceeds the overhead it declared.
    - [ClientTheorems]: what the client signs is what the runtime decodes; what it reads from
      holds and events is what the pallet recorded; balances print exactly to four decimals.
    - [NodeTheorems] and [CommandTheorems]: presets are usable and match the built-in
      specifications; explicit arguments win over defaults; how the node's commands fail; and
      what running the node without a sub-command starts, through the service.
    - [DemoTheorems]: whatever client it talks to, the script reports success only after the
      steps it claims; and on the modelled runtime, for an Alice who can pay, it does succeed,
      with the stated final state of the chain.
    - [ServiceTheorems]: which tasks a node spawns in which order, that a failed start never
      authors blocks, with which keys and times an authority authors, which RPC methods exist.
      The proofs use a small logic of emitted tasks.
    - [XcmTheorems]: which messages the barrier admits, which origin a sender acts as (never
      root), that messages can be sent to exactly those that own an account, who may administer
      the collators, that only the relay chain can make native currency appear, and that local
      senders are known as themselves.
    - [WiringTheorems]: what a delivery costs and how messages are weighed; the hooks between
      the pallets match.
    - [ApisTheorems]: names agree between the client and the runtime, and the client serves
      every extension that wants data, the pallet's own under the name the pallet gives it.
    - [Typing]: all amounts stay within the balance type.
    - [Template]: the stored number counts up to its maximum; its declared weights are below
      the measured ones.

    ** Not modelled

    Type aliases and associated types that only name SDK types (hashes, headers, weight
    tables), the help examples of the command line, build scripts, and log lines.  The tables
    of configuration record what the runtime chooses; what an SDK pallet then does with it is
    not modelled beyond the laws named above.  Of the extensions around an extrinsic only the
    payment extension is run in [Extrinsic]; the others check the signer, the version, the
    nonce, the era and the weight and do not touch what the theorems are about.
    Asynchronous code is run to completion where it is awaited; tasks, once spawned, are not
    run.  *)

From Stdlib Require Export NArith Lia.
From stdpp Require Export base numbers option list gmap.

#[export] Set Default Goal Selector "!".

(** ** Results

    Rust's [Result<A, E>]. *)

Inductive result (A E : Type) : Type :=
| Ok (a : A)
| Err (e : E).

Arguments Ok {A E} a.
Arguments Err {A E} e.

Definition map_err {A E F : Type} (f : E → F) (r : result A E) : result A F :=
  match r with
  | Ok a => Ok a
  | Err e => Err (f e)
  end.

(** [Option::ok_or]. *)
Definition ok_or {A E : Type} (o : option A) (e : E) : result A E :=
  match o with
  | Some a => Ok a
  | None => Err e
  end.

(** [Result::err]. *)
Definition error_of {A E : Type} (r : result A E) : option E :=
  match r with
  | Ok _ => None
  | Err e => Some e
  end.

(** [Result::is_ok]. *)
Definition is_ok {A E : Type} (r : result A E) : bool :=
  match r with
  | Ok _ => true
  | Err _ => false
  end.

(** ** Computations over a mutable state

    A Rust function that works on the chain's storage and may return [Err] early.  The
    state survives an error: [?] returns from the function, it does not undo the writes
    made before it.  Rolling back is the business of the storage layer that FRAME puts
    around a dispatchable ([with_storage_layer] below), not of the function. *)

Definition M (S E A : Type) : Type := S → result A E * S.

#[export] Instance M_ret {S E} : MRet (M S E) := λ A a s, (Ok a, s).
#[export] Instance M_bind {S E} : MBind (M S E) := λ A B f m s,
  match m s with
  | (Ok a, s') => f a s'
  | (Err e, s') => (Err e, s')
  end.

Section monad.
Context {S E : Type}.

(** [r?] on a pure result. *)
Definition lift_result {A} (r : result A E) : M S E A := λ s, (r, s).

(** A read of the state. *)
Definition gets {A} (f : S → A) : M S E A := λ s, (Ok (f s), s).

(** A write that cannot fail. *)
Definition modify (f : S → S) : M S E unit := λ s, (Ok tt, f s).

(** The [ensure!] macro: return [e] unless [b]. *)
Definition ensure (b : bool) (e : E) : M S E unit :=
  λ s, if b then (Ok tt, s) else (Err e, s).

(** The transactional layer around a dispatchable: its writes are discarded when it
    returns an error. *)
Definition with_storage_layer {A} (m : M S E A) : M S E A := λ s,
  match m s with
  | (Ok a, s') => (Ok a, s')
  | (Err e, _) => (Err e, s)
  end.
End monad.

(** [m.map_err(f)]. *)
Definition map_err_m {S E F A : Type} (f : E → F) (m : M S E A) : M S F A :=
  λ s, let '(r, s') := m s in (map_err f r, s').

(** A computation on a part of the state. *)
Definition zoom {S T E A : Type} (get : S → T) (set : T → S → S) (m : M T E A) : M S E A :=
  λ s, let '(r, t') := m (get s) in (r, set t' s).

Section monad_lemmas.
Context {S E A B : Type}.
Implicit Types (m : M S E A) (f : A → M S E B).

Lemma bind_ok m f s b s' :
  (m ≫= f) s = (Ok b, s') ↔ ∃ a s1, m s = (Ok a, s1) ∧ f a s1 = (Ok b, s').
Proof.
  unfold mbind, M_bind. split.
  - destruct (m s) as [[a|e] s1] eqn:Hm; [eauto|done].
  - intros (a & s1 & -> & Hf). done.
Qed.

Lemma bind_err m f s e s' :
  (m ≫= f) s = (Err e, s') ↔
  m s = (Err e, s') ∨ ∃ a s1, m s = (Ok a, s1) ∧ f a s1 = (Err e, s').
Proof.
  unfold mbind, M_bind. split.
  - destruct (m s) as [[a|e'] s1] eqn:Hm; intros; simplify_eq; eauto.
  - intros [-> | (a & s1 & -> & Hf)]; done.
Qed.

Lemma bind_run m f s a s1 : m s = (Ok a, s1) → (m ≫= f) s = f a s1.
Proof. unfold mbind, M_bind. by intros ->. Qed.

Lemma with_storage_layer_ok (m : M S E A) s a s' :
  with_storage_layer m s = (Ok a, s') ↔ m s = (Ok a, s').
Proof. unfold with_storage_layer. destruct (m s) as [[?|?] ?]; naive_solver. Qed.

Lemma with_storage_layer_err (m : M S E A) s e s' :
  with_storage_layer m s = (Err e, s') → s' = s ∧ ∃ s1, m s = (Err e, s1).
Proof. unfold with_storage_layer. destruct (m s) as [[?|?] ?]; naive_solver. Qed.
End monad_lemmas.

(** The monad laws, pointwise in the state. *)
Lemma bind_ret_l {S E A B} (a : A) (f : A → M S E B) s : (mret a ≫= f) s = f a s.
Proof. done. Qed.

Lemma bind_assoc {S E A B C} (m : M S E A) (f : A → M S E B) (g : B → M S E C) s :
  ((m ≫= f) ≫= g) s = (m ≫= (λ a, f a ≫= g)) s.
Proof. unfold mbind, M_bind. by destruct (m s) as [[?|?] ?]. Qed.

(** ** Machine integers

    Unsigned integers are [N]; what the source computes with them is written out at the
    width it has. *)

Definition u32_max : N := 2 ^ 32 - 1.
Definition u64_max : N := 2 ^ 64 - 1.
Definition u128_max : N := 2 ^ 128 - 1.

(** [x as u32] on a [usize]: truncation. *)
Definition as_u32 (x : N) : N := x mod 2 ^ 32.

(** [x.saturated_into()] for a target type whose greatest value is [max]. *)
Definition saturated_into (max x : N) : N := N.min x max.

(** [x.saturating_sub(y)] on an unsigned type. *)
Definition saturating_sub (x y : N) : N := x - y.

(** [x.saturating_add(y)] and [x.saturating_mul(y)] on an unsigned type bounded by [max]. *)
Definition saturating_add (max x y : N) : N := N.min (x + y) max.
Definition saturating_mul (max x y : N) : N := N.min (x * y) max.

(** [x.checked_add(y)]. *)
Definition checked_add (max x y : N) : option N :=
  if (x + y <=? max)%N then Some (x + y)%N else None.

(** [Zero::is_zero]. *)
Definition is_zero (x : N) : bool := (x =? 0)%N.

Lemma is_zero_spec x : reflect (x = 0%N) (is_zero x).
Proof. apply N.eqb_spec. Qed.

Lemma is_zero_true x : is_zero x = true ↔ x = 0%N.
Proof. apply N.eqb_eq. Qed.

Lemma is_zero_false x : is_zero x = false ↔ (0 < x)%N.
Proof. rewrite <- not_true_iff_false, is_zero_true. lia. Qed.

Lemma saturated_into_id max x : (x ≤ max)%N → saturated_into max x = x.
Proof. unfold saturated_into. lia. Qed.

Lemma saturated_into_le max x : (saturated_into max x ≤ max)%N.
Proof. unfold saturated_into. lia. Qed.

Lemma saturated_into_mono max x y :
  (x ≤ y)%N → (saturated_into max x ≤ saturated_into max y)%N.
Proof. unfold saturated_into. lia. Qed.

Lemma as_u32_small x : (x ≤ u32_max)%N → as_u32 x = x.
Proof. unfold as_u32, u32_max. intros. apply N.mod_small. lia. Qed.

(** ** Automation *)

(** Facts about the model's boolean tests, turned into propositions. *)
Create HintDb frame discriminated.
#[export] Hint Constants Opaque : frame.
#[export] Hint Resolve saturated_into_le saturated_into_mono : frame.

Ltac bool_to_prop :=
  repeat match goal with
  | H : is_zero _ = true |- _ => apply is_zero_true in H
  | H : is_zero _ = false |- _ => apply is_zero_false in H
  | H : _ ≠ true |- _ => apply not_true_is_false in H
  | H : negb _ = true |- _ => apply negb_true_iff in H
  | H : negb _ = false |- _ => apply negb_false_iff in H
  | H : (_ <=? _)%N = true |- _ => apply N.leb_le in H
  | H : (_ <=? _)%N = false |- _ => apply N.leb_gt in H
  | H : (_ <? _)%N = true |- _ => apply N.ltb_lt in H
  | H : (_ <? _)%N = false |- _ => apply N.ltb_ge in H
  | H : (_ =? _)%N = true |- _ => apply N.eqb_eq in H
  | H : (_ =? _)%N = false |- _ => apply N.eqb_neq in H
  | H : bool_decide _ = true |- _ => apply bool_decide_eq_true in H
  | H : bool_decide _ = false |- _ => apply bool_decide_eq_false in H
  | H : _ && _ = true |- _ => apply andb_true_iff in H as [? ?]
  | H : _ || _ = false |- _ => apply orb_false_iff in H as [? ?]
  end.

(** One symbolic execution step of a computation in a hypothesis. *)
Ltac run_step H :=
  match type of H with
  | (mbind _ _) _ = (Ok _, _) =>
      let a := fresh "a" in let s := fresh "s" in let H1 := fresh "Hrun" in
      apply bind_ok in H as (a & s & H1 & H)
  | mret _ _ = _ => unfold mret, M_ret in H
  | gets _ _ = _ => unfold gets in H
  | modify _ _ = _ => unfold modify in H
  | ensure ?b _ _ = _ => unfold ensure in H; destruct b eqn:?
  | lift_result _ _ = _ => unfold lift_result in H
  end.

(** Symbolic execution of a run that ended in [Ok]: binds are split, guards become
    propositions, reads and writes are substituted. *)
Ltac run_ok H :=
  repeat (progress (run_step H; simplify_eq/=)
          || match goal with
             | H' : gets _ _ = _ |- _ => unfold gets in H'; simplify_eq/=
             | H' : modify _ _ = _ |- _ => unfold modify in H'; simplify_eq/=
             | H' : ensure ?b _ _ = _ |- _ =>
                 unfold ensure in H'; destruct b eqn:?; simplify_eq/=
             | H' : lift_result _ _ = _ |- _ => unfold lift_result in H'; simplify_eq/=
             end);
  bool_to_prop.
