(* ===== verification/Types.v ===== *)
(** * Sponsor policy and state types, configuration, events and errors

    The data of [pallets/sponsored-tx/src/types.rs] and the declarations at the head of
    [pallets/sponsored-tx/src/lib.rs]: hold reasons, the [Config] trait, the [Sponsors]
    storage map, events and errors. *)

From S2P Require Import Prelude.

(** Hold reasons used to separate available sponsor budget from in-flight reservations. *)
Inductive HoldReason : Set :=
| SponsorshipBudget
| SponsorshipPending.

#[export] Instance HoldReason_eq_dec : EqDecision HoldReason.
Proof. solve_decision. Defined.

#[export] Program Instance HoldReason_countable : Countable HoldReason :=
  inj_countable'
    (λ r, match r with SponsorshipBudget => true | SponsorshipPending => false end)
    (λ b : bool, if b then SponsorshipBudget else SponsorshipPending) _.
Next Obligation. by intros []. Qed.

(** The errors the pallet can return. *)
Inductive Error : Set :=
| AlreadyRegistered
| NotRegistered
| AlreadyPaused
| AlreadyActive
| EmptyAllowlist
| DuplicateAllowedCaller
| ZeroBudget
| InsufficientAvailableBudget
| PendingBudgetNotEmpty.

#[export] Instance Error_eq_dec : EqDecision Error.
Proof. solve_decision. Defined.

(** The pallet's configuration: the runtime's types and constants that the pallet is
    generic in.  [World] is the storage of everything that is not this pallet (balances,
    fee multiplier, nonces); [OtherError] are the dispatch errors and [OtherInvalid] the
    transaction validity errors that other code raises. *)
Class Config : Type := {
  AccountId : Type;
  AccountId_eq_dec :: EqDecision AccountId;
  AccountId_countable :: Countable AccountId;
  RuntimeOrigin : Type;
  ensure_signed : RuntimeOrigin → option AccountId;
  as_system_origin_signer : RuntimeOrigin → option AccountId;
  RuntimeHoldReason : Type;
  RuntimeHoldReason_eq_dec :: EqDecision RuntimeHoldReason;
  from_hold_reason : HoldReason → RuntimeHoldReason;
  from_hold_reason_inj :: Inj (=) (=) from_hold_reason;
  MaxAllowedCallers : N;
  balance_max : N;
  fee_balance_max : N;
  World : Type;
  OtherError : Type;
  OtherInvalid : Type;
}.

(** A vector of at most [max] elements. *)
Record BoundedVec (A : Type) (max : N) : Type := mk_bounded {
  bv_items : list A;
  bv_bound : (N.of_nat (length bv_items) <=? max)%N = true;
}.

Arguments mk_bounded {A max} _ _.
Arguments bv_items {A max} _.
Arguments bv_bound {A max} _.

(** [Vec::try_into::<BoundedVec<_, _>>]: fails when the vector is too long. *)
Definition try_into_bounded {A : Type} (max : N) (l : list A) : option (BoundedVec A max) :=
  match decide ((N.of_nat (length l) <=? max)%N = true) with
  | left H => Some (mk_bounded l H)
  | right _ => None
  end.

Lemma bounded_vec_eq {A max} (v w : BoundedVec A max) : bv_items v = bv_items w → v = w.
Proof.
  destruct v as [l Hl], w as [k Hk]. cbn. intros ->. f_equal. apply eq_pi. solve_decision.
Qed.

Lemma bounded_vec_length {A max} (v : BoundedVec A max) :
  (N.of_nat (length (bv_items v)) ≤ max)%N.
Proof. apply N.leb_le, bv_bound. Qed.

Lemma try_into_bounded_spec {A} max (l : list A) :
  match try_into_bounded max l with
  | Some v => bv_items v = l
  | None => (max < N.of_nat (length l))%N
  end.
Proof. unfold try_into_bounded. case_decide; [done|]. bool_to_prop. lia. Qed.

Section types.
Context {T : Config}.

(** Policy configured by a sponsor. *)
Record SponsorPolicy : Type := {
  allowed_callers : BoundedVec AccountId MaxAllowedCallers;
  max_fee_per_tx : N;
}.

(** Current on-chain state for a sponsor. *)
Record SponsorState : Type := {
  active : bool;
  policy : SponsorPolicy;
}.

(** The pallet's events. *)
Inductive Event : Type :=
| SponsorRegistered (sponsor : AccountId) (initial_budget : N)
| BudgetIncreased (sponsor : AccountId) (amount new_budget : N)
| BudgetDecreased (sponsor : AccountId) (amount new_budget : N)
| SponsorPolicyUpdated (sponsor : AccountId)
| SponsorPaused (sponsor : AccountId)
| SponsorResumed (sponsor : AccountId)
| SponsorUnregistered (sponsor : AccountId)
| SponsoredTransactionFeePaid (sponsor signer : AccountId) (actual_fee tip : N).

(** What a dispatchable can fail with: an error of this pallet, an origin that is not
    signed, or an error from outside. *)
Inductive DispatchError : Type :=
| Module (e : Error)
| BadOrigin
| Other (e : OtherError).

(** Why a transaction is not valid: it cannot pay, a code of the runtime's own, or a
    reason of other code. *)
Inductive TransactionValidityError : Type :=
| Invalid_Payment
| Invalid_Custom (code : N)
| Invalid_Other (e : OtherInvalid).

(** The chain's state as the pallet sees it: the rest of the storage, the pallet's
    [Sponsors] map and the event record of the block. *)
Record Chain : Type := {
  world : World;
  sponsors : gmap AccountId SponsorState;
  events : list Event;
}.

Definition set_world (w : World) (s : Chain) : Chain :=
  {| world := w; sponsors := sponsors s; events := events s |}.
Definition set_sponsors (m : gmap AccountId SponsorState) (s : Chain) : Chain :=
  {| world := world s; sponsors := m; events := events s |}.

(** Deposit an event into the block's event record. *)
Definition push_event (e : Event) (s : Chain) : Chain :=
  {| world := world s; sponsors := sponsors s; events := events s ++ [e] |}.
End types.

(** ** Storage map operations

    [StorageMap<_, _, K, V, OptionQuery>] as a finite map. *)
Section storage.
Context {T : Config} {E : Type}.

Definition Sponsors_contains_key (who : AccountId) : M Chain E bool :=
  gets (λ s, bool_decide (is_Some (sponsors s !! who))).

Definition Sponsors_get (who : AccountId) : M Chain E (option SponsorState) :=
  gets (λ s, sponsors s !! who).

Definition Sponsors_insert (who : AccountId) (st : SponsorState) : M Chain E unit :=
  modify (λ s, set_sponsors (<[who := st]> (sponsors s)) s).

Definition Sponsors_remove (who : AccountId) : M Chain E unit :=
  modify (λ s, set_sponsors (delete who (sponsors s)) s).

(** [try_mutate]: the closure works on the stored value; the entry is written back only
    when the closure returns [Ok]. *)
Definition Sponsors_try_mutate {A} (who : AccountId)
    (f : option SponsorState → result A E * option SponsorState) : M Chain E A := λ s,
  match f (sponsors s !! who) with
  | (Ok a, v) =>
      (Ok a, set_sponsors (partial_alter (λ _, v) who (sponsors s)) s)
  | (Err e, _) => (Err e, s)
  end.

Definition deposit_event (e : Event) : M Chain E unit := modify (push_event e).
End storage.
