(* ===== verification/Frame.v ===== *)
(** * Interfaces to the runtime's other pallets

    [pallet_balances] is not part of this repository: it enters the model as a class of
    operations ([FungibleHold], the calls the sponsored-tx pallet makes), a class of what
    their documentation promises ([FungibleHoldSpec]) and a class of when they succeed
    ([FungibleHoldLive]).  The pallet's definitions take the operations as an argument and
    its theorems the laws they need; [Ledger] gives one concrete instance. *)

From S2P Require Import Prelude Types.
Local Open Scope N_scope.

(** Whether an operation must move exactly the amount asked for. *)
Inductive Precision : Set :=
| Exact
| BestEffort.

(** The operations of the [fungible] hold traits, as [pallet_balances::Pallet<T>] offers
    them, with [free_balance] and the [Credit] imbalance. *)
Class FungibleHold {T : Config} : Type := {
  free_balance : AccountId → World → N;
  balance_on_hold : RuntimeHoldReason → AccountId → World → N;
  hold : RuntimeHoldReason → AccountId → N → M World DispatchError unit;
  release : RuntimeHoldReason → AccountId → N → Precision → M World DispatchError N;
  Credit : Type;
  slash : RuntimeHoldReason → AccountId → N → World → Credit * N * World;
  peek : Credit → N;
  split : Credit → N → Credit * Credit;
}.

(** Where fee and tip credit goes: [T::FeeDestination::on_unbalanceds]. *)
Class FeeDestination {T : Config} {F : FungibleHold} : Type :=
  on_unbalanceds : list Credit → World → World.

Section frame_condition.
Context {T : Config} {F : FungibleHold}.

(** [w'] differs from [w] at most in the free balance and the [r]-hold of [who]. *)
Record same_but (r : RuntimeHoldReason) (who : AccountId) (w w' : World) : Prop := {
  same_but_hold r' who' :
    r' ≠ r ∨ who' ≠ who → balance_on_hold r' who' w' = balance_on_hold r' who' w;
  same_but_free who' : who' ≠ who → free_balance who' w' = free_balance who' w;
}.

(** [w'] has the holds of [w]. *)
Definition same_holds (w w' : World) : Prop :=
  ∀ r who, balance_on_hold r who w' = balance_on_hold r who w.

(** The amount a release of [amount] takes from a hold of [held]. *)
Definition released (p : Precision) (amount held : N) : N :=
  match p with
  | Exact => amount
  | BestEffort => N.min amount held
  end.
End frame_condition.

(** What the documentation of the hold traits promises about the balances after each
    operation.  A failed operation changes nothing. *)
Class FungibleHoldSpec {T : Config} (F : FungibleHold) : Prop := {
  hold_ok r who amount w w' :
    hold r who amount w = (Ok tt, w') →
    balance_on_hold r who w' = balance_on_hold r who w + amount
    ∧ free_balance who w' + amount = free_balance who w
    ∧ same_but r who w w';
  hold_err r who amount w e w' :
    hold r who amount w = (Err e, w') → w' = w;
  release_ok r who amount p w x w' :
    release r who amount p w = (Ok x, w') →
    x = released p amount (balance_on_hold r who w)
    ∧ balance_on_hold r who w' + x = balance_on_hold r who w
    ∧ free_balance who w' = free_balance who w + x
    ∧ same_but r who w w';
  release_err r who amount p w e w' :
    release r who amount p w = (Err e, w') → w' = w;
  slash_ok r who amount w c missing w' :
    slash r who amount w = (c, missing, w') →
    peek c = N.min amount (balance_on_hold r who w)
    ∧ peek c + missing = amount
    ∧ balance_on_hold r who w' + peek c = balance_on_hold r who w
    ∧ free_balance who w' = free_balance who w
    ∧ same_but r who w w';
  split_ok c amount c1 c2 :
    split c amount = (c1, c2) →
    peek c1 = N.min amount (peek c) ∧ peek c1 + peek c2 = peek c;
}.

(** When the operations succeed.  [bal_ok] is the condition on the balances' storage that the
    source relies on ("we just freed exactly this amount"): held funds can be released, and
    funds just released from a hold can be placed on hold again, which in particular excludes
    a freeze that exceeds what an account has on hold.  The operations keep it. *)
Class FungibleHoldLive {T : Config} (F : FungibleHold) : Type := {
  bal_ok : World → Prop;
  hold_bal_ok r who amount w w' :
    bal_ok w → hold r who amount w = (Ok tt, w') → bal_ok w';
  release_bal_ok r who amount p w x w' :
    bal_ok w → release r who amount p w = (Ok x, w') → bal_ok w';
  slash_bal_ok r who amount w c missing w' :
    bal_ok w → slash r who amount w = (c, missing, w') → bal_ok w';
  release_available r who amount p w :
    bal_ok w → released p amount (balance_on_hold r who w) ≤ balance_on_hold r who w →
    ∃ x w', release r who amount p w = (Ok x, w');
  rehold_available r r' who amount p w x w' :
    bal_ok w → release r who amount p w = (Ok x, w') →
    ∃ w'', hold r' who x w' = (Ok tt, w'');
}.

(** The credit handler leaves every hold in place: it resolves the credit into free
    balances or drops it. *)
Class FeeDestinationSpec {T : Config} {F : FungibleHold} (D : FeeDestination) : Prop :=
  on_unbalanceds_holds cs w : same_holds w (on_unbalanceds cs w).

(** And keeps the balances invariant. *)
Class FeeDestinationLive {T : Config} {F : FungibleHold} (D : FeeDestination)
    (L : FungibleHoldLive F) : Prop :=
  on_unbalanceds_bal_ok cs w : bal_ok w → bal_ok (on_unbalanceds cs w).

(** A destination that pays the credit to nobody, as [()] does, which burns it. *)
Class FeeDestinationBurns {T : Config} {F : FungibleHold} (D : FeeDestination) : Prop :=
  on_unbalanceds_free cs w who : free_balance who (on_unbalanceds cs w) = free_balance who w.

#[export] Hint Resolve hold_bal_ok release_bal_ok slash_bal_ok on_unbalanceds_bal_ok : frame.

Section lemmas.
Context {T : Config} {F : FungibleHold} {FS : FungibleHoldSpec F}.

#[export] Instance same_holds_equivalence : Equivalence same_holds.
Proof. split; unfold same_holds; congruence. Qed.

Lemma hold_spec r who amount w res w' :
  hold r who amount w = (res, w') →
  match res with
  | Ok _ => balance_on_hold r who w' = balance_on_hold r who w + amount
            ∧ free_balance who w' + amount = free_balance who w ∧ same_but r who w w'
  | Err _ => w' = w
  end.
Proof. destruct res as [[]|e]; [apply hold_ok|apply hold_err]. Qed.

(** A hold placed for an amount on an account never decreases any hold. *)
Lemma hold_monotone r who amount w res w' r' who' :
  hold r who amount w = (res, w') →
  balance_on_hold r' who' w ≤ balance_on_hold r' who' w'.
Proof.
  intros Hh%hold_spec. destruct res; [|subst; lia].
  destruct Hh as (Hb & _ & Hsame).
  destruct (decide (r' = r ∧ who' = who)) as [[-> ->]|Hne]; [lia|].
  rewrite (same_but_hold _ _ _ _ Hsame); [lia|].
  destruct (decide (r' = r)), (decide (who' = who)); tauto.
Qed.
End lemmas.
