(* ===== verification/Ledger.v ===== *)
(** * A ledger with holds

    A concrete instance of the interfaces of [Frame]: free balances and holds in finite
    maps, with an existential deposit that holding must leave in the free balance.  It is
    instantiated at the types of [pallets/sponsored-tx/src/mock.rs] and serves to evaluate
    the model on concrete inputs; no theorem about the pallet depends on it. *)

From S2P Require Import Prelude Types Frame.
Local Open Scope N_scope.

(** Origins of the mock runtime. *)
Inductive MockOrigin : Set :=
| Origin_root
| Origin_signed (who : N)
| Origin_none.

Definition mock_signer (o : MockOrigin) : option N :=
  match o with
  | Origin_signed who => Some who
  | _ => None
  end.

Record LedgerWorld : Type := {
  free : gmap N N;
  held : gmap (N * HoldReason) N;
}.

Inductive TokenError : Set := FundsUnavailable.

(** The mock runtime: 64-bit accounts and balances, at most 8 allowlisted callers. *)
#[export] Instance Test : Config := {|
  AccountId := N;
  RuntimeOrigin := MockOrigin;
  ensure_signed := mock_signer;
  as_system_origin_signer := mock_signer;
  RuntimeHoldReason := HoldReason;
  from_hold_reason := id;
  MaxAllowedCallers := 8;
  balance_max := u64_max;
  fee_balance_max := u64_max;
  World := LedgerWorld;
  OtherError := TokenError;
  OtherInvalid := unit;
|}.

Module Ledger.
Definition ExistentialDeposit : N := 1.

Definition free_of (who : N) (w : LedgerWorld) : N := default 0 (free w !! who).
Definition held_of (r : HoldReason) (who : N) (w : LedgerWorld) : N :=
  default 0 (held w !! (who, r)).

Definition set (r : HoldReason) (who f h : N) (w : LedgerWorld) : LedgerWorld :=
  {| free := <[who := f]> (free w); held := <[(who, r) := h]> (held w) |}.

Definition hold (r : HoldReason) (who amount : N) : M LedgerWorld DispatchError unit := λ w,
  if is_zero amount || (amount + ExistentialDeposit <=? free_of who w)
  then (Ok tt, set r who (free_of who w - amount) (held_of r who w + amount) w)
  else (Err (Other FundsUnavailable), w).

Definition release (r : HoldReason) (who amount : N) (p : Precision) :
    M LedgerWorld DispatchError N := λ w,
  let x := released p amount (held_of r who w) in
  if x <=? held_of r who w
  then (Ok x, set r who (free_of who w + x) (held_of r who w - x) w)
  else (Err (Other FundsUnavailable), w).

Definition slash (r : HoldReason) (who amount : N) (w : LedgerWorld) : N * N * LedgerWorld :=
  let x := N.min amount (held_of r who w) in
  (x, amount - x, set r who (free_of who w) (held_of r who w - x) w).

Definition split (c amount : N) : N * N := (N.min amount c, c - N.min amount c).

Definition ok (w : LedgerWorld) : Prop :=
  ∀ r who, 0 < held_of r who w → ExistentialDeposit ≤ free_of who w.

Lemma can_hold_spec amount f :
  is_zero amount || (amount + ExistentialDeposit <=? f) = true ↔
  amount = 0 ∨ amount + ExistentialDeposit ≤ f.
Proof. by rewrite orb_true_iff, is_zero_true, N.leb_le. Qed.

Lemma free_set r who f h w who' :
  free_of who' (set r who f h w) = if decide (who = who') then f else free_of who' w.
Proof. unfold free_of; cbn. rewrite lookup_insert. by case_decide. Qed.

Lemma held_set r who f h w r' who' :
  held_of r' who' (set r who f h w)
  = if decide ((who, r) = (who', r')) then h else held_of r' who' w.
Proof. unfold held_of; cbn. rewrite lookup_insert. by case_decide. Qed.
End Ledger.

#[export] Instance ledger_fungible : FungibleHold := {|
  free_balance := Ledger.free_of;
  balance_on_hold := Ledger.held_of;
  hold := Ledger.hold;
  release := Ledger.release;
  Credit := N;
  slash := Ledger.slash;
  peek := id;
  split := Ledger.split;
|}.

(** [FeeDestination = ()]: the credit is dropped, the funds are burned. *)
#[export] Instance burn_fees : FeeDestination := λ _ w, w.

Ltac ledger_solve :=
  repeat match goal with
  | H : (if ?b then _ else _) = _ |- _ => destruct b eqn:?; simplify_eq/=
  | |- context [decide ?P] => destruct (decide P); simplify_eq/=
  | H : context [decide ?P] |- _ => destruct (decide P); simplify_eq/=
  | H : _ || _ = true |- _ => apply Ledger.can_hold_spec in H
  end; unfold Ledger.ExistentialDeposit in *; bool_to_prop; try tauto; try lia.

Lemma ledger_same_but r who f h w : same_but r who w (Ledger.set r who f h w).
Proof.
  split; cbn; intros; rewrite ?Ledger.held_set, ?Ledger.free_set; ledger_solve.
Qed.

#[export] Instance ledger_spec : FungibleHoldSpec ledger_fungible.
Proof.
  split; cbn; unfold Ledger.hold, Ledger.release, Ledger.slash, Ledger.split.
  - intros r who amount w w' H. ledger_solve.
    rewrite !Ledger.held_set, !Ledger.free_set.
    split_and!; [ledger_solve|ledger_solve|apply ledger_same_but].
  - intros r who amount w e w' H. ledger_solve.
  - intros r who amount p w x w' H. ledger_solve.
    rewrite !Ledger.held_set, !Ledger.free_set.
    split_and!; [done|ledger_solve|ledger_solve|apply ledger_same_but].
  - intros r who amount p w e w' H. ledger_solve.
  - intros r who amount w c missing w' H. simplify_eq.
    rewrite !Ledger.held_set, !Ledger.free_set.
    split_and!; [done|cbn; lia|ledger_solve|ledger_solve|apply ledger_same_but].
  - intros c amount c1 c2 H. simplify_eq. cbn. lia.
Qed.

#[export] Instance burn_fees_spec : FeeDestinationSpec burn_fees.
Proof. done. Qed.

#[export] Instance burn_fees_burns : FeeDestinationBurns burn_fees.
Proof. done. Qed.

(** The ledger's invariant: whoever has funds on hold keeps the existential deposit. *)
#[export, refine] Instance ledger_live : FungibleHoldLive ledger_fungible := {|
  bal_ok := Ledger.ok : World → Prop;
|}.
Proof.
  all: cbn; unfold Ledger.hold, Ledger.release, Ledger.slash.
  - intros r who amount w w' Hok H. ledger_solve. intros r' who'.
    specialize (Hok r' who'). rewrite Ledger.held_set, Ledger.free_set. ledger_solve.
  - intros r who amount p w x w' Hok H. ledger_solve. intros r' who'.
    specialize (Hok r' who'). rewrite Ledger.held_set, Ledger.free_set. ledger_solve.
  - intros r who amount w c missing w' Hok H. simplify_eq. intros r' who'.
    specialize (Hok r' who'). rewrite Ledger.held_set, Ledger.free_set. ledger_solve.
  - intros r who amount p w Hok Hle%N.leb_le. rewrite Hle. eauto.
  - intros r r' who amount p w x w' Hok H. ledger_solve.
    specialize (Hok r who). rewrite Ledger.free_set. cbn.
    match goal with |- context [if ?b then _ else _] => destruct b eqn:Hb end; [eauto|].
    exfalso. apply not_true_iff_false in Hb. apply Hb, Ledger.can_hold_spec. ledger_solve.
Defined.

#[export] Instance burn_fees_live : FeeDestinationLive burn_fees ledger_live.
Proof. by intros cs w. Qed.

(** ** The test fixtures of [mock.rs] *)

(** [new_test_ext]: accounts 1, 2 and 3 with 1000 each, no sponsors. *)
Definition new_test_ext : Chain := {|
  world := {| free := {[ 1 := 1000; 2 := 1000; 3 := 1000 ]}; held := ∅ |} : World;
  sponsors := ∅;
  events := [];
|}.

(** [policy(callers, max_fee_per_tx)], [None] where the helper would panic. *)
Definition mock_policy (callers : list N) (max_fee : N) : option SponsorPolicy :=
  v ← try_into_bounded MaxAllowedCallers (callers : list AccountId);
  Some {| allowed_callers := v; max_fee_per_tx := max_fee |}.

(** The policy most tests use: account 2 may spend up to 50 per transaction. *)
Definition policy_2_50 : SponsorPolicy := {|
  allowed_callers := @mk_bounded AccountId MaxAllowedCallers [2] eq_refl;
  max_fee_per_tx := 50;
|}.

Lemma new_test_ext_ok : bal_ok (world new_test_ext).
Proof. intros r who. cbn. unfold Ledger.held_of. cbn. rewrite lookup_empty. cbn. lia. Qed.
