(* ===== verification/Pallet.v ===== *)
(** * The sponsored-tx pallet

    [pallets/sponsored-tx/src/lib.rs]: the helper functions of [impl Pallet<T>] and the
    seven dispatchables, each with its guards in source order.  A dispatchable is a
    computation on [Chain]; [dispatch] runs it in the storage layer FRAME puts around it. *)

From S2P Require Import Prelude Types Frame.
Local Open Scope N_scope.

Section pallet.
Context {T : Config} {F : FungibleHold}.

(** A call into another pallet. *)
Definition external {E A} (m : M World E A) : M Chain E A := zoom world set_world m.

(** ** Helpers *)

Definition budget_hold_reason : RuntimeHoldReason := from_hold_reason SponsorshipBudget.

Definition pending_hold_reason : RuntimeHoldReason := from_hold_reason SponsorshipPending.

Definition budget_on_hold (who : AccountId) (s : Chain) : N :=
  balance_on_hold budget_hold_reason who (world s).

Definition pending_on_hold (who : AccountId) (s : Chain) : N :=
  balance_on_hold pending_hold_reason who (world s).

Definition sponsor_state (who : AccountId) (s : Chain) : option SponsorState :=
  sponsors s !! who.

(** [prepare]'s move of the worst-case fee: release from the budget hold, then hold as
    pending.  Any dispatch error becomes [InvalidTransaction::Payment]; when the second
    step fails the first one has been made. *)
Definition move_budget_to_pending (who : AccountId) (amount : N) :
    M Chain TransactionValidityError unit :=
  let to_validity := λ _ : DispatchError, Invalid_Payment in
  _ ← map_err_m to_validity (external (release budget_hold_reason who amount Exact));
  _ ← map_err_m to_validity (external (hold pending_hold_reason who amount));
  mret tt.

(** Pending hold to free to budget hold.  Errors are logged and swallowed. *)
Definition restore_pending_to_budget (who : AccountId) (s : Chain) : Chain :=
  let pending := pending_on_hold who s in
  if is_zero pending then s
  else
    match release pending_hold_reason who pending BestEffort (world s) with
    | (Ok released, w) =>
        if is_zero released then set_world w s
        else
          match hold budget_hold_reason who released w with
          | (Ok _, w') => set_world w' s
          | (Err _, w') => set_world w' s
          end
    | (Err _, w) => set_world w s
    end.

Definition ensure_registered (who : AccountId) : M Chain Error unit :=
  registered ← Sponsors_contains_key who;
  ensure registered NotRegistered.

(** The loop of [ensure_valid_policy]: each caller against the ones after it. *)
Fixpoint check_duplicates (callers : list AccountId) (todo : list (nat * AccountId)) :
    result unit Error :=
  match todo with
  | [] => Ok tt
  | (idx, caller) :: todo' =>
      if existsb (λ other, bool_decide (other = caller)) (drop (idx + 1) callers)
      then Err DuplicateAllowedCaller
      else check_duplicates callers todo'
  end.

(** [iter().enumerate()]. *)
Definition enumerate {A} (l : list A) : list (nat * A) := zip (seq 0 (length l)) l.

Definition ensure_valid_policy (p : SponsorPolicy) : result unit Error :=
  let callers := bv_items (allowed_callers p) in
  match callers with
  | [] => Err EmptyAllowlist
  | _ => check_duplicates callers (enumerate callers)
  end.

(** ** Dispatchables *)

Definition signed (origin : RuntimeOrigin) : M Chain DispatchError AccountId :=
  lift_result (ok_or (ensure_signed origin) BadOrigin).

(** Register the caller as a sponsor and place the initial budget on hold. *)
Definition register_sponsor (origin : RuntimeOrigin) (initial_budget : N)
    (p : SponsorPolicy) : M Chain DispatchError unit :=
  sponsor ← signed origin;
  _ ← ensure (negb (is_zero initial_budget)) (Module ZeroBudget);
  registered ← Sponsors_contains_key sponsor;
  _ ← ensure (negb registered) (Module AlreadyRegistered);
  _ ← lift_result (map_err Module (ensure_valid_policy p));
  _ ← external (hold budget_hold_reason sponsor initial_budget);
  _ ← Sponsors_insert sponsor {| active := true; policy := p |};
  _ ← deposit_event (SponsorRegistered sponsor initial_budget);
  mret tt.

(** Increase the caller's available sponsored-fee budget. *)
Definition increase_budget (origin : RuntimeOrigin) (amount : N) :
    M Chain DispatchError unit :=
  sponsor ← signed origin;
  _ ← ensure (negb (is_zero amount)) (Module ZeroBudget);
  _ ← map_err_m Module (ensure_registered sponsor);
  _ ← external (hold budget_hold_reason sponsor amount);
  new_budget ← gets (budget_on_hold sponsor);
  _ ← deposit_event (BudgetIncreased sponsor amount new_budget);
  mret tt.

(** Release part of the caller's available sponsored-fee budget. *)
Definition decrease_budget (origin : RuntimeOrigin) (amount : N) :
    M Chain DispatchError unit :=
  sponsor ← signed origin;
  _ ← ensure (negb (is_zero amount)) (Module ZeroBudget);
  _ ← map_err_m Module (ensure_registered sponsor);
  budget ← gets (budget_on_hold sponsor);
  _ ← ensure (amount <=? budget) (Module InsufficientAvailableBudget);
  _ ← external (release budget_hold_reason sponsor amount Exact);
  new_budget ← gets (budget_on_hold sponsor);
  _ ← deposit_event (BudgetDecreased sponsor amount new_budget);
  mret tt.

(** Replace the caller's sponsorship policy. *)
Definition set_policy (origin : RuntimeOrigin) (p : SponsorPolicy) :
    M Chain DispatchError unit :=
  sponsor ← signed origin;
  _ ← lift_result (map_err Module (ensure_valid_policy p));
  _ ← Sponsors_try_mutate sponsor (λ state,
        match state with
        | None => (Err (Module NotRegistered), state)
        | Some st => (Ok tt, Some {| active := active st; policy := p |})
        end);
  _ ← deposit_event (SponsorPolicyUpdated sponsor);
  mret tt.

(** Pause the caller so future sponsored transactions fail validation. *)
Definition pause (origin : RuntimeOrigin) : M Chain DispatchError unit :=
  sponsor ← signed origin;
  _ ← Sponsors_try_mutate sponsor (λ state,
        match state with
        | None => (Err (Module NotRegistered), state)
        | Some st =>
            if active st
            then (Ok tt, Some {| active := false; policy := policy st |})
            else (Err (Module AlreadyPaused), state)
        end);
  _ ← deposit_event (SponsorPaused sponsor);
  mret tt.

(** Resume the caller so future sponsored transactions may validate again. *)
Definition resume (origin : RuntimeOrigin) : M Chain DispatchError unit :=
  sponsor ← signed origin;
  _ ← Sponsors_try_mutate sponsor (λ state,
        match state with
        | None => (Err (Module NotRegistered), state)
        | Some st =>
            if negb (active st)
            then (Ok tt, Some {| active := true; policy := policy st |})
            else (Err (Module AlreadyActive), state)
        end);
  _ ← deposit_event (SponsorResumed sponsor);
  mret tt.

(** Remove the caller as a sponsor and release any remaining available budget. *)
Definition unregister (origin : RuntimeOrigin) : M Chain DispatchError unit :=
  sponsor ← signed origin;
  _ ← map_err_m Module (ensure_registered sponsor);
  pending ← gets (pending_on_hold sponsor);
  _ ← ensure (is_zero pending) (Module PendingBudgetNotEmpty);
  budget ← gets (budget_on_hold sponsor);
  _ ← (if negb (is_zero budget)
       then _ ← external (release budget_hold_reason sponsor budget Exact); mret tt
       else mret tt);
  _ ← Sponsors_remove sponsor;
  _ ← deposit_event (SponsorUnregistered sponsor);
  mret tt.

(** The pallet's call enum, by [call_index]. *)
Inductive Call : Type :=
| Call_register_sponsor (initial_budget : N) (p : SponsorPolicy)
| Call_increase_budget (amount : N)
| Call_decrease_budget (amount : N)
| Call_set_policy (p : SponsorPolicy)
| Call_pause
| Call_resume
| Call_unregister.

Definition run_call (c : Call) (origin : RuntimeOrigin) : M Chain DispatchError unit :=
  match c with
  | Call_register_sponsor initial_budget p => register_sponsor origin initial_budget p
  | Call_increase_budget amount => increase_budget origin amount
  | Call_decrease_budget amount => decrease_budget origin amount
  | Call_set_policy p => set_policy origin p
  | Call_pause => pause origin
  | Call_resume => resume origin
  | Call_unregister => unregister origin
  end.

(** Dispatching a call of the pallet: the call in its storage layer. *)
Definition dispatch (c : Call) (origin : RuntimeOrigin) : M Chain DispatchError unit :=
  with_storage_layer (run_call c origin).
End pallet.
