(* ===== verification/SponsorSpec.v ===== *)
(** * Abstract specification of the sponsor lifecycle

    What the pallet promises about one account, without storage maps, balances pallet or
    monad: an account's view is its sponsor record, free balance, budget and pending
    amounts; [spec_call] says for each call which pallet error it meets or what it does to
    the caller's view and which event it emits.  [PalletProofs] shows that the dispatchables
    implement it. *)

From S2P Require Import Prelude Types Frame Pallet.
Local Open Scope N_scope.

Section spec.
Context {T : Config}.

(** One account as the pallet's users see it. *)
Record Account : Type := {
  acc_state : option SponsorState;
  acc_free : N;
  acc_budget : N;
  acc_pending : N;
}.

(** Everything the account owns. *)
Definition acc_total (a : Account) : N := acc_free a + acc_budget a + acc_pending a.

(** The policy rule: at least one caller, no caller twice. *)
Definition policy_fault (p : SponsorPolicy) : option Error :=
  let callers := bv_items (allowed_callers p) in
  if decide (callers = []) then Some EmptyAllowlist
  else if decide (NoDup callers) then None
  else Some DuplicateAllowedCaller.

(** Funds move between the free balance and the budget. *)
Definition fund (amount : N) (a : Account) : Account :=
  {| acc_state := acc_state a; acc_free := acc_free a - amount;
     acc_budget := acc_budget a + amount; acc_pending := acc_pending a |}.

Definition defund (amount : N) (a : Account) : Account :=
  {| acc_state := acc_state a; acc_free := acc_free a + amount;
     acc_budget := acc_budget a - amount; acc_pending := acc_pending a |}.

Definition with_state (st : option SponsorState) (a : Account) : Account :=
  {| acc_state := st; acc_free := acc_free a;
     acc_budget := acc_budget a; acc_pending := acc_pending a |}.

Definition spec_call (who : AccountId) (c : Call) (a : Account) :
    result (Account * Event) Error :=
  match c with
  | Call_register_sponsor b p =>
      if decide (b = 0) then Err ZeroBudget
      else
        match acc_state a, policy_fault p with
        | Some _, _ => Err AlreadyRegistered
        | None, Some e => Err e
        | None, None =>
            Ok (with_state (Some {| active := true; policy := p |}) (fund b a),
                SponsorRegistered who b)
        end
  | Call_increase_budget x =>
      if decide (x = 0) then Err ZeroBudget
      else
        match acc_state a with
        | None => Err NotRegistered
        | Some _ => Ok (fund x a, BudgetIncreased who x (acc_budget a + x))
        end
  | Call_decrease_budget x =>
      if decide (x = 0) then Err ZeroBudget
      else
        match acc_state a with
        | None => Err NotRegistered
        | Some _ =>
            if decide (acc_budget a < x) then Err InsufficientAvailableBudget
            else Ok (defund x a, BudgetDecreased who x (acc_budget a - x))
        end
  | Call_set_policy p =>
      match policy_fault p, acc_state a with
      | Some e, _ => Err e
      | None, None => Err NotRegistered
      | None, Some st =>
          Ok (with_state (Some {| active := active st; policy := p |}) a,
              SponsorPolicyUpdated who)
      end
  | Call_pause =>
      match acc_state a with
      | None => Err NotRegistered
      | Some st =>
          if active st
          then Ok (with_state (Some {| active := false; policy := policy st |}) a,
                   SponsorPaused who)
          else Err AlreadyPaused
      end
  | Call_resume =>
      match acc_state a with
      | None => Err NotRegistered
      | Some st =>
          if active st then Err AlreadyActive
          else Ok (with_state (Some {| active := true; policy := policy st |}) a,
                   SponsorResumed who)
      end
  | Call_unregister =>
      match acc_state a with
      | None => Err NotRegistered
      | Some _ =>
          if decide (acc_pending a = 0)
          then Ok (with_state None (defund (acc_budget a) a), SponsorUnregistered who)
          else Err PendingBudgetNotEmpty
      end
  end.

(** The invariant of an account: a registered sponsor has a valid policy, anyone else has
    nothing on hold. *)
Definition acc_inv (a : Account) : Prop :=
  match acc_state a with
  | Some st => policy_fault (policy st) = None
  | None => acc_budget a = 0 ∧ acc_pending a = 0
  end.

Lemma policy_fault_None p :
  policy_fault p = None ↔
  bv_items (allowed_callers p) ≠ [] ∧ NoDup (bv_items (allowed_callers p)).
Proof. unfold policy_fault. repeat case_decide; naive_solver. Qed.

(** The specification keeps the account invariant and the pending amount. *)
Lemma spec_call_inv who c a a' ev :
  spec_call who c a = Ok (a', ev) → acc_inv a → acc_inv a'.
Proof.
  unfold acc_inv. destruct a as [[st|] f b p], c; cbn; intros H;
    repeat case_match; simplify_eq/=; try done; intros; split; try done; lia.
Qed.

Lemma spec_call_pending who c a a' ev :
  spec_call who c a = Ok (a', ev) → acc_pending a' = acc_pending a.
Proof.
  destruct a as [[st|] f b p], c; cbn; intros H; repeat case_match; by simplify_eq/=.
Qed.
End spec.
