(* ===== verification/PalletProofs.v ===== *)
(** * The dispatchables implement the specification

    The refinement theorem of the sponsor lifecycle ([run_call_refines]) and what follows
    from it: invariants, isolation, conservation, error behaviour and liveness. *)

From S2P Require Import Prelude Types Frame Ledger Pallet SponsorSpec.
Local Open Scope N_scope.

(** ** The policy check *)
Section policy.
Context {T : Config}.

Lemma existsb_eq_spec (x : AccountId) l :
  existsb (λ other, bool_decide (other = x)) l = true ↔ x ∈ l.
Proof.
  rewrite existsb_exists. setoid_rewrite bool_decide_eq_true.
  setoid_rewrite <- list_elem_of_In. naive_solver.
Qed.

(** The loop on a suffix of the list decides whether the suffix has duplicates. *)
Lemma check_duplicates_suffix pre (suf : list AccountId) :
  check_duplicates (pre ++ suf) (zip (seq (length pre) (length suf)) suf)
  = if decide (NoDup suf) then Ok tt else Err DuplicateAllowedCaller.
Proof.
  revert pre. induction suf as [|x suf IH]; intros pre.
  { cbn. by rewrite decide_True by constructor. }
  cbn [length seq zip zip_with check_duplicates].
  assert (drop (length pre + 1) (pre ++ x :: suf) = suf) as ->.
  { rewrite cons_middle, app_assoc. apply drop_app_length'. rewrite length_app. done. }
  specialize (IH (pre ++ [x])). rewrite <- (assoc_L (++)), length_app, Nat.add_1_r in IH.
  cbn [app] in IH.
  destruct (existsb _ suf) eqn:Hdup.
  - apply existsb_eq_spec in Hdup. rewrite decide_False; [done|]. rewrite NoDup_cons. tauto.
  - apply not_true_iff_false in Hdup. rewrite existsb_eq_spec in Hdup. rewrite IH.
    apply decide_ext. rewrite NoDup_cons. tauto.
Qed.

(** The quadratic loop computes the policy rule. *)
Lemma ensure_valid_policy_fault p :
  ensure_valid_policy p
  = match policy_fault p with None => Ok tt | Some e => Err e end.
Proof.
  unfold ensure_valid_policy, policy_fault.
  destruct (bv_items (allowed_callers p)) as [|x l] eqn:Hl; [done|].
  rewrite decide_False by done.
  pose proof (check_duplicates_suffix [] (x :: l)) as H. cbn [app length] in H.
  unfold enumerate. cbn [length]. rewrite H. by case_decide.
Qed.
End policy.

(** ** Views of the chain *)
Section view.
Context {T : Config} {F : FungibleHold}.

(** What the specification sees of an account. *)
Definition view (who : AccountId) (s : Chain) : Account :=
  {| acc_state := sponsors s !! who;
     acc_free := free_balance who (world s);
     acc_budget := budget_on_hold who s;
     acc_pending := pending_on_hold who s |}.

(** Every account but [who] is as before. *)
Definition others (who : AccountId) (s s' : Chain) : Prop :=
  ∀ who', who' ≠ who → view who' s' = view who' s.

Lemma reasons_ne : budget_hold_reason ≠ pending_hold_reason.
Proof. intros H. by apply (inj from_hold_reason) in H. Qed.

Lemma view_push_event who e s : view who (push_event e s) = view who s.
Proof. done. Qed.

Lemma view_set_sponsors who m s :
  view who (set_sponsors m s) = with_state (m !! who) (view who s).
Proof. done. Qed.

Lemma with_state_view who s : with_state (sponsors s !! who) (view who s) = view who s.
Proof. done. Qed.

Lemma others_push_event who e s s' : others who s s' → others who s (push_event e s').
Proof. intros H who' Hne. rewrite view_push_event. by apply H. Qed.

Lemma others_set_sponsors who m s s' :
  (∀ who', who' ≠ who → m !! who' = sponsors s' !! who') →
  others who s s' → others who s (set_sponsors m s').
Proof.
  intros Hm H who' Hne. rewrite view_set_sponsors, (Hm _ Hne), with_state_view. by apply H.
Qed.

Lemma others_refl who s : others who s s.
Proof. done. Qed.

Lemma others_trans who s1 s2 s3 : others who s1 s2 → others who s2 s3 → others who s1 s3.
Proof. intros H1 H2 who' Hne. by rewrite (H2 _ Hne), (H1 _ Hne). Qed.

(** A world that changed at one account only. *)
Lemma others_same_but r who s w :
  same_but r who (world s) w → others who s (set_world w s).
Proof.
  intros [Hh Hf] who' Hne. unfold view, budget_on_hold, pending_on_hold. cbn.
  by rewrite !Hh, Hf by tauto.
Qed.

Context {FS : FungibleHoldSpec F}.

Lemma view_hold_budget who x s w :
  hold budget_hold_reason who x (world s) = (Ok tt, w) →
  view who (set_world w s) = fund x (view who s)
  ∧ x ≤ acc_free (view who s) ∧ others who s (set_world w s).
Proof.
  intros (Hb & Hf & Hs)%hold_ok. split_and!; [|cbn; lia|by eapply others_same_but].
  unfold view, fund, budget_on_hold, pending_on_hold. cbn. f_equal; [lia|done|].
  apply (same_but_hold _ _ _ _ Hs). left. apply not_eq_sym, reasons_ne.
Qed.

Lemma view_release_budget who x s y w :
  release budget_hold_reason who x Exact (world s) = (Ok y, w) →
  view who (set_world w s) = defund x (view who s)
  ∧ x ≤ acc_budget (view who s) ∧ others who s (set_world w s).
Proof.
  intros (-> & Hb & Hf & Hs)%release_ok. cbn in *. unfold view, budget_on_hold. cbn.
  split_and!; [|lia|by eapply others_same_but].
  unfold defund, pending_on_hold. cbn. f_equal; [done|lia|].
  apply (same_but_hold _ _ _ _ Hs). left. apply not_eq_sym, reasons_ne.
Qed.

Lemma fund_total x a : x ≤ acc_free a → acc_total (fund x a) = acc_total a.
Proof. unfold acc_total, fund. cbn. lia. Qed.

Lemma defund_total x a : x ≤ acc_budget a → acc_total (defund x a) = acc_total a.
Proof. unfold acc_total, defund. cbn. lia. Qed.
End view.

(** ** Refinement *)

(** Unfold a dispatchable to the tests and updates it makes. *)
Ltac exec :=
  unfold run_call, register_sponsor, increase_budget, decrease_budget, set_policy, pause,
    resume, unregister, ensure_registered, signed, deposit_event, Sponsors_contains_key,
    Sponsors_insert, Sponsors_remove, Sponsors_try_mutate, lift_result, ensure, gets, modify,
    map_err_m, external, zoom, mret, M_ret, mbind, M_bind;
  cbn -[N.leb is_zero budget_on_hold pending_on_hold].

Section refinement.
Context {T : Config} {F : FungibleHold} {FS : FungibleHoldSpec F}.

(** What the balances pallet answers, in [s], to the one move of funds that call [c] of [who]
    asks it for, if it refuses: the hold of a deposit, or the release of what is taken back.
    Calls that move nothing meet no refusal. *)
Definition refused (who : AccountId) (c : Call) (s : Chain) : option DispatchError :=
  match c with
  | Call_register_sponsor x _ | Call_increase_budget x =>
      error_of (hold budget_hold_reason who x (world s)).1
  | Call_decrease_budget x =>
      error_of (release budget_hold_reason who x Exact (world s)).1
  | Call_unregister =>
      let budget := budget_on_hold who s in
      if decide (budget = 0) then None
      else error_of (release budget_hold_reason who budget Exact (world s)).1
  | Call_set_policy _ | Call_pause | Call_resume => None
  end.

(** The run [r] of call [c] by [who] in [s] does what the specification says: the pallet
    error it names, with nothing changed; otherwise the refusal of the balances pallet, if
    that is its answer, with nothing changed; and otherwise success, with the caller's new
    view and the event, every other account untouched and the caller's funds conserved. *)
Definition refines (who : AccountId) (c : Call) (s : Chain)
    (r : result unit DispatchError * Chain) : Prop :=
  match spec_call who c (view who s), refused who c s with
  | Err e, _ => r = (Err (Module e), s)
  | Ok _, Some e => r = (Err e, s)
  | Ok (a', ev), None =>
      ∃ s', r = (Ok tt, s') ∧ view who s' = a' ∧ acc_total a' = acc_total (view who s)
            ∧ others who s s' ∧ events s' = events s ++ [ev]
  end.

Lemma set_world_id s : set_world (world s) s = s.
Proof. by destruct s. Qed.

Lemma refine_register who o s b p :
  ensure_signed o = Some who →
  refines who (Call_register_sponsor b p) s (register_sponsor o b p s).
Proof.
  intros Ho. unfold refines. exec. rewrite Ho. cbn -[is_zero].
  destruct (is_zero_spec b) as [->|Hb]; [done|]. rewrite decide_False by done. cbn.
  destruct (sponsors s !! who) eqn:Hst; cbn; [done|].
  rewrite ensure_valid_policy_fault. destruct (policy_fault p) eqn:Hp; cbn; [done|].
  destruct (hold _ _ _ _) as [[[]|e] w] eqn:Hh; cbn.
  - apply view_hold_budget in Hh as (Hv & Hle & Hoth). eexists. split; [done|].
    rewrite view_push_event, view_set_sponsors, lookup_insert_eq, Hv.
    split_and!; [done|by apply fund_total| |done].
    apply others_push_event, others_set_sponsors; [|done].
    intros. cbn. by rewrite lookup_insert_ne.
  - apply hold_err in Hh as ->. by rewrite set_world_id.
Qed.

Lemma refine_increase who o s x :
  ensure_signed o = Some who →
  refines who (Call_increase_budget x) s (increase_budget o x s).
Proof.
  intros Ho. unfold refines. exec. rewrite Ho. cbn -[is_zero].
  destruct (is_zero_spec x) as [->|Hx]; [done|]. rewrite decide_False by done. cbn.
  destruct (sponsors s !! who) eqn:Hst; cbn; [|done].
  destruct (hold _ _ _ _) as [[[]|e] w] eqn:Hh; cbn.
  - apply view_hold_budget in Hh as (Hv & Hle & Hoth). eexists. split; [done|].
    rewrite view_push_event, Hv.
    split_and!; [done|by apply fund_total|by apply others_push_event|].
    cbn. do 3 f_equal. by apply (f_equal acc_budget) in Hv.
  - apply hold_err in Hh as ->. by rewrite set_world_id.
Qed.

Lemma refine_decrease who o s x :
  ensure_signed o = Some who →
  refines who (Call_decrease_budget x) s (decrease_budget o x s).
Proof.
  intros Ho. unfold refines. exec. rewrite Ho. cbn -[is_zero N.leb].
  destruct (is_zero_spec x) as [->|Hx]; [done|]. rewrite decide_False by done. cbn.
  destruct (sponsors s !! who) eqn:Hst; cbn; [|done].
  destruct (N.leb_spec x (budget_on_hold who s)) as [Hle|Hgt]; cbn;
    [rewrite decide_False by lia|by rewrite decide_True by lia].
  destruct (release _ _ _ _ _) as [[y|e] w] eqn:Hr; cbn.
  - apply view_release_budget in Hr as (Hv & _ & Hoth). eexists. split; [done|].
    rewrite view_push_event, Hv.
    split_and!; [done|by apply defund_total|by apply others_push_event|].
    cbn. do 3 f_equal. by apply (f_equal acc_budget) in Hv.
  - apply release_err in Hr as ->. by rewrite set_world_id.
Qed.

(** The three calls that only rewrite the caller's record. *)
Lemma refine_record who s st' ev :
  let s' := push_event ev
    (set_sponsors (partial_alter (λ _, Some st') who (sponsors s)) s) in
  view who s' = with_state (Some st') (view who s)
  ∧ acc_total (with_state (Some st') (view who s)) = acc_total (view who s)
  ∧ others who s s' ∧ events s' = events s ++ [ev].
Proof.
  cbn. rewrite view_push_event, view_set_sponsors, lookup_partial_alter_eq.
  split_and!; [done..| |done].
  apply others_push_event, others_set_sponsors; [|done].
  intros. by rewrite lookup_partial_alter_ne.
Qed.

Lemma refine_set_policy who o s p :
  ensure_signed o = Some who → refines who (Call_set_policy p) s (set_policy o p s).
Proof.
  intros Ho. unfold refines. exec. rewrite Ho. cbn.
  rewrite ensure_valid_policy_fault. destruct (policy_fault p) eqn:Hp; cbn; [done|].
  destruct (sponsors s !! who) as [st|] eqn:Hst; cbn; [|done].
  eexists. split; [done|]. apply refine_record.
Qed.

Lemma refine_pause who o s :
  ensure_signed o = Some who → refines who Call_pause s (pause o s).
Proof.
  intros Ho. unfold refines. exec. rewrite Ho. cbn.
  destruct (sponsors s !! who) as [st|] eqn:Hst; cbn; [|done].
  destruct (active st) eqn:Hact; cbn; [|done].
  eexists. split; [done|]. apply refine_record.
Qed.

Lemma refine_resume who o s :
  ensure_signed o = Some who → refines who Call_resume s (resume o s).
Proof.
  intros Ho. unfold refines. exec. rewrite Ho. cbn.
  destruct (sponsors s !! who) as [st|] eqn:Hst; cbn; [|done].
  destruct (active st) eqn:Hact; cbn; [done|].
  eexists. split; [done|]. apply refine_record.
Qed.

Lemma refine_unregister who o s :
  ensure_signed o = Some who → refines who Call_unregister s (unregister o s).
Proof.
  intros Ho. unfold refines. exec. rewrite Ho. cbn -[is_zero].
  destruct (sponsors s !! who) as [st|] eqn:Hst; cbn -[is_zero]; [|done].
  destruct (is_zero_spec (pending_on_hold who s)) as [Hp|Hp]; cbn -[is_zero];
    [rewrite decide_True by done|by rewrite decide_False by done].
  assert (Hdel : ∀ s', others who s s' →
    others who s (push_event (SponsorUnregistered who)
      (set_sponsors (delete who (sponsors s')) s'))).
  { intros s' H. apply others_push_event, others_set_sponsors; [|done].
    intros. by rewrite lookup_delete_ne. }
  destruct (is_zero_spec (budget_on_hold who s)) as [Hb|Hb]; cbn;
    [rewrite decide_True by done|rewrite decide_False by done].
  - eexists. split; [done|].
    rewrite view_push_event, view_set_sponsors, lookup_delete_eq.
    split_and!; [|by apply defund_total|by apply Hdel|done].
    unfold with_state, defund, view. cbn. f_equal; lia.
  - destruct (release _ _ _ _ _) as [[y|e] w] eqn:Hr; cbn.
    + apply view_release_budget in Hr as (Hv & _ & Hoth). eexists. split; [done|].
      rewrite view_push_event, view_set_sponsors, lookup_delete_eq, Hv.
      split_and!; [done|by apply defund_total| |done]. by apply (Hdel (set_world w s)).
    + apply release_err in Hr as ->. by rewrite set_world_id.
Qed.
End refinement.

(** ** Theorems *)
Section theorems.
Context {T : Config} {F : FungibleHold} {FS : FungibleHoldSpec F}.

Lemma run_call_refines_signed c o who s :
  ensure_signed o = Some who → refines who c s (run_call c o s).
Proof.
  destruct c; [apply refine_register|apply refine_increase|apply refine_decrease
    |apply refine_set_policy|apply refine_pause|apply refine_resume
    |apply refine_unregister].
Qed.

Lemma run_call_unsigned c o s :
  ensure_signed o = None → run_call c o s = (Err BadOrigin, s).
Proof. intros Ho. destruct c; exec; by rewrite Ho. Qed.

(** A run seen from its outcome. *)
Lemma run_call_ok_inv c o s s' :
  run_call c o s = (Ok tt, s') →
  ∃ who a' ev, ensure_signed o = Some who ∧ spec_call who c (view who s) = Ok (a', ev)
    ∧ view who s' = a' ∧ acc_total a' = acc_total (view who s)
    ∧ others who s s' ∧ events s' = events s ++ [ev].
Proof.
  intros Hrun. destruct (ensure_signed o) as [who|] eqn:Ho;
    [|by rewrite run_call_unsigned in Hrun].
  pose proof (run_call_refines_signed c o who s Ho) as Href. unfold refines in Href.
  rewrite Hrun in Href. destruct (spec_call _ _ _) as [[a' ev]|e] eqn:Hspec; [|done].
  destruct (refused who c s); [done|]. destruct Href as (? & [= <-] & ?). naive_solver.
Qed.

Lemma run_call_err_inv c o s e s' : run_call c o s = (Err e, s') → s' = s.
Proof.
  intros Hrun. destruct (ensure_signed o) as [who|] eqn:Ho;
    [|by rewrite run_call_unsigned in Hrun; simplify_eq].
  pose proof (run_call_refines_signed c o who s Ho) as Href. unfold refines in Href.
  rewrite Hrun in Href. destruct (spec_call _ _ _) as [[a' ev]|e']; [|congruence].
  destruct (refused who c s); [congruence|]. by destruct Href as (? & ? & _).
Qed.

Lemma dispatch_ok c o s s' :
  dispatch c o s = (Ok tt, s') ↔ run_call c o s = (Ok tt, s').
Proof. apply with_storage_layer_ok. Qed.

Lemma dispatch_inv c o s r s' :
  dispatch c o s = (r, s') →
  s' = s ∨ run_call c o s = (Ok tt, s').
Proof.
  unfold dispatch. destruct r as [[]|e].
  - intros ?%dispatch_ok. tauto.
  - intros [-> _]%with_storage_layer_err. tauto.
Qed.

(** The invariant of the chain: that of every account. *)
Definition chain_inv (s : Chain) : Prop := ∀ who, acc_inv (view who s).

Lemma run_call_inv c o s s' :
  run_call c o s = (Ok tt, s') → chain_inv s → chain_inv s'.
Proof.
  intros (caller & a' & ev & Ho & Hspec & Hv & _ & Hoth & _)%run_call_ok_inv Hinv who.
  destruct (decide (who = caller)) as [->|Hne].
  - rewrite Hv. eapply spec_call_inv; [done|apply Hinv].
  - rewrite (Hoth _ Hne). apply Hinv.
Qed.

Lemma dispatch_chain_inv c o s r s' :
  dispatch c o s = (r, s') → chain_inv s → chain_inv s'.
Proof. intros [->|H]%dispatch_inv; [done|]. by apply (run_call_inv c o). Qed.

Lemma dispatch_pending_frame c o s r s' who :
  dispatch c o s = (r, s') → pending_on_hold who s' = pending_on_hold who s.
Proof.
  intros [->|H]%dispatch_inv; [done|].
  apply run_call_ok_inv in H as (caller & a' & ev & Ho & Hspec & Hv & _ & Hoth & _).
  change (acc_pending (view who s') = acc_pending (view who s)).
  destruct (decide (who = caller)) as [->|Hne]; [|by rewrite Hoth].
  rewrite Hv. by eapply spec_call_pending.
Qed.

Lemma dispatch_total c o s r s' who :
  dispatch c o s = (r, s') → acc_total (view who s') = acc_total (view who s).
Proof.
  intros [->|H]%dispatch_inv; [done|].
  apply run_call_ok_inv in H as (caller & a' & ev & Ho & Hspec & Hv & Htot & Hoth & _).
  destruct (decide (who = caller)) as [->|Hne]; [by rewrite Hv|by rewrite Hoth].
Qed.

Lemma run_call_spec_ok c o who s s' :
  ensure_signed o = Some who → run_call c o s = (Ok tt, s') →
  ∃ ev, spec_call who c (view who s) = Ok (view who s', ev)
    ∧ acc_total (view who s') = acc_total (view who s).
Proof.
  intros Ho (who' & a' & ev & Ho' & Hspec & <- & Htot & _)%run_call_ok_inv.
  simplify_eq. eauto.
Qed.

Lemma unregister_ok_view o who s s' :
  ensure_signed o = Some who → unregister o s = (Ok tt, s') →
  view who s' = with_state None (defund (budget_on_hold who s) (view who s)).
Proof.
  intros Ho Hrun. destruct (run_call_spec_ok Call_unregister _ _ _ _ Ho Hrun)
    as (ev & Hspec & _). cbn in Hspec. repeat case_match; congruence.
Qed.

Lemma register_ok_view o who b p s s' :
  ensure_signed o = Some who → register_sponsor o b p s = (Ok tt, s') →
  view who s' = with_state (Some {| active := true; policy := p |}) (fund b (view who s))
  ∧ acc_total (view who s') = acc_total (view who s) ∧ sponsors s !! who = None.
Proof.
  intros Ho Hrun. destruct (run_call_spec_ok (Call_register_sponsor b p) _ _ _ _ Ho Hrun)
    as (ev & Hspec & Htot). cbn in Hspec. repeat case_match; try discriminate.
  split_and!; [congruence|done|done].
Qed.

Context {L : FungibleHoldLive F}.

(** A registered sponsor with nothing in flight can always leave. *)
Lemma unregister_live o who s :
  ensure_signed o = Some who → bal_ok (world s) → is_Some (sponsors s !! who) →
  pending_on_hold who s = 0 →
  ∃ s', unregister o s = (Ok tt, s').
Proof.
  intros Ho Hok [st Hst] Hp. exec. rewrite Ho. cbn -[is_zero]. rewrite Hst. cbn -[is_zero].
  rewrite Hp. change (is_zero 0) with true. cbn -[is_zero].
  destruct (is_zero_spec (budget_on_hold who s)) as [Hb|Hb]; cbn; [eauto|].
  destruct (release_available budget_hold_reason who (budget_on_hold who s) Exact (world s)
    Hok (N.le_refl _)) as (x & w & ->). cbn. eauto.
Qed.

(** A registered sponsor can always take back part of the budget. *)
Lemma decrease_budget_live o who s x :
  ensure_signed o = Some who → bal_ok (world s) → is_Some (sponsors s !! who) →
  0 < x ≤ budget_on_hold who s →
  ∃ s', decrease_budget o x s = (Ok tt, s').
Proof.
  intros Ho Hok [st Hst] [Hx Hle]. exec. rewrite Ho. cbn -[is_zero N.leb].
  destruct (is_zero_spec x); [lia|]. cbn -[N.leb]. rewrite Hst. cbn -[N.leb].
  apply N.leb_le in Hle as Hle'. rewrite Hle'.
  destruct (release_available budget_hold_reason who x Exact (world s) Hok Hle)
    as (y & w & ->). cbn. eauto.
Qed.

Lemma run_call_bal_ok c o s s' :
  bal_ok (world s) → run_call c o s = (Ok tt, s') → bal_ok (world s').
Proof.
  intros Hok. destruct c; exec; repeat case_match; intros; simplify_eq/=;
    repeat match goal with u : unit |- _ => destruct u end; try done; eauto with frame.
Qed.

Lemma dispatch_bal_ok c o s r s' :
  bal_ok (world s) → dispatch c o s = (r, s') → bal_ok (world s').
Proof. intros Hok [->|H]%dispatch_inv; [done|]. by eapply run_call_bal_ok. Qed.
End theorems.
