(* ===== verification/Weights.v ===== *)
(** * Weights

    The weight arithmetic of [sp_weights] is not part of this repository: it is a class of
    operations with its documented laws (components are 64-bit and saturate).  On top of it,
    [pallets/sponsored-tx/src/weights.rs]. *)

From S2P Require Import Prelude.
Local Open Scope N_scope.

(** Cost of one database read and one write, in picoseconds. *)
Record RuntimeDbWeight : Type := {
  read : N;
  write : N;
}.

Class Weights : Type := {
  Weight : Type;
  from_parts : N → N → Weight;
  ref_time : Weight → N;
  proof_size : Weight → N;
  weight_saturating_add : Weight → Weight → Weight;
  weight_add : Weight → Weight → Weight;
  reads : RuntimeDbWeight → N → Weight;
  writes : RuntimeDbWeight → N → Weight;
  reads_writes : RuntimeDbWeight → N → N → Weight;
}.

Class WeightsSpec (W : Weights) : Prop := {
  ref_time_from_parts t p : ref_time (from_parts t p) = t;
  proof_size_from_parts t p : proof_size (from_parts t p) = p;
  ref_time_add a b :
    ref_time (weight_saturating_add a b) = saturating_add u64_max (ref_time a) (ref_time b);
  proof_size_add a b :
    proof_size (weight_saturating_add a b)
    = saturating_add u64_max (proof_size a) (proof_size b);
  (** [a + b] where it does not overflow. *)
  ref_time_plus a b :
    ref_time a + ref_time b ≤ u64_max → ref_time (weight_add a b) = ref_time a + ref_time b;
  proof_size_plus a b :
    proof_size a + proof_size b ≤ u64_max →
    proof_size (weight_add a b) = proof_size a + proof_size b;
  ref_time_reads db r : ref_time (reads db r) = saturating_mul u64_max (read db) r;
  ref_time_writes db w : ref_time (writes db w) = saturating_mul u64_max (write db) w;
  ref_time_reads_writes db r w :
    ref_time (reads_writes db r w)
    = saturating_add u64_max (saturating_mul u64_max (read db) r)
                             (saturating_mul u64_max (write db) w);
  proof_size_reads db r : proof_size (reads db r) = 0;
  proof_size_writes db w : proof_size (writes db w) = 0;
  proof_size_reads_writes db r w : proof_size (reads_writes db r w) = 0;
}.

Create Rewrite HintDb weights.
#[export] Hint Rewrite @ref_time_from_parts @proof_size_from_parts @ref_time_add
  @proof_size_add @ref_time_reads @ref_time_writes @ref_time_reads_writes
  @proof_size_reads @proof_size_writes @proof_size_reads_writes using typeclasses eauto
  : weights.

(** The laws are those of pairs of 64-bit components. *)
#[export] Instance pair_weights : Weights := {|
  Weight := N * N;
  from_parts := pair;
  ref_time := fst;
  proof_size := snd;
  weight_saturating_add a b :=
    (saturating_add u64_max a.1 b.1, saturating_add u64_max a.2 b.2);
  weight_add a b := ((a.1 + b.1) mod 2 ^ 64, (a.2 + b.2) mod 2 ^ 64);
  reads db r := (saturating_mul u64_max (read db) r, 0);
  writes db w := (saturating_mul u64_max (write db) w, 0);
  reads_writes db r w :=
    (saturating_add u64_max (saturating_mul u64_max (read db) r)
                            (saturating_mul u64_max (write db) w), 0);
|}.

#[export] Instance pair_weights_spec : WeightsSpec pair_weights.
Proof.
  split; try done; intros [] []; cbn -[N.pow]; unfold u64_max; intros;
    apply N.mod_small; lia.
Qed.

(** ** [WeightInfo] of the sponsored-tx pallet *)

Class WeightInfo {W : Weights} : Type := {
  weight_register_sponsor : Weight;
  weight_increase_budget : Weight;
  weight_decrease_budget : Weight;
  weight_set_policy : Weight;
  weight_pause : Weight;
  weight_resume : Weight;
  weight_unregister : Weight;
}.

Section weight_info.
Context {W : Weights}.

(** [SubstrateWeight<T>] at [T::DbWeight = db]; [impl WeightInfo for ()] is the same at
    [RocksDbWeight]. *)
Definition SubstrateWeight (db : RuntimeDbWeight) : WeightInfo := {|
  weight_register_sponsor :=
    weight_saturating_add (from_parts 20000000 0) (reads_writes db 2 2);
  weight_increase_budget :=
    weight_saturating_add (from_parts 12000000 0) (reads_writes db 2 1);
  weight_decrease_budget :=
    weight_saturating_add (from_parts 12000000 0) (reads_writes db 2 1);
  weight_set_policy :=
    weight_saturating_add (from_parts 12000000 0) (reads_writes db 1 1);
  weight_pause :=
    weight_saturating_add (from_parts 8000000 0) (reads_writes db 1 1);
  weight_resume :=
    weight_saturating_add (from_parts 8000000 0) (reads_writes db 1 1);
  weight_unregister :=
    weight_saturating_add (from_parts 16000000 0) (reads_writes db 2 2);
|}.

Definition unit_WeightInfo (rocksdb : RuntimeDbWeight) : WeightInfo := {|
  weight_register_sponsor :=
    weight_saturating_add (from_parts 20000000 0) (reads_writes rocksdb 2 2);
  weight_increase_budget :=
    weight_saturating_add (from_parts 12000000 0) (reads_writes rocksdb 2 1);
  weight_decrease_budget :=
    weight_saturating_add (from_parts 12000000 0) (reads_writes rocksdb 2 1);
  weight_set_policy :=
    weight_saturating_add (from_parts 12000000 0) (reads_writes rocksdb 1 1);
  weight_pause :=
    weight_saturating_add (from_parts 8000000 0) (reads_writes rocksdb 1 1);
  weight_resume :=
    weight_saturating_add (from_parts 8000000 0) (reads_writes rocksdb 1 1);
  weight_unregister :=
    weight_saturating_add (from_parts 16000000 0) (reads_writes rocksdb 2 2);
|}.
End weight_info.
