(* ===== verification/Payment.v ===== *)
(** * Interface to [pallet_transaction_payment] and the transaction pool types

    Fee computation and the standard [ChargeTransactionPayment] extension are code of the
    SDK; the sponsored extension calls them, so they are a class of operations over the same
    [World] as the balances.  Fees are read from the world because they depend on the fee
    multiplier in storage. *)

From S2P Require Import Prelude Types Weights.
Local Open Scope N_scope.

(** Validity of a transaction, as the pool orders it. *)
Record ValidTransaction : Type := {
  priority : N;
  requires : list (list N);
  provides : list (list N);
  longevity : N;
  propagate : bool;
}.

Definition with_priority (p : N) (v : ValidTransaction) : ValidTransaction :=
  {| priority := p; requires := requires v; provides := provides v;
     longevity := longevity v; propagate := propagate v |}.

Class TransactionPayment {T : Config} {W : Weights} : Type := {
  RuntimeCall : Type;
  DispatchInfo : Type;
  PostDispatchInfo : Type;
  DispatchResult : Type;
  Implication : Type;
  TransactionSource : Type;
  ValidTransaction_default : ValidTransaction;
  (** [Pallet::compute_fee(len, info, tip)], [Pallet::compute_actual_fee(..)]. *)
  compute_fee : N → DispatchInfo → N → World → N;
  compute_actual_fee : N → DispatchInfo → PostDispatchInfo → N → World → N;
  (** [ChargeTransactionPayment], by its tip. *)
  get_priority : DispatchInfo → N → N → N → N;
  ChargeVal : Type;
  ChargePre : Type;
  charge_weight : N → RuntimeCall → Weight;
  charge_validate : N → RuntimeOrigin → RuntimeCall → DispatchInfo → N → Implication →
    TransactionSource →
    M World TransactionValidityError (ValidTransaction * ChargeVal * RuntimeOrigin);
  charge_prepare : N → ChargeVal → RuntimeOrigin → RuntimeCall → DispatchInfo → N →
    M World TransactionValidityError ChargePre;
  charge_post_dispatch_details : ChargePre → DispatchInfo → PostDispatchInfo → N →
    DispatchResult → M World TransactionValidityError Weight;
}.
