(* ===== verification/Extension.v ===== *)
(** * The payment extension

    [pallets/sponsored-tx/src/extension.rs]: [SponsoredChargeTransactionPayment] with its
    [weight], [validate], [prepare] and [post_dispatch_details], and the settlement of a
    sponsored fee. *)

From stdpp Require Import strings.
From S2P Require Import Prelude Types Frame Weights Payment Pallet.
Local Open Scope N_scope.

(** The name under which the runtime's metadata announces the extension. *)
Definition IDENTIFIER : string := "SponsoredChargeTransactionPayment".

(** Why a sponsored transaction is refused, with the custom validity code of each. *)
Inductive InvalidSponsoredTransaction : Set :=
| UnsupportedOrigin
| UnknownSponsor
| InactiveSponsor
| CallerNotAllowed
| FeeCapExceeded
| InsufficientBudget.

Definition reason_code (r : InvalidSponsoredTransaction) : N :=
  match r with
  | UnsupportedOrigin => 0
  | UnknownSponsor => 1
  | InactiveSponsor => 2
  | CallerNotAllowed => 3
  | FeeCapExceeded => 4
  | InsufficientBudget => 5
  end.

Section extension.
Context {T : Config} {F : FungibleHold} {D : FeeDestination}.
Context {W : Weights} {P : TransactionPayment}.
(** [T::DbWeight::get()]. *)
Context (DbWeight : RuntimeDbWeight).

Definition invalid (r : InvalidSponsoredTransaction) : TransactionValidityError :=
  Invalid_Custom (reason_code r).

(** Payment extension that optionally redirects transaction fees to an explicit sponsor. *)
Record SponsoredChargeTransactionPayment : Type := new {
  tip : N;
  sponsor : option AccountId;
}.

(** Outcome of validation: the normal payment path, or the resolved sponsor, signer and
    worst-case fee. *)
Inductive SponsoredVal : Type :=
| Val_Unsponsored (v : ChargeVal)
| Val_Sponsored (sponsor signer : AccountId) (fee_with_tip tip : N).

(** Pre-dispatch state carried into post-dispatch settlement. *)
Inductive SponsoredPre : Type :=
| Pre_Unsponsored (p : ChargePre)
| Pre_Sponsored (sponsor signer : AccountId) (estimated_fee_with_tip tip : N).

(** The tip and fee amounts cross between the pallet's balance type and the fee balance
    type of [pallet_transaction_payment] with [saturated_into]. *)
Definition to_fee_balance (x : N) : N := saturated_into fee_balance_max x.
Definition to_balance (x : N) : N := saturated_into balance_max x.

(** The extension's own overhead. *)
Definition weight (self : SponsoredChargeTransactionPayment) (call : RuntimeCall) : Weight :=
  let base := charge_weight (to_fee_balance (tip self)) call in
  match sponsor self with
  | Some _ => weight_saturating_add base (reads_writes DbWeight 2 2)
  | None => base
  end.

Definition validate (self : SponsoredChargeTransactionPayment) (origin : RuntimeOrigin)
    (call : RuntimeCall) (info : DispatchInfo) (len : N) (implication : Implication)
    (source : TransactionSource) :
    M Chain TransactionValidityError (ValidTransaction * SponsoredVal * RuntimeOrigin) :=
  let base_tip := to_fee_balance (tip self) in
  match sponsor self with
  | None =>
      r ← external (charge_validate base_tip origin call info len implication source);
      let '(validity, val, origin') := r in
      mret (validity, Val_Unsponsored val, origin')
  | Some sponsor =>
      match as_system_origin_signer origin with
      | None => lift_result (Err (invalid UnsupportedOrigin))
      | Some signer =>
          found ← gets (sponsor_state sponsor);
          state ← lift_result (ok_or found (invalid UnknownSponsor));
          _ ← ensure (active state) (invalid InactiveSponsor);
          _ ← ensure (existsb (λ account, bool_decide (account = signer))
                        (bv_items (allowed_callers (policy state))))
                     (invalid CallerNotAllowed);
          fee ← gets (λ s, compute_fee (as_u32 len) info base_tip (world s));
          let fee_with_tip := to_balance fee in
          _ ← ensure (negb (max_fee_per_tx (policy state) <? fee_with_tip))
                     (invalid FeeCapExceeded);
          budget ← gets (budget_on_hold sponsor);
          _ ← ensure (negb (budget <? fee_with_tip)) (invalid InsufficientBudget);
          let validity :=
            with_priority (get_priority info len base_tip (to_fee_balance fee_with_tip))
              ValidTransaction_default in
          mret (validity, Val_Sponsored sponsor signer fee_with_tip (tip self), origin)
      end
  end.

Definition prepare (self : SponsoredChargeTransactionPayment) (val : SponsoredVal)
    (origin : RuntimeOrigin) (call : RuntimeCall) (info : DispatchInfo) (len : N) :
    M Chain TransactionValidityError SponsoredPre :=
  match val with
  | Val_Unsponsored val =>
      pre ← external (charge_prepare (to_fee_balance (tip self)) val origin call info len);
      mret (Pre_Unsponsored pre)
  | Val_Sponsored sponsor signer fee_with_tip tip =>
      _ ← move_budget_to_pending sponsor fee_with_tip;
      mret (Pre_Sponsored sponsor signer fee_with_tip tip)
  end.

Definition SPONSORED_POST_DISPATCH_READS : N := 7.
Definition SPONSORED_POST_DISPATCH_WRITES : N := 7.

(** Settle the actual fee against the sponsor's pending hold after dispatch completes. *)
Definition settle_sponsored_fee (sponsor signer : AccountId) (estimated_fee_with_tip tip : N)
    (info : DispatchInfo) (post_info : PostDispatchInfo) (len : N) (s : Chain) :
    Weight * Chain :=
  let settlement_weight :=
    reads_writes DbWeight SPONSORED_POST_DISPATCH_READS SPONSORED_POST_DISPATCH_WRITES in
  let computed :=
    to_balance (compute_actual_fee (as_u32 len) info post_info (to_fee_balance tip)
                  (world s)) in
  let charged :=
    if estimated_fee_with_tip <? computed then estimated_fee_with_tip else computed in
  let '(credit, missing, w1) := slash pending_hold_reason sponsor charged (world s) in
  let charged :=
    if negb (is_zero missing) then saturating_sub charged missing else charged in
  let actual_tip := N.min tip charged in
  let '(tip_credit, fee_credit) := split credit actual_tip in
  let w2 := on_unbalanceds [fee_credit; tip_credit] w1 in
  let s := restore_pending_to_budget sponsor (set_world w2 s) in
  let s := push_event (SponsoredTransactionFeePaid sponsor signer charged actual_tip) s in
  (settlement_weight, s).

Definition post_dispatch_details (pre : SponsoredPre) (info : DispatchInfo)
    (post_info : PostDispatchInfo) (len : N) (result : DispatchResult) :
    M Chain TransactionValidityError Weight :=
  match pre with
  | Pre_Unsponsored pre =>
      external (charge_post_dispatch_details pre info post_info len result)
  | Pre_Sponsored sponsor signer estimated_fee_with_tip tip => λ s,
      let '(w, s') :=
        settle_sponsored_fee sponsor signer estimated_fee_with_tip tip info post_info len s in
      (Ok w, s')
  end.
End extension.

Arguments SponsoredChargeTransactionPayment {T}.
Arguments SponsoredVal {T W P}.
Arguments SponsoredPre {T W P}.
