(* ===== verification/ExtensionProofs.v ===== *)
(** * Lemmas about the payment extension

    Reservation, restoration and settlement on the views of accounts. *)

From S2P Require Import Prelude Types Frame Weights Payment Pallet SponsorSpec PalletProofs Extension.
Local Open Scope N_scope.

Section account_moves.
Context {T : Config}.

(** Funds move from the budget to pending, and back. *)
Definition reserve (x : N) (a : Account) : Account :=
  {| acc_state := acc_state a; acc_free := acc_free a;
     acc_budget := acc_budget a - x; acc_pending := acc_pending a + x |}.

Definition restore (a : Account) : Account :=
  {| acc_state := acc_state a; acc_free := acc_free a;
     acc_budget := acc_budget a + acc_pending a; acc_pending := 0 |}.

(** The fallback when the funds cannot be placed on hold again. *)
Definition spill (a : Account) : Account :=
  {| acc_state := acc_state a; acc_free := acc_free a + acc_pending a;
     acc_budget := acc_budget a; acc_pending := 0 |}.

(** Funds are taken from pending. *)
Definition take_pending (x : N) (a : Account) : Account :=
  {| acc_state := acc_state a; acc_free := acc_free a;
     acc_budget := acc_budget a; acc_pending := acc_pending a - x |}.
End account_moves.

Section reservation.
Context {T : Config} {F : FungibleHold} {FS : FungibleHoldSpec F}.

(** Nothing but the world of [s'] differs from [s]. *)
Definition same_pallet (s s' : Chain) : Prop :=
  sponsors s' = sponsors s ∧ events s' = events s.

Lemma same_pallet_set_world w s : same_pallet s (set_world w s).
Proof. done. Qed.

Lemma view_hold_pending who x s w :
  hold pending_hold_reason who x (world s) = (Ok tt, w) →
  acc_pending (view who (set_world w s)) = acc_pending (view who s) + x
  ∧ acc_free (view who (set_world w s)) + x = acc_free (view who s)
  ∧ acc_budget (view who (set_world w s)) = acc_budget (view who s)
  ∧ others who s (set_world w s).
Proof.
  intros (Hb & Hf & Hs)%hold_ok. split_and!; [done|done| |by eapply others_same_but].
  apply (same_but_hold _ _ _ _ Hs). left. apply reasons_ne.
Qed.

Lemma move_budget_to_pending_ok who x s s' :
  move_budget_to_pending who x s = (Ok tt, s') →
  view who s' = reserve x (view who s) ∧ x ≤ budget_on_hold who s
  ∧ others who s s' ∧ same_pallet s s'.
Proof.
  unfold move_budget_to_pending. exec.
  destruct (release _ _ _ _ _) as [[y|e] w] eqn:Hr; cbn; [|done].
  destruct (hold _ _ _ _) as [[[]|e] w'] eqn:Hh; cbn; intros; simplify_eq.
  apply view_release_budget in Hr as (Hv & Hle & Hoth).
  apply (view_hold_pending _ _ (set_world w s)) in Hh as (Hp & Hf & Hb & Hoth').
  rewrite Hv in Hp, Hf, Hb. cbn in Hp, Hf, Hb.
  split_and!; [|done|by eapply others_trans|done].
  unfold view, reserve in *. cbn in *. f_equal; [lia|done..].
Qed.

(** A failed reservation is reported as a payment failure.  The funds are where they
    were, or, when the second step failed, in the sponsor's free balance. *)
Lemma move_budget_to_pending_err who x s e s' :
  move_budget_to_pending who x s = (Err e, s') →
  e = Invalid_Payment ∧ same_pallet s s' ∧ others who s s'
  ∧ (s' = s ∨ view who s' = defund x (view who s) ∧ x ≤ budget_on_hold who s).
Proof.
  unfold move_budget_to_pending. exec.
  destruct (release _ _ _ _ _) as [[y|e'] w] eqn:Hr; cbn.
  - destruct (hold _ _ _ _) as [[[]|e'] w'] eqn:Hh; cbn; intros; simplify_eq.
    apply hold_err in Hh as ->. apply view_release_budget in Hr as (Hv & Hle & Hoth).
    split_and!; [done|done|done|by right].
  - intros; simplify_eq. apply release_err in Hr as ->. rewrite set_world_id.
    split_and!; [done|done|done|by left].
Qed.

(** Where the pending funds of [who] go when they are restored, by what the balances pallet
    answers: back to the budget; into the free balance when it refuses to hold them again;
    nowhere when it refuses to release them. *)
Definition restored (who : AccountId) (s : Chain) : Account :=
  let a := view who s in
  if decide (acc_pending a = 0) then a
  else
    match release pending_hold_reason who (acc_pending a) BestEffort (world s) with
    | (Err _, _) => a
    | (Ok x, w) => if is_ok (hold budget_hold_reason who x w).1 then restore a else spill a
    end.

Lemma restored_total who s : acc_total (restored who s) = acc_total (view who s).
Proof.
  unfold restored. repeat case_match; unfold acc_total, restore, spill; cbn; lia.
Qed.

(** Restoring never touches another account or the pallet's storage. *)
Lemma restore_pending_cases who s :
  let s' := restore_pending_to_budget who s in
  same_pallet s s' ∧ others who s s' ∧ view who s' = restored who s.
Proof.
  cbn. unfold restore_pending_to_budget, restored.
  change (acc_pending (view who s)) with (pending_on_hold who s).
  destruct (is_zero_spec (pending_on_hold who s)) as [Hp|Hp];
    [by rewrite decide_True|rewrite decide_False by done].
  destruct (release _ _ _ _ _) as [[x|e] w] eqn:Hr;
    [|apply release_err in Hr as ->; by rewrite set_world_id].
  apply release_ok in Hr as (Hx & Hb & Hf & Hs). cbn in Hx.
  assert (x = pending_on_hold who s) as -> by (unfold pending_on_hold in *; lia). clear Hx.
  destruct (is_zero_spec (pending_on_hold who s)); [done|].
  assert (Hbud : balance_on_hold budget_hold_reason who w = budget_on_hold who s).
  { apply (same_but_hold _ _ _ _ Hs). left. apply reasons_ne. }
  pose proof (others_same_but _ _ _ _ Hs) as Hoth.
  destruct (hold _ _ _ w) as [[[]|e] w'] eqn:Hh.
  - apply (view_hold_budget _ _ (set_world w s)) in Hh as (Hv & Hle & Hoth').
    split_and!; [done|by eapply others_trans|cbn].
    change (set_world w' s) with (set_world w' (set_world w s)). rewrite Hv.
    unfold view, fund, restore, pending_on_hold, budget_on_hold in *. cbn in *.
    f_equal; lia.
  - apply hold_err in Hh as ->. split_and!; [done|done|cbn].
    unfold view, spill, pending_on_hold, budget_on_hold in *. cbn in *. f_equal; lia.
Qed.

Context {L : FungibleHoldLive F}.

Lemma move_budget_to_pending_live who x s :
  bal_ok (world s) → x ≤ budget_on_hold who s →
  ∃ s', move_budget_to_pending who x s = (Ok tt, s') ∧ bal_ok (world s').
Proof.
  intros Hok Hle. unfold move_budget_to_pending. exec.
  destruct (release_available budget_hold_reason who x Exact (world s) Hok Hle)
    as (y & w & Hr). rewrite Hr. cbn.
  assert (y = x) as -> by (by apply release_ok in Hr as (-> & _)).
  destruct (rehold_available _ pending_hold_reason _ _ _ _ _ _ Hok Hr) as (w' & Hh).
  rewrite Hh. cbn. eauto with frame.
Qed.

Lemma restore_pending_live who s :
  bal_ok (world s) →
  view who (restore_pending_to_budget who s) = restore (view who s)
  ∧ bal_ok (world (restore_pending_to_budget who s)).
Proof.
  intros Hok. unfold restore_pending_to_budget.
  destruct (is_zero_spec (pending_on_hold who s)) as [Hp|Hp].
  { split; [|done]. unfold restore, view. cbn. rewrite Hp. f_equal. lia. }
  destruct (release_available pending_hold_reason who (pending_on_hold who s) BestEffort
    (world s) Hok (N.le_min_r _ _)) as (x & w & Hr). rewrite Hr.
  pose proof (rehold_available _ budget_hold_reason _ _ _ _ _ _ Hok Hr) as (w' & Hh).
  pose proof (release_bal_ok _ _ _ _ _ _ _ Hok Hr) as Hok'.
  apply release_ok in Hr as (Hx & Hb & Hf & Hs). cbn in Hx.
  assert (x = pending_on_hold who s) as -> by (unfold pending_on_hold in *; lia). clear Hx.
  destruct (is_zero_spec (pending_on_hold who s)); [done|]. rewrite Hh.
  pose proof (hold_bal_ok _ _ _ _ _ Hok' Hh) as Hok''.
  apply (view_hold_budget _ _ (set_world w s)) in Hh as (Hv & Hle & _). split; [|done].
  change (set_world w' s) with (set_world w' (set_world w s)). rewrite Hv.
  assert (Hbud : balance_on_hold budget_hold_reason who w = budget_on_hold who s).
  { apply (same_but_hold _ _ _ _ Hs). left. apply reasons_ne. }
  unfold view, fund, restore, pending_on_hold, budget_on_hold in *. cbn in *. f_equal; lia.
Qed.
End reservation.

(** ** Settlement *)
Section settlement.
Context {T : Config} {F : FungibleHold} {FS : FungibleHoldSpec F}.
Context {D : FeeDestination} {W : Weights} {P : TransactionPayment}.
Context (db : RuntimeDbWeight).

(** The fee of the dispatched call, in the pallet's balance type. *)
Definition actual_fee (tip : N) (info : DispatchInfo) (post_info : PostDispatchInfo)
    (len : N) (s : Chain) : N :=
  to_balance (compute_actual_fee (as_u32 len) info post_info (to_fee_balance tip) (world s)).

(** What is charged: the actual fee, clamped to the estimate and to what is pending. *)
Definition charged_fee (sponsor : AccountId) (est tip : N) (info : DispatchInfo)
    (post_info : PostDispatchInfo) (len : N) (s : Chain) : N :=
  N.min (N.min est (actual_fee tip info post_info len s)) (pending_on_hold sponsor s).

(** The settlement in three parts: the slash, the credits given to the fee destination
    and the restoration of the rest. *)
Lemma settle_spec sponsor signer est tip info post_info len s :
  let charged := charged_fee sponsor est tip info post_info len s in
  ∃ w fee_credit tip_credit,
    settle_sponsored_fee db sponsor signer est tip info post_info len s
    = (reads_writes db 7 7,
       push_event (SponsoredTransactionFeePaid sponsor signer charged (N.min tip charged))
         (restore_pending_to_budget sponsor
            (set_world (on_unbalanceds [fee_credit; tip_credit] w) s)))
    ∧ peek tip_credit = N.min tip charged ∧ peek fee_credit + peek tip_credit = charged
    ∧ view sponsor (set_world w s) = take_pending charged (view sponsor s)
    ∧ others sponsor s (set_world w s)
    ∧ ∃ c missing,
        slash pending_hold_reason sponsor (N.min est (actual_fee tip info post_info len s))
          (world s) = (c, missing, w)
        ∧ split c (N.min tip charged) = (tip_credit, fee_credit).
Proof.
  cbn. unfold settle_sponsored_fee.
  change (to_balance _) with (actual_fee tip info post_info len s).
  unfold charged_fee. set (fee := actual_fee tip info post_info len s).
  assert ((if est <? fee then est else fee) = N.min est fee) as ->
    by (destruct (N.ltb_spec est fee); lia).
  destruct (slash _ _ _ _) as [[credit missing] w] eqn:Hs. cbn.
  pose proof Hs as (Hpeek & Hmiss & Hpend & Hfree & Hsame)%slash_ok.
  fold (pending_on_hold sponsor s) in Hpeek, Hpend.
  assert ((if negb (is_zero missing) then saturating_sub (N.min est fee) missing
           else N.min est fee) = peek credit) as ->.
  { unfold saturating_sub. destruct (is_zero_spec missing); cbn; lia. }
  destruct (split _ _) as [tip_credit fee_credit] eqn:Hsplit.
  pose proof Hsplit as (Ht & Hsum)%split_ok.
  exists w, fee_credit, tip_credit. rewrite <- Hpeek.
  split_and!; [done|lia|lia| |by eapply others_same_but|by exists credit, missing].
  unfold view, take_pending, budget_on_hold. cbn. f_equal.
  - done.
  - apply (same_but_hold _ _ _ _ Hsame). left. apply reasons_ne.
  - unfold pending_on_hold in *. cbn. lia.
Qed.

Context {DS : FeeDestinationSpec D}.

(** The credit handler moves free balances only. *)
Lemma on_unbalanceds_view who cs w s :
  acc_state (view who (set_world (on_unbalanceds cs w) s)) = acc_state (view who s)
  ∧ acc_budget (view who (set_world (on_unbalanceds cs w) s))
    = acc_budget (view who (set_world w s))
  ∧ acc_pending (view who (set_world (on_unbalanceds cs w) s))
    = acc_pending (view who (set_world w s)).
Proof.
  unfold view, budget_on_hold, pending_on_hold. cbn.
  by rewrite !(on_unbalanceds_holds cs w).
Qed.

(** With a destination that pays nobody, it leaves every account alone. *)
Lemma on_unbalanceds_burns {DB : FeeDestinationBurns D} who cs w s :
  view who (set_world (on_unbalanceds cs w) s) = view who (set_world w s).
Proof.
  unfold view, budget_on_hold, pending_on_hold. cbn.
  by rewrite !(on_unbalanceds_holds cs w), on_unbalanceds_free.
Qed.

(** Settlement leaves the other accounts alone. *)
Lemma settlement_others {DB : FeeDestinationBurns D} sponsor signer est tip info post_info len
    s : others sponsor s (settle_sponsored_fee db sponsor signer est tip info post_info len s).2.
Proof.
  destruct (settle_spec sponsor signer est tip info post_info len s)
    as (w & fc & tc & -> & _ & _ & _ & Hoth & _). cbn. apply others_push_event.
  eapply others_trans; [|apply restore_pending_cases].
  intros who Hne. rewrite on_unbalanceds_burns. by apply Hoth.
Qed.

(** The sponsor's and everyone else's holds after settlement, when the balances pallet is
    in order. *)
Context {L : FungibleHoldLive F} {DL : FeeDestinationLive D L}.

Lemma settle_live sponsor signer est tip info post_info len s wt s' :
  bal_ok (world s) →
  settle_sponsored_fee db sponsor signer est tip info post_info len s = (wt, s') →
  let charged := charged_fee sponsor est tip info post_info len s in
  bal_ok (world s')
  ∧ pending_on_hold sponsor s' = 0
  ∧ budget_on_hold sponsor s' + charged = budget_on_hold sponsor s + pending_on_hold sponsor s
  ∧ (∀ who, who ≠ sponsor → budget_on_hold who s' = budget_on_hold who s
                            ∧ pending_on_hold who s' = pending_on_hold who s)
  ∧ sponsors s' = sponsors s
  ∧ events s' = events s
      ++ [SponsoredTransactionFeePaid sponsor signer charged (N.min tip charged)].
Proof.
  cbn. intros Hok Hset.
  destruct (settle_spec sponsor signer est tip info post_info len s)
    as (w & fc & tc & Heq & _ & _ & Hv & Hoth & c & m & Hslash & _). cbn in *.
  rewrite Heq in Hset. injection Hset as _ <-. clear Heq.
  set (charged := charged_fee _ _ _ _ _ _ _) in *.
  assert (Hok1 : bal_ok w) by (by eapply slash_bal_ok).
  set (s2 := set_world (on_unbalanceds [fc; tc] w) s).
  assert (Hok2 : bal_ok (world s2)) by exact (on_unbalanceds_bal_ok [fc; tc] w Hok1).
  destruct (restore_pending_live sponsor s2 Hok2) as [Hr Hok3].
  destruct (restore_pending_cases sponsor s2) as ([Hsp Hev] & Hoth2 & _).
  assert (Hch : charged ≤ pending_on_hold sponsor s) by apply N.le_min_r.
  destruct (on_unbalanceds_view sponsor [fc; tc] w s) as (_ & Hb & Hp).
  fold s2 in Hb, Hp. rewrite Hv in Hb, Hp. cbn in Hb, Hp.
  assert (Hbud := f_equal acc_budget Hr). assert (Hpen := f_equal acc_pending Hr).
  cbn in Hbud, Hpen.
  change (budget_on_hold sponsor ?x) with (acc_budget (view sponsor x)).
  change (pending_on_hold sponsor ?x) with (acc_pending (view sponsor x)).
  rewrite !view_push_event, Hr. cbn in *.
  split_and!; [done|done|lia| |done|by rewrite Hev].
  intros who Hne. destruct (on_unbalanceds_view who [fc; tc] w s) as (_ & Hb' & Hp').
  fold s2 in Hb', Hp'. rewrite (Hoth _ Hne) in Hb', Hp'.
  specialize (Hoth2 _ Hne).
  change (acc_budget (view who (restore_pending_to_budget sponsor s2))
            = acc_budget (view who s)
          ∧ acc_pending (view who (restore_pending_to_budget sponsor s2))
            = acc_pending (view who s)).
  by rewrite Hoth2, Hb', Hp'.
Qed.
End settlement.

(** ** Validation *)
Section validation.
Context {T : Config} {F : FungibleHold} {W : Weights} {P : TransactionPayment}.

(** The worst-case fee the extension computes for a transaction. *)
Definition worst_case_fee (self : SponsoredChargeTransactionPayment) (info : DispatchInfo)
    (len : N) (s : Chain) : N :=
  to_balance (compute_fee (as_u32 len) info (to_fee_balance (tip self)) (world s)).

(** Which rule of the sponsor's policy a transaction of [signer] with fee [fee] breaks. *)
Definition policy_refusal (st : SponsorState) (signer : AccountId) (fee budget : N) :
    option InvalidSponsoredTransaction :=
  if decide (active st = false) then Some InactiveSponsor
  else if decide (signer ∉ bv_items (allowed_callers (policy st))) then Some CallerNotAllowed
  else if decide (max_fee_per_tx (policy st) < fee) then Some FeeCapExceeded
  else if decide (budget < fee) then Some InsufficientBudget
  else None.

(** Which rule a sponsored transaction breaks, if any. *)
Definition refusal (sp : AccountId) (origin : RuntimeOrigin) (fee : N) (s : Chain) :
    option InvalidSponsoredTransaction :=
  match as_system_origin_signer origin, sponsors s !! sp with
  | None, _ => Some UnsupportedOrigin
  | Some _, None => Some UnknownSponsor
  | Some signer, Some st => policy_refusal st signer fee (budget_on_hold sp s)
  end.

Lemma policy_refusal_None st signer fee budget :
  policy_refusal st signer fee budget = None ↔
  active st = true ∧ signer ∈ bv_items (allowed_callers (policy st))
  ∧ fee ≤ max_fee_per_tx (policy st) ∧ fee ≤ budget.
Proof.
  unfold policy_refusal. destruct (active st); cbn; [|naive_solver].
  repeat case_decide; naive_solver lia.
Qed.

(** Validation of a sponsored transaction reads and decides; it changes nothing. *)
Lemma validate_sponsored self sp origin call info len imp src s :
  sponsor self = Some sp →
  validate self origin call info len imp src s
  = (match refusal sp origin (worst_case_fee self info len s) s,
           as_system_origin_signer origin with
     | None, Some signer =>
         Ok (with_priority
               (get_priority info len (to_fee_balance (tip self))
                  (to_fee_balance (worst_case_fee self info len s)))
               ValidTransaction_default,
             Val_Sponsored sp signer (worst_case_fee self info len s) (tip self), origin)
     | Some r, _ => Err (invalid r)
     | None, None => Err (invalid UnsupportedOrigin)
     end, s).
Proof.
  intros Hsp. unfold validate, refusal. rewrite Hsp.
  destruct (as_system_origin_signer origin) as [signer|] eqn:Ho; [|done].
  unfold sponsor_state, lift_result, ensure, gets, mret, M_ret, mbind, M_bind,
    worst_case_fee.
  destruct (sponsors s !! sp) as [st|] eqn:Hst;
    cbn -[N.ltb budget_on_hold to_balance]; [|done].
  unfold policy_refusal. destruct (active st); cbn -[N.ltb to_balance]; [|done].
  rewrite (decide_False (P := true = false)) by done.
  destruct (existsb _ _) eqn:Hex; cbn -[N.ltb to_balance].
  2:{ apply not_true_iff_false in Hex. rewrite existsb_eq_spec in Hex.
      by rewrite decide_True by done. }
  apply existsb_eq_spec in Hex. rewrite (decide_False (P := signer ∉ _)) by tauto.
  set (fee := to_balance (compute_fee _ _ _ _)).
  destruct (N.ltb_spec (max_fee_per_tx (policy st)) fee); cbn -[N.ltb];
    [by rewrite decide_True by done|rewrite (decide_False (P := _ < _)) by lia].
  destruct (N.ltb_spec (budget_on_hold sp s) fee); cbn;
    [by rewrite decide_True by done|by rewrite (decide_False (P := _ < _)) by lia].
Qed.

Lemma validate_sponsored_ok self sp origin call info len imp src s v val o s' :
  sponsor self = Some sp →
  validate self origin call info len imp src s = (Ok (v, val, o), s') →
  s' = s ∧ o = origin ∧ ∃ signer st,
    as_system_origin_signer origin = Some signer ∧ sponsors s !! sp = Some st
    ∧ active st = true ∧ signer ∈ bv_items (allowed_callers (policy st))
    ∧ worst_case_fee self info len s ≤ max_fee_per_tx (policy st)
    ∧ worst_case_fee self info len s ≤ budget_on_hold sp s
    ∧ val = Val_Sponsored sp signer (worst_case_fee self info len s) (tip self).
Proof.
  intros Hsp. rewrite (validate_sponsored self sp) by done. unfold refusal.
  destruct (as_system_origin_signer origin) as [signer|] eqn:Ho; [|done].
  destruct (sponsors s !! sp) as [st|] eqn:Hst; [|done].
  destruct (policy_refusal _ _ _ _) eqn:Hr; [done|].
  apply policy_refusal_None in Hr as (? & ? & ? & ?).
  intros; simplify_eq. split_and!; [done|done|]. by exists signer, st.
Qed.
End validation.
