(* ===== verification/Lifecycle.v ===== *)
(** * The life of a sponsored transaction

    The order in which the runtime drives the pallet and the extension, as a step relation:
    a transaction naming a sponsor is validated and prepared, the runtime then dispatches its
    call (which may be a call of this pallet, by anyone, or touch any other pallet), and
    settles.  Between transactions nothing is in flight.  The invariants proved here hold in
    every reachable state. *)

From S2P Require Import Prelude Types Frame Weights Payment Pallet SponsorSpec PalletProofs Extension ExtensionProofs.
Local Open Scope N_scope.

(** ** The event record as a ledger *)
Section replay.
Context {T : Config}.

(** What an event says about the funds [who] has escrowed. *)
Definition apply_event (who : AccountId) (acc : N) (e : Event) : N :=
  match e with
  | SponsorRegistered sp b => if decide (sp = who) then acc + b else acc
  | BudgetIncreased sp x _ => if decide (sp = who) then acc + x else acc
  | BudgetDecreased sp x _ => if decide (sp = who) then acc - x else acc
  | SponsorUnregistered sp => if decide (sp = who) then 0 else acc
  | SponsoredTransactionFeePaid sp _ fee _ => if decide (sp = who) then acc - fee else acc
  | SponsorPolicyUpdated _ | SponsorPaused _ | SponsorResumed _ => acc
  end.

Definition replay (who : AccountId) (evs : list Event) : N :=
  fold_left (apply_event who) evs 0.

Lemma replay_snoc who evs e : replay who (evs ++ [e]) = apply_event who (replay who evs) e.
Proof. unfold replay. by rewrite fold_left_app. Qed.

(** Each call's event accounts for its effect on the caller's escrow. *)
Lemma spec_call_event who c a a' ev :
  spec_call who c a = Ok (a', ev) →
  acc_budget a' + acc_pending a' = apply_event who (acc_budget a + acc_pending a) ev.
Proof.
  destruct a as [[st|] f b p], c; cbn; intros H; repeat case_match; simplify_eq/=;
    try rewrite decide_True by done; lia.
Qed.

Lemma spec_call_event_other who who' c a a' ev acc :
  spec_call who c a = Ok (a', ev) → who' ≠ who → apply_event who' acc ev = acc.
Proof.
  destruct a as [[st|] f b p], c; cbn; intros H ?; repeat case_match; simplify_eq/=;
    try rewrite decide_False by done; done.
Qed.
End replay.

Section lifecycle.
Context {T : Config} {F : FungibleHold} {FS : FungibleHoldSpec F} {L : FungibleHoldLive F}.
Context {D : FeeDestination} {DS : FeeDestinationSpec D} {DL : FeeDestinationLive D L}.
Context {W : Weights} {P : TransactionPayment}.
Context (db : RuntimeDbWeight).

(** Whether a sponsored transaction is between [prepare] and [post_dispatch]. *)
Inductive phase : Type :=
| Idle
| InFlight (sp signer : AccountId) (est tip : N).

(** The two holds of the pallet are the same in [w'] as in [w]: what other pallets must
    respect. *)
Definition sponsor_holds_same (w w' : World) : Prop :=
  ∀ r who, balance_on_hold (from_hold_reason r) who w'
           = balance_on_hold (from_hold_reason r) who w.

Inductive step : phase * Chain → phase * Chain → Prop :=
| step_dispatch ph s c o r s' :
    dispatch c o s = (r, s') → step (ph, s) (ph, s')
| step_other ph s w :
    bal_ok w → sponsor_holds_same (world s) w → step (ph, s) (ph, set_world w s)
| step_prepare self origin call info len imp src s v sp signer est tp o s1 s2 :
    validate self origin call info len imp src s
      = (Ok (v, Val_Sponsored sp signer est tp, o), s1) →
    prepare self (Val_Sponsored sp signer est tp) o call info len s1
      = (Ok (Pre_Sponsored sp signer est tp), s2) →
    step (Idle, s) (InFlight sp signer est tp, s2)
| step_settle sp signer est tp info post_info len res s wt s' :
    post_dispatch_details db (Pre_Sponsored sp signer est tp) info post_info len res s
      = (Ok wt, s') →
    step (InFlight sp signer est tp, s) (Idle, s').

(** A chain before any sponsor registered. *)
Definition initial (m : phase * Chain) : Prop :=
  m.1 = Idle ∧ sponsors m.2 = ∅ ∧ events m.2 = [] ∧ bal_ok (world m.2)
  ∧ ∀ r who, balance_on_hold (from_hold_reason r) who (world m.2) = 0.

Definition reachable (m : phase * Chain) : Prop := ∃ m0, initial m0 ∧ rtc step m0 m.

(** The amount in flight on behalf of [who]. *)
Definition in_flight (who : AccountId) (ph : phase) : N :=
  match ph with
  | Idle => 0
  | InFlight sp _ est _ => if decide (who = sp) then est else 0
  end.

Record good (m : phase * Chain) : Prop := {
  good_bal : bal_ok (world m.2);
  good_inv : chain_inv m.2;
  good_pending who : pending_on_hold who m.2 = in_flight who m.1;
  good_events who : replay who (events m.2) = budget_on_hold who m.2 + pending_on_hold who m.2;
}.

Lemma acc_inv_ext a a' :
  acc_state a' = acc_state a → acc_budget a' = acc_budget a → acc_pending a' = acc_pending a →
  acc_inv a → acc_inv a'.
Proof. unfold acc_inv. by intros -> -> ->. Qed.

Lemma initial_good m : initial m → good m.
Proof.
  destruct m as [ph s]. intros (Hph & Hsp & Hev & Hok & Hz). cbn in *. subst ph. split; cbn.
  - done.
  - intros who. unfold acc_inv. cbn. rewrite Hsp, lookup_empty.
    split; apply Hz.
  - intros who. apply Hz.
  - intros who. rewrite Hev. unfold budget_on_hold, pending_on_hold.
    unfold budget_hold_reason, pending_hold_reason. by rewrite !Hz.
Qed.

Lemma good_dispatch ph s c o r s' :
  dispatch c o s = (r, s') → good (ph, s) → good (ph, s').
Proof.
  intros Hd [Hok Hinv Hpen Hev]. cbn in *. split; cbn.
  - by eapply dispatch_bal_ok.
  - by eapply dispatch_chain_inv.
  - intros who. rewrite <- Hpen. by eapply dispatch_pending_frame.
  - intros who. destruct (dispatch_inv _ _ _ _ _ Hd) as [->|Hrun]; [done|].
    apply run_call_ok_inv in Hrun as (caller & a' & ev & _ & Hspec & Hv & _ & Hoth & Hevs).
    rewrite Hevs, replay_snoc, Hev.
    change (apply_event who (acc_budget (view who s) + acc_pending (view who s)) ev
            = acc_budget (view who s') + acc_pending (view who s')).
    destruct (decide (who = caller)) as [->|Hne].
    + rewrite Hv. symmetry. by apply (spec_call_event caller c).
    + rewrite (Hoth _ Hne). by apply (spec_call_event_other caller who c (view caller s) a').
Qed.

Lemma good_other ph s w :
  bal_ok w → sponsor_holds_same (world s) w → good (ph, s) → good (ph, set_world w s).
Proof.
  intros Hok' Hsame [Hok Hinv Hpen Hev]. cbn in *.
  assert (Hb : ∀ who, budget_on_hold who (set_world w s) = budget_on_hold who s)
    by (intros; apply Hsame).
  assert (Hp : ∀ who, pending_on_hold who (set_world w s) = pending_on_hold who s)
    by (intros; apply Hsame).
  split; cbn; [done| | |].
  - intros who. eapply acc_inv_ext; [..|apply (Hinv who)]; [done|apply Hb|apply Hp].
  - intros who. rewrite <- Hpen. apply Hp.
  - intros who. etrans; [apply Hev|]. f_equal; symmetry; [apply Hb|apply Hp].
Qed.

(** Only a transaction that names a sponsor validates as sponsored. *)
Lemma validate_val_sponsored self origin call info len imp src s v sp signer est tp o s' :
  validate self origin call info len imp src s
    = (Ok (v, Val_Sponsored sp signer est tp, o), s') →
  sponsor self = Some sp.
Proof.
  destruct (sponsor self) as [sp'|] eqn:Hsp.
  - rewrite (validate_sponsored self sp') by done. intros H. repeat case_match; by simplify_eq.
  - unfold validate. rewrite Hsp. intros H. apply bind_ok in H as ([[??]?] & ? & _ & H).
    unfold mret, M_ret in H. by simplify_eq.
Qed.

Lemma prepare_sponsored_ok self sp signer est tp o call info len s pre s' :
  prepare self (Val_Sponsored sp signer est tp) o call info len s = (Ok pre, s') →
  pre = Pre_Sponsored sp signer est tp ∧ move_budget_to_pending sp est s = (Ok tt, s').
Proof.
  cbn. intros H. apply bind_ok in H as ([] & s1 & Hm & H).
  unfold mret, M_ret in H. by simplify_eq.
Qed.

Lemma good_prepare self origin call info len imp src s v sp signer est tp o s1 s2 :
  validate self origin call info len imp src s
    = (Ok (v, Val_Sponsored sp signer est tp, o), s1) →
  prepare self (Val_Sponsored sp signer est tp) o call info len s1
    = (Ok (Pre_Sponsored sp signer est tp), s2) →
  good (Idle, s) → good (InFlight sp signer est tp, s2).
Proof.
  intros Hval Hprep [Hok Hinv Hpen Hev]. cbn in Hok, Hinv, Hpen, Hev.
  pose proof (validate_val_sponsored _ _ _ _ _ _ _ _ _ _ _ _ _ _ _ Hval) as Hsp.
  apply (validate_sponsored_ok _ sp) in Hval
    as (-> & _ & signer' & st & _ & Hst & _ & _ & _ & Hle & Heq); [|done]. simplify_eq.
  apply prepare_sponsored_ok in Hprep as [_ Hm].
  destruct (move_budget_to_pending_live sp _ s Hok Hle) as (s2' & Hm' & Hok2).
  rewrite Hm in Hm'. simplify_eq.
  apply move_budget_to_pending_ok in Hm as (Hv & _ & Hoth & Hsps & Hevs).
  set (est := worst_case_fee self info len s) in *. split; cbn.
  - done.
  - intros who. destruct (decide (who = sp)) as [->|Hne].
    + specialize (Hinv sp). rewrite Hv. unfold acc_inv in *. cbn in *. by rewrite Hst in *.
    + rewrite (Hoth _ Hne). apply Hinv.
  - intros who. change (acc_pending (view who s2') = if decide (who = sp) then est else 0).
    case_decide as Hwho; [subst; rewrite Hv; cbn; by rewrite Hpen|].
    rewrite (Hoth _ Hwho). apply Hpen.
  - intros who. rewrite Hevs, Hev.
    change (acc_budget (view who s) + acc_pending (view who s)
            = acc_budget (view who s2') + acc_pending (view who s2')).
    destruct (decide (who = sp)) as [->|Hne]; [|by rewrite Hoth].
    rewrite Hv. cbn in *. lia.
Qed.

Lemma post_dispatch_sponsored sp signer est tp info post_info len res s r s' :
  post_dispatch_details db (Pre_Sponsored sp signer est tp) info post_info len res s = (r, s') →
  ∃ wt, r = Ok wt ∧ settle_sponsored_fee db sp signer est tp info post_info len s = (wt, s').
Proof. cbn. destruct (settle_sponsored_fee _ _ _ _ _ _ _ _ _). intros. simplify_eq. eauto. Qed.

Lemma good_settle sp signer est tp info post_info len res s wt s' :
  post_dispatch_details db (Pre_Sponsored sp signer est tp) info post_info len res s
    = (Ok wt, s') →
  good (InFlight sp signer est tp, s) → good (Idle, s').
Proof.
  intros (wt' & _ & Hset)%post_dispatch_sponsored [Hok Hinv Hpen Hev]. cbn in *.
  apply (settle_live db) in Hset as (Hok' & Hp & Hb & Hoth & Hsps & Hevs); [|done].
  set (charged := charged_fee _ _ _ _ _ _ _) in *. split; cbn.
  - done.
  - intros who. specialize (Hinv who). destruct (decide (who = sp)) as [->|Hne].
    + unfold acc_inv in *. cbn in *. rewrite Hsps. destruct (sponsors s !! sp); [done|]. lia.
    + destruct (Hoth _ Hne) as [Hb' Hp'].
      eapply acc_inv_ext; [..|apply Hinv]; [cbn; by rewrite Hsps|apply Hb'|apply Hp'].
  - intros who. destruct (decide (who = sp)) as [->|Hne]; [done|].
    destruct (Hoth _ Hne) as [_ ->]. rewrite Hpen. by rewrite decide_False.
  - intros who. rewrite Hevs, replay_snoc, Hev. cbn.
    destruct (decide (who = sp)) as [->|Hne].
    + rewrite decide_True by done. lia.
    + rewrite decide_False by done. by destruct (Hoth _ Hne) as [-> ->].
Qed.

Lemma step_good m m' : step m m' → good m → good m'.
Proof.
  intros Hs Hg. destruct Hs; [by eapply good_dispatch|by eapply good_other|by eapply good_prepare
    |by eapply good_settle].
Qed.

Lemma run_good m m' : rtc step m m' → good m → good m'.
Proof.
  intros Hsteps. induction Hsteps as [|m1 m2 m3 Hs _ IH]; intros Hg; [done|].
  by apply IH, (step_good m1).
Qed.

Lemma reachable_is_good m : reachable m → good m.
Proof. intros (m0 & H0%initial_good & Hsteps). by apply (run_good m0). Qed.
End lifecycle.
