(* ===== verification/Mock.v ===== *)
(** * The mock runtime and the scenarios of the unit tests

    A concrete fee model on the ledger of [Ledger], in the shape of
    [pallets/sponsored-tx/src/mock.rs] (a flat fee per call, no length fee), the states the
    tests of [tests.rs] set up, and those tests as evaluations of the model. *)

From S2P Require Import Prelude Types Frame Ledger Weights Payment Pallet Extension.
Local Open Scope N_scope.

(** The fee of a call before and after dispatch. *)
Record MockInfo : Set := { call_fee : N }.
Record MockPostInfo : Set := { paid_fee : N }.

Module MockCharge.
Definition fee (call_fee tip : N) : N := saturating_add u64_max call_fee tip.

(** A withdrawal with [Preservation::Preserve]: what is left keeps the account alive. *)
Definition can_withdraw (f : N) (who : N) (w : LedgerWorld) : bool :=
  is_zero f || (f + Ledger.ExistentialDeposit <=? Ledger.free_of who w).

(** The signer must be able to pay the fee from the free balance; other origins are not
    charged. *)
Definition validate (tip : N) (o : MockOrigin) (info : MockInfo) :
    M LedgerWorld TransactionValidityError (ValidTransaction * (option N * N) * MockOrigin) :=
  λ w,
  let v := {| priority := tip; requires := []; provides := []; longevity := u64_max;
              propagate := true |} in
  match mock_signer o with
  | None => (Ok (v, (None, 0), o), w)
  | Some who =>
      let f := fee (call_fee info) tip in
      if can_withdraw f who w then (Ok (v, (Some who, f), o), w)
      else (Err Invalid_Payment, w)
  end.

Definition set_free (who x : N) (w : LedgerWorld) : LedgerWorld :=
  {| free := <[who := x]> (free w); held := held w |}.

Definition prepare (val : option N * N) :
    M LedgerWorld TransactionValidityError (option N * N) := λ w,
  match val with
  | (Some who, f) =>
      if can_withdraw f who w then (Ok val, set_free who (Ledger.free_of who w - f) w)
      else (Err Invalid_Payment, w)
  | (None, _) => (Ok val, w)
  end.

(** The unused part of the fee goes back to the signer. *)
Definition post_dispatch (pre : option N * N) (tip : N) (post : MockPostInfo) :
    M LedgerWorld TransactionValidityError (N * N) := λ w,
  match pre with
  | (Some who, f) =>
      (Ok (0, 0), set_free who (Ledger.free_of who w + (f - fee (paid_fee post) tip)) w)
  | (None, _) => (Ok (0, 0), w)
  end.
End MockCharge.

#[export] Instance mock_payment : TransactionPayment := {|
  RuntimeCall := unit;
  DispatchInfo := MockInfo;
  PostDispatchInfo := MockPostInfo;
  DispatchResult := unit;
  Implication := unit;
  TransactionSource := unit;
  ValidTransaction_default :=
    {| priority := 0; requires := []; provides := []; longevity := u64_max;
       propagate := true |};
  compute_fee _ info tip _ := MockCharge.fee (call_fee info) tip;
  compute_actual_fee _ _ post tip _ := MockCharge.fee (paid_fee post) tip;
  get_priority _ _ tip _ := tip;
  ChargeVal := option N * N;
  ChargePre := option N * N * N;
  charge_weight _ _ := (0, 0) : Weight;
  charge_validate tip o _ info _ _ _ := MockCharge.validate tip o info;
  charge_prepare tip val _ _ _ _ w :=
    match MockCharge.prepare val w with
    | (Ok p, w') => (Ok (p, tip), w')
    | (Err e, w') => (Err e, w')
    end;
  charge_post_dispatch_details pre _ post _ _ := MockCharge.post_dispatch pre.1 pre.2 post;
|}.

(** Accounts and origins of the mock runtime. *)
Definition acct (n : N) : @AccountId Test := n.
Definition signed_by (n : N) : @RuntimeOrigin Test := Origin_signed n.

Definition remark_call : @RuntimeCall _ _ mock_payment := tt.
Definition no_implication : @Implication _ _ mock_payment := tt.
Definition external_source : @TransactionSource _ _ mock_payment := tt.
Definition dispatch_ok_result : @DispatchResult _ _ mock_payment := tt.
Definition post_info (paid : N) : @PostDispatchInfo _ _ mock_payment := {| paid_fee := paid |}.

(** RocksDB costs, as in the runtime. *)
Definition mock_db : RuntimeDbWeight := {| read := 25000000; write := 100000000 |}.

(** ** Scenarios *)

(** Account 1 has registered with a budget of 200; account 2 may spend up to 50. *)
Definition registered_200 : Chain :=
  (register_sponsor (signed_by 1) 200 policy_2_50 new_test_ext).2.

Definition ext_sponsored (t : N) : SponsoredChargeTransactionPayment := new t (Some 1).
Definition ext_unsponsored (t : N) : SponsoredChargeTransactionPayment := new t None.

(** A remark costs 2. *)
Definition remark_info : @DispatchInfo _ _ mock_payment := {| call_fee := 2 |} : MockInfo.

Definition validate_as (o : MockOrigin) (ext : SponsoredChargeTransactionPayment) (s : Chain) :=
  validate ext (o : RuntimeOrigin) remark_call remark_info 10 no_implication
    external_source s.

(** Account 2's remark is in flight, with a tip of 5. *)
Definition in_flight_tip5 : Chain :=
  (prepare (ext_sponsored 5) (Val_Sponsored 1 2 7 5) (signed_by 2)
     remark_call remark_info 10 registered_200).2.

(** And settled at an actual fee of 1 (and the tip). *)
Definition settled_tip5 : Chain :=
  (settle_sponsored_fee mock_db (acct 1) (acct 2) 7 5 remark_info
     (post_info 1) 10 in_flight_tip5).2.

(** ** The tests *)

Example test_register_holds_budget :
  budget_on_hold (acct 1) registered_200 = 200
  ∧ pending_on_hold (acct 1) registered_200 = 0
  ∧ free_balance (acct 1) (world registered_200) = 800.
Proof. repeat split; reflexivity. Qed.

Example test_validate_codes :
  (validate_as (Origin_signed 3) (ext_sponsored 0) registered_200).1
    = Err (invalid CallerNotAllowed)
  ∧ (validate_as Origin_root (ext_sponsored 0) registered_200).1
    = Err (invalid UnsupportedOrigin)
  ∧ (validate_as (Origin_signed 2) (new 0 (Some (acct 3))) registered_200).1
    = Err (invalid UnknownSponsor)
  ∧ (validate_as (Origin_signed 2) (ext_sponsored 49) registered_200).1
    = Err (invalid FeeCapExceeded)
  ∧ is_ok (validate_as (Origin_signed 2) (ext_sponsored 5) registered_200).1 = true.
Proof. repeat split; reflexivity. Qed.

Example test_prepare_and_settle :
  budget_on_hold (acct 1) in_flight_tip5 = 193
  ∧ pending_on_hold (acct 1) in_flight_tip5 = 7
  ∧ budget_on_hold (acct 1) settled_tip5 = 194
  ∧ pending_on_hold (acct 1) settled_tip5 = 0
  ∧ events settled_tip5
    = [SponsorRegistered 1 200; SponsoredTransactionFeePaid 1 2 6 5].
Proof. repeat split; reflexivity. Qed.

Example test_unregister_blocked_in_flight :
  unregister (signed_by 1) in_flight_tip5
  = (Err (Module PendingBudgetNotEmpty), in_flight_tip5).
Proof. repeat split; reflexivity. Qed.
