(* ===== verification/PalletTheorems.v ===== *)
(** * Theorems about the dispatchables

    The properties of the sponsor lifecycle API, each with a run on the mock runtime where
    its hypotheses hold. *)

From S2P Require Import Prelude Types Frame Ledger Weights Payment Pallet SponsorSpec PalletProofs Extension Mock.
Local Open Scope N_scope.

Section theorems.
Context {T : Config} {F : FungibleHold}.

(** C15: the quadratic duplicate search of [ensure_valid_policy] decides
    exactly the policy rule: it accepts the non-empty allowlists without duplicates,
    reports [EmptyAllowlist] for the empty one and [DuplicateAllowedCaller] for every
    other. *)
Theorem ensure_valid_policy_correct p :
  let callers := bv_items (allowed_callers p) in
  (ensure_valid_policy p = Ok tt ↔ callers ≠ [] ∧ NoDup callers)
  ∧ (ensure_valid_policy p = Err EmptyAllowlist ↔ callers = [])
  ∧ (ensure_valid_policy p = Err DuplicateAllowedCaller ↔ callers ≠ [] ∧ ¬ NoDup callers).
Proof.
  cbn. rewrite ensure_valid_policy_fault. unfold policy_fault.
  repeat case_decide; naive_solver.
Qed.

Context {FS : FungibleHoldSpec F}.

(** C1: every dispatchable implements the abstract sponsor specification.
    From an unsigned origin it returns [BadOrigin].  Otherwise the specification decides: where
    it names a pallet error, that error is returned; where it does not, the call fails exactly
    if the balances pallet refuses the one hold or release the call needs, and then with the
    balances pallet's error; and in all other cases it succeeds, turns the caller's account
    view into the specified one, emits the specified event and leaves every other account
    alone.  Every error leaves the state as it was. *)
Theorem run_call_refines c o s :
  match ensure_signed o with
  | Some who => refines who c s (run_call c o s)
  | None => run_call c o s = (Err BadOrigin, s)
  end.
Proof.
  destruct (ensure_signed o) eqn:Ho; [by apply run_call_refines_signed|].
  by apply run_call_unsigned.
Qed.

(** Dispatching any call, from any origin and with any outcome,
    keeps the chain invariant: every registered sponsor has a non-empty allowlist without
    duplicates, and no account without a sponsor record has funds on either hold. *)
Theorem dispatch_keeps_invariant c o s r s' :
  dispatch c o s = (r, s') → chain_inv s → chain_inv s'.
Proof. apply dispatch_chain_inv. Qed.

(** No call of the pallet, whoever sends it and whatever its
    outcome, changes the pending hold of any account; funds reserved for an in-flight
    transaction cannot be withdrawn through the lifecycle API. *)
Theorem dispatch_keeps_pending c o s r s' who :
  dispatch c o s = (r, s') → pending_on_hold who s' = pending_on_hold who s.
Proof. apply dispatch_pending_frame. Qed.

(** C11: a call neither creates nor destroys funds: free
    balance plus budget plus pending of every account is unchanged; and accounts other than
    the caller keep their sponsor record, free balance, budget and pending amount. *)
Theorem dispatch_conserves_and_isolates c o s r s' who :
  dispatch c o s = (r, s') →
  acc_total (view who s') = acc_total (view who s)
  ∧ (ensure_signed o ≠ Some who → view who s' = view who s).
Proof.
  intros Hd. split; [by eapply dispatch_total|]. intros Hne.
  apply dispatch_inv in Hd as [->|Hrun]; [done|].
  apply run_call_ok_inv in Hrun as (caller & a' & ev & Ho & _ & _ & _ & Hoth & _).
  apply Hoth. congruence.
Qed.

(** A dispatchable that returns an error has written nothing,
    even without the storage layer that would roll it back: all checks come before the
    first write. *)
Theorem failed_call_changes_nothing c o s e s' :
  run_call c o s = (Err e, s') → s' = s.
Proof. apply run_call_err_inv. Qed.

Context {L : FungibleHoldLive F}.

(** A registered sponsor with nothing pending can always
    unregister; the call succeeds, removes the record, releases the whole budget hold into
    the free balance and leaves nothing on hold. *)
Theorem unregister_returns_budget o who s :
  ensure_signed o = Some who → bal_ok (world s) → is_Some (sponsors s !! who) →
  pending_on_hold who s = 0 →
  ∃ s', dispatch Call_unregister o s = (Ok tt, s')
    ∧ sponsors s' !! who = None
    ∧ free_balance who (world s') = free_balance who (world s) + budget_on_hold who s
    ∧ budget_on_hold who s' = 0 ∧ pending_on_hold who s' = 0.
Proof.
  intros Ho Hok Hreg Hp. destruct (unregister_live o who s) as [s' Hrun]; [done..|].
  exists s'. split; [by apply dispatch_ok|].
  pose proof (unregister_ok_view _ _ _ _ Ho Hrun) as Hv.
  split_and!; [by apply (f_equal acc_state) in Hv|by apply (f_equal acc_free) in Hv| |].
  - apply (f_equal acc_budget) in Hv. cbn in Hv. lia.
  - apply (f_equal acc_pending) in Hv. cbn in Hv. congruence.
Qed.

(** C24: registering and then unregistering gives the account
    back exactly the view it had before: no record, the same free balance, no holds. *)
Theorem register_unregister_roundtrip o who b p s s1 :
  ensure_signed o = Some who → bal_ok (world s) → chain_inv s →
  dispatch (Call_register_sponsor b p) o s = (Ok tt, s1) →
  ∃ s2, dispatch Call_unregister o s1 = (Ok tt, s2) ∧ view who s2 = view who s.
Proof.
  intros Ho Hok Hinv Hreg%dispatch_ok.
  pose proof (run_call_bal_ok _ _ _ _ Hok Hreg) as Hok1. specialize (Hinv who).
  apply (register_ok_view _ who) in Hreg as (Hv1 & Htot & Hst); [|done].
  unfold acc_inv in Hinv. cbn in Hinv. rewrite Hst in Hinv. destruct Hinv as [Hb Hp].
  destruct (unregister_live o who s1) as [s2 Hrun]; [done|done| | |].
  { apply (f_equal acc_state) in Hv1. cbn in Hv1. by rewrite Hv1. }
  { apply (f_equal acc_pending) in Hv1. cbn in Hv1. congruence. }
  exists s2. split; [by apply dispatch_ok|].
  rewrite (unregister_ok_view _ _ _ _ Ho Hrun).
  change (budget_on_hold who s1) with (acc_budget (view who s1)).
  unfold acc_total in Htot. rewrite Hv1 in *. cbn in *.
  unfold with_state, defund, view. cbn. rewrite Hst. f_equal; lia.
Qed.

(** An active sponsor can pause and then resume, and the sponsor
    map is then what it was. *)
Theorem pause_resume_roundtrip o who st s :
  ensure_signed o = Some who → sponsors s !! who = Some st → active st = true →
  ∃ s1 s2, dispatch Call_pause o s = (Ok tt, s1)
    ∧ dispatch Call_resume o s1 = (Ok tt, s2)
    ∧ sponsors s1 !! who = Some {| active := false; policy := policy st |}
    ∧ sponsors s2 = sponsors s ∧ world s2 = world s.
Proof.
  intros Ho Hst Hact. unfold dispatch, with_storage_layer. exec. rewrite Ho. cbn.
  rewrite Hst, Hact. cbn. eexists _, _. split; [done|]. cbn.
  rewrite lookup_partial_alter_eq. cbn. split; [done|]. cbn.
  split_and!; [done| |done].
  apply map_eq. intros i. destruct (decide (i = who)) as [->|Hne].
  - rewrite lookup_partial_alter_eq, Hst. by destruct st; cbn in *; subst.
  - by rewrite !lookup_partial_alter_ne.
Qed.
End theorems.

(** ** Witnesses *)

Lemma run_call_refines_witness :
  refines (acct 1) (Call_register_sponsor 200 policy_2_50) new_test_ext
    (Ok tt, registered_200).
Proof.
  exact (run_call_refines (Call_register_sponsor 200 policy_2_50)
           (signed_by 1) new_test_ext).
Defined.

Lemma new_test_ext_inv : chain_inv new_test_ext.
Proof. intros who. split; reflexivity. Qed.

Lemma dispatch_keeps_invariant_witness : chain_inv registered_200.
Proof.
  apply (dispatch_keeps_invariant (Call_register_sponsor 200 policy_2_50)
           (signed_by 1) new_test_ext (Ok tt));
    [reflexivity|exact new_test_ext_inv].
Defined.

Lemma dispatch_keeps_pending_witness :
  pending_on_hold (acct 1)
    (dispatch (Call_decrease_budget 193) (signed_by 1) in_flight_tip5).2 = 7.
Proof.
  etrans;
    [apply (dispatch_keeps_pending (Call_decrease_budget 193) (signed_by 1)
              in_flight_tip5 (Ok tt)); reflexivity|reflexivity].
Defined.

Lemma dispatch_conserves_and_isolates_witness :
  acc_total (view (acct 2) registered_200) = 1000
  ∧ view (acct 2) registered_200 = view (acct 2) new_test_ext.
Proof.
  destruct (dispatch_conserves_and_isolates (Call_register_sponsor 200 policy_2_50)
    (signed_by 1) new_test_ext (Ok tt) registered_200 (acct 2))
    as [Htot Hiso]; [reflexivity|].
  split; [rewrite Htot; reflexivity|apply Hiso; discriminate].
Defined.

Lemma failed_call_changes_nothing_witness :
  (run_call Call_unregister (signed_by 1) in_flight_tip5).2
  = in_flight_tip5.
Proof.
  apply (failed_call_changes_nothing Call_unregister (signed_by 1)
           in_flight_tip5 (Module PendingBudgetNotEmpty)). reflexivity.
Defined.

Lemma registered_200_ok : bal_ok (world registered_200).
Proof.
  apply (run_call_bal_ok (Call_register_sponsor 200 policy_2_50)
           (signed_by 1) new_test_ext);
    [apply new_test_ext_ok|reflexivity].
Qed.

Lemma unregister_returns_budget_witness :
  ∃ s', dispatch Call_unregister (signed_by 1) registered_200 = (Ok tt, s')
    ∧ free_balance (acct 1) (world s') = 1000.
Proof.
  destruct (unregister_returns_budget (signed_by 1) (acct 1)
    registered_200) as (s' & Hd & _ & Hf & _);
    [reflexivity|exact registered_200_ok|eexists; reflexivity|reflexivity|].
  exists s'. split; [exact Hd|]. rewrite Hf. reflexivity.
Defined.

Lemma register_unregister_roundtrip_witness :
  ∃ s2, dispatch Call_unregister (signed_by 1) registered_200 = (Ok tt, s2)
    ∧ view (acct 1) s2 = view (acct 1) new_test_ext.
Proof.
  apply (register_unregister_roundtrip (signed_by 1) (acct 1) 200
           policy_2_50 new_test_ext registered_200);
    [reflexivity|exact new_test_ext_ok|exact new_test_ext_inv|reflexivity].
Defined.

Lemma pause_resume_roundtrip_witness :
  ∃ s1 s2, dispatch Call_pause (signed_by 1) registered_200 = (Ok tt, s1)
    ∧ dispatch Call_resume (signed_by 1) s1 = (Ok tt, s2)
    ∧ sponsors s2 = sponsors registered_200.
Proof.
  destruct (pause_resume_roundtrip (signed_by 1) (acct 1)
    {| active := true; policy := policy_2_50 |} registered_200)
    as (s1 & s2 & H1 & H2 & _ & H3 & _); [reflexivity..|].
  exists s1, s2. split; [exact H1|split; [exact H2|exact H3]].
Defined.
