(* ===== verification/ExtensionTheorems.v ===== *)
(** * Theorems about the payment extension

    Validation, reservation and settlement of sponsored transactions, each with a run on the
    mock runtime where its hypotheses hold. *)

From S2P Require Import Prelude Types Frame Ledger Weights Payment Pallet SponsorSpec PalletProofs Extension ExtensionProofs Lifecycle Mock PalletTheorems.
Local Open Scope N_scope.

Section theorems.
Context {T : Config} {F : FungibleHold} {W : Weights} {P : TransactionPayment}.

Lemma err_invalid_iff {A} r r' :
  Err (A := A) (invalid r) = Err (invalid r') ↔ Some r = Some r'.
Proof. split; [destruct r, r'; try done; discriminate|by intros [= ->]]. Qed.

(** C9: validation of a transaction that names a sponsor writes nothing and
    accepts exactly when the origin is a signer, the sponsor is registered and active, the
    signer is on its allowlist, and the worst-case fee with tip fits both the fee cap and
    the budget on hold.  Otherwise it reports, with that rule's own code, the first rule
    broken in this order. *)
Theorem validate_decides self sp origin call info len imp src s :
  sponsor self = Some sp →
  let fee := worst_case_fee self info len s in
  let run := validate self origin call info len imp src s in
  run.2 = s
  ∧ (is_ok run.1 = true ↔ ∃ signer st,
       as_system_origin_signer origin = Some signer ∧ sponsors s !! sp = Some st
       ∧ active st = true ∧ signer ∈ bv_items (allowed_callers (policy st))
       ∧ fee ≤ max_fee_per_tx (policy st) ∧ fee ≤ budget_on_hold sp s)
  ∧ (∀ reason, run.1 = Err (invalid reason) ↔ refusal sp origin fee s = Some reason).
Proof.
  intros Hsp. cbn. rewrite (validate_sponsored self sp) by done. split; [done|]. cbn.
  unfold refusal. destruct (as_system_origin_signer origin) as [signer|]; cbn;
    [|split; [naive_solver|intros; apply err_invalid_iff]].
  destruct (sponsors s !! sp) as [st|] eqn:Hst; cbn;
    [|split; [naive_solver|intros; apply err_invalid_iff]].
  pose proof (policy_refusal_None st signer (worst_case_fee self info len s)
    (budget_on_hold sp s)) as Hnone.
  destruct (policy_refusal _ _ _ _) as [r|]; cbn; split.
  - split; [done|]. intros (? & ? & ? & ? & ?). simplify_eq. naive_solver.
  - intros reason. apply err_invalid_iff.
  - naive_solver.
  - done.
Qed.

(** Once a sponsor has paused, every transaction of a signer that
    names it is refused with [InactiveSponsor], whatever the call, fee and tip. *)
Theorem paused_sponsor_refuses o sp s s' self origin signer call info len imp src :
  ensure_signed o = Some sp → dispatch Call_pause o s = (Ok tt, s') →
  sponsor self = Some sp → as_system_origin_signer origin = Some signer →
  validate self origin call info len imp src s' = (Err (invalid InactiveSponsor), s').
Proof.
  intros Ho Hd%dispatch_ok Hsp Hor. rewrite (validate_sponsored self sp) by done.
  unfold refusal. rewrite Hor. revert Hd. exec. rewrite Ho. cbn.
  destruct (sponsors s !! sp) as [st|]; [|done].
  destruct (active st); cbn; intros; simplify_eq; cbn.
  by rewrite lookup_partial_alter_eq.
Qed.

Context {FS : FungibleHoldSpec F}.

(** C14: when the reservation of a validated transaction fails, the error is
    [InvalidTransaction::Payment], no other account and no sponsor record or event is
    affected, and the fee is either still in the budget or, when the second of the two
    moves failed, in the sponsor's free balance; no funds are lost. *)
Theorem prepare_failure self sp signer fee tp origin call info len s e s' :
  prepare self (Val_Sponsored sp signer fee tp) origin call info len s = (Err e, s') →
  e = Invalid_Payment ∧ sponsors s' = sponsors s ∧ events s' = events s ∧ others sp s s'
  ∧ (s' = s ∨ view sp s' = defund fee (view sp s))
  ∧ acc_total (view sp s') = acc_total (view sp s).
Proof.
  cbn. intros [H|(? & ? & _ & H)]%bind_err; [|by unfold mret, M_ret in H].
  apply move_budget_to_pending_err in H as (-> & [Hsp Hev] & Hoth & [->|[Hv Hle]]);
    split_and!; try done; [by left|by right|]. rewrite Hv. by apply defund_total.
Qed.

Context {L : FungibleHoldLive F}.

(** C13: a sponsored transaction that passed validation can always be
    prepared: the two moves succeed, the worst-case fee is moved from the sponsor's budget
    to pending, and nothing else changes. *)
Theorem prepare_succeeds self sp origin call info len imp src s v val o s1 :
  bal_ok (world s) → sponsor self = Some sp →
  validate self origin call info len imp src s = (Ok (v, val, o), s1) →
  ∃ pre s2, prepare self val o call info len s1 = (Ok pre, s2)
    ∧ view sp s2 = reserve (worst_case_fee self info len s) (view sp s)
    ∧ others sp s s2 ∧ sponsors s2 = sponsors s ∧ events s2 = events s.
Proof.
  intros Hok Hsp Hval. apply (validate_sponsored_ok _ sp) in Hval
    as (-> & _ & signer & st & _ & _ & _ & _ & _ & Hle & ->); [|done].
  destruct (move_budget_to_pending_live sp _ s Hok Hle) as (s2 & Hm & _).
  exists (Pre_Sponsored sp signer (worst_case_fee self info len s) (tip self)), s2.
  cbn. unfold mret, M_ret, mbind, M_bind. rewrite Hm. split; [done|].
  apply move_budget_to_pending_ok in Hm as (Hv & _ & Hoth & Hsps & Hev). done.
Qed.

(** A sponsored transaction whose sponsor unregisters in its own
    call cannot strand the reservation: while a non-zero fee is in flight, [unregister] by
    the sponsor fails with [PendingBudgetNotEmpty]. *)
Theorem self_unregister_fails self sp origin call info len imp src s v val o s1 pre s2 o' :
  sponsor self = Some sp → 0 < worst_case_fee self info len s →
  validate self origin call info len imp src s = (Ok (v, val, o), s1) →
  prepare self val o call info len s1 = (Ok pre, s2) →
  ensure_signed o' = Some sp →
  dispatch Call_unregister o' s2 = (Err (Module PendingBudgetNotEmpty), s2).
Proof.
  intros Hsp Hpos Hval Hprep Ho. apply (validate_sponsored_ok _ sp) in Hval
    as (-> & _ & signer & st & _ & Hst & _ & _ & _ & Hle & ->); [|done].
  apply prepare_sponsored_ok in Hprep as [-> Hm].
  apply move_budget_to_pending_ok in Hm as (Hv & _ & _ & Hsps & _).
  pose proof (run_call_refines_signed Call_unregister o' sp s2 Ho) as Href.
  unfold refines in Href. rewrite Hv in Href. cbn in Href. rewrite Hst in Href.
  rewrite decide_False in Href by lia.
  unfold dispatch, with_storage_layer. cbn in *. by rewrite Href.
Qed.
End theorems.

Section settlement_theorems.
Context {T : Config} {F : FungibleHold} {FS : FungibleHoldSpec F}.
Context {D : FeeDestination} {DS : FeeDestinationSpec D}.
Context {W : Weights} {P : TransactionPayment} (db : RuntimeDbWeight).

(** Settlement hands the fee destination exactly two credits, the fee
    part first, that add up to the amount charged; the tip part is the tip as far as the
    charge covers it.  The charge is the actual fee, never more than the estimate and never
    more than what is pending, and the event reports both numbers. *)
Theorem settlement_credit sp signer est tp info post_info len s :
  let charged := charged_fee sp est tp info post_info len s in
  ∃ w fee_credit tip_credit,
    world (settle_sponsored_fee db sp signer est tp info post_info len s).2
    = world (restore_pending_to_budget sp
               (set_world (on_unbalanceds [fee_credit; tip_credit] w) s))
    ∧ view sp (set_world w s) = take_pending charged (view sp s)
    ∧ peek tip_credit = N.min tp charged
    ∧ peek fee_credit + peek tip_credit = charged
    ∧ charged ≤ est ∧ charged ≤ actual_fee tp info post_info len s
    ∧ events (settle_sponsored_fee db sp signer est tp info post_info len s).2
      = events s ++ [SponsoredTransactionFeePaid sp signer charged (N.min tp charged)].
Proof.
  cbn. destruct (settle_spec db sp signer est tp info post_info len s)
    as (w & fc & tc & Heq & Htip & Hsum & Hv & _ & _). cbn in *.
  exists w, fc, tc. rewrite Heq. cbn.
  destruct (restore_pending_cases sp (set_world (on_unbalanceds [fc; tc] w) s))
    as ([_ Hev] & _).
  split_and!; try done; [unfold charged_fee; lia..|by rewrite Hev].
Qed.

(** C12: with a destination that pays nobody, settlement takes exactly
    the charge from the sponsor, even when the balances pallet refuses the later moves: free
    plus budget plus pending falls by the charge and every other account is untouched.  The
    rest of what was pending goes where the balances pallet, asked after the charge was taken
    and paid out, allows: it is released and held as budget again; it stays free exactly if
    the new hold is refused; and it stays pending exactly if the release is refused.  When the
    balances are in order neither is, and all of it is back in the budget. *)
Theorem settlement_loses_nothing {DB : FeeDestinationBurns D} {L : FungibleHoldLive F}
    {DL : FeeDestinationLive D L} sp signer est tp info post_info len s :
  let charged := charged_fee sp est tp info post_info len s in
  let s' := (settle_sponsored_fee db sp signer est tp info post_info len s).2 in
  let kept := take_pending charged (view sp s) in
  acc_total (view sp s') + charged = acc_total (view sp s)
  ∧ others sp s s'
  ∧ (∃ credit missing w tip_credit fee_credit,
       slash pending_hold_reason sp (N.min est (actual_fee tp info post_info len s)) (world s)
         = (credit, missing, w)
       ∧ split credit (N.min tp charged) = (tip_credit, fee_credit)
       ∧ let paid := set_world (on_unbalanceds [fee_credit; tip_credit] w) s in
         view sp paid = kept ∧ view sp s' = restored sp paid)
  ∧ (bal_ok (world s) → view sp s' = restore kept).
Proof.
  cbn. destruct (settle_spec db sp signer est tp info post_info len s)
    as (w & fc & tc & Heq & _ & _ & Hv & _ & c & m & Hslash & Hsplit). cbn in *.
  rewrite Heq. cbn. rewrite view_push_event.
  set (charged := charged_fee _ _ _ _ _ _ _) in *.
  assert (Hch : charged ≤ acc_pending (view sp s)) by apply N.le_min_r.
  set (s2 := set_world (on_unbalanceds [fc; tc] w) s).
  assert (Hs2 : view sp s2 = take_pending charged (view sp s))
    by (rewrite <- Hv; apply on_unbalanceds_burns).
  destruct (restore_pending_cases sp s2) as (_ & _ & Hres).
  split_and!.
  - rewrite Hres, restored_total, Hs2. unfold acc_total, take_pending. cbn in *. lia.
  - pose proof (settlement_others db sp signer est tp info post_info len s) as H.
    by rewrite Heq in H.
  - by exists c, m, w, tc, fc.
  - intros Hok. assert (Hok2 : bal_ok (world s2)) by (cbn; eauto with frame).
    destruct (restore_pending_live sp s2 Hok2) as [-> _]. by rewrite Hs2.
Qed.

(** C26: the signer of a sponsored transaction pays nothing, unless the signer is the
    sponsor: with a fee destination that pays nobody, validation, reservation and settlement
    leave the sponsor record, free balance and holds of every account but the sponsor as they
    were; what the dispatched call does to them in between is the call's own affair. *)
Theorem signer_pays_nothing {DB : FeeDestinationBurns D} self sp origin call info len imp src
    s v val o s1 pre s2 s3 post_info res r s4 signer :
  sponsor self = Some sp → signer ≠ sp →
  validate self origin call info len imp src s = (Ok (v, val, o), s1) →
  prepare self val o call info len s1 = (Ok pre, s2) →
  view signer s3 = view signer s2 →
  post_dispatch_details db pre info post_info len res s3 = (r, s4) →
  view signer s4 = view signer s.
Proof.
  intros Hsp Hne Hval Hprep Hmid Hpost. apply (validate_sponsored_ok _ sp) in Hval
    as (-> & _ & signer' & st & _ & _ & _ & _ & _ & _ & ->); [|done].
  apply prepare_sponsored_ok in Hprep as [-> Hm].
  apply move_budget_to_pending_ok in Hm as (_ & _ & Hoth & _).
  apply post_dispatch_sponsored in Hpost as (wt & _ & Hset).
  rewrite <- (Hoth _ Hne), <- Hmid.
  pose proof (settlement_others db sp signer' (worst_case_fee self info len s) (tip self) info
    post_info len s3 signer Hne) as Hs. by rewrite Hset in Hs.
Qed.

Context {L : FungibleHoldLive F} {DL : FeeDestinationLive D L}.

(** C10: a sponsored transaction from start to end.  It is validated and
    prepared on a chain where the sponsor has nothing pending; its call is any call of this
    pallet, by anyone; it is then settled.  Settlement succeeds, charges the actual fee
    clamped to the estimate, which is within the sponsor's fee cap; nothing stays pending;
    and the sponsor's budget after dispatch grows by exactly the unused part of the
    estimate. *)
Theorem sponsored_transaction self sp origin call info len imp src s v val o s1 pre s2
    c o' rd s3 post_info res r s4 :
  bal_ok (world s) → sponsor self = Some sp → pending_on_hold sp s = 0 →
  validate self origin call info len imp src s = (Ok (v, val, o), s1) →
  prepare self val o call info len s1 = (Ok pre, s2) →
  dispatch c o' s2 = (rd, s3) →
  post_dispatch_details db pre info post_info len res s3 = (r, s4) →
  let est := worst_case_fee self info len s in
  let charged := N.min est (actual_fee (tip self) info post_info len s3) in
  is_ok r = true
  ∧ (∃ st, sponsors s !! sp = Some st ∧ charged ≤ max_fee_per_tx (policy st))
  ∧ pending_on_hold sp s4 = 0
  ∧ budget_on_hold sp s4 + charged = budget_on_hold sp s3 + est
  ∧ ∃ signer, as_system_origin_signer origin = Some signer
      ∧ events s4 = events s3
          ++ [SponsoredTransactionFeePaid sp signer charged (N.min (tip self) charged)].
Proof.
  intros Hok Hsp Hp0 Hval Hprep Hd Hpost. cbn. apply (validate_sponsored_ok _ sp) in Hval
    as (-> & _ & signer & st & Hsig & Hst & _ & _ & Hcap & Hle & ->); [|done].
  apply prepare_sponsored_ok in Hprep as [-> Hm].
  destruct (move_budget_to_pending_live sp _ s Hok Hle) as (s2' & Hm' & Hok2).
  rewrite Hm in Hm'. simplify_eq.
  apply move_budget_to_pending_ok in Hm as (Hv & _ & _ & _ & _).
  pose proof (dispatch_bal_ok _ _ _ _ _ Hok2 Hd) as Hok3.
  pose proof (dispatch_pending_frame _ _ _ _ _ sp Hd) as Hp3.
  change (pending_on_hold sp s2') with (acc_pending (view sp s2')) in Hp3.
  rewrite Hv in Hp3. cbn in Hp3.
  apply post_dispatch_sponsored in Hpost as (wt & -> & Hset).
  apply (settle_live db) in Hset as (_ & Hp4 & Hb4 & _ & _ & Hev); [|done].
  unfold charged_fee in *. set (est := worst_case_fee self info len s) in *.
  replace (N.min (N.min est _) (pending_on_hold sp s3))
    with (N.min est (actual_fee (tip self) info post_info len s3)) in * by lia.
  split_and!; [done|exists st; split; [done|lia]|done|lia|by exists signer].
Qed.
End settlement_theorems.

(** ** Witnesses *)

Lemma registered_200_sponsor :
  sponsors registered_200 !! (acct 1) = Some {| active := true; policy := policy_2_50 |}.
Proof. reflexivity. Qed.

(** The validity the mock runtime gives to a sponsored remark with a tip of 5. *)
Definition remark_validity : ValidTransaction :=
  {| priority := 5; requires := []; provides := []; longevity := u64_max; propagate := true |}.

Lemma validate_remark :
  validate_as (Origin_signed 2) (ext_sponsored 5) registered_200
  = (Ok (remark_validity, Val_Sponsored (acct 1) (acct 2) 7 5, signed_by 2), registered_200).
Proof. reflexivity. Qed.

Lemma prepare_remark :
  prepare (ext_sponsored 5) (Val_Sponsored (acct 1) (acct 2) 7 5) (signed_by 2)
    remark_call remark_info 10 registered_200
  = (Ok (Pre_Sponsored (acct 1) (acct 2) 7 5), in_flight_tip5).
Proof. reflexivity. Qed.

Lemma validate_decides_witness :
  (validate_as (Origin_signed 3) (ext_sponsored 5) registered_200).1
  = Err (invalid CallerNotAllowed).
Proof.
  apply (validate_decides (ext_sponsored 5) (acct 1) (signed_by 3) remark_call
           remark_info 10 no_implication external_source registered_200);
    reflexivity.
Defined.

Definition paused_200 : Chain :=
  (dispatch Call_pause (signed_by 1) registered_200).2.

Lemma paused_sponsor_refuses_witness :
  validate_as (Origin_signed 2) (ext_sponsored 5) paused_200
  = (Err (invalid InactiveSponsor), paused_200).
Proof.
  apply (paused_sponsor_refuses (signed_by 1) (acct 1) registered_200 paused_200
           (ext_sponsored 5) (signed_by 2) (acct 2)); reflexivity.
Defined.

(** A ledger in which account 1 has funds on hold but no free balance: reserving fails at its
    second step there. *)
Definition no_deposit : Chain := {|
  world := {| free := ∅; held := {[ (acct 1, SponsorshipBudget) := 10 ]} |} : World;
  sponsors := ∅;
  events := [];
|}.

Lemma prepare_failure_witness :
  let run := prepare (ext_sponsored 0) (Val_Sponsored (acct 1) (acct 2) 4 0) (signed_by 2)
               remark_call remark_info 10 no_deposit in
  run.1 = Err Invalid_Payment ∧ budget_on_hold (acct 1) run.2 = 6
  ∧ acc_total (view (acct 1) run.2) = 10.
Proof.
  destruct (prepare_failure (ext_sponsored 0) (acct 1) (acct 2) 4 0 (signed_by 2)
    remark_call remark_info 10 no_deposit Invalid_Payment
    (prepare (ext_sponsored 0) (Val_Sponsored (acct 1) (acct 2) 4 0) (signed_by 2)
       remark_call remark_info 10 no_deposit).2) as (_ & _ & _ & _ & _ & Htot);
    [reflexivity|].
  split; [reflexivity|split; [reflexivity|rewrite Htot; reflexivity]].
Defined.

Lemma prepare_succeeds_witness :
  ∃ pre s2, prepare (ext_sponsored 5) (Val_Sponsored (acct 1) (acct 2) 7 5) (signed_by 2)
              remark_call remark_info 10 registered_200 = (Ok pre, s2)
    ∧ view (acct 1) s2 = reserve 7 (view (acct 1) registered_200).
Proof.
  destruct (prepare_succeeds (ext_sponsored 5) (acct 1) (signed_by 2) remark_call
    remark_info 10 no_implication external_source registered_200 _ _ _ _
    registered_200_ok eq_refl validate_remark) as (pre & s2 & Hp & Hv & _).
  exists pre, s2. split; [exact Hp|exact Hv].
Defined.

Lemma self_unregister_fails_witness :
  dispatch Call_unregister (signed_by 1) in_flight_tip5
  = (Err (Module PendingBudgetNotEmpty), in_flight_tip5).
Proof.
  apply (self_unregister_fails (ext_sponsored 5) (acct 1) (signed_by 2) remark_call
    remark_info 10 no_implication external_source registered_200 _ _ _ _ _ _ _
    eq_refl (eq_refl : 0 < 7) validate_remark prepare_remark). reflexivity.
Defined.

Lemma settlement_credit_witness :
  ∃ fee_credit tip_credit : Credit,
    peek tip_credit = 5 ∧ peek fee_credit + peek tip_credit = 6.
Proof.
  destruct (settlement_credit mock_db (acct 1) (acct 2) 7 5 remark_info
    (post_info 1) 10 in_flight_tip5)
    as (w & fc & tc & _ & _ & Ht & Hsum & _).
  exists fc, tc. split; [exact Ht|exact Hsum].
Defined.

Lemma in_flight_tip5_ok : bal_ok (world in_flight_tip5).
Proof.
  destruct (move_budget_to_pending_live (acct 1) 7 registered_200 registered_200_ok)
    as (s' & Hm & Hok); [by vm_compute|].
  assert (s' = in_flight_tip5) as <-; [|done].
  change s' with (Ok (E := TransactionValidityError) tt, s').2. by rewrite <- Hm.
Qed.

Lemma settlement_loses_nothing_witness :
  acc_total (view (acct 1) settled_tip5) + 6 = 1000
  ∧ view (acct 1) settled_tip5 = restore (take_pending 6 (view (acct 1) in_flight_tip5)).
Proof.
  destruct (settlement_loses_nothing mock_db (acct 1) (acct 2) 7 5 remark_info
    (post_info 1) 10 in_flight_tip5) as (Htot & _ & _ & Hres).
  split; [exact Htot|exact (Hres in_flight_tip5_ok)].
Defined.

Lemma signer_pays_nothing_witness :
  view (acct 2) settled_tip5 = view (acct 2) registered_200.
Proof.
  eapply (signer_pays_nothing mock_db (ext_sponsored 5) (acct 1) (signed_by 2)
    remark_call remark_info 10 no_implication external_source
    registered_200 _ _ _ _ _ in_flight_tip5 in_flight_tip5
    (post_info 1) dispatch_ok_result);
    [reflexivity|discriminate|exact validate_remark|exact prepare_remark|reflexivity
    |reflexivity].
Defined.

Lemma sponsored_transaction_witness :
  budget_on_hold (acct 1) settled_tip5 + 6 = 193 + 7
  ∧ pending_on_hold (acct 1) settled_tip5 = 0.
Proof.
  destruct (sponsored_transaction mock_db (ext_sponsored 5) (acct 1) (signed_by 2)
    remark_call remark_info 10 no_implication external_source
    registered_200 _ _ _ _ _ in_flight_tip5 Call_unregister (signed_by 1)
    (Err (Module PendingBudgetNotEmpty)) in_flight_tip5
    (post_info 1) dispatch_ok_result
    (Ok (reads_writes mock_db 7 7)) settled_tip5
    registered_200_ok eq_refl eq_refl validate_remark prepare_remark eq_refl eq_refl)
    as (_ & _ & Hp & Hb & _).
  split; [exact Hb|exact Hp].
Defined.
