(* ===== verification/LifecycleTheorems.v ===== *)
(** * Theorems about reachable states

    What holds however pallet calls, other pallets' activity and sponsored transactions
    interleave, from a chain without sponsors on. *)

From S2P Require Import Prelude Types Frame Ledger Weights Payment Pallet SponsorSpec PalletProofs Extension ExtensionProofs Lifecycle Mock PalletTheorems ExtensionTheorems.
Local Open Scope N_scope.

Section theorems.
Context {T : Config} {F : FungibleHold} {FS : FungibleHoldSpec F} {L : FungibleHoldLive F}.
Context {D : FeeDestination} {DS : FeeDestinationSpec D} {DL : FeeDestinationLive D L}.
Context {W : Weights} {P : TransactionPayment} (db : RuntimeDbWeight).

(** C3: in every reachable state registered sponsors have valid policies;
    accounts that are not registered have nothing on hold under either reason; and the
    pending hold of each account is exactly what is in flight for it: the estimate of the
    transaction between preparation and settlement for its sponsor, zero for everyone else
    and between transactions. *)
Theorem reachable_invariant ph s :
  reachable db (ph, s) →
  (∀ who st, sponsors s !! who = Some st →
     bv_items (allowed_callers (policy st)) ≠ []
     ∧ NoDup (bv_items (allowed_callers (policy st))))
  ∧ (∀ who, sponsors s !! who = None →
       budget_on_hold who s = 0 ∧ pending_on_hold who s = 0)
  ∧ (∀ who, pending_on_hold who s = in_flight who ph).
Proof.
  intros [_ Hinv Hpen _]%reachable_is_good. cbn in *. split_and!; [| |done].
  - intros who st Hst. specialize (Hinv who). unfold acc_inv in Hinv. cbn in Hinv.
    rewrite Hst in Hinv. by apply policy_fault_None.
  - intros who Hst. specialize (Hinv who). unfold acc_inv in Hinv. cbn in Hinv.
    by rewrite Hst in Hinv.
Qed.

(** The pallet's events are a complete account of the escrow:
    replaying them (registration and increases add, decreases and fees subtract,
    unregistration clears) gives, in every reachable state and for every account, exactly
    the funds it has on hold, budget and pending together. *)
Theorem events_account_for_escrow ph s who :
  reachable db (ph, s) →
  replay who (events s) = budget_on_hold who s + pending_on_hold who s.
Proof. intros [_ _ _ Hev]%reachable_is_good. apply Hev. Qed.

(** C25: between transactions a registered sponsor can always
    unregister and gets the whole budget back. *)
Theorem idle_sponsor_can_leave s who o :
  reachable db (Idle, s) → is_Some (sponsors s !! who) → ensure_signed o = Some who →
  ∃ s', dispatch Call_unregister o s = (Ok tt, s')
    ∧ sponsors s' !! who = None
    ∧ free_balance who (world s') = free_balance who (world s) + budget_on_hold who s.
Proof.
  intros [Hok _ Hpen _]%reachable_is_good Hreg Ho. cbn in *.
  destruct (unregister_live o who s) as [s' Hrun]; [done..|apply Hpen|].
  exists s'. split; [by apply dispatch_ok|].
  pose proof (unregister_ok_view _ _ _ _ Ho Hrun) as Hv.
  split; [by apply (f_equal acc_state) in Hv|by apply (f_equal acc_free) in Hv].
Qed.

(** C2: whatever happened during dispatch, a transaction in flight in a
    reachable state settles: the settlement succeeds and ends the transaction, the slash
    finds the full reservation, so the charge is the actual fee clamped to the estimate;
    pending is empty and the budget has grown by the unused part. *)
Theorem in_flight_settles sp signer est tp s info post_info len res :
  reachable db (InFlight sp signer est tp, s) →
  let charged := N.min est (actual_fee tp info post_info len s) in
  ∃ wt s',
    post_dispatch_details db (Pre_Sponsored sp signer est tp) info post_info len res s
      = (Ok wt, s')
    ∧ reachable db (Idle, s')
    ∧ pending_on_hold sp s' = 0
    ∧ budget_on_hold sp s' + charged = budget_on_hold sp s + est
    ∧ events s' = events s
        ++ [SponsoredTransactionFeePaid sp signer charged (N.min tp charged)].
Proof.
  intros Hreach. pose proof (reachable_is_good _ _ Hreach) as [Hok _ Hpen _]. cbn in *.
  destruct (settle_sponsored_fee db sp signer est tp info post_info len s) as [wt s'] eqn:Hset.
  exists wt, s'. split; [done|]. specialize (Hpen sp). rewrite decide_True in Hpen by done.
  split.
  { destruct Hreach as (m0 & H0 & Hsteps). exists m0. split; [done|].
    eapply rtc_r; [done|]. apply (step_settle db _ _ _ _ info post_info len res _ wt).
    cbn. by rewrite Hset. }
  apply (settle_live db) in Hset as (_ & Hp & Hb & _ & _ & Hev); [|done].
  unfold charged_fee in *. rewrite Hpen in *.
  replace (N.min (N.min est _) est)
    with (N.min est (actual_fee tp info post_info len s)) in * by lia.
  split_and!; [done|lia|done].
Qed.
End theorems.

(** ** Witnesses *)

Lemma new_test_ext_initial : initial (Idle, new_test_ext).
Proof. split_and!; [done..|exact new_test_ext_ok|intros; reflexivity]. Qed.

Lemma registered_200_reachable : reachable mock_db (Idle, registered_200).
Proof.
  exists (Idle, new_test_ext). split; [exact new_test_ext_initial|].
  apply rtc_once. apply (step_dispatch mock_db Idle new_test_ext
    (Call_register_sponsor 200 policy_2_50) (signed_by 1) (Ok tt)). reflexivity.
Qed.

Lemma in_flight_tip5_reachable :
  reachable mock_db (InFlight (acct 1) (acct 2) 7 5, in_flight_tip5).
Proof.
  destruct registered_200_reachable as (m0 & H0 & Hsteps). exists m0. split; [exact H0|].
  eapply rtc_r; [exact Hsteps|].
  exact (step_prepare mock_db (ext_sponsored 5) (signed_by 2) remark_call remark_info 10
           no_implication external_source registered_200 _ _ _ _ _ _ _ _
           validate_remark prepare_remark).
Qed.

Lemma reachable_invariant_witness :
  pending_on_hold (acct 1) in_flight_tip5 = 7 ∧ pending_on_hold (acct 2) in_flight_tip5 = 0.
Proof.
  destruct (reachable_invariant mock_db _ _ in_flight_tip5_reachable) as (_ & _ & Hpen).
  split; [exact (Hpen (acct 1))|exact (Hpen (acct 2))].
Defined.

Lemma events_account_for_escrow_witness :
  replay (acct 1) (events in_flight_tip5) = 193 + 7.
Proof.
  exact (events_account_for_escrow mock_db _ _ (acct 1) in_flight_tip5_reachable).
Defined.

Lemma idle_sponsor_can_leave_witness :
  ∃ s', dispatch Call_unregister (signed_by 1) registered_200 = (Ok tt, s')
    ∧ free_balance (acct 1) (world s') = 800 + 200.
Proof.
  destruct (idle_sponsor_can_leave mock_db registered_200 (acct 1) (signed_by 1)
    registered_200_reachable) as (s' & Hd & _ & Hf); [eexists; reflexivity|reflexivity|].
  exists s'. split; [exact Hd|exact Hf].
Defined.

Lemma in_flight_settles_witness :
  ∃ wt s', post_dispatch_details mock_db (Pre_Sponsored (acct 1) (acct 2) 7 5) remark_info
             (post_info 1) 10 dispatch_ok_result in_flight_tip5 = (Ok wt, s')
    ∧ budget_on_hold (acct 1) s' + 6 = 193 + 7.
Proof.
  destruct (in_flight_settles mock_db (acct 1) (acct 2) 7 5 in_flight_tip5 remark_info
    (post_info 1) 10 dispatch_ok_result in_flight_tip5_reachable)
    as (wt & s' & Hp & _ & _ & Hb & _).
  exists wt, s'. split; [exact Hp|exact Hb].
Defined.
