(* ===== verification/Template.v ===== *)
(** * The template pallet

    [pallets/template/src/lib.rs] and its [weights.rs]: one stored block number, a call that
    sets it and a call that increments it and fails on overflow. *)

From S2P Require Import Prelude Weights.
Local Open Scope N_scope.

Module Template.

(** The runtime's types the pallet is generic in.  A [u32] converts into a block number
    without loss. *)
Class Config : Type := {
  AccountId : Type;
  RuntimeOrigin : Type;
  ensure_signed : RuntimeOrigin → option AccountId;
  block_number_max : N;
  block_number_from_u32 : u32_max ≤ block_number_max;
}.

Section template.
Context {T : Config}.

(** A struct to store a single block number. *)
Record CompositeStruct : Type := { block_number : N }.

Inductive Event : Type :=
| SomethingStored (block_number : N) (who : AccountId).

Inductive Error : Set :=
| NoneValue
| StorageOverflow.

Inductive DispatchError : Set :=
| BadOrigin
| Module (e : Error).

Record Chain : Type := {
  Something : option CompositeStruct;
  events : list Event;
}.

Definition put (v : CompositeStruct) (s : Chain) : Chain :=
  {| Something := Some v; events := events s |}.
Definition push_event (e : Event) (s : Chain) : Chain :=
  {| Something := Something s; events := events s ++ [e] |}.

Definition signed (origin : RuntimeOrigin) : M Chain DispatchError AccountId :=
  lift_result (ok_or (ensure_signed origin) BadOrigin).

(** Store the block number [bn], a [u32], and emit an event. *)
Definition do_something (origin : RuntimeOrigin) (bn : N) : M Chain DispatchError unit :=
  who ← signed origin;
  let block_number := bn in
  _ ← modify (put {| block_number := block_number |});
  _ ← modify (push_event (SomethingStored block_number who));
  mret tt.

(** Increment the stored block number. *)
Definition cause_error (origin : RuntimeOrigin) : M Chain DispatchError unit :=
  _ ← signed origin;
  value ← gets Something;
  match value with
  | None => lift_result (Err (Module NoneValue))
  | Some old =>
      n ← lift_result (ok_or (checked_add block_number_max (block_number old) 1)
                         (Module StorageOverflow));
      _ ← modify (put {| block_number := n |});
      mret tt
  end.

(** [n] increments in a row. *)
Fixpoint cause_errors (n : nat) (origin : RuntimeOrigin) : M Chain DispatchError unit :=
  match n with
  | O => mret tt
  | S n => _ ← cause_error origin; cause_errors n origin
  end.

Lemma cause_error_spec o who v s :
  ensure_signed o = Some who → Something s = Some v →
  cause_error o s
  = if decide (block_number v < block_number_max)
    then (Ok tt, put {| block_number := block_number v + 1 |} s)
    else (Err (Module StorageOverflow), s).
Proof.
  intros Ho Hv. unfold cause_error, signed, lift_result, gets, modify, mret, M_ret, mbind,
    M_bind. rewrite Ho. cbn. rewrite Hv. unfold checked_add.
  destruct (N.leb_spec (block_number v + 1) block_number_max); cbn;
    [by rewrite decide_True by lia|by rewrite decide_False by lia].
Qed.

Lemma cause_errors_spec n o who v s :
  ensure_signed o = Some who → Something s = Some v →
  block_number v + N.of_nat n ≤ block_number_max →
  ∃ s', cause_errors n o s = (Ok tt, s')
    ∧ Something s' = Some {| block_number := block_number v + N.of_nat n |}
    ∧ events s' = events s.
Proof.
  intros Ho. revert v s. induction n as [|n IH]; intros v s Hv Hle.
  - exists s. split_and!; [done| |done]. rewrite Hv. f_equal. destruct v. cbn. f_equal. lia.
  - cbn [cause_errors]. unfold mbind at 1, M_bind at 1.
    rewrite (cause_error_spec o who v) by done. rewrite decide_True by lia.
    destruct (IH {| block_number := block_number v + 1 |}
      (put {| block_number := block_number v + 1 |} s)) as (s' & -> & Hs' & Hev);
      [done|cbn; lia|].
    exists s'. split_and!; [done| |done]. rewrite Hs'. do 2 f_equal. cbn. lia.
Qed.

(** The stored number counts.  After [do_something(bn)] any number [n] of
    [cause_error] calls succeeds as long as [bn + n] fits the block number type, and leaves
    [bn + n] stored and the one event; the call after the greatest value was reached fails
    with [StorageOverflow] and changes nothing; before any [do_something] the call fails
    with [NoneValue]. *)
Theorem template_counts o who bn n s s1 :
  ensure_signed o = Some who → bn + N.of_nat n ≤ block_number_max →
  do_something o bn s = (Ok tt, s1) →
  (∃ s2, cause_errors n o s1 = (Ok tt, s2)
     ∧ Something s2 = Some {| block_number := bn + N.of_nat n |}
     ∧ events s2 = events s ++ [SomethingStored bn who]
     ∧ (bn + N.of_nat n = block_number_max →
        cause_error o s2 = (Err (Module StorageOverflow), s2)))
  ∧ (Something s = None → cause_error o s = (Err (Module NoneValue), s)).
Proof.
  intros Ho Hle Hdo. unfold do_something, signed, lift_result, modify, mret, M_ret, mbind,
    M_bind in Hdo. rewrite Ho in Hdo. cbn in Hdo. simplify_eq. split.
  - destruct (cause_errors_spec n o who {| block_number := bn |}
      (push_event (SomethingStored bn who) (put {| block_number := bn |} s)))
      as (s2 & Hrun & Hs2 & Hev); [done..|].
    exists s2. split_and!; [done..|]. intros Hmax.
    rewrite (cause_error_spec o who _ s2 Ho Hs2). cbn. by rewrite decide_False by lia.
  - intros Hnone. unfold cause_error, signed, lift_result, gets, mbind, M_bind.
    rewrite Ho. cbn. by rewrite Hnone.
Qed.

(** ** Benchmarks

    [benchmarking.rs]: each prepares the storage, makes the measured call and checks what is
    stored. *)

Definition stored : M Chain DispatchError (option N) :=
  gets (λ s, block_number <$> Something s).

Definition bench_do_something (caller : RuntimeOrigin) : M Chain DispatchError bool :=
  _ ← do_something caller 100;
  v ← stored;
  mret (bool_decide (v = Some 100)).

Definition bench_cause_error (caller : RuntimeOrigin) : M Chain DispatchError bool :=
  _ ← modify (put {| block_number := 100 |});
  _ ← cause_error caller;
  v ← stored;
  mret (bool_decide (v = Some 101)).

(** Both benchmarks succeed in every runtime and from every state. *)
Theorem benchmarks_succeed o who s :
  ensure_signed o = Some who →
  (bench_do_something o s).1 = Ok true ∧ (bench_cause_error o s).1 = Ok true.
Proof.
  intros Ho. pose proof block_number_from_u32 as Hmax. change u32_max with 4294967295 in Hmax.
  unfold bench_do_something, bench_cause_error, stored, do_something, signed, lift_result, gets,
    modify, mret, M_ret, mbind, M_bind. rewrite Ho. split; [done|].
  rewrite (cause_error_spec o who {| block_number := 100 |}) by done. cbn.
  by rewrite decide_True by lia.
Qed.
End template.

(** ** Weights of the template pallet *)

Class WeightInfo {W : Weights} : Type := {
  weight_do_something : Weight;
  weight_cause_error : Weight;
}.

Definition SubstrateWeight {W : Weights} (db : RuntimeDbWeight) : WeightInfo := {|
  weight_do_something := weight_saturating_add (from_parts 9000000 0) (writes db 1);
  weight_cause_error :=
    weight_saturating_add (weight_saturating_add (from_parts 6000000 1489) (reads db 1))
      (writes db 1);
|}.

Definition unit_WeightInfo {W : Weights} (rocksdb : RuntimeDbWeight) : WeightInfo := {|
  weight_do_something := weight_saturating_add (from_parts 9000000 0) (writes rocksdb 1);
  weight_cause_error :=
    weight_saturating_add (weight_saturating_add (from_parts 6000000 1489) (reads rocksdb 1))
      (writes rocksdb 1);
|}.

(** The weights the dispatchables declare in their [pallet::weight] attributes. *)
Definition declared_do_something {W : Weights} (db : RuntimeDbWeight) : Weight :=
  weight_add (from_parts 10000 0) (writes db 1).

Definition declared_cause_error {W : Weights} (db : RuntimeDbWeight) : Weight :=
  weight_add (from_parts 10000 0) (reads_writes db 1 1).

(** The weights the two dispatchables declare are not those of the
    pallet's [WeightInfo].  Whatever the database costs, each declares some microseconds less
    than [SubstrateWeight] measures, and [cause_error] no proof size at all. *)
Theorem template_weights {W : Weights} {WS : WeightsSpec W} (db : RuntimeDbWeight) :
  read db + write db + 9000000 ≤ u64_max →
  ref_time (@weight_do_something _ (SubstrateWeight db))
    = ref_time (declared_do_something db) + 8990000
  ∧ ref_time (@weight_cause_error _ (SubstrateWeight db))
    = ref_time (declared_cause_error db) + 5990000
  ∧ proof_size (@weight_cause_error _ (SubstrateWeight db)) = 1489
  ∧ proof_size (declared_cause_error db) = 0.
Proof.
  intros Hdb. unfold declared_do_something, declared_cause_error. cbn.
  rewrite !ref_time_plus, !proof_size_plus;
    autorewrite with weights; unfold saturating_add, saturating_mul, u64_max in *; lia.
Qed.

Lemma template_weights_witness :
  let db := {| read := 25000000; write := 100000000 |} in
  ref_time (@weight_do_something _ (SubstrateWeight db)) = 109000000.
Proof.
  intros db. destruct (template_weights db) as [-> _]; [by vm_compute|reflexivity].
Defined.

(** The mock runtime of the template: accounts are numbers, block numbers are 64-bit. *)
Definition mock_config : Config.
Proof.
  refine {| AccountId := N; RuntimeOrigin := option N; ensure_signed := id;
            block_number_max := u64_max |}.
  by vm_compute.
Defined.

Definition mock_signer : @AccountId mock_config := 1.
Definition mock_origin : @RuntimeOrigin mock_config := Some 1.
Definition mock_genesis : @Chain mock_config := {| Something := None; events := [] |}.

(** The tests of the suite. *)
Definition it_works_for_default_value : bool :=
  match do_something mock_origin 42 mock_genesis with
  | (Ok _, s) => bool_decide (block_number <$> Something s = Some 42)
  | (Err _, _) => false
  end.

Definition correct_error_for_none_value : Prop :=
  cause_error mock_origin mock_genesis = (Err (Module NoneValue), mock_genesis).

Example template_tests_pass : it_works_for_default_value = true ∧ correct_error_for_none_value.
Proof. split; reflexivity. Qed.

Lemma template_counts_witness :
  let s1 := (do_something mock_origin 100 mock_genesis).2 in
  ∃ s2, cause_errors 1 mock_origin s1 = (Ok tt, s2)
    ∧ Something s2 = Some {| block_number := 101 |}.
Proof.
  intros s1.
  destruct (template_counts mock_origin mock_signer 100 1 mock_genesis s1)
    as [(s2 & H1 & H2 & _) _]; [reflexivity|by vm_compute|reflexivity|].
  exists s2. split; [exact H1|exact H2].
Defined.

End Template.
