(* ===== verification/Runtime.v ===== *)
(** * The runtime's parameters

    [runtime/src/lib.rs], [runtime/src/configs/mod.rs] and [runtime/src/weights/]: units of
    time and currency, database and extrinsic weights, the block weight limits, the
    conversion of weight to fee, and the types the runtime gives to the sponsored-tx pallet.

    [Perbill], the builder of block weights and the evaluation of a fee polynomial are SDK
    code: classes of operations with their documented laws. *)

From S2P Require Import Prelude Types Frame Weights Pallet.
Local Open Scope N_scope.

(** ** Units *)

Definition MILLI_SECS_PER_BLOCK : N := 6000.
Definition SLOT_DURATION : N := MILLI_SECS_PER_BLOCK.

(** Time is measured by number of blocks. *)
Definition MINUTES : N := 60000 / as_u32 MILLI_SECS_PER_BLOCK.
Definition HOURS : N := MINUTES * 60.
Definition DAYS : N := HOURS * 24.

Definition UNIT : N := 1000000000000.
Definition CENTS : N := UNIT / 100.
Definition MILLI_UNIT : N := 1000000000.
Definition MICRO_UNIT : N := 1000000.

Definition EXISTENTIAL_DEPOSIT : N := MILLI_UNIT.

Definition UNINCLUDED_SEGMENT_CAPACITY : N := 3.
Definition BLOCK_PROCESSING_VELOCITY : N := 1.
Definition RELAY_CHAIN_SLOT_DURATION_MILLIS : N := 6000.

(** ** Constants of the configured pallets *)

Definition TransactionByteFee : N := 10 * MICRO_UNIT.
Definition MaxSponsoredCallers : N := 32.
Definition OperationalFeeMultiplier : N := 5.
Definition ToSiblingBaseDeliveryFee : N := saturating_mul u128_max CENTS 3.
Definition ToParentBaseDeliveryFee : N := saturating_mul u128_max CENTS 3.
Definition Period : N := 6 * HOURS.
Definition Offset : N := 0.
Definition SessionLength : N := 6 * HOURS.
Definition KickThreshold : N := Period.
Definition MaxCandidates : N := 100.
Definition MinEligibleCollators : N := 4.
Definition MaxInvulnerables : N := 20.
Definition SS58Prefix : N := 42.

(** ** The SDK's arithmetic *)

Class SdkWeights {W : Weights} : Type := {
  WEIGHT_REF_TIME_PER_NANOS : N;
  WEIGHT_REF_TIME_PER_MICROS : N;
  WEIGHT_REF_TIME_PER_MILLIS : N;
  WEIGHT_REF_TIME_PER_SECOND : N;
  MAX_POV_SIZE : N;
  Perbill : Type;
  from_percent : N → Perbill;
  from_rational : N → N → Perbill;
  perbill_mul : Perbill → N → N;
  perbill_mul_weight : Perbill → Weight → Weight;
  weight_sub : Weight → Weight → Weight;
  weight_saturating_div : Weight → N → Weight;
}.

(** A weight unit is a picosecond; [Perbill] counts billionths, and a product that needs no
    rounding is exact.  [parts] is [Perbill::deconstruct]. *)
Class SdkWeightsSpec {W : Weights} (K : SdkWeights) : Type := {
  per_nanos : WEIGHT_REF_TIME_PER_NANOS = 1000;
  per_micros : WEIGHT_REF_TIME_PER_MICROS = 1000 * 1000;
  per_millis : WEIGHT_REF_TIME_PER_MILLIS = 1000 * 1000 * 1000;
  per_second : WEIGHT_REF_TIME_PER_SECOND = 1000 * 1000 * 1000 * 1000;
  parts : Perbill → N;
  parts_from_percent p : p ≤ 100 → parts (from_percent p) = p * 10000000;
  parts_from_rational p q k :
    0 < q → p ≤ q → p * 1000000000 = k * q → parts (from_rational p q) = k;
  perbill_mul_exact r x y : parts r * x = y * 1000000000 → perbill_mul r x = y;
  ref_time_mul r w : ref_time (perbill_mul_weight r w) = perbill_mul r (ref_time w);
  proof_size_mul r w : proof_size (perbill_mul_weight r w) = perbill_mul r (proof_size w);
  perbill_mul_le r x : perbill_mul r x ≤ x;
  ref_time_sub a b :
    ref_time b ≤ ref_time a → ref_time (weight_sub a b) = ref_time a - ref_time b;
  proof_size_sub a b :
    proof_size b ≤ proof_size a → proof_size (weight_sub a b) = proof_size a - proof_size b;
  ref_time_div a n : 0 < n → ref_time (weight_saturating_div a n) = ref_time a / n;
}.

Section runtime_weights.
Context {W : Weights} {K : SdkWeights}.

Definition BlockExecutionWeight : Weight :=
  from_parts (saturating_mul u64_max WEIGHT_REF_TIME_PER_NANOS 5000000) 0.

Definition ExtrinsicBaseWeight : Weight :=
  from_parts (saturating_mul u64_max WEIGHT_REF_TIME_PER_NANOS 125000) 0.

Definition RocksDbWeight : RuntimeDbWeight := {|
  read := 25000 * WEIGHT_REF_TIME_PER_NANOS;
  write := 100000 * WEIGHT_REF_TIME_PER_NANOS;
|}.

Definition ParityDbWeight : RuntimeDbWeight := {|
  read := 8000 * WEIGHT_REF_TIME_PER_NANOS;
  write := 50000 * WEIGHT_REF_TIME_PER_NANOS;
|}.

(** ** The weight files' tests

    Each file checks its weights against a range. *)

Definition block_weights_sane : bool :=
  let w := BlockExecutionWeight in
  (100 * WEIGHT_REF_TIME_PER_MICROS <=? ref_time w)
  && (ref_time w <=? 50 * WEIGHT_REF_TIME_PER_MILLIS).

Definition extrinsic_weights_sane : bool :=
  let w := ExtrinsicBaseWeight in
  (10 * WEIGHT_REF_TIME_PER_MICROS <=? ref_time w)
  && (ref_time w <=? WEIGHT_REF_TIME_PER_MILLIS).

Definition db_weights_sane (w : RuntimeDbWeight) : bool :=
  (WEIGHT_REF_TIME_PER_MICROS <=? ref_time (reads w 1))
  && (WEIGHT_REF_TIME_PER_MICROS <=? ref_time (writes w 1))
  && (ref_time (reads w 1) <=? WEIGHT_REF_TIME_PER_MILLIS)
  && (ref_time (writes w 1) <=? WEIGHT_REF_TIME_PER_MILLIS).

Definition rocksdb_weights_sane : bool := db_weights_sane RocksDbWeight.
Definition paritydb_weights_sane : bool := db_weights_sane ParityDbWeight.

Definition AVERAGE_ON_INITIALIZE_RATIO : Perbill := from_percent 5.
Definition NORMAL_DISPATCH_RATIO : Perbill := from_percent 75.

Definition MAXIMUM_BLOCK_WEIGHT : Weight :=
  from_parts (saturating_mul u64_max WEIGHT_REF_TIME_PER_SECOND 2) MAX_POV_SIZE.

Definition ReservedXcmpWeight : Weight := weight_saturating_div MAXIMUM_BLOCK_WEIGHT 4.
Definition ReservedDmpWeight : Weight := weight_saturating_div MAXIMUM_BLOCK_WEIGHT 4.

(** The arguments the runtime passes to the [BlockWeights] builder. *)
Record BlockWeightsArgs : Type := {
  base_block : Weight;
  base_extrinsic : Weight;
  normal_max_total : Weight;
  operational_max_total : Weight;
  operational_reserved : Weight;
  avg_block_initialization : Perbill;
}.

Definition RuntimeBlockWeights : BlockWeightsArgs := {|
  base_block := BlockExecutionWeight;
  base_extrinsic := ExtrinsicBaseWeight;
  normal_max_total := perbill_mul_weight NORMAL_DISPATCH_RATIO MAXIMUM_BLOCK_WEIGHT;
  operational_max_total := MAXIMUM_BLOCK_WEIGHT;
  operational_reserved :=
    weight_sub MAXIMUM_BLOCK_WEIGHT
      (perbill_mul_weight NORMAL_DISPATCH_RATIO MAXIMUM_BLOCK_WEIGHT);
  avg_block_initialization := AVERAGE_ON_INITIALIZE_RATIO;
|}.

(** ** Weight to fee *)

Record WeightToFeeCoefficient : Type := {
  degree : N;
  negative : bool;
  coeff_frac : Perbill;
  coeff_integer : N;
}.

(** [WeightToFee::polynomial]. *)
Definition polynomial : list WeightToFeeCoefficient :=
  let p := MILLI_UNIT / 10 in
  let q := 100 * ref_time ExtrinsicBaseWeight in
  [{| degree := 1; negative := false;
      coeff_frac := from_rational (p mod q) q; coeff_integer := p / q |}].
End runtime_weights.

(** [WeightToFeePolynomial::weight_to_fee]: the value of a polynomial at a weight.  On a
    single positive term of degree one it is the sum of the fractional and the integer
    part. *)
Class FeePolynomial {W : Weights} {K : SdkWeights} : Type :=
  weight_to_fee : list WeightToFeeCoefficient → Weight → N.

Class FeePolynomialSpec {W : Weights} {K : SdkWeights} (FP : FeePolynomial) : Prop :=
  weight_to_fee_linear c w :
    degree c = 1 → negative c = false →
    weight_to_fee [c] w
    = saturating_add u128_max (perbill_mul (coeff_frac c) (ref_time w))
        (saturating_mul u128_max (coeff_integer c) (ref_time w)).

(** ** The sponsored-tx pallet in the runtime *)

(** The weight each dispatchable of the pallet declares. *)
Definition call_weight {T : Config} {W : Weights} (WI : WeightInfo) (c : Call) : Weight :=
  match c with
  | Call_register_sponsor _ _ => weight_register_sponsor
  | Call_increase_budget _ => weight_increase_budget
  | Call_decrease_budget _ => weight_decrease_budget
  | Call_set_policy _ => weight_set_policy
  | Call_pause => weight_pause
  | Call_resume => weight_resume
  | Call_unregister => weight_unregister
  end.

(** [impl pallet_sponsored_tx::Config for Runtime], over the account, origin and storage
    types of the SDK: balances and fees are both [u128], hold reasons are this pallet's or
    another pallet's. *)
Definition runtime_Config (Account Origin OtherReason Storage DispatchErr InvalidErr : Type)
    `{Countable Account} `{EqDecision OtherReason}
    (signed signer : Origin → option Account) : Config := {|
  AccountId := Account;
  RuntimeOrigin := Origin;
  ensure_signed := signed;
  as_system_origin_signer := signer;
  RuntimeHoldReason := HoldReason + OtherReason;
  from_hold_reason := inl;
  MaxAllowedCallers := MaxSponsoredCallers;
  balance_max := u128_max;
  fee_balance_max := u128_max;
  World := Storage;
  OtherError := DispatchErr;
  OtherInvalid := InvalidErr;
|}.

(** ** Settings of the SDK's pallets

    The numbers in [configs/mod.rs] that the SDK's pallets are configured with. *)

Definition MaxConsumers : N := 16.
Definition MinimumPeriod : N := 0.
Definition ExistentialDeposit : N := EXISTENTIAL_DEPOSIT.
Definition MaxLocks : N := 50.
Definition MaxReserves : N := 50.
Definition RelayParentOffset : N := 0.
Definition MessageQueue_HeapSize : N := 103 * 1024.
Definition MessageQueue_MaxStale : N := 8.
Definition MaxInboundSuspended : N := 1000.
Definition MaxActiveOutboundChannels : N := 128.
Definition MaxPageSize : N := N.shiftl 1 16.
Definition MaxAuthorities : N := 100000.
Definition AllowMultipleBlocksPerSlot : bool := true.
Definition Aura_SlotDuration : N := SLOT_DURATION.

Section message_queue.
Context {W : Weights} {K : SdkWeights}.
(** [RuntimeBlockWeights::get().max_block], which the builder derives. *)
Context (max_block : Weight).

(** [BlockLength::max_with_normal_ratio]: the length limit of the other classes and, of it,
    the share of the normal one. *)
Definition RuntimeBlockLength : N * Perbill := (5 * 1024 * 1024, NORMAL_DISPATCH_RATIO).

Definition MessageQueueServiceWeight : Weight := perbill_mul_weight (from_percent 35) max_block.
End message_queue.
