(* ===== verification/RuntimeTheorems.v ===== *)
(** * Theorems about weights, fees and limits of the runtime *)

From S2P Require Import Prelude Types Frame Ledger Weights Payment Pallet Extension ExtensionProofs Mock Runtime.
Local Open Scope N_scope.

(** ** A concrete [Perbill] *)

Definition billion : N := 1000000000.

#[export] Instance sdk_weights : SdkWeights := {|
  WEIGHT_REF_TIME_PER_NANOS := 1000;
  WEIGHT_REF_TIME_PER_MICROS := 1000 * 1000;
  WEIGHT_REF_TIME_PER_MILLIS := 1000 * 1000 * 1000;
  WEIGHT_REF_TIME_PER_SECOND := 1000 * 1000 * 1000 * 1000;
  MAX_POV_SIZE := 5 * 1024 * 1024;
  Perbill := N;
  from_percent p := N.min p 100 * 10000000;
  from_rational p q := p * billion / q;
  perbill_mul r x := N.min r billion * x / billion;
  perbill_mul_weight r w :=
    (N.min r billion * w.1 / billion, N.min r billion * w.2 / billion) : Weight;
  weight_sub a b := (a.1 - b.1, a.2 - b.2) : Weight;
  weight_saturating_div a n := (a.1 / n, a.2 / n) : Weight;
|}.

#[export, refine] Instance sdk_weights_spec : SdkWeightsSpec sdk_weights := {|
  parts := (λ r, N.min r billion) : Perbill → N;
|}.
Proof.
  all: cbn; try done; unfold billion.
  - intros p Hp. lia.
  - intros p q k Hq Hle Heq. rewrite Heq, N.div_mul by lia. nia.
  - intros r x y Heq. rewrite Heq. apply N.div_mul. lia.
  - intros r x. apply N.Div0.div_le_upper_bound. nia.
Defined.

#[export] Instance fee_polynomial : FeePolynomial := λ cs w,
  foldr (λ c acc, saturating_add u128_max acc
    (saturating_add u128_max (perbill_mul (coeff_frac c) (ref_time w))
       (saturating_mul u128_max (coeff_integer c) (ref_time w)))) 0 cs.

#[export] Instance fee_polynomial_spec : FeePolynomialSpec fee_polynomial.
Proof.
  intros c w _ _. unfold weight_to_fee, fee_polynomial. cbn [foldr].
  unfold saturating_add. lia.
Qed.

(** ** Lemmas *)

Section runtime_lemmas.
Context {W : Weights} {WS : WeightsSpec W} {K : SdkWeights} {KS : SdkWeightsSpec K}.

Lemma ref_time_ExtrinsicBaseWeight : ref_time ExtrinsicBaseWeight = 125000000.
Proof. unfold ExtrinsicBaseWeight. autorewrite with weights. by rewrite per_nanos. Qed.

Lemma ref_time_BlockExecutionWeight : ref_time BlockExecutionWeight = 5000000000.
Proof. unfold BlockExecutionWeight. autorewrite with weights. by rewrite per_nanos. Qed.

Lemma ref_time_MAXIMUM_BLOCK_WEIGHT : ref_time MAXIMUM_BLOCK_WEIGHT = 2000000000000.
Proof. unfold MAXIMUM_BLOCK_WEIGHT. autorewrite with weights. by rewrite per_second. Qed.

Lemma ref_time_normal_max :
  ref_time (normal_max_total RuntimeBlockWeights) = 1500000000000.
Proof.
  cbn. rewrite ref_time_mul, ref_time_MAXIMUM_BLOCK_WEIGHT. apply perbill_mul_exact.
  unfold NORMAL_DISPATCH_RATIO. by rewrite parts_from_percent.
Qed.
End runtime_lemmas.

(** ** Theorems *)

Section runtime_theorems.
Context {W : Weights} {WS : WeightsSpec W} {K : SdkWeights} {KS : SdkWeightsSpec K}.

(** The weights are in the ranges that the tests of the weight files demand. *)
Theorem weight_tests_pass :
  block_weights_sane && extrinsic_weights_sane && rocksdb_weights_sane && paritydb_weights_sane
  = true.
Proof.
  unfold block_weights_sane, extrinsic_weights_sane, rocksdb_weights_sane,
    paritydb_weights_sane, db_weights_sane.
  rewrite ref_time_BlockExecutionWeight, ref_time_ExtrinsicBaseWeight, per_micros, per_millis.
  autorewrite with weights. cbn -[N.leb]. rewrite per_nanos. by vm_compute.
Qed.

(** The block weight limits are consistent.  The weight reserved for
    operational extrinsics is what the normal class leaves of the maximum, in both
    components; the two message queues together reserve half of the block's time; and a
    block that has spent its base weight and the average initialisation share still has
    room in the normal class for an extrinsic. *)
Theorem block_limits :
  let bw := RuntimeBlockWeights in
  ref_time (normal_max_total bw) + ref_time (operational_reserved bw)
    = ref_time (operational_max_total bw)
  ∧ proof_size (normal_max_total bw) + proof_size (operational_reserved bw)
    = proof_size (operational_max_total bw)
  ∧ 2 * (ref_time ReservedXcmpWeight + ref_time ReservedDmpWeight)
    = ref_time (operational_max_total bw)
  ∧ ref_time (base_block bw) + ref_time (base_extrinsic bw)
    + perbill_mul (avg_block_initialization bw) (ref_time (operational_max_total bw))
    < ref_time (normal_max_total bw).
Proof.
  cbn zeta. rewrite ref_time_normal_max. cbn.
  unfold ReservedXcmpWeight, ReservedDmpWeight. rewrite !ref_time_div by lia.
  assert (perbill_mul AVERAGE_ON_INITIALIZE_RATIO (ref_time MAXIMUM_BLOCK_WEIGHT)
          = 100000000000) as ->.
  { apply perbill_mul_exact. unfold AVERAGE_ON_INITIALIZE_RATIO.
    by rewrite parts_from_percent, ref_time_MAXIMUM_BLOCK_WEIGHT. }
  pose proof ref_time_normal_max as Hn. cbn in Hn.
  rewrite ref_time_sub, proof_size_sub, Hn, ref_time_MAXIMUM_BLOCK_WEIGHT,
    ref_time_BlockExecutionWeight, ref_time_ExtrinsicBaseWeight.
  - rewrite proof_size_mul.
    pose proof (perbill_mul_le NORMAL_DISPATCH_RATIO (proof_size MAXIMUM_BLOCK_WEIGHT)).
    change (2000000000000 / 4) with 500000000000. split_and!; lia.
  - rewrite proof_size_mul. apply perbill_mul_le.
  - rewrite Hn, ref_time_MAXIMUM_BLOCK_WEIGHT. lia.
Qed.

(** Every dispatchable of the pallet, at the weights the runtime
    configures, is as heavy as the weights of the unit implementation at the same database
    costs say, at most 270 microseconds, and 3500 of them fit the share
    of a block that normal extrinsics may use. *)
Theorem calls_fit_a_block {T : Config} (c : Call) :
  let w := call_weight (SubstrateWeight RocksDbWeight) c in
  w = call_weight (unit_WeightInfo RocksDbWeight) c
  ∧ 133000000 ≤ ref_time w ≤ 270000000
  ∧ proof_size w = 0
  ∧ 3500 * (ref_time w + ref_time (base_extrinsic RuntimeBlockWeights))
    ≤ ref_time (normal_max_total RuntimeBlockWeights).
Proof.
  cbn zeta. rewrite ref_time_normal_max. cbn [base_extrinsic RuntimeBlockWeights].
  rewrite ref_time_ExtrinsicBaseWeight.
  destruct c; cbn; autorewrite with weights; cbn; rewrite per_nanos;
    (split_and!; [done|by vm_compute..]).
Qed.

(** C38: the runtime charges one unit of the native balance per 125
    picoseconds.  An extrinsic of the base weight costs one [MICRO_UNIT], which is a
    hundredth of a tenth of a [MILLI_UNIT]. *)
Theorem fee_of_weight {FP : FeePolynomial} {FPS : FeePolynomialSpec FP} (w : Weight) k :
  ref_time w = 125 * k → ref_time w ≤ u64_max →
  weight_to_fee polynomial w = k
  ∧ weight_to_fee polynomial ExtrinsicBaseWeight = MICRO_UNIT
  ∧ 100 * weight_to_fee polynomial ExtrinsicBaseWeight = MILLI_UNIT / 10.
Proof.
  intros Hw Hmax.
  assert (Hfee : ∀ w' k', ref_time w' = 125 * k' → ref_time w' ≤ u64_max →
    weight_to_fee polynomial w' = k').
  { intros w' k' Hw' Hmax'. unfold polynomial. rewrite weight_to_fee_linear by done.
    cbn [coeff_frac coeff_integer]. rewrite ref_time_ExtrinsicBaseWeight.
    change (MILLI_UNIT / 10) with 100000000.
    rewrite N.mod_small, N.div_small by lia.
    rewrite (perbill_mul_exact _ _ k').
    - unfold saturating_add, saturating_mul. unfold u64_max, u128_max in *. lia.
    - rewrite (parts_from_rational _ _ 8000000) by lia. lia. }
  rewrite (Hfee w k), (Hfee ExtrinsicBaseWeight 1000000) by
    (rewrite ?ref_time_ExtrinsicBaseWeight; done). done.
Qed.
End runtime_theorems.

Section extension_weights.
Context {T : Config} {F : FungibleHold} {D : FeeDestination}.
Context {W : Weights} {WS : WeightsSpec W} {P : TransactionPayment}.

(** C28: what the extension declares for a sponsored transaction
    and what it returns after dispatch.  [weight] adds two reads and two writes to the base
    extension; [post_dispatch_details] returns seven reads and seven writes, whatever
    happened.  The value returned is therefore larger than the sponsored overhead that was
    declared, so as unspent weight, which is how the extension interface reads it, it
    refunds a part of the base weight as well. *)
Theorem settlement_weight_accounting db self sp call sp' signer est tip' info post len res
    s w s' :
  sponsor self = Some sp →
  0 < read db + write db →
  ref_time (charge_weight (to_fee_balance (tip self)) call) + 7 * (read db + write db)
    ≤ u64_max →
  post_dispatch_details db (Pre_Sponsored sp' signer est tip') info post len res s
    = (Ok w, s') →
  let base := ref_time (charge_weight (to_fee_balance (tip self)) call) in
  ref_time (weight db self call) = base + 2 * (read db + write db)
  ∧ ref_time w = 7 * (read db + write db)
  ∧ ref_time (weight db self call) < base + ref_time w.
Proof.
  intros Hsp Hpos Hmax Hpost. cbn zeta.
  assert (w = reads_writes db SPONSORED_POST_DISPATCH_READS SPONSORED_POST_DISPATCH_WRITES)
    as ->.
  { cbn in Hpost. unfold settle_sponsored_fee in Hpost.
    destruct (slash _ _ _ _) as [[credit missing] w1], (split _ _). by simplify_eq. }
  unfold weight, SPONSORED_POST_DISPATCH_READS, SPONSORED_POST_DISPATCH_WRITES.
  rewrite Hsp. autorewrite with weights.
  unfold saturating_add, saturating_mul. lia.
Qed.

(** Where the balance type and the fee type have the same range, as
    in the runtime (both [u128]), the conversions between them lose nothing.  An accepted
    sponsored transaction is charged on the basis of exactly the fee that
    [pallet_transaction_payment] computes for the tip its signer chose, and that fee is
    within the sponsor's cap. *)
Theorem fees_cross_exactly self sp origin call info len imp src s v val o s' :
  balance_max = fee_balance_max →
  tip self ≤ balance_max →
  compute_fee (as_u32 len) info (tip self) (world s) ≤ fee_balance_max →
  sponsor self = Some sp →
  validate self origin call info len imp src s = (Ok (v, val, o), s') →
  ∃ signer st,
    val = Val_Sponsored sp signer (compute_fee (as_u32 len) info (tip self) (world s))
            (tip self)
    ∧ sponsors s !! sp = Some st
    ∧ compute_fee (as_u32 len) info (tip self) (world s) ≤ max_fee_per_tx (policy st)
    ∧ priority v = get_priority info len (tip self)
                     (compute_fee (as_u32 len) info (tip self) (world s)).
Proof.
  intros Heq Htip Hfee Hsp Hval.
  assert (Hw : worst_case_fee self info len s
               = compute_fee (as_u32 len) info (tip self) (world s)).
  { unfold worst_case_fee, to_balance, to_fee_balance. rewrite !saturated_into_id; [done|..];
      rewrite ?saturated_into_id; lia. }
  pose proof (validate_sponsored self sp origin call info len imp src s Hsp) as Hrun.
  destruct (validate_sponsored_ok self sp origin call info len imp src s v val o s')
    as (_ & _ & signer & st & Ho & Hst & _ & _ & Hcap & _ & ->); [done..|].
  rewrite Hval in Hrun. rewrite Hw in *. exists signer, st.
  destruct (refusal _ _ _ _); [done|]. rewrite Ho in Hrun. injection Hrun as -> _ _.
  split_and!; [done..|]. cbn. unfold to_fee_balance. rewrite !saturated_into_id; [done|lia..].
Qed.
End extension_weights.

(** The runtime's two balance types have the same range. *)
Lemma runtime_balance_types A O R S E I `{Countable A} `{EqDecision R} f g :
  @balance_max (runtime_Config A O R S E I f g) = @fee_balance_max (runtime_Config A O R S E I f g).
Proof. done. Qed.

(** ** The hypotheses hold *)

Lemma block_limits_witness :
  ref_time (normal_max_total RuntimeBlockWeights)
  + ref_time (operational_reserved RuntimeBlockWeights)
  = ref_time (operational_max_total RuntimeBlockWeights).
Proof. apply (block_limits (W := pair_weights) (K := sdk_weights)). Defined.

Lemma calls_fit_a_block_witness :
  ref_time (call_weight (SubstrateWeight RocksDbWeight) (Call_increase_budget 5)) ≤ 270000000.
Proof.
  apply (calls_fit_a_block (W := pair_weights) (K := sdk_weights) (Call_increase_budget 5)).
Defined.

Lemma fee_of_weight_witness :
  weight_to_fee polynomial (from_parts 250000000 0) = 2000000.
Proof.
  apply (fee_of_weight (W := pair_weights) (K := sdk_weights) (from_parts 250000000 0)
    2000000); [reflexivity|by vm_compute].
Defined.

Lemma settlement_weight_accounting_witness :
  ref_time (weight mock_db (ext_sponsored 5) remark_call) < ref_time (reads_writes mock_db 7 7).
Proof.
  apply (settlement_weight_accounting mock_db (ext_sponsored 5) (acct 1) remark_call (acct 1)
    (acct 2) 7 5 remark_info (post_info 1) 10 dispatch_ok_result in_flight_tip5
    (reads_writes mock_db 7 7) settled_tip5); [reflexivity|by vm_compute..|reflexivity].
Defined.

Lemma fees_cross_exactly_witness :
  ∃ st, sponsors registered_200 !! acct 1 = Some st ∧ 7 ≤ max_fee_per_tx (policy st).
Proof.
  destruct (fees_cross_exactly (ext_sponsored 5) (acct 1) (signed_by 2) remark_call remark_info
    10 no_implication external_source registered_200
    (with_priority 5 ValidTransaction_default) (Val_Sponsored (acct 1) (acct 2) 7 5)
    (signed_by 2) registered_200) as (signer & st & _ & Hst & Hle & _);
    [reflexivity|by vm_compute|by vm_compute|reflexivity|reflexivity|].
  exists st. split; [exact Hst|exact Hle].
Defined.
