(* ===== verification/Codec.v ===== *)
(** * The wire format of the payment extension

    How [SponsoredChargeTransactionPayment] travels in a signed extrinsic: the derived
    [Encode]/[Decode] of [pallets/sponsored-tx/src/extension.rs].  The SCALE codecs of the
    field types are library code: a class with the prefix property they document, and one
    concrete instance. *)

From S2P Require Import Prelude Types Ledger Extension.
Local Open Scope N_scope.

(** A byte string is a list of numbers below 256. *)
Class Codec (A : Type) : Type := {
  encode : A → list N;
  decode : list N → option (A * list N);
}.

(** Decoding an encoded value gives it back and leaves what follows it. *)
Class CodecSpec {A : Type} (C : Codec A) (valid : A → Prop) : Prop :=
  decode_encode a rest : valid a → decode (encode a ++ rest) = Some (a, rest).

Section extension_codec.
Context {T : Config}.
(** [Compact<Balance>] and [Option<AccountId>]. *)
Context {compact_balance : Codec N} {option_account : Codec (option AccountId)}.

(** [#[derive(Encode)]]: the compact tip, the sponsor, and nothing for the marker. *)
Definition encode_extension (self : SponsoredChargeTransactionPayment) : list N :=
  encode (tip self) ++ encode (sponsor self).

(** [#[derive(Decode)]]. *)
Definition decode_extension (input : list N) :
    option (SponsoredChargeTransactionPayment * list N) :=
  '(tip, input) ← decode (Codec := compact_balance) input;
  '(sponsor, input) ← decode (Codec := option_account) input;
  Some (new tip sponsor, input).

Lemma decode_extension_parts (wire_account : option AccountId → Prop) t sp rest
    `{!CodecSpec compact_balance (λ t, t ≤ balance_max)}
    `{!CodecSpec option_account wire_account} :
  t ≤ balance_max → wire_account sp →
  decode_extension (encode t ++ encode sp ++ rest) = Some (new t sp, rest).
Proof.
  intros Ht Hsp. unfold decode_extension.
  rewrite (decode_encode (C := compact_balance)) by done. cbn.
  by rewrite (decode_encode (C := option_account)) by done.
Qed.
End extension_codec.

(** ** A concrete codec *)

(** [n] bytes of [x], least significant first, and back. *)
Fixpoint le_bytes (n : nat) (x : N) : list N :=
  match n with
  | O => []
  | S n => x mod 256 :: le_bytes n (x / 256)
  end.

Fixpoint le_value (n : nat) (input : list N) : option (N * list N) :=
  match n, input with
  | O, _ => Some (0, input)
  | S n, b :: input => '(x, rest) ← le_value n input; Some (b + 256 * x, rest)
  | S _, [] => None
  end.

Lemma le_value_bytes n x rest :
  x < 256 ^ N.of_nat n → le_value n (le_bytes n x ++ rest) = Some (x, rest).
Proof.
  revert x. induction n as [|n IH]; intros x Hx.
  - cbn in *. by replace x with 0 by lia.
  - cbn [le_bytes le_value app]. rewrite IH.
    + cbn. do 2 f_equal. pose proof (N.div_mod x 256). lia.
    + rewrite Nat2N.inj_succ, N.pow_succ_r' in Hx. apply N.Div0.div_lt_upper_bound. lia.
Qed.

(** SCALE's compact integers: one, two or four bytes with the mode in the two low bits of
    the first, or a length byte and then that many bytes. *)
Definition compact_length (x : N) : nat := Nat.max 4 (N.to_nat ((N.size x + 7) / 8)).

Definition compact_encode (x : N) : list N :=
  if x <? 64 then le_bytes 1 (x * 4)
  else if x <? 2 ^ 14 then le_bytes 2 (x * 4 + 1)
  else if x <? 2 ^ 30 then le_bytes 4 (x * 4 + 2)
  else (N.of_nat (compact_length x - 4) * 4 + 3) :: le_bytes (compact_length x) x.

Definition compact_decode (input : list N) : option (N * list N) :=
  match input with
  | [] => None
  | b :: rest =>
      let short n := '(y, rest) ← le_value n input; Some (y / 4, rest) in
      match b mod 4 with
      | 0 => short 1%nat
      | 1 => short 2%nat
      | 2 => short 4%nat
      | _ => le_value (N.to_nat (b / 4) + 4) rest
      end
  end.

#[export] Instance compact_codec : Codec N := {|
  encode := compact_encode; decode := compact_decode |}.

#[export] Instance u64_codec : Codec N := {| encode := le_bytes 8; decode := le_value 8 |}.

#[export] Instance option_codec {A} (C : Codec A) : Codec (option A) := {|
  encode o := match o with None => [0] | Some a => 1 :: encode a end;
  decode input :=
    match input with
    | 0 :: rest => Some (None, rest)
    | 1 :: rest => '(a, rest) ← decode rest; Some (Some a, rest)
    | _ => None
    end;
|}.

Lemma short_compact k n x r rest :
  k = N.of_nat n → (0 < n)%nat → r < 4 → x * 4 + r < 256 ^ k →
  ∃ b l, le_bytes n (x * 4 + r) ++ rest = b :: l ∧ b mod 4 = r
    ∧ ('(y, rest) ← le_value n (le_bytes n (x * 4 + r) ++ rest); Some (y / 4, rest))
      = Some (x, rest).
Proof.
  intros -> Hn Hr Hx. destruct n as [|n]; [lia|]. eexists _, _. split_and!; [done| |].
  - pose proof (N.div_mod (x * 4 + r) 256 ltac:(lia)) as Hdiv.
    revert Hdiv. generalize ((x * 4 + r) / 256), ((x * 4 + r) mod 256). intros q m Hdiv.
    symmetry. apply (N.mod_unique _ _ (x - 64 * q)); lia.
  - rewrite le_value_bytes by done. cbn.
    by rewrite N.add_comm, N.div_add, (N.div_small r 4) by lia.
Qed.

Lemma compact_length_enough x : x < 256 ^ N.of_nat (compact_length x).
Proof.
  apply (N.lt_le_trans _ (2 ^ N.size x)); [apply N.size_gt|].
  change 256 with (2 ^ 8). rewrite <- N.pow_mul_r. apply N.pow_le_mono_r; [lia|].
  unfold compact_length.
  pose proof (N.div_mod (N.size x + 7) 8 ltac:(lia)).
  pose proof (N.mod_lt (N.size x + 7) 8 ltac:(lia)). lia.
Qed.

#[export] Instance compact_codec_spec max : CodecSpec compact_codec (λ x, x ≤ max).
Proof.
  intros x rest _. cbn. unfold compact_encode.
  destruct (N.ltb_spec x 64), (N.ltb_spec x (2 ^ 14)), (N.ltb_spec x (2 ^ 30)); try lia.
  - destruct (short_compact 1 1 x 0 rest) as (b & l & Heq & Hb & Hrun); [done|lia..|].
    rewrite N.add_0_r in *. rewrite Heq in *. cbn [compact_decode]. by rewrite Hb.
  - destruct (short_compact 2 2 x 1 rest) as (b & l & Heq & Hb & Hrun); [done|lia..|].
    rewrite Heq in *. cbn [compact_decode]. by rewrite Hb.
  - destruct (short_compact 4 4 x 2 rest) as (b & l & Heq & Hb & Hrun); [done|lia..|].
    rewrite Heq in *. cbn [compact_decode]. by rewrite Hb.
  - cbn [compact_decode app]. rewrite N.add_comm, N.Div0.mod_add, N.div_add by lia.
    change (3 mod 4) with 3. change (3 / 4) with 0. cbn iota.
    replace (N.to_nat (0 + N.of_nat (compact_length x - 4)) + 4)%nat with (compact_length x)
      by (unfold compact_length; lia).
    apply le_value_bytes, compact_length_enough.
Qed.

#[export] Instance u64_codec_spec : CodecSpec u64_codec (λ x, x ≤ u64_max).
Proof. intros x rest Hx. apply le_value_bytes. unfold u64_max in Hx. cbn. lia. Qed.

#[export] Instance option_codec_spec {A} (C : Codec A) (valid : A → Prop) :
  CodecSpec C valid →
  CodecSpec (option_codec C) (λ o, ∀ a, o = Some a → valid a).
Proof.
  intros HC [a|] rest Hv; [|done]. cbn [encode decode option_codec app].
  by rewrite (decode_encode (C := C)) by auto.
Qed.
