(* ===== verification/StateCodec.v ===== *)
(** * Storage and call encoding of the sponsored-tx pallet

    The derived codecs of [SponsorPolicy] and [SponsorState] in
    [pallets/sponsored-tx/src/types.rs] ([Encode], [Decode], [MaxEncodedLen]) and of the
    pallet's call enum, whose variants carry the [call_index] of
    [pallets/sponsored-tx/src/lib.rs].  The codecs of accounts, balances and compact lengths
    are library code: instances of [Codec] with their documented properties. *)

From S2P Require Import Prelude Types Ledger Pallet Mock Codec.
Local Open Scope N_scope.

(** A codec whose values all take [n] bytes. *)
Class FixedLen {A : Type} (C : Codec A) (n : N) : Prop :=
  encode_len a : N.of_nat (length (encode a)) = n.

(** Compact numbers do not get shorter as they grow. *)
Class CompactMono (C : Codec N) : Prop :=
  compact_mono x y : x ≤ y → (length (encode x) ≤ length (encode y))%nat.

Section codecs.
Context {T : Config}.
Context {account : Codec AccountId} {balance : Codec N} {compact_u32 : Codec N}.

(** ** Vectors with a bound *)

(** The length, compact, and then the elements. *)
Definition encode_vec (l : list AccountId) : list N :=
  encode (Codec := compact_u32) (N.of_nat (length l)) ++ concat (encode (Codec := account) <$> l).

Fixpoint decode_items (n : nat) (input : list N) : option (list AccountId * list N) :=
  match n with
  | O => Some ([], input)
  | S n =>
      '(a, input) ← decode (Codec := account) input;
      '(l, input) ← decode_items n input;
      Some (a :: l, input)
  end.

(** A vector longer than its bound is not decoded. *)
Definition decode_bounded_vec (max : N) (input : list N) :
    option (BoundedVec AccountId max * list N) :=
  '(n, input) ← decode (Codec := compact_u32) input;
  if max <? n then None
  else
    '(l, input) ← decode_items (N.to_nat n) input;
    v ← try_into_bounded max l;
    Some (v, input).

(** ** [types.rs] *)

Definition encode_policy (p : SponsorPolicy) : list N :=
  encode_vec (bv_items (allowed_callers p)) ++ encode (Codec := balance) (max_fee_per_tx p).

Definition decode_policy (input : list N) : option (SponsorPolicy * list N) :=
  '(callers, input) ← decode_bounded_vec MaxAllowedCallers input;
  '(max_fee, input) ← decode (Codec := balance) input;
  Some ({| allowed_callers := callers; max_fee_per_tx := max_fee |}, input).

(** A boolean is a byte of 0 or 1. *)
Definition encode_bool (b : bool) : list N := [if b then 1 else 0].

Definition decode_bool (input : list N) : option (bool * list N) :=
  match input with
  | 0 :: input => Some (false, input)
  | 1 :: input => Some (true, input)
  | _ => None
  end.

Definition encode_state (st : SponsorState) : list N :=
  encode_bool (active st) ++ encode_policy (policy st).

Definition decode_state (input : list N) : option (SponsorState * list N) :=
  '(a, input) ← decode_bool input;
  '(p, input) ← decode_policy input;
  Some ({| active := a; policy := p |}, input).

(** [MaxEncodedLen], from the widths of an account and a balance. *)
Definition policy_max_encoded_len (account_len balance_len : N) : N :=
  N.of_nat (length (encode (Codec := compact_u32) MaxAllowedCallers))
  + MaxAllowedCallers * account_len + balance_len.

Definition state_max_encoded_len (account_len balance_len : N) : N :=
  1 + policy_max_encoded_len account_len balance_len.

(** ** The call enum *)

Definition call_index (c : Call) : N :=
  match c with
  | Call_register_sponsor _ _ => 0
  | Call_increase_budget _ => 1
  | Call_decrease_budget _ => 2
  | Call_set_policy _ => 3
  | Call_pause => 4
  | Call_resume => 5
  | Call_unregister => 6
  end.

Definition encode_call (c : Call) : list N :=
  call_index c ::
  match c with
  | Call_register_sponsor b p => encode (Codec := balance) b ++ encode_policy p
  | Call_increase_budget x | Call_decrease_budget x => encode (Codec := balance) x
  | Call_set_policy p => encode_policy p
  | Call_pause | Call_resume | Call_unregister => []
  end.

Definition decode_call (input : list N) : option (Call * list N) :=
  match input with
  | 0 :: input =>
      '(b, input) ← decode (Codec := balance) input;
      '(p, input) ← decode_policy input;
      Some (Call_register_sponsor b p, input)
  | 1 :: input => '(x, input) ← decode (Codec := balance) input; Some (Call_increase_budget x, input)
  | 2 :: input => '(x, input) ← decode (Codec := balance) input; Some (Call_decrease_budget x, input)
  | 3 :: input => '(p, input) ← decode_policy input; Some (Call_set_policy p, input)
  | 4 :: input => Some (Call_pause, input)
  | 5 :: input => Some (Call_resume, input)
  | 6 :: input => Some (Call_unregister, input)
  | _ => None
  end.

(** ** Round trips *)

Context (wire_account : AccountId → Prop) (account_len balance_len : N).
Context {AS : CodecSpec account wire_account} {BS : CodecSpec balance (λ x, x ≤ balance_max)}.
Context {KS : CodecSpec compact_u32 (λ x, x ≤ MaxAllowedCallers)}.

(** What the types hold: accounts and amounts of the right width. *)
Definition wire_policy (p : SponsorPolicy) : Prop :=
  Forall wire_account (bv_items (allowed_callers p)) ∧ max_fee_per_tx p ≤ balance_max.

Definition wire_call (c : Call) : Prop :=
  match c with
  | Call_register_sponsor b p => b ≤ balance_max ∧ wire_policy p
  | Call_increase_budget x | Call_decrease_budget x => x ≤ balance_max
  | Call_set_policy p => wire_policy p
  | Call_pause | Call_resume | Call_unregister => True
  end.

Lemma decode_items_encode l rest :
  Forall wire_account l →
  decode_items (length l) (concat (encode (Codec := account) <$> l) ++ rest) = Some (l, rest).
Proof.
  induction 1 as [|a l Ha _ IH]; [done|]. cbn [length decode_items fmap list_fmap concat].
  rewrite <- app_assoc, (decode_encode (C := account)) by done. cbn -[decode_items].
  by rewrite IH.
Qed.

Lemma decode_policy_encode p rest :
  wire_policy p → decode_policy (encode_policy p ++ rest) = Some (p, rest).
Proof.
  destruct p as [v fee]. intros [Hacc Hfee]. cbn in *.
  pose proof (bounded_vec_length v) as Hlen.
  unfold decode_policy, decode_bounded_vec, encode_policy, encode_vec. cbn.
  rewrite <- !app_assoc, (decode_encode (C := compact_u32)) by done. cbn.
  rewrite (proj2 (N.ltb_ge _ _)) by done. rewrite Nat2N.id, decode_items_encode by done. cbn.
  pose proof (try_into_bounded_spec MaxAllowedCallers (bv_items v)) as Hv.
  destruct (try_into_bounded _ _) as [v'|]; [|lia]. cbn.
  rewrite (decode_encode (C := balance)) by done. cbn. by rewrite (bounded_vec_eq v' v).
Qed.

Lemma encode_vec_len l max {FL : FixedLen account account_len} {CM : CompactMono compact_u32} :
  N.of_nat (length l) ≤ max →
  N.of_nat (length (encode_vec l))
  ≤ N.of_nat (length (encode (Codec := compact_u32) max)) + max * account_len.
Proof.
  intros Hle. unfold encode_vec. rewrite length_app.
  assert (Hitems : N.of_nat (length (concat (encode (Codec := account) <$> l)))
                   = N.of_nat (length l) * account_len).
  { clear Hle. induction l as [|a l IH]; [done|]. cbn [fmap list_fmap concat length].
    rewrite length_app, Nat2N.inj_add, IH, (encode_len (C := account)). lia. }
  pose proof (compact_mono (C := compact_u32) _ _ Hle).
  rewrite Nat2N.inj_add, Hitems. nia.
Qed.

(** C18: a sponsor's stored state decodes to itself, whatever follows it, and never
    takes more than the bytes [MaxEncodedLen] declares for it. *)
Theorem state_codec {FA : FixedLen account account_len} {FB : FixedLen balance balance_len}
    {CM : CompactMono compact_u32} st rest :
  wire_policy (policy st) →
  decode_state (encode_state st ++ rest) = Some (st, rest)
  ∧ N.of_nat (length (encode_state st)) ≤ state_max_encoded_len account_len balance_len.
Proof.
  destruct st as [a p]. intros Hp. split.
  - unfold decode_state, encode_state. rewrite <- app_assoc. cbn [active policy] in *.
    destruct a; cbn -[decode_policy]; by rewrite decode_policy_encode.
  - pose proof (encode_vec_len (bv_items (allowed_callers p)) MaxAllowedCallers
      (bounded_vec_length _)) as Hv.
    pose proof (encode_len (C := balance) (max_fee_per_tx p)) as Hb.
    unfold encode_state, encode_bool, encode_policy, state_max_encoded_len,
      policy_max_encoded_len. cbn [active policy]. rewrite !length_app. cbn [length]. lia.
Qed.

(** C19: every call of the pallet decodes to itself from its index and arguments; an
    encoding with an index no call has is no call, and neither is a registration or a change
    of policy whose allowlist is declared longer than the bound. *)
Theorem call_codec c rest :
  (wire_call c → decode_call (encode_call c ++ rest) = Some (c, rest))
  ∧ (∀ i input, 6 < i → decode_call (i :: input) = None)
  ∧ (∀ n input rest, MaxAllowedCallers < n →
       decode (Codec := compact_u32) input = Some (n, rest) →
       decode_call (3 :: input) = None
       ∧ ∀ budget args, decode (Codec := balance) args = Some (budget, input) →
           decode_call (0 :: args) = None).
Proof.
  split_and!.
  - intros Hw. destruct c as [b p|x|x|p| | |]; cbn -[decode_policy] in *;
      rewrite <- ?app_assoc.
    + destruct Hw as [Hb Hp]. rewrite (decode_encode (C := balance)) by done.
      cbn -[decode_policy]. by rewrite decode_policy_encode.
    + by rewrite (decode_encode (C := balance)).
    + by rewrite (decode_encode (C := balance)).
    + by rewrite decode_policy_encode.
    + done.
    + done.
    + done.
  - intros i input Hi. cbn. repeat (case_match; try done; try lia).
  - intros n input rest' Hn Hd.
    assert (Hp : decode_policy input = None).
    { unfold decode_policy, decode_bounded_vec. rewrite Hd. cbn.
      by rewrite (proj2 (N.ltb_lt _ _)). }
    split; [cbn -[decode_policy]; by rewrite Hp|].
    intros budget args Hb. cbn -[decode_policy]. rewrite Hb. cbn -[decode_policy]. by rewrite Hp.
Qed.
End codecs.

(** ** The mock runtime's codecs *)

Lemma le_bytes_length n x : length (le_bytes n x) = n.
Proof. revert x. induction n as [|n IH]; intros x; cbn; [done|by rewrite IH]. Qed.

#[export] Instance u64_fixed_len : FixedLen u64_codec 8.
Proof. intros x. cbn [encode u64_codec]. by rewrite le_bytes_length. Qed.

Lemma compact_length_mono x y : x ≤ y → (compact_length x ≤ compact_length y)%nat.
Proof.
  intros Hle. assert (Hs : N.size x ≤ N.size y).
  { destruct (decide (x = 0)) as [->|Hx]; [cbn; lia|].
    rewrite !N.size_log2 by lia. apply -> N.succ_le_mono. by apply N.log2_le_mono. }
  unfold compact_length.
  pose proof (N.Div0.div_le_mono (N.size x + 7) (N.size y + 7) 8 ltac:(lia)). lia.
Qed.

#[export] Instance compact_codec_mono : CompactMono compact_codec.
Proof.
  intros x y Hle. cbn [encode compact_codec]. unfold compact_encode.
  assert (4 ≤ compact_length y)%nat by (unfold compact_length; lia).
  pose proof (compact_length_mono _ _ Hle).
  destruct (N.ltb_spec x 64), (N.ltb_spec x (2 ^ 14)), (N.ltb_spec x (2 ^ 30)),
    (N.ltb_spec y 64), (N.ltb_spec y (2 ^ 14)), (N.ltb_spec y (2 ^ 30)); try lia;
    cbn [length]; rewrite ?le_bytes_length; lia.
Qed.

Definition mock_account_codec : Codec (@AccountId Test) := u64_codec.

#[export] Instance mock_account_spec :
  CodecSpec mock_account_codec (λ a : @AccountId Test, (a : N) ≤ u64_max).
Proof. exact u64_codec_spec. Qed.

#[export] Instance mock_account_len : FixedLen mock_account_codec 8.
Proof. exact u64_fixed_len. Qed.

#[export] Instance mock_balance_spec : CodecSpec u64_codec (λ x, x ≤ @balance_max Test).
Proof. exact u64_codec_spec. Qed.

Definition paused_2_50 : SponsorState := {| active := false; policy := policy_2_50 |}.

Lemma policy_2_50_wire : wire_policy (λ a : @AccountId Test, (a : N) ≤ u64_max) policy_2_50.
Proof. split; [repeat constructor; by vm_compute|by vm_compute]. Qed.

Lemma state_codec_witness :
  encode_state (account := mock_account_codec) (balance := u64_codec)
    (compact_u32 := compact_codec) paused_2_50
  = [0; 4; 2; 0; 0; 0; 0; 0; 0; 0; 50; 0; 0; 0; 0; 0; 0; 0]
  ∧ decode_state (account := mock_account_codec) (balance := u64_codec)
      (compact_u32 := compact_codec)
      [0; 4; 2; 0; 0; 0; 0; 0; 0; 0; 50; 0; 0; 0; 0; 0; 0; 0; 7] = Some (paused_2_50, [7])
  ∧ 18 ≤ 74.
Proof.
  split; [reflexivity|].
  exact (state_codec (account := mock_account_codec) (balance := u64_codec)
    (compact_u32 := compact_codec) (λ a : @AccountId Test, (a : N) ≤ u64_max) 8 8 paused_2_50
    [7] policy_2_50_wire).
Defined.

Lemma call_codec_witness :
  encode_call (account := mock_account_codec) (balance := u64_codec)
    (compact_u32 := compact_codec) (Call_set_policy policy_2_50)
  = [3; 4; 2; 0; 0; 0; 0; 0; 0; 0; 50; 0; 0; 0; 0; 0; 0; 0]
  ∧ decode_call (account := mock_account_codec) (balance := u64_codec)
      (compact_u32 := compact_codec)
      [3; 4; 2; 0; 0; 0; 0; 0; 0; 0; 50; 0; 0; 0; 0; 0; 0; 0] = Some (Call_set_policy policy_2_50, [])
  ∧ decode_call (account := mock_account_codec) (balance := u64_codec)
      (compact_u32 := compact_codec) [3; 36] = None
  ∧ decode_call (account := mock_account_codec) (balance := u64_codec)
      (compact_u32 := compact_codec) [0; 200; 0; 0; 0; 0; 0; 0; 0; 36] = None.
Proof.
  split; [reflexivity|].
  destruct (call_codec (account := mock_account_codec) (balance := u64_codec)
    (compact_u32 := compact_codec) (λ a : @AccountId Test, (a : N) ≤ u64_max)
    (Call_set_policy policy_2_50) []) as (Hrt & _ & Hlong).
  split; [exact (Hrt policy_2_50_wire)|].
  destruct (Hlong 9 [36] []) as [Hset Hreg]; [reflexivity|reflexivity|].
  split; [exact Hset|]. apply (Hreg 200). reflexivity.
Defined.
