(* ===== verification/Client.v ===== *)
(** * The demo client

    [examples/subxt-sponsor-client/src/main.rs]: the client's mirror of the payment
    extension and its encoding, the builder of extension parameters, the calls it submits,
    and how it reads holds and events back from decoded storage.  The script that
    uses them is in [Demo]. *)

From stdpp Require Import strings pretty.
From S2P Require Import Prelude Types Ledger Codec.
Local Open Scope N_scope.

Module Client.

Definition UNIT : N := 1000000000000.
Definition INITIAL_BUDGET : N := 2 * UNIT.
Definition MAX_FEE_PER_TX : N := UNIT / 2.
Definition TIP : N := 0.

(** ** Extension parameters *)

(** Subxt's [DefaultExtrinsicParamsBuilder] and the parameters of the standard extensions
    it builds. *)
Class DefaultExtrinsicParams : Type := {
  Inner : Type;
  inner_default : Inner;
  inner_tip : N → Inner → Inner;
  inner_nonce : N → Inner → Inner;
  inner_mortal : N → Inner → Inner;
  inner_immortal : Inner → Inner;
  VerifySignature : Type;
  CheckSpecVersion : Type;
  CheckTxVersion : Type;
  CheckNonce : Type;
  CheckGenesis : Type;
  CheckMortality : Type;
  ChargeAssetTxPayment : Type;
  ChargeTxPayment : Type;
  CheckMetadataHash : Type;
  inner_build : Inner →
    VerifySignature * CheckSpecVersion * CheckTxVersion * CheckNonce * CheckGenesis
    * CheckMortality * ChargeAssetTxPayment * ChargeTxPayment * CheckMetadataHash;
}.

Section params.
Context {T : Config} {X : DefaultExtrinsicParams}.
Context {compact_balance : Codec N} {option_account : Codec (option AccountId)}.

(** What the developer passes in. *)
Record SponsoredChargeTransactionPaymentParams : Type := Params_new {
  params_tip : N;
  params_sponsor : option AccountId;
}.

(** Mirror of the runtime's extension. *)
Record SponsoredChargeTransactionPayment : Type := {
  ext_tip : N;
  ext_sponsor : option AccountId;
}.

Definition matches (identifier : string) : bool :=
  bool_decide (identifier = "SponsoredChargeTransactionPayment"%string).

(** The extensions of [SponsoredConfig], of which Subxt uses those that the runtime asks for. *)
Definition SponsoredConfig_ExtrinsicParams : list string := [
  "VerifySignature"; "CheckSpecVersion"; "CheckTxVersion"; "CheckNonce"; "CheckGenesis";
  "CheckMortality"; "ChargeAssetTxPayment"; "SponsoredChargeTransactionPayment";
  "CheckMetadataHash"]%string.

(** [ExtrinsicParams::new]. *)
Definition extension_new (params : SponsoredChargeTransactionPaymentParams) :
    SponsoredChargeTransactionPayment :=
  {| ext_tip := params_tip params; ext_sponsor := params_sponsor params |}.

(** [encode_value_to(&self, v)]: append the tip, then the sponsor. *)
Definition encode_value_to (self : SponsoredChargeTransactionPayment) (v : list N) : list N :=
  (v ++ encode (Codec := compact_balance) (ext_tip self))
    ++ encode (Codec := option_account) (ext_sponsor self).

Record SponsoredParamsBuilder : Type := {
  inner : Inner;
  builder_tip : N;
  builder_sponsor : option AccountId;
}.

Definition builder_new : SponsoredParamsBuilder :=
  {| inner := inner_default; builder_tip := 0; builder_sponsor := None |}.

Definition sponsor (who : AccountId) (self : SponsoredParamsBuilder) :=
  {| inner := inner self; builder_tip := builder_tip self; builder_sponsor := Some who |}.

Definition unsponsored (self : SponsoredParamsBuilder) :=
  {| inner := inner self; builder_tip := builder_tip self; builder_sponsor := None |}.

Definition tip (t : N) (self : SponsoredParamsBuilder) :=
  {| inner := inner_tip t (inner self); builder_tip := t;
     builder_sponsor := builder_sponsor self |}.

Definition nonce (n : N) (self : SponsoredParamsBuilder) :=
  {| inner := inner_nonce n (inner self); builder_tip := builder_tip self;
     builder_sponsor := builder_sponsor self |}.

Definition mortal (for_n_blocks : N) (self : SponsoredParamsBuilder) :=
  {| inner := inner_mortal for_n_blocks (inner self); builder_tip := builder_tip self;
     builder_sponsor := builder_sponsor self |}.

Definition immortal (self : SponsoredParamsBuilder) :=
  {| inner := inner_immortal (inner self); builder_tip := builder_tip self;
     builder_sponsor := builder_sponsor self |}.

Definition SponsoredParams : Type :=
  VerifySignature * CheckSpecVersion * CheckTxVersion * CheckNonce * CheckGenesis
  * CheckMortality * ChargeAssetTxPayment * SponsoredChargeTransactionPaymentParams
  * CheckMetadataHash.

Definition build (self : SponsoredParamsBuilder) : SponsoredParams :=
  let '(verify_signature, check_spec_version, check_tx_version, check_nonce, check_genesis,
        check_mortality, charge_asset_tx_payment, _, check_metadata_hash) :=
    inner_build (inner self) in
  (verify_signature, check_spec_version, check_tx_version, check_nonce, check_genesis,
   check_mortality, charge_asset_tx_payment,
   Params_new (builder_tip self) (builder_sponsor self), check_metadata_hash).

(** The sponsored slot of built parameters. *)
Definition sponsored_slot (p : SponsoredParams) : SponsoredChargeTransactionPaymentParams :=
  p.1.2.

(** A sequence of builder calls. *)
Inductive BuilderCall : Type :=
| Op_sponsor (who : AccountId)
| Op_unsponsored
| Op_tip (t : N)
| Op_nonce (n : N)
| Op_mortal (n : N)
| Op_immortal.

Definition builder_call (op : BuilderCall) : SponsoredParamsBuilder → SponsoredParamsBuilder :=
  match op with
  | Op_sponsor who => sponsor who
  | Op_unsponsored => unsponsored
  | Op_tip t => tip t
  | Op_nonce n => nonce n
  | Op_mortal n => mortal n
  | Op_immortal => immortal
  end.

Definition builder_calls (ops : list BuilderCall) (b : SponsoredParamsBuilder) :
    SponsoredParamsBuilder := foldl (λ b op, builder_call op b) b ops.

(** The tip and sponsor a sequence of calls asks for: the last word on each counts. *)
Fixpoint asked_tip (t : N) (ops : list BuilderCall) : N :=
  match ops with
  | [] => t
  | Op_tip t' :: ops => asked_tip t' ops
  | _ :: ops => asked_tip t ops
  end.

Fixpoint asked_sponsor (sp : option AccountId) (ops : list BuilderCall) : option AccountId :=
  match ops with
  | [] => sp
  | Op_sponsor who :: ops => asked_sponsor (Some who) ops
  | Op_unsponsored :: ops => asked_sponsor None ops
  | _ :: ops => asked_sponsor sp ops
  end.

Lemma builder_calls_fields ops b :
  builder_tip (builder_calls ops b) = asked_tip (builder_tip b) ops
  ∧ builder_sponsor (builder_calls ops b) = asked_sponsor (builder_sponsor b) ops.
Proof.
  revert b. induction ops as [|op ops IH]; intros b; [done|].
  destruct (IH (builder_call op b)) as [IHt IHs].
  change (builder_calls (op :: ops) b) with (builder_calls ops (builder_call op b)).
  rewrite IHt, IHs. by destruct op.
Qed.

Lemma sponsored_slot_build b :
  sponsored_slot (build b) = Params_new (builder_tip b) (builder_sponsor b).
Proof.
  unfold build, sponsored_slot. by destruct (inner_build (inner b)) as [[[[[[[[]]]]]]]].
Qed.
End params.

(** ** Dynamic values

    [scale_value::Value] as the client matches on it; the context attached to a value is not
    used. *)

Inductive PrimitiveValue : Set :=
| Bool (b : bool)
| Str (s : string)
| U128 (n : N)
| OtherPrimitive.

Inductive Value : Type :=
| Composite_Named (values : list (string * Value))
| Composite_Unnamed (values : list Value)
| Variant_Named (name : string) (values : list (string * Value))
| Variant_Unnamed (name : string) (values : list Value)
| BitSequence (bits : list bool)
| Primitive (p : PrimitiveValue).

(** [Value::from_bytes]: the bytes as a composite of numbers. *)
Definition from_bytes (bytes : list N) : Value :=
  Composite_Unnamed (map (λ b, Primitive (U128 b)) bytes).

(** [dynamic::tx(pallet, call, arguments)]. *)
Record Payload : Type := dynamic_tx {
  pallet_name : string;
  call_name : string;
  call_data : list Value;
}.

(** An [AccountId32] is its 32 bytes. *)
Definition register_sponsor_call (allowed_callers : list (list N))
    (initial_budget max_fee_per_tx : N) : Payload :=
  let policy := Composite_Named
    [("allowed_callers"%string, Composite_Unnamed (map from_bytes allowed_callers));
     ("max_fee_per_tx"%string, Primitive (U128 max_fee_per_tx))] in
  dynamic_tx "SponsoredTx" "register_sponsor" [Primitive (U128 initial_budget); policy].

Definition sponsored_remark_call (remark : list N) : Payload :=
  dynamic_tx "System" "remark" [from_bytes remark].

Definition pause_call : Payload := dynamic_tx "SponsoredTx" "pause" [].

(** Lookup by name, reading a number, and the printed form of a value are the library's. *)
Class ValueOps : Type := {
  at_name : string → Value → option Value;
  as_u128 : Value → option N;
  as_bool : Value → option bool;
  display : Value → string;
}.

Class ValueOpsSpec (V : ValueOps) : Prop := {
  at_named name fs v :
    NoDup fs.*1 → (name, v) ∈ fs → at_name name (Composite_Named fs) = Some v;
  at_unnamed name vs : at_name name (Composite_Unnamed vs) = None;
  at_variant_unnamed name n vs : at_name name (Variant_Unnamed n vs) = None;
  at_primitive name p : at_name name (Primitive p) = None;
  as_u128_primitive n : as_u128 (Primitive (U128 n)) = Some n;
  as_bool_primitive b : as_bool (Primitive (Bool b)) = Some b;
}.

(** [str::contains]. *)
Definition contains (sub s : string) : bool := bool_decide (is_Some (String.index 0 sub s)).

(** [anyhow::Result]: an error is its text. *)
Definition anyhow (A : Type) : Type := result A string.

#[export] Instance anyhow_bind : MBind anyhow := λ A B f r,
  match r with
  | Ok a => f a
  | Err e => Err e
  end.

(** [Option::context]: a missing value becomes an error with this text. *)
Definition context {A} (o : option A) (message : string) : anyhow A := ok_or o message.

Section reading.
Context {V : ValueOps}.

(** What a value itself says about the sponsor's holds. *)
Definition note_hold (value : Value) (holds : N * N) : N * N :=
  match at_name "amount" value ≫= as_u128 with
  | Some amount =>
      let reason := default ""%string (display <$> at_name "id" value) in
      if contains "SponsorshipBudget" reason then (amount, holds.2)
      else if contains "SponsorshipPending" reason then (holds.1, amount)
      else holds
  | None => holds
  end.

(** [collect_sponsor_holds]: the value, then its children in order. *)
Fixpoint collect_sponsor_holds (value : Value) (holds : N * N) : N * N :=
  let holds := note_hold value holds in
  let unnamed := (fix go (vs : list Value) (holds : N * N) : N * N :=
    match vs with
    | [] => holds
    | child :: vs => go vs (collect_sponsor_holds child holds)
    end) in
  let named := (fix go (fs : list (string * Value)) (holds : N * N) : N * N :=
    match fs with
    | [] => holds
    | (_, child) :: fs => go fs (collect_sponsor_holds child holds)
    end) in
  match value with
  | Composite_Named values => named values holds
  | Composite_Unnamed values => unnamed values holds
  | Variant_Named _ values => named values holds
  | Variant_Unnamed _ values => unnamed values holds
  | BitSequence _ | Primitive _ => holds
  end.

(** [sponsor_holds], from what storage returned. *)
Definition sponsor_holds (fetched : option Value) : N * N :=
  match fetched with
  | None => (0, 0)
  | Some value => collect_sponsor_holds value (0, 0)
  end.

(** [account_free_balance], from what storage returned. *)
Definition account_free_balance (fetched : option Value) : anyhow N :=
  value ← context fetched "account storage missing";
  context ((at_name "data" value ≫= at_name "free") ≫= as_u128)
    "free balance missing from System::Account".

(** The sponsor's flag in [query_demo_state], from what storage returned. *)
Definition sponsor_active (fetched : option Value) : option bool :=
  value ← fetched; at_name "active" value ≫= as_bool.

(** ** Events *)

(** A decoded event of the extrinsic. *)
Record EventDetails : Type := {
  event_pallet : string;
  event_variant : string;
  field_values : anyhow Value;
}.

Record SponsoredFeePaid : Type := { paid_fee : N; paid_tip : N }.

Fixpoint find_sponsored_fee_paid (events : list (anyhow EventDetails)) :
    anyhow SponsoredFeePaid :=
  match events with
  | [] => Err "SponsoredTransactionFeePaid event not found"%string
  | Err e :: _ => Err e
  | Ok event :: events =>
      if bool_decide (event_pallet event = "SponsoredTx"%string)
         && bool_decide (event_variant event = "SponsoredTransactionFeePaid"%string)
      then
        fields ← field_values event;
        actual_fee ← context (at_name "actual_fee" fields ≫= as_u128)
          "actual_fee missing from SponsoredTransactionFeePaid";
        tip ← context (at_name "tip" fields ≫= as_u128)
          "tip missing from SponsoredTransactionFeePaid";
        Ok {| paid_fee := actual_fee; paid_tip := tip |}
      else find_sponsored_fee_paid events
  end.
End reading.

(** ** Printing *)

Definition format_active (active : option bool) : string :=
  match active with
  | Some true => "yes"
  | Some false => "paused"
  | None => "not registered"
  end.

(** [{x:04}]: at least four digits, padded with zeros. *)
Definition pad4 (x : N) : string :=
  let digits := pretty x in
  String.app (String.concat "" (replicate (4 - String.length digits) "0"%string)) digits.

Definition format_balance (planck : N) : string :=
  let whole := planck / UNIT in
  let frac := (planck mod UNIT) / 100000000 in
  (pretty whole +:+ "." +:+ pad4 frac +:+ " UNIT")%string.
End Client.
