(* ===== verification/ClientTheorems.v ===== *)
(** * Theorems about the demo client

    What the client signs is what the runtime decodes, and what it reads back from holds and
    events is what the pallet recorded. *)

From stdpp Require Import strings pretty.
From S2P Require Import Prelude Types Ledger Extension Codec Client.
Import Client.
Local Open Scope N_scope.

(** ** Reading values *)

Section values.
Context {V : ValueOps} {VS : ValueOpsSpec V}.

Lemma collect_unnamed vs h :
  collect_sponsor_holds (Composite_Unnamed vs) h
  = foldl (λ h c, collect_sponsor_holds c h) (note_hold (Composite_Unnamed vs) h) vs.
Proof.
  cbn. generalize (note_hold (Composite_Unnamed vs) h). clear h.
  induction vs as [|v vs IH]; intros h; [done|]. apply IH.
Qed.

Lemma collect_variant name vs h :
  collect_sponsor_holds (Variant_Unnamed name vs) h
  = foldl (λ h c, collect_sponsor_holds c h) (note_hold (Variant_Unnamed name vs) h) vs.
Proof.
  cbn. generalize (note_hold (Variant_Unnamed name vs) h). clear h.
  induction vs as [|v vs IH]; intros h; [done|]. apply IH.
Qed.

Lemma note_hold_none v h : at_name "amount" v = None → note_hold v h = h.
Proof. unfold note_hold. by intros ->. Qed.

(** A hold in storage: the runtime's reason (pallet and the pallet's own reason) and the
    amount. *)
Record StoredHold : Type := {
  hold_pallet : string;
  hold_reason : string;
  hold_amount : N;
}.

Definition hold_id (h : StoredHold) : Value :=
  Variant_Unnamed (hold_pallet h) [Variant_Unnamed (hold_reason h) []].

Definition hold_value (h : StoredHold) : Value :=
  Composite_Named [("id"%string, hold_id h); ("amount"%string, Primitive (U128 (hold_amount h)))].

(** The decoded value of [Balances::Holds]: a bounded vector of holds. *)
Definition holds_value (hs : list StoredHold) : Value :=
  Composite_Unnamed [Composite_Unnamed (map hold_value hs)].

(** The printed form of a hold's reason names the pallet's reason and no other. *)
Definition prints_reason (h : StoredHold) : Prop :=
  ∀ r, r ∈ ["SponsorshipBudget"; "SponsorshipPending"]%string →
  contains r (display (hold_id h)) = bool_decide (hold_reason h = r).

Definition amounts (hs : list StoredHold) : gmap string N :=
  list_to_map (map (λ h, (hold_reason h, hold_amount h)) hs).

Definition held_for (r : string) (hs : list StoredHold) : N := default 0 (amounts hs !! r).

Lemma collect_id h acc : collect_sponsor_holds (hold_id h) acc = acc.
Proof.
  unfold hold_id. rewrite collect_variant. cbn [foldl]. rewrite collect_variant. cbn [foldl].
  by rewrite !note_hold_none by apply at_variant_unnamed.
Qed.

Lemma collect_hold h acc :
  prints_reason h →
  collect_sponsor_holds (hold_value h) acc
  = (if decide (hold_reason h = "SponsorshipBudget"%string) then hold_amount h else acc.1,
     if decide (hold_reason h = "SponsorshipPending"%string) then hold_amount h else acc.2).
Proof.
  intros Hp.
  change (collect_sponsor_holds (hold_value h) acc)
    with (collect_sponsor_holds (Primitive (U128 (hold_amount h)))
            (collect_sponsor_holds (hold_id h) (note_hold (hold_value h) acc))).
  rewrite collect_id. cbn [collect_sponsor_holds].
  rewrite note_hold_none by apply at_primitive.
  unfold note_hold, hold_value.
  rewrite (at_named "amount" _ (Primitive (U128 (hold_amount h)))),
    (at_named "id" _ (hold_id h));
    [|by apply (bool_decide_unpack _)|by repeat constructor
     |by apply (bool_decide_unpack _)|by repeat constructor].
  cbn [mbind option_bind fmap option_fmap option_map default from_option].
  rewrite as_u128_primitive. cbn. rewrite !Hp by set_solver.
  destruct acc as [b p]. repeat case_decide; repeat case_bool_decide; cbn; congruence.
Qed.

Lemma collect_all hs acc :
  NoDup (map hold_reason hs) → Forall prints_reason hs →
  foldl (λ acc c, collect_sponsor_holds c acc) acc (map hold_value hs)
  = (default acc.1 (amounts hs !! "SponsorshipBudget"%string),
     default acc.2 (amounts hs !! "SponsorshipPending"%string)).
Proof.
  revert acc. induction hs as [|h hs IH]; intros acc Hnd Hp; [by destruct acc|].
  cbn [map] in Hnd. apply NoDup_cons in Hnd as [Hnotin Hnd]. apply Forall_cons in Hp as [Hh Hp].
  cbn [foldl map]. rewrite collect_hold, IH by done. unfold amounts. cbn [map list_to_map fst snd].
  fold (amounts hs).
  assert (Hnone : amounts hs !! hold_reason h = None).
  { apply not_elem_of_list_to_map_1. rewrite <- list_fmap_compose. done. }
  f_equal; cbn; rewrite lookup_insert; repeat case_decide; simplify_eq; try done.
  - by rewrite <- H, Hnone.
  - by rewrite <- H, Hnone.
Qed.

(** From the decoded holds of an account the client reads the amount
    under the budget reason and the amount under the pending reason, zero for one that is
    not held, whatever other holds are stored and in whatever order. *)
Theorem holds_are_read hs :
  NoDup (map hold_reason hs) → Forall prints_reason hs →
  sponsor_holds (Some (holds_value hs))
  = (held_for "SponsorshipBudget" hs, held_for "SponsorshipPending" hs).
Proof.
  intros Hnd Hp. unfold sponsor_holds, holds_value. rewrite collect_unnamed. cbn [foldl].
  rewrite collect_unnamed, !note_hold_none by apply at_unnamed. by apply collect_all.
Qed.

(** ** Events *)

(** A settlement event of the pallet, as the client sees it decoded. *)
Definition settlement_event {A} (account_value : A → Value) (sp signer : A) (fee tip : N) :
    EventDetails := {|
  event_pallet := "SponsoredTx";
  event_variant := "SponsoredTransactionFeePaid";
  field_values := Ok (Composite_Named
    [("sponsor"%string, account_value sp); ("signer"%string, account_value signer);
     ("actual_fee"%string, Primitive (U128 fee)); ("tip"%string, Primitive (U128 tip))]);
|}.

(** A decoded event of another kind. *)
Definition other_event (e : anyhow EventDetails) : Prop :=
  ∃ d, e = Ok d ∧ ¬ (event_pallet d = "SponsoredTx"%string
                     ∧ event_variant d = "SponsoredTransactionFeePaid"%string).

Lemma find_skips e es :
  other_event e → find_sponsored_fee_paid (e :: es) = find_sponsored_fee_paid es.
Proof.
  intros (d & -> & Hne). cbn. destruct (bool_decide (event_pallet d = _)) eqn:H1; [|done].
  destruct (bool_decide (event_variant d = _)) eqn:H2; [|done].
  exfalso. apply Hne. by bool_to_prop.
Qed.

Lemma find_settlement {A} (account_value : A → Value) sp signer fee tip post :
  find_sponsored_fee_paid (Ok (settlement_event account_value sp signer fee tip) :: post)
  = Ok {| paid_fee := fee; paid_tip := tip |}.
Proof.
  cbn -[at_name].
  rewrite (at_named "actual_fee" _ (Primitive (U128 fee))),
    (at_named "tip" _ (Primitive (U128 tip)));
    [|by apply (bool_decide_unpack _)|by repeat constructor
     |by apply (bool_decide_unpack _)|by repeat constructor].
  cbn. by rewrite !as_u128_primitive.
Qed.

(** Among the events of an extrinsic the client reports the fee and
    the tip of the settlement event, past any number of other events, and reports an error
    when there is none. *)
Theorem settlement_is_found {A} (account_value : A → Value) sp signer fee tip pre post :
  Forall other_event pre →
  find_sponsored_fee_paid (pre ++ Ok (settlement_event account_value sp signer fee tip) :: post)
    = Ok {| paid_fee := fee; paid_tip := tip |}
  ∧ find_sponsored_fee_paid pre = Err "SponsoredTransactionFeePaid event not found"%string.
Proof.
  induction 1 as [|e es He Hes IH]; [|cbn [app]; by rewrite !find_skips].
  split; [apply find_settlement|done].
Qed.
End values.

(** ** Payload *)

Section payload.
Context {T : Config} {X : DefaultExtrinsicParams}.
Context {compact_balance : Codec N} {option_account : Codec (option AccountId)}.
(** Which accounts have an encoding (all [AccountId32] do). *)
Context (wire_account : option AccountId → Prop).
Context {CS : CodecSpec compact_balance (λ t, t ≤ balance_max)}.
Context {OS : CodecSpec option_account wire_account}.

(** C37: after any sequence of builder calls, the extension bytes the client
    appends to the signed payload decode, on the runtime's side, to the extension with the
    last tip and the last sponsor the calls asked for (no tip and no sponsor by default),
    and what follows them is left in place.  They are the bytes the runtime's own encoder
    would produce, and the standard extensions' parameters are those of Subxt's builder. *)
Theorem payload_decodes ops (v rest : list N) :
  let t := asked_tip 0 ops in
  let sp := asked_sponsor None ops in
  let b := builder_calls ops builder_new in
  t ≤ balance_max → wire_account sp →
  ∃ bytes,
    encode_value_to (extension_new (sponsored_slot (build b))) v = v ++ bytes
    ∧ bytes = encode_extension (new t sp)
    ∧ decode_extension (bytes ++ rest) = Some (new t sp, rest)
    ∧ (build b).1.1 = (inner_build (inner b)).1.1
    ∧ (build b).2 = (inner_build (inner b)).2.
Proof.
  intros t sp b Ht Hsp. exists (encode_extension (new t sp)).
  rewrite sponsored_slot_build.
  destruct (builder_calls_fields ops builder_new) as [Hbt Hbs].
  fold b in Hbt, Hbs. rewrite Hbt, Hbs. split_and!.
  - unfold encode_value_to, encode_extension. cbn. by rewrite <- app_assoc.
  - done.
  - unfold encode_extension. rewrite <- app_assoc. cbn. by eapply decode_extension_parts.
  - unfold build. by destruct (inner_build (inner b)) as [[[[[[[[]]]]]]]].
  - unfold build. by destruct (inner_build (inner b)) as [[[[[[[[]]]]]]]].
Qed.
End payload.

(** ** Printed balances *)

Lemma string_app_inj (a b c d : string) :
  String.length a = String.length b → (a +:+ c = b +:+ d)%string → a = b ∧ c = d.
Proof.
  revert b. induction a as [|x a IH]; intros [|y b]; cbn; intros Hl Heq; try done.
  simplify_eq. destruct (IH b); [done..|]. by subst.
Qed.

Lemma string_app_length (a b : string) :
  String.length (a +:+ b)%string = (String.length a + String.length b)%nat.
Proof. induction a as [|x a IH]; [done|]. exact (f_equal S IH). Qed.

(** The value of a string of digits. *)
Fixpoint digits_value (acc : N) (s : string) : N :=
  match s with
  | EmptyString => acc
  | String c s => digits_value (acc * 10 + (Ascii.N_of_ascii c - 48)) s
  end.

Fixpoint up_to (n : nat) : list N :=
  match n with
  | O => []
  | S n => N.of_nat n :: up_to n
  end.

Lemma elem_of_up_to n x : x < N.of_nat n → x ∈ up_to n.
Proof.
  induction n as [|n IH]; cbn; intros Hx; [lia|]. rewrite elem_of_cons.
  destruct (decide (x = N.of_nat n)); [by left|right; apply IH; lia].
Qed.

Lemma pad4_check :
  forallb (λ x, (String.length (pad4 x) =? 4)%nat && (digits_value 0 (pad4 x) =? x))
    (up_to (N.to_nat 10000)) = true.
Proof. by vm_compute. Qed.

Lemma pad4_spec x : x < 10000 → String.length (pad4 x) = 4%nat ∧ digits_value 0 (pad4 x) = x.
Proof.
  intros Hx. pose proof pad4_check as H. rewrite forallb_forall in H.
  specialize (H x). rewrite <- list_elem_of_In, andb_true_iff, Nat.eqb_eq, N.eqb_eq in H.
  apply H, elem_of_up_to. by rewrite N2Nat.id.
Qed.

Lemma balance_digits p :
  p / 100000000 = p / UNIT * 10000 + p mod UNIT / 100000000
  ∧ p mod UNIT / 100000000 < 10000.
Proof.
  unfold UNIT. pose proof (N.div_mod p 1000000000000 ltac:(lia)) as Hp.
  pose proof (N.mod_lt p 1000000000000 ltac:(lia)) as Hlt.
  split; [|apply N.Div0.div_lt_upper_bound; lia].
  rewrite Hp at 1.
  replace (1000000000000 * (p / 1000000000000) + p mod 1000000000000)
    with (p mod 1000000000000 + p / 1000000000000 * 10000 * 100000000) by lia.
  rewrite N.div_add by lia. lia.
Qed.

(** A balance is printed to four decimals of a unit without loss.  The
    whole and fractional parts shown are the balance in ten-thousandths of a unit, the
    fractional part has exactly four digits, and two balances print alike exactly when they
    agree to that precision. *)
Theorem balances_print p q :
  p / 100000000 = p / UNIT * 10000 + digits_value 0 (pad4 (p mod UNIT / 100000000))
  ∧ String.length (pad4 (p mod UNIT / 100000000)) = 4%nat
  ∧ (format_balance p = format_balance q ↔ p / 100000000 = q / 100000000).
Proof.
  destruct (balance_digits p) as [Hp Hplt], (balance_digits q) as [Hq Hqlt].
  destruct (pad4_spec _ Hplt) as [Hpl Hpv], (pad4_spec _ Hqlt) as [Hql Hqv].
  split_and!; [by rewrite Hpv|done|]. split.
  - unfold format_balance. intros Heq.
    pose proof (f_equal String.length Heq) as Hlen. rewrite !string_app_length in Hlen.
    apply string_app_inj in Heq as [Hw Hf]; [|lia].
    apply string_app_inj in Hf as [_ Hf]; [|done].
    apply string_app_inj in Hf as [Hf _]; [|by rewrite Hpl, Hql].
    apply (inj pretty) in Hw. rewrite Hp, Hq, Hw. rewrite <- Hpv, <- Hqv. by rewrite Hf.
  - intros Heq. unfold format_balance.
    assert (p / UNIT = q / UNIT ∧ p mod UNIT / 100000000 = q mod UNIT / 100000000) as [-> ->];
      [|done]. lia.
Qed.

(** ** The hypotheses hold *)

(** Lookup in the fields, and a printed form that lists the variant names. *)
Fixpoint print_value (v : Value) : string :=
  match v with
  | Variant_Unnamed name vs =>
      (name +:+ "(" +:+ String.concat ", " (map print_value vs) +:+ ")")%string
  | _ => "_"%string
  end.

#[export] Instance value_ops : ValueOps := {|
  at_name name v :=
    match v with
    | Composite_Named fs | Variant_Named _ fs =>
        (list_to_map fs : gmap string Value) !! name
    | _ => None
    end;
  as_u128 v := match v with Primitive (U128 n) => Some n | _ => None end;
  as_bool v := match v with Primitive (Bool b) => Some b | _ => None end;
  display := print_value;
|}.

#[export] Instance value_ops_spec : ValueOpsSpec value_ops.
Proof. split; try done. intros name fs v Hnd Hin. by apply elem_of_list_to_map_1. Qed.

Definition demo_holds : list StoredHold := [
  {| hold_pallet := "Preimage"; hold_reason := "Preimage"; hold_amount := 3 |};
  {| hold_pallet := "SponsoredTx"; hold_reason := "SponsorshipPending"; hold_amount := 7 |};
  {| hold_pallet := "SponsoredTx"; hold_reason := "SponsorshipBudget"; hold_amount := 193 |}].

Lemma holds_are_read_witness : sponsor_holds (Some (holds_value demo_holds)) = (193, 7).
Proof.
  rewrite (holds_are_read demo_holds).
  - reflexivity.
  - apply (bool_decide_unpack _). by vm_compute.
  - repeat constructor; intros r Hr;
      repeat (apply elem_of_cons in Hr as [->|Hr]; [reflexivity|]);
      by apply elem_of_nil in Hr.
Defined.

Lemma settlement_is_found_witness :
  find_sponsored_fee_paid
    [Ok {| event_pallet := "Balances"; event_variant := "Slashed"; field_values := Err "unread" |};
     Ok (settlement_event (λ n : N, Primitive (U128 n)) 1 2 6 5)]
  = Ok {| paid_fee := 6; paid_tip := 5 |}.
Proof.
  apply (settlement_is_found (λ n : N, Primitive (U128 n)) 1 2 6 5
    [Ok {| event_pallet := "Balances"; event_variant := "Slashed"; field_values := Err "unread" |}]
    []).
  constructor; [|constructor]. eexists. split; [reflexivity|]. by intros [].
Defined.

#[export] Instance unit_params : DefaultExtrinsicParams := {|
  Inner := N; inner_default := 0; inner_tip t _ := t; inner_nonce _ i := i;
  inner_mortal _ i := i; inner_immortal i := i;
  VerifySignature := unit; CheckSpecVersion := unit; CheckTxVersion := unit;
  CheckNonce := unit; CheckGenesis := unit; CheckMortality := unit;
  ChargeAssetTxPayment := N; ChargeTxPayment := N; CheckMetadataHash := unit;
  inner_build i := (tt, tt, tt, tt, tt, tt, i, i, tt);
|}.

Definition account_codec : Codec (option (@AccountId Test)) := option_codec u64_codec.
Definition wire_u64 (o : option (@AccountId Test)) : Prop := ∀ a : N, o = Some a → a ≤ u64_max.

#[export] Instance account_codec_spec : CodecSpec account_codec wire_u64.
Proof. apply option_codec_spec, u64_codec_spec. Qed.

(** The client's sponsored transaction: mortal, with a tip, naming account 1. *)
Definition demo_calls : list (@BuilderCall Test) := [Op_mortal 32; Op_tip 70000; Op_sponsor 1].

Lemma payload_decodes_witness :
  ∃ bytes, decode_extension (compact_balance := compact_codec) (option_account := account_codec)
             (bytes ++ [42]) = Some (new 70000 (Some (1 : @AccountId Test)), [42]).
Proof.
  destruct (payload_decodes (compact_balance := compact_codec)
    (option_account := account_codec) wire_u64 demo_calls [] [42])
    as (bytes & _ & _ & Hdec & _); [by vm_compute|by intros a [= <-]; vm_compute|].
  exists bytes. exact Hdec.
Defined.
