(* ===== verification/Node.v ===== *)
(** * Genesis presets and chain specifications

    [runtime/src/genesis_config_presets.rs]: the genesis configurations the runtime offers by
    name; [node/src/chain_spec.rs], and from [node/src/command.rs] and [node/src/cli.rs] the
    choice of a specification by its id and of the relay chain's id and directory.  The
    development keyring, the serializer and the file system are parameters. *)

From stdpp Require Import strings.
From S2P Require Import Prelude Runtime.
Local Open Scope N_scope.

Definition PARACHAIN_ID : N := 1000.

(** The development keyring, the names of the standard presets and the JSON serializer. *)
Class GenesisEnv : Type := {
  AccountId : Type;
  AuraId : Type;
  Sr25519Keyring : Type;
  Alice : Sr25519Keyring;
  Bob : Sr25519Keyring;
  well_known : list Sr25519Keyring;
  to_account_id : Sr25519Keyring → AccountId;
  public_into : Sr25519Keyring → AuraId;
  LOCAL_TESTNET_RUNTIME_PRESET : string;
  DEV_RUNTIME_PRESET : string;
  SAFE_XCM_VERSION : N;
}.

(** The well-known keys are distinct and have Alice and Bob among them. *)
Class GenesisEnvSpec (G : GenesisEnv) : Prop := {
  to_account_id_inj :: Inj (=) (=) to_account_id;
  well_known_nodup : NoDup well_known;
  well_known_alice : Alice ∈ well_known;
  well_known_bob : Bob ∈ well_known;
  alice_not_bob : Alice ≠ Bob;
}.

Section genesis.
Context {G : GenesisEnv}.

Record SessionKeys : Type := { aura : AuraId }.

Definition template_session_keys (keys : AuraId) : SessionKeys := {| aura := keys |}.

(** The fields of [RuntimeGenesisConfig] the presets set. *)
Record RuntimeGenesisConfig : Type := {
  balances : list (AccountId * N);
  parachain_id : N;
  invulnerables : list AccountId;
  candidacy_bond : N;
  session_keys : list (AccountId * AccountId * SessionKeys);
  safe_xcm_version : option N;
  sudo_key : option AccountId;
}.

Definition testnet_genesis (invulnerables : list (AccountId * AuraId))
    (endowed_accounts : list AccountId) (root : AccountId) (id : N) :
    RuntimeGenesisConfig := {|
  balances := map (λ k, (k, N.shiftl 1 60)) endowed_accounts;
  parachain_id := id;
  invulnerables := map (λ '(acc, _), acc) invulnerables;
  candidacy_bond := EXISTENTIAL_DEPOSIT * 16;
  session_keys := map (λ '(acc, aura), (acc, acc, template_session_keys aura)) invulnerables;
  safe_xcm_version := Some SAFE_XCM_VERSION;
  sudo_key := Some root;
|}.

Definition local_testnet_genesis : RuntimeGenesisConfig :=
  testnet_genesis
    [(to_account_id Alice, public_into Alice); (to_account_id Bob, public_into Bob)]
    (map to_account_id well_known) (to_account_id Alice) PARACHAIN_ID.

Definition development_config_genesis : RuntimeGenesisConfig :=
  testnet_genesis
    [(to_account_id Alice, public_into Alice); (to_account_id Bob, public_into Bob)]
    (map to_account_id well_known) (to_account_id Alice) PARACHAIN_ID.

(** The bytes of [serde_json::to_string], which the source expects to succeed. *)
Context (to_json_bytes : RuntimeGenesisConfig → list N).

Definition get_preset (id : string) : option (list N) :=
  patch ← (if decide (id = LOCAL_TESTNET_RUNTIME_PRESET) then Some local_testnet_genesis
           else if decide (id = DEV_RUNTIME_PRESET) then Some development_config_genesis
           else None);
  Some (to_json_bytes patch).

Definition preset_names : list string := [DEV_RUNTIME_PRESET; LOCAL_TESTNET_RUNTIME_PRESET].

(** ** Chain specifications *)

Definition RELAY_CHAIN : string := "rococo-local".

Inductive ChainType : Set := Development | Local.

Inductive Property : Set :=
| P_text (s : string)
| P_number (n : N).

(** The extensions of a chain specification. *)
Record Extensions : Set := { relay_chain : string }.

Record ChainSpec : Type := {
  spec_name : string;
  spec_id : string;
  chain_type : ChainType;
  genesis_preset : string;
  protocol_id : option string;
  properties : gmap string Property;
  extensions : Extensions;
}.

Definition base_currency_properties : gmap string Property :=
  <["ss58Format" := P_number 42]>
    (<["tokenDecimals" := P_number 12]> (<["tokenSymbol" := P_text "UNIT"]> ∅)).

Definition development_chain_spec : ChainSpec := {|
  spec_name := "Development";
  spec_id := "dev";
  chain_type := Development;
  genesis_preset := DEV_RUNTIME_PRESET;
  protocol_id := None;
  properties := base_currency_properties;
  extensions := {| relay_chain := RELAY_CHAIN |};
|}.

Definition local_chain_spec : ChainSpec := {|
  spec_name := "Local Testnet";
  spec_id := "local_testnet";
  chain_type := Local;
  genesis_preset := LOCAL_TESTNET_RUNTIME_PRESET;
  protocol_id := Some "template-local"%string;
  properties := base_currency_properties;
  extensions := {| relay_chain := RELAY_CHAIN |};
|}.

(** [ChainSpec::from_json_file]. *)
Context (from_json_file : string → result ChainSpec string).

Definition load_spec (id : string) : result ChainSpec string :=
  if decide (id = "dev"%string) then Ok development_chain_spec
  else if decide (id = "template-rococo"%string) then Ok local_chain_spec
  else if decide (id = ""%string ∨ id = "local"%string) then Ok local_chain_spec
  else from_json_file id.
End genesis.

(** ** The relay chain's command line *)

(** What a command line configures, as the service asks for it ([sc_cli::CliConfiguration]);
    the types of the answers are the SDK's. *)
Class CliTypes : Type := {
  SharedParams : Type;
  ImportParams : Type;
  NetworkParams : Type;
  KeystoreParams : Type;
  RpcEndpoint : Type;
  PrometheusConfig : Type;
  Role : Type;
  TransactionPoolOptions : Type;
  RpcMethods : Type;
  TelemetryEndpoints : Type;
  Spec : Type;
}.

Section relay_chain_cli.
Context {Y : CliTypes}.

Definition cli_result (A : Type) : Type := result A string.

Record CliConfiguration : Type := {
  shared_params : SharedParams;
  import_params : option ImportParams;
  network_params : option NetworkParams;
  keystore_params : option KeystoreParams;
  base_path : cli_result (option string);
  rpc_addr : N → cli_result (option (list RpcEndpoint));
  prometheus_config : N → Spec → cli_result (option PrometheusConfig);
  (** Setting up logging; [None] where the implementation declares it unreachable. *)
  init : option (string → string → cli_result unit);
  chain_id : bool → cli_result string;
  role : bool → cli_result Role;
  transaction_pool : bool → cli_result TransactionPoolOptions;
  trie_cache_maximum_size : cli_result (option N);
  rpc_methods : cli_result RpcMethods;
  rpc_max_connections : cli_result N;
  rpc_cors : bool → cli_result (option (list string));
  default_heap_pages : cli_result (option N);
  force_authoring : cli_result bool;
  disable_grandpa : cli_result bool;
  max_runtime_instances : cli_result (option N);
  announce_block : cli_result bool;
  telemetry_endpoints : Spec → cli_result (option TelemetryEndpoints);
  node_name : cli_result string;
}.

(** The parsed relay chain command, with the defaults taken from the parachain.
    [base_path_of] is [SharedParams::base_path]. *)
Record RelayChainCli : Type := {
  base : CliConfiguration;
  chain_id_arg : option string;
  base_path_arg : option string;
}.

Context (base_path_of : SharedParams → cli_result (option string)).

Definition relay_base_path (self : RelayChainCli) : cli_result (option string) :=
  match base_path_of (shared_params (base self)) with
  | Ok (Some path) => Ok (Some path)
  | Ok None => Ok (base_path_arg self)
  | Err e => Err e
  end.

Definition relay_chain_id (self : RelayChainCli) (is_dev : bool) : cli_result string :=
  match chain_id (base self) is_dev with
  | Ok id => Ok (if decide (id = ""%string) then default ""%string (chain_id_arg self) else id)
  | Err e => Err e
  end.

(** [impl CliConfiguration<Self> for RelayChainCli]. *)
Definition RelayChainCli_configuration (self : RelayChainCli) : CliConfiguration := {|
  shared_params := shared_params (base self);
  import_params := import_params (base self);
  network_params := network_params (base self);
  keystore_params := keystore_params (base self);
  base_path := relay_base_path self;
  rpc_addr := rpc_addr (base self);
  prometheus_config := prometheus_config (base self);
  init := None;
  chain_id := relay_chain_id self;
  role := role (base self);
  transaction_pool := transaction_pool (base self);
  trie_cache_maximum_size := trie_cache_maximum_size (base self);
  rpc_methods := rpc_methods (base self);
  rpc_max_connections := rpc_max_connections (base self);
  rpc_cors := rpc_cors (base self);
  default_heap_pages := default_heap_pages (base self);
  force_authoring := force_authoring (base self);
  disable_grandpa := disable_grandpa (base self);
  max_runtime_instances := max_runtime_instances (base self);
  announce_block := announce_block (base self);
  telemetry_endpoints := telemetry_endpoints (base self);
  node_name := node_name (base self);
|}.

(** [clap::Parser::parse_from] and [Path::join]. *)
Context (parse_from : list string → CliConfiguration).
Context (join : string → string → string).

(** [RelayChainCli::new]; [extension] is what [Extensions::try_get] finds in the
    parachain's specification. *)
Definition RelayChainCli_new (extension : option Extensions) (para_base_path : string)
    (relay_chain_args : list string) : RelayChainCli := {|
  base := parse_from relay_chain_args;
  chain_id_arg := relay_chain <$> extension;
  base_path_arg := Some (join para_base_path "polkadot"%string);
|}.
End relay_chain_cli.

(** Default ports of the relay chain's node. *)
Definition p2p_listen_port : N := 30334.
Definition rpc_listen_port : N := 9945.
Definition prometheus_listen_port : N := 9616.
