(* ===== verification/NodeTheorems.v ===== *)
(** * Theorems about presets and chain specifications *)

From stdpp Require Import strings.
From S2P Require Import Prelude Runtime Node.
Local Open Scope N_scope.

Section node.
Context {G : GenesisEnv} {GS : GenesisEnvSpec G}.

(** What a usable genesis configuration has: accounts listed once, each with at least the
    existential deposit; collators that are endowed, can pay their bond, and have session
    keys under their own account; an endowed root. *)
Record genesis_ok (c : RuntimeGenesisConfig) : Prop := {
  ok_nodup : NoDup (balances c).*1;
  ok_endowed a n : (a, n) ∈ balances c → EXISTENTIAL_DEPOSIT + candidacy_bond c ≤ n;
  ok_collators a : a ∈ invulnerables c → a ∈ (balances c).*1;
  ok_collators_nodup : NoDup (invulnerables c);
  ok_collator_count : N.of_nat (length (invulnerables c)) ≤ MaxInvulnerables;
  ok_keys : (λ k : _ * _ * _, k.1) <$> session_keys c = (λ a, (a, a)) <$> invulnerables c;
  ok_root : ∃ a, sudo_key c = Some a ∧ a ∈ (balances c).*1;
  ok_issuance :
    N.of_nat (length (well_known)) ≤ 2 ^ 64 → foldr (λ b acc, b.2 + acc) 0 (balances c) ≤ u128_max;
}.

Lemma issuance_constant {A} (l : list A) x :
  foldr (λ (b : A * N) acc, b.2 + acc) 0 (map (λ k, (k, x)) l) = N.of_nat (length l) * x.
Proof. induction l as [|a l IH]; cbn [map foldr length snd]; [done|]. rewrite IH. lia. Qed.

Lemma fst_endowed {A} (l : list A) (x : N) : (map (λ k, (k, x)) l).*1 = l.
Proof. induction l as [|a l IH]; cbn; [done|by f_equal]. Qed.

Lemma preset_genesis_ok :
  genesis_ok local_testnet_genesis ∧ genesis_ok development_config_genesis.
Proof.
  assert (genesis_ok local_testnet_genesis); [|done].
  pose proof well_known_alice. pose proof well_known_bob.
  split; cbn [balances invulnerables candidacy_bond session_keys sudo_key testnet_genesis
    local_testnet_genesis].
  - rewrite fst_endowed. apply NoDup_fmap_2; [apply _|apply well_known_nodup].
  - intros a n Hin. apply list_elem_of_fmap in Hin as (? & [= -> ->] & _). by vm_compute.
  - intros a Ha. rewrite fst_endowed. cbn in Ha.
    repeat (apply elem_of_cons in Ha as [->|Ha]; [by apply list_elem_of_fmap_2|]).
    by apply elem_of_nil in Ha.
  - cbn. apply NoDup_cons. split; [|apply NoDup_singleton]. rewrite list_elem_of_singleton.
    intros Heq%(inj to_account_id). by apply alice_not_bob.
  - by vm_compute.
  - done.
  - exists (to_account_id Alice). split; [done|]. rewrite fst_endowed.
    by apply list_elem_of_fmap_2.
  - intros Hlen. rewrite issuance_constant, length_map. unfold u128_max.
    change (N.shiftl 1 60) with (2 ^ 60). lia.
Qed.

(** The runtime has a genesis preset exactly for the names it
    lists, and each one is a usable configuration: no account endowed twice, every endowment
    above the existential deposit and the candidacy bond, collators and root among the
    endowed, session keys filed under the collator's own account, total issuance within
    128 bits. *)
Theorem presets_are_usable to_json_bytes id :
  (is_Some (get_preset to_json_bytes id) ↔ id ∈ preset_names)
  ∧ (∀ bytes, get_preset to_json_bytes id = Some bytes →
     ∃ c, bytes = to_json_bytes c ∧ genesis_ok c).
Proof.
  destruct preset_genesis_ok as [Hlocal Hdev]. unfold get_preset, preset_names. split.
  - repeat case_decide; subst; cbn; (split; [intros Hs|intros Hin]); set_solver.
  - intros bytes Hc. repeat case_decide; simplify_eq/=; eauto.
Qed.

(** C39: every built-in chain id loads a specification without reading a file,
    whose genesis preset the runtime offers, whose properties describe the runtime's
    currency (a unit of ten to the token decimals) and address format, and whose relay
    chain is the one a relay chain command without an explicit chain then uses. *)
Theorem builtin_specs {Y : CliTypes} from_json_file parse_from base_path_of join id args
    para_path is_dev :
  id ∈ [""; "dev"; "local"; "template-rococo"]%string →
  chain_id (parse_from args) is_dev = Ok ""%string →
  ∃ spec d f,
    load_spec from_json_file id = Ok spec
    ∧ genesis_preset spec ∈ preset_names
    ∧ properties spec !! "tokenDecimals" = Some (P_number d) ∧ 10 ^ d = UNIT
    ∧ properties spec !! "ss58Format" = Some (P_number f) ∧ f = SS58Prefix
    ∧ chain_id (RelayChainCli_configuration base_path_of
        (RelayChainCli_new parse_from join (Some (extensions spec)) para_path args)) is_dev
      = Ok RELAY_CHAIN.
Proof.
  intros Hid Hbase.
  assert (∃ spec, load_spec from_json_file id = Ok spec
    ∧ (spec = development_chain_spec ∨ spec = local_chain_spec)) as (spec & Hload & Hspec).
  { repeat (apply elem_of_cons in Hid as [->|Hid]; [cbn; eauto|]).
    by apply elem_of_nil in Hid. }
  exists spec, 12, 42. cbn [chain_id RelayChainCli_configuration]. unfold relay_chain_id.
  cbn [RelayChainCli_new base chain_id_arg]. rewrite Hbase, decide_True by done. unfold preset_names.
  destruct Hspec as [-> | ->]; (split_and!; [done|set_solver|done..]).
Qed.

(** An id that is not built in is read from the file of that
    name, with the file's error reported; an explicit relay chain id and base path override
    the defaults taken from the parachain; and the default directory of the relay chain
    is a subdirectory of the parachain's. *)
Theorem explicit_arguments_win {Y : CliTypes} from_json_file parse_from base_path_of join id
    relay_id args para_path ext is_dev :
  id ∉ [""; "dev"; "local"; "template-rococo"]%string → relay_id ≠ ""%string →
  let cli := RelayChainCli_configuration base_path_of
               (RelayChainCli_new parse_from join ext para_path args) in
  load_spec from_json_file id = from_json_file id
  ∧ (chain_id (parse_from args) is_dev = Ok relay_id → chain_id cli is_dev = Ok relay_id)
  ∧ base_path cli
    = match base_path_of (shared_params (parse_from args)) with
      | Ok None => Ok (Some (join para_path "polkadot"%string))
      | explicit => explicit
      end.
Proof.
  intros Hid Hrelay. cbn zeta. split_and!.
  - unfold load_spec. rewrite !decide_False by set_solver. done.
  - intros Hbase. cbn. unfold relay_chain_id. cbn. by rewrite Hbase, decide_False.
  - cbn. unfold relay_base_path. cbn. by destruct (base_path_of _) as [[?|]|?].
Qed.
End node.

(** ** The hypotheses hold *)

#[export] Instance demo_env : GenesisEnv := {|
  AccountId := N; AuraId := N; Sr25519Keyring := N; Alice := 1; Bob := 2;
  well_known := [1; 2; 3; 4; 5; 6]; to_account_id := id; public_into := id;
  LOCAL_TESTNET_RUNTIME_PRESET := "local_testnet"; DEV_RUNTIME_PRESET := "development";
  SAFE_XCM_VERSION := 5;
|}.

#[export] Instance demo_env_spec : GenesisEnvSpec demo_env.
Proof.
  split; [apply _|by apply (bool_decide_unpack _)|by repeat constructor..|done].
Qed.

Lemma presets_are_usable_witness :
  is_Some (get_preset (λ c, [parachain_id c]) "development")
  ∧ ∃ c, [1000] = [parachain_id c] ∧ genesis_ok c.
Proof.
  split.
  - apply (presets_are_usable (λ c, [parachain_id c]) "development"). by repeat constructor.
  - apply (presets_are_usable (λ c, [parachain_id c]) "development"). reflexivity.
Defined.

#[export] Instance unit_cli : CliTypes := {|
  SharedParams := option string; ImportParams := unit; NetworkParams := unit;
  KeystoreParams := unit; RpcEndpoint := unit; PrometheusConfig := unit; Role := unit;
  TransactionPoolOptions := unit; RpcMethods := unit; TelemetryEndpoints := unit;
  Spec := unit;
|}.

(** A relay chain command that names its chain in the first argument, if there is one. *)
Definition demo_parse (args : list string) : CliConfiguration := {|
  shared_params := None : SharedParams; import_params := None; network_params := None;
  keystore_params := None; base_path := Ok None; rpc_addr _ := Ok None;
  prometheus_config _ _ := Ok None; init := None;
  chain_id _ := Ok (default ""%string (head args));
  role _ := Ok (tt : Role); transaction_pool _ := Ok (tt : TransactionPoolOptions);
  trie_cache_maximum_size := Ok None; rpc_methods := Ok (tt : RpcMethods);
  rpc_max_connections := Ok 100; rpc_cors _ := Ok None; default_heap_pages := Ok None;
  force_authoring := Ok false; disable_grandpa := Ok false; max_runtime_instances := Ok None;
  announce_block := Ok true; telemetry_endpoints _ := Ok None; node_name := Ok "node"%string;
|}.

Definition demo_base_path (p : SharedParams) : cli_result (option string) := Ok p.

Lemma builtin_specs_witness :
  ∃ spec, load_spec (λ _, Err "no file"%string) "local" = Ok spec
    ∧ genesis_preset spec ∈ preset_names.
Proof.
  destruct (builtin_specs (λ _, Err "no file"%string) demo_parse demo_base_path (λ a b, a)
    "local" [] "/data" false) as (spec & d & f & Hload & Hpre & _);
    [by repeat constructor|reflexivity|].
  exists spec. split; [exact Hload|exact Hpre].
Defined.

Lemma explicit_arguments_win_witness :
  load_spec (λ p, Err p) "specs/main.json" = Err "specs/main.json"%string
  ∧ chain_id (RelayChainCli_configuration demo_base_path
      (RelayChainCli_new demo_parse (λ a b, a) None "/data" ["polkadot"%string])) false
    = Ok "polkadot"%string.
Proof.
  destruct (explicit_arguments_win (λ p, Err p) demo_parse demo_base_path (λ a b, a)
    "specs/main.json" "polkadot" ["polkadot"%string] "/data" None false)
    as (Hload & Hid & _); [by apply (bool_decide_unpack _)|done|].
  split; [exact Hload|]. apply Hid. reflexivity.
Defined.
