(* ===== verification/Extrinsic.v ===== *)
(** * Applying a signed extrinsic

    What the runtime's executive does with a signed extrinsic, in the order that
    [docs/architecture_review.md] gives: [validate], [prepare], dispatch, [post_dispatch].  The
    executive itself and the standard payment extension are SDK code: the sequence is spelled
    out here over the pallet's own extension, and [ChargeSpec] states what is documented of
    the standard one. *)

From S2P Require Import Prelude Types Frame Weights Payment Pallet SponsorSpec PalletProofs Extension ExtensionProofs Lifecycle.
Local Open Scope N_scope.

(** ** Documented behaviour of the SDK *)

(** A hold succeeds when the free balance keeps the minimum balance. *)
Class FungibleHoldFunds {T : Config} {F : FungibleHold} (L : FungibleHoldLive F) : Type := {
  minimum_balance : N;
  hold_available r who amount w :
    bal_ok w → amount + minimum_balance ≤ free_balance who w →
    ∃ w', hold r who amount w = (Ok tt, w');
}.

Section paid.
Context {T : Config} {F : FungibleHold}.

(** [w'] is [w] but for the free balance of [who]. *)
Record free_moved (who : AccountId) (w w' : World) : Prop := {
  free_moved_holds : same_holds w w';
  free_moved_others who' : who' ≠ who → free_balance who' w' = free_balance who' w;
}.
End paid.

(** [ChargeTransactionPayment] for a signer who can pay: validation changes nothing,
    preparation takes the fee from the free balance, settlement gives some of it back, and
    holds and other accounts are left alone. *)
Class ChargeSpec {T : Config} {F : FungibleHold} {L : FungibleHoldLive F} {W : Weights}
    (P : TransactionPayment) (B : FungibleHoldFunds L) : Prop :=
  charge_pays o who call info len imp src tip w :
    as_system_origin_signer o = Some who → bal_ok w →
    compute_fee (as_u32 len) info tip w + minimum_balance ≤ free_balance who w →
    ∃ v val pre w1,
      charge_validate tip o call info len imp src w = (Ok (v, val, o), w)
      ∧ charge_prepare tip val o call info len w = (Ok pre, w1)
      ∧ bal_ok w1 ∧ free_moved who w w1
      ∧ free_balance who w1 + compute_fee (as_u32 len) info tip w = free_balance who w
      ∧ ∀ post res w2, bal_ok w2 →
          ∃ wt w3, charge_post_dispatch_details pre info post len res w2 = (Ok wt, w3)
            ∧ bal_ok w3 ∧ free_moved who w2 w3 ∧ free_balance who w2 ≤ free_balance who w3.

(** ** The pipeline *)

(** The calls of the runtime's other pallets, which may call this one in turn (as
    [Sudo::sudo_as] does). *)
Class OtherPallets {T : Config} : Type := {
  OtherCall : Type;
  dispatch_other : OtherCall → RuntimeOrigin → M Chain DispatchError unit;
}.

(** The runtime's calls: this pallet's and [System::remark], which the demo client makes, and
    any other. *)
Inductive RuntimeCalls {T : Config} {O : OtherPallets} : Type :=
| SponsoredTx (c : Call)
| System_remark (remark : list N)
| OtherPallet (c : OtherCall).

(** What surrounds a call in an extrinsic. *)
Class CallEnv {T : Config} {O : OtherPallets} {W : Weights} {P : TransactionPayment} : Type := {
  signed_origin : AccountId → RuntimeOrigin;
  runtime_call : RuntimeCalls → RuntimeCall;
  get_dispatch_info : RuntimeCalls → DispatchInfo;
  encoded_len : SponsoredChargeTransactionPayment → RuntimeCalls → N;
  post_dispatch_info : RuntimeCalls → result unit DispatchError → PostDispatchInfo;
  dispatch_result : result unit DispatchError → DispatchResult;
  implication : RuntimeCalls → Implication;
  External : TransactionSource;
  InBlock : TransactionSource;
}.

Class CallEnvSpec {T : Config} {O : OtherPallets} {W : Weights} {P : TransactionPayment} (C : CallEnv) : Prop := {
  ensure_signed_origin who : ensure_signed (signed_origin who) = Some who;
  origin_signer who : as_system_origin_signer (signed_origin who) = Some who;
}.

Section pipeline.
Context {T : Config} {O : OtherPallets} {F : FungibleHold} {D : FeeDestination}.
Context {W : Weights} {P : TransactionPayment} {C : CallEnv} (db : RuntimeDbWeight).

(** [System::remark] does nothing; every call runs in a storage layer. *)
Definition dispatch_runtime (c : RuntimeCalls) (origin : RuntimeOrigin) :
    M Chain DispatchError unit :=
  match c with
  | SponsoredTx c => dispatch c origin
  | System_remark _ => mret tt
  | OtherPallet c => with_storage_layer (dispatch_other c origin)
  end.

(** What the pool asks of the payment extension before it accepts a transaction; the other
    extensions of the runtime's stack are not run here. *)
Definition pool_validate (ext : SponsoredChargeTransactionPayment) (who : AccountId)
    (c : RuntimeCalls) (s : Chain) : result ValidTransaction TransactionValidityError :=
  match (validate ext (signed_origin who) (runtime_call c) (get_dispatch_info c)
           (encoded_len ext c) (implication c) External s).1 with
  | Ok (v, _, _) => Ok v
  | Err e => Err e
  end.

(** [Executive::apply_extrinsic], the payment extension's part: the other extensions of the
    runtime's stack, which check the signer, the version, the nonce, the era and the weight,
    are not run here; where one of them refuses, the extrinsic leaves no trace either.  An extrinsic that cannot be
    validated or prepared leaves no trace; a dispatch error is a result, and the fee is
    settled all the same. *)
Definition apply_extrinsic (ext : SponsoredChargeTransactionPayment) (who : AccountId)
    (c : RuntimeCalls) : M Chain TransactionValidityError (result unit DispatchError) :=
  with_storage_layer (
    let info := get_dispatch_info c in
    let len := encoded_len ext c in
    checked ← validate ext (signed_origin who) (runtime_call c) info len (implication c) InBlock;
    let '(_, val, origin) := checked in
    pre ← prepare ext val origin (runtime_call c) info len;
    res ← (λ s, let '(r, s') := dispatch_runtime c origin s in (Ok r, s'));
    _ ← post_dispatch_details db pre info (post_dispatch_info c res) len (dispatch_result res);
    mret res).

(** The fee a call is validated at. *)
Definition quoted_fee (ext : SponsoredChargeTransactionPayment) (c : RuntimeCalls) (s : Chain) :
    N := worst_case_fee ext (get_dispatch_info c) (encoded_len ext c) s.
End pipeline.

Section pipeline_lemmas.
Context {T : Config} {O : OtherPallets} {F : FungibleHold} {FS : FungibleHoldSpec F} {L : FungibleHoldLive F}.
Context {D : FeeDestination} {DS : FeeDestinationSpec D} {DL : FeeDestinationLive D L}.
Context {DB : FeeDestinationBurns D}.
Context {W : Weights} {P : TransactionPayment} {B : FungibleHoldFunds L} {PS : ChargeSpec P B}.
Context {C : CallEnv} {CS : CallEnvSpec C} (db : RuntimeDbWeight).

(** The sponsor's account after a settlement that burns the fee. *)
Lemma settle_view sp signer est tip info post len s wt s' :
  bal_ok (world s) →
  settle_sponsored_fee db sp signer est tip info post len s = (wt, s') →
  view sp s' = restore (take_pending (charged_fee sp est tip info post len s) (view sp s)).
Proof.
  intros Hok Hset.
  destruct (settle_spec db sp signer est tip info post len s)
    as (w & fc & tc & Heq & _ & _ & Hv & _ & c & missing & Hsl & _).
  rewrite Heq in Hset. simplify_eq. rewrite view_push_event.
  assert (Hok' : bal_ok (world (set_world (on_unbalanceds [fc; tc] w) s)))
    by (cbn; eauto with frame).
  destruct (restore_pending_live sp _ Hok') as [-> _]. by rewrite on_unbalanceds_burns, Hv.
Qed.

(** An extrinsic whose signer pays: the fee is taken, the call runs, and some of the fee may
    come back. *)
Lemma apply_unsponsored t who c s :
  let ext := new t None in
  let fee := compute_fee (as_u32 (encoded_len ext c)) (get_dispatch_info c) (to_fee_balance t)
               (world s) in
  bal_ok (world s) → fee + minimum_balance ≤ free_balance who (world s) →
  ∃ w1, bal_ok w1 ∧ free_moved who (world s) w1
    ∧ free_balance who w1 + fee = free_balance who (world s)
    ∧ (∃ v, pool_validate ext who c s = Ok v)
    ∧ ∀ r s2, dispatch_runtime c (signed_origin who) (set_world w1 s) = (r, s2) →
        bal_ok (world s2) →
        ∃ w3, apply_extrinsic db ext who c s = (Ok r, set_world w3 s2)
          ∧ bal_ok w3 ∧ free_moved who (world s2) w3
          ∧ free_balance who (world s2) ≤ free_balance who w3.
Proof.
  intros ext fee Hok Hle. subst ext fee.
  destruct (charge_pays (signed_origin who) who (runtime_call c) (get_dispatch_info c)
    (encoded_len (new t None) c) (implication c) InBlock (to_fee_balance t) (world s))
    as (v & val & pre & w1 & Hval & Hprep & Hok1 & Hm1 & Hf1 & Hpost);
    [apply origin_signer|done..|].
  destruct (charge_pays (signed_origin who) who (runtime_call c) (get_dispatch_info c)
    (encoded_len (new t None) c) (implication c) External (to_fee_balance t) (world s))
    as (v' & val' & _ & _ & Hval' & _); [apply origin_signer|done..|].
  exists w1. split_and!; [done..| |].
  - exists v'. unfold pool_validate. cbn. unfold external, zoom, mbind, M_bind, mret, M_ret.
    by rewrite Hval'.
  - intros r s2 Hd Hok2.
    destruct (Hpost (post_dispatch_info c r) (dispatch_result r) (world s2) Hok2)
      as (wt & w3 & Hpd & Hok3 & Hm3 & Hle3).
    exists w3. split; [|done]. unfold apply_extrinsic, with_storage_layer. cbn.
    unfold external, zoom, mbind, M_bind, mret, M_ret. cbn -[set_world].
    rewrite Hval, set_world_id. cbn -[set_world].
    unfold external, zoom, mbind, M_bind, mret, M_ret.
    rewrite Hprep, Hd. cbn -[set_world]. unfold external, zoom. by rewrite Hpd.
Qed.

(** A remark that a sponsor accepts: nobody but the sponsor pays, and what the sponsor pays
    is the charge. *)
Lemma apply_sponsored_remark ext sp who m s :
  let c := System_remark m in
  let est := quoted_fee ext c s in
  sponsor ext = Some sp → bal_ok (world s) → pending_on_hold sp s = 0 →
  refusal sp (signed_origin who) est s = None →
  (∃ v, pool_validate ext who c s = Ok v)
  ∧ ∃ charged s', apply_extrinsic db ext who c s = (Ok (Ok tt), s')
    ∧ charged ≤ est
    ∧ bal_ok (world s') ∧ others sp s s' ∧ sponsors s' = sponsors s
    ∧ budget_on_hold sp s' + charged = budget_on_hold sp s
    ∧ pending_on_hold sp s' = 0
    ∧ free_balance sp (world s') = free_balance sp (world s)
    ∧ events s' = events s
        ++ [SponsoredTransactionFeePaid sp who charged (N.min (tip ext) charged)].
Proof.
  intros c est Hsp Hok Hp0 Href.
  assert (Hval : ∀ src, ∃ v, validate ext (signed_origin who) (runtime_call c)
    (get_dispatch_info c) (encoded_len ext c) (implication c) src s
    = (Ok (v, Val_Sponsored sp who est (tip ext), signed_origin who), s)).
  { intros src. rewrite (validate_sponsored ext sp) by done.
    change (worst_case_fee _ _ _ _) with est. rewrite Href, origin_signer. by eexists. }
  split. { destruct (Hval External) as [v Hv]. exists v. unfold pool_validate. by rewrite Hv. }
  destruct (Hval InBlock) as [v Hv].
  destruct (validate_sponsored_ok _ _ _ _ _ _ _ _ _ _ _ _ _ Hsp Hv)
    as (_ & _ & signer & st & _ & _ & _ & _ & _ & Hle & _).
  destruct (move_budget_to_pending_live sp est s Hok Hle) as (s2 & Hm & Hok2).
  destruct (settle_sponsored_fee db sp who est (tip ext) (get_dispatch_info c)
    (post_dispatch_info c (Ok tt)) (encoded_len ext c) s2) as [wt s3] eqn:Hset.
  set (charged := charged_fee sp est (tip ext) (get_dispatch_info c)
    (post_dispatch_info c (Ok tt)) (encoded_len ext c) s2) in *.
  exists charged, s3.
  pose proof (settle_view _ _ _ _ _ _ _ _ _ _ Hok2 Hset) as Hview. fold charged in Hview.
  pose proof (settlement_others db sp who est (tip ext) (get_dispatch_info c)
    (post_dispatch_info c (Ok tt)) (encoded_len ext c) s2) as Hoth3. rewrite Hset in Hoth3.
  destruct (settle_live db _ _ _ _ _ _ _ _ _ _ Hok2 Hset)
    as (Hok3 & Hp3 & Hb3 & _ & Hsps3 & Hev3). fold charged in Hb3, Hev3.
  destruct (move_budget_to_pending_ok _ _ _ _ Hm) as (Hv2 & _ & Hoth2 & Hsps2 & Hev2).
  assert (Hch : charged ≤ est) by (unfold charged, charged_fee; lia).
  pose proof (f_equal acc_budget Hv2) as Hb2. pose proof (f_equal acc_pending Hv2) as Hp2.
  cbn in Hb2, Hp2. split_and!; [|done|done|by eapply others_trans|by rewrite Hsps3| |done| |].
  - unfold apply_extrinsic, with_storage_layer, mbind, M_bind. rewrite Hv. cbn.
    unfold mbind, M_bind. rewrite Hm. cbn. by rewrite Hset.
  - change (est ≤ budget_on_hold sp s) in Hle. lia.
  - apply (f_equal acc_free) in Hview, Hv2. cbn in Hview, Hv2. by rewrite Hview, Hv2.
  - by rewrite Hev3, Hev2.
Qed.
(** Registration succeeds for whoever can afford it. *)
Lemma register_live o who b p s :
  ensure_signed o = Some who → bal_ok (world s) → 0 < b → sponsors s !! who = None →
  policy_fault p = None → b + minimum_balance ≤ free_balance who (world s) →
  ∃ s', register_sponsor o b p s = (Ok tt, s').
Proof.
  intros Ho Hok Hb Hnone Hp Hfree. exec. rewrite Ho. cbn -[is_zero].
  destruct (is_zero_spec b); [lia|]. cbn. rewrite Hnone. cbn.
  rewrite ensure_valid_policy_fault, Hp. cbn.
  destruct (hold_available budget_hold_reason who b (world s) Hok Hfree) as (w & ->).
  cbn. eauto.
Qed.

(** An account that has paid a fee from its free balance. *)
Definition pay (fee : N) (a : Account) : Account :=
  {| acc_state := acc_state a; acc_free := acc_free a - fee;
     acc_budget := acc_budget a; acc_pending := acc_pending a |}.

Lemma free_moved_view who s w fee :
  free_moved who (world s) w → free_balance who w + fee = free_balance who (world s) →
  view who (set_world w s) = pay fee (view who s) ∧ others who s (set_world w s).
Proof.
  intros [Hh Ho] Hf. split.
  - unfold view, pay, budget_on_hold, pending_on_hold. cbn. rewrite !Hh. f_equal. lia.
  - intros who' Hne. unfold view, budget_on_hold, pending_on_hold. cbn.
    by rewrite !Hh, Ho.
Qed.

(** A pallet call that its signer pays for has the specified effect. *)
Lemma apply_own_call t who c s a' ev :
  let ext := new t None in
  let fee := compute_fee (as_u32 (encoded_len ext (SponsoredTx c)))
               (get_dispatch_info (SponsoredTx c)) (to_fee_balance t) (world s) in
  bal_ok (world s) → fee + minimum_balance ≤ free_balance who (world s) →
  spec_call who c (pay fee (view who s)) = Ok (a', ev) →
  (∀ w, bal_ok w → view who (set_world w s) = pay fee (view who s) →
     ∃ s', run_call c (signed_origin who) (set_world w s) = (Ok tt, s')) →
  (∃ v, pool_validate ext who (SponsoredTx c) s = Ok v)
  ∧ ∃ s', apply_extrinsic db ext who (SponsoredTx c) s = (Ok (Ok tt), s')
    ∧ bal_ok (world s') ∧ others who s s'
    ∧ sponsors s' !! who = acc_state a' ∧ budget_on_hold who s' = acc_budget a'
    ∧ pending_on_hold who s' = acc_pending a' ∧ acc_free a' ≤ free_balance who (world s')
    ∧ events s' = events s ++ [ev].
Proof.
  intros ext fee Hok Hfee Hspec Hrun.
  destruct (apply_unsponsored t who (SponsoredTx c) s Hok Hfee)
    as (w1 & Hok1 & Hm1 & Hf1 & Hpool & Happly).
  split; [done|]. destruct (free_moved_view _ _ _ _ Hm1 Hf1) as [Hv1 Ho1].
  destruct (Hrun w1 Hok1 Hv1) as (s2 & Hc).
  destruct (run_call_ok_inv _ _ _ _ Hc) as (who' & a2 & ev2 & Hs & Hsp & Hv2 & _ & Ho2 & He2).
  rewrite ensure_signed_origin in Hs. injection Hs as <-.
  rewrite Hv1 in Hsp. change (spec_call who c (pay fee (view who s)) = Ok (a2, ev2)) in Hsp.
  rewrite Hspec in Hsp. injection Hsp as <- <-.
  pose proof (run_call_bal_ok c _ (set_world w1 s) s2 Hok1 Hc) as Hok2.
  destruct (Happly (Ok tt) s2) as (w3 & Ha & Hok3 & [Hh3 Hfo3] & Hle3);
    [by apply dispatch_ok|done|].
  exists (set_world w3 s2).
  apply (f_equal acc_state) in Hv2 as Hst. apply (f_equal acc_budget) in Hv2 as Hbu.
  apply (f_equal acc_pending) in Hv2 as Hpe. apply (f_equal acc_free) in Hv2 as Hfr.
  cbn in Hst, Hbu, Hpe, Hfr. split_and!; [done|done| |done| | | |done].
  - eapply others_trans; [exact Ho1|]. eapply others_trans; [exact Ho2|].
    intros who' Hne. unfold view, budget_on_hold, pending_on_hold. cbn.
    by rewrite !Hh3, Hfo3.
  - unfold budget_on_hold in *. cbn. by rewrite Hh3.
  - unfold pending_on_hold in *. cbn. by rewrite Hh3.
  - cbn. lia.
Qed.
End pipeline_lemmas.
