(* ===== verification/Blocks.v ===== *)
(** * Histories of the chain

    A block is a sequence of extrinsics that the executive applies, with the activity of other
    pallets in between.  This file relates such histories to the step relation of [Lifecycle]:
    [apply_extrinsic] of any signed extrinsic, sponsored or not, is a run of that relation
    from an idle state to an idle state, and the funds a sponsor has deposited, taken back
    and spent are booked from the pallet's events. *)

From S2P Require Import Prelude Types Frame Weights Payment Pallet SponsorSpec PalletProofs Extension ExtensionProofs Lifecycle Extrinsic.
Local Open Scope N_scope.

(** What the standard payment extension leaves alone when it succeeds: every hold, and the
    balances invariant (a fee is withdrawn with [Preservation::Preserve]). *)
Class ChargeFrame {T : Config} {F : FungibleHold} {W : Weights} (L : FungibleHoldLive F)
    (P : TransactionPayment) : Prop := {
  charge_validate_frame tip o call info len imp src w r w' :
    charge_validate tip o call info len imp src w = (Ok r, w') →
    bal_ok w → bal_ok w' ∧ same_holds w w';
  charge_prepare_frame tip val o call info len w pre w' :
    charge_prepare tip val o call info len w = (Ok pre, w') →
    bal_ok w → bal_ok w' ∧ same_holds w w';
  charge_post_dispatch_frame pre info post len res w wt w' :
    charge_post_dispatch_details pre info post len res w = (Ok wt, w') →
    bal_ok w → bal_ok w' ∧ same_holds w w';
}.

(** ** Deposits, returns and fees *)

Section flows.
Context {T : Config}.

(** What one sponsor has paid in, got back and spent on fees. *)
Record Flows : Set := {
  deposited : N;
  returned : N;
  spent : N;
}.

Definition no_flows : Flows := {| deposited := 0; returned := 0; spent := 0 |}.

(** What is neither returned nor spent. *)
Definition outstanding (f : Flows) : N := deposited f - returned f - spent f.

Definition book (who : AccountId) (f : Flows) (e : Event) : Flows :=
  match e with
  | SponsorRegistered sp x | BudgetIncreased sp x _ =>
      if decide (sp = who)
      then {| deposited := deposited f + x; returned := returned f; spent := spent f |} else f
  | BudgetDecreased sp x _ =>
      if decide (sp = who)
      then {| deposited := deposited f; returned := returned f + x; spent := spent f |} else f
  | SponsorUnregistered sp =>
      if decide (sp = who)
      then {| deposited := deposited f; returned := returned f + outstanding f;
              spent := spent f |} else f
  | SponsoredTransactionFeePaid sp _ fee _ =>
      if decide (sp = who)
      then {| deposited := deposited f; returned := returned f; spent := spent f + fee |} else f
  | SponsorPolicyUpdated _ | SponsorPaused _ | SponsorResumed _ => f
  end.

Definition flows (who : AccountId) (evs : list Event) : Flows :=
  fold_left (book who) evs no_flows.

(** Every unit paid in is back, spent, or still there. *)
Definition balanced (f : Flows) (escrow : N) : Prop :=
  deposited f = returned f + spent f + escrow.

(** The event adds to the budget of [who]. *)
Definition is_deposit (who : AccountId) (e : Event) : Prop :=
  match e with
  | SponsorRegistered sp _ | BudgetIncreased sp _ _ => sp = who
  | _ => False
  end.

(** The fee the event says [who] paid for somebody's transaction. *)
Definition fee_of (who : AccountId) (e : Event) : option N :=
  match e with
  | SponsoredTransactionFeePaid sp _ fee _ => if decide (sp = who) then Some fee else None
  | _ => None
  end.

Lemma spec_call_balanced who c a a' ev f :
  spec_call who c a = Ok (a', ev) →
  balanced f (acc_budget a + acc_pending a) →
  balanced (book who f ev) (acc_budget a' + acc_pending a').
Proof.
  unfold balanced.
  destruct a as [[st|] fr b p], c; cbn; intros H; repeat case_match; simplify_eq/=;
    repeat case_decide; try done; cbn; unfold outstanding; lia.
Qed.

(** What a call takes from and adds to the caller's free balance is what its event books. *)
Lemma spec_call_booked who c a a' ev f :
  spec_call who c a = Ok (a', ev) → acc_total a' = acc_total a →
  balanced f (acc_budget a + acc_pending a) →
  book who f ev
  = {| deposited := deposited f + (acc_free a - acc_free a');
       returned := returned f + (acc_free a' - acc_free a); spent := spent f |}.
Proof.
  unfold balanced, acc_total. destruct f as [d r x].
  destruct a as [[st|] fr b p], c; cbn; intros H; repeat case_match; simplify_eq/=;
    intros; repeat case_decide; try done; unfold outstanding; cbn; f_equal; lia.
Qed.

Lemma spec_call_book_other who who' c a a' ev f :
  spec_call who c a = Ok (a', ev) → who' ≠ who → book who' f ev = f.
Proof.
  destruct a as [[st|] fr b p], c; cbn; intros H ?; repeat case_match; simplify_eq/=;
    try rewrite decide_False by done; done.
Qed.

(** Without deposits, each settlement of at least [m] adds at least [m] to what is spent. *)
Lemma flows_spend who m evs f :
  Forall (λ e, ¬ is_deposit who e) evs →
  Forall (λ fee, m ≤ fee) (omap (fee_of who) evs) →
  deposited (fold_left (book who) evs f) = deposited f
  ∧ spent f + N.of_nat (length (omap (fee_of who) evs)) * m
    ≤ spent (fold_left (book who) evs f).
Proof.
  revert f. induction evs as [|e evs IH]; intros f Hdep Hfee; cbn; [lia|].
  inversion Hdep as [|?? Hne Hdep']; subst.
  destruct e as [sp x|sp x y|sp x y|sp|sp|sp|sp|sp sg x y]; cbn in *;
    repeat case_decide; subst; cbn in *; try done; try (by apply IH).
  - by destruct (IH {| deposited := deposited f; returned := returned f + x; spent := spent f |}).
  - by destruct (IH {| deposited := deposited f; returned := returned f + outstanding f;
                       spent := spent f |}).
  - inversion Hfee as [|?? Hm Hfee']; subst.
    destruct (IH {| deposited := deposited f; returned := returned f; spent := spent f + x |}
      Hdep' Hfee') as [Hd Hs]. cbn in *. split; [done|].
    etrans; [|exact Hs]. cbn. lia.
Qed.
End flows.

(** ** Activity of other pallets *)

Section activity.
Context {T : Config} {F : FungibleHold} {L : FungibleHoldLive F}.

(** What other pallets may do to the chain: call this pallet, from any origin, and change
    whatever is not held for it. *)
Inductive activity : Chain → Chain → Prop :=
| activity_call c o r s s' : dispatch c o s = (r, s') → activity s s'
| activity_world s w :
    bal_ok w → sponsor_holds_same (world s) w → activity s (set_world w s).
End activity.

(** The storage of this pallet belongs to it: a call of another pallet reaches it only through
    the pallet's calls, and holds only through the balances' operations under their own
    reasons. *)
Class OtherPalletsSpec {T : Config} {F : FungibleHold} (L : FungibleHoldLive F)
    (O : OtherPallets) : Prop :=
  dispatch_other_activity c o s s' :
    dispatch_other c o s = (Ok tt, s') → bal_ok (world s) → rtc activity s s'.

(** ** Histories *)

Section histories.
Context {T : Config} {F : FungibleHold} {FS : FungibleHoldSpec F} {L : FungibleHoldLive F}.
Context {D : FeeDestination} {DS : FeeDestinationSpec D} {DL : FeeDestinationLive D L}.
Context {W : Weights} {P : TransactionPayment} {CF : ChargeFrame L P}.
Context {O : OtherPallets} {OS : OtherPalletsSpec L O} {C : CallEnv} (db : RuntimeDbWeight).

(** One step of the chain: a signed extrinsic, accepted or not, or the activity of other
    pallets (inherents, hooks, transfers), which leave the pallet's holds alone. *)
Inductive block_step : Chain → Chain → Prop :=
| block_extrinsic ext who c r s s' :
    apply_extrinsic db ext who c s = (r, s') → block_step s s'
| block_other s w :
    bal_ok w → sponsor_holds_same (world s) w → block_step s (set_world w s).

(** The extrinsics of a block, one after the other, with their outcomes. *)
Fixpoint apply_all (xts : list (SponsoredChargeTransactionPayment * AccountId * RuntimeCalls))
    (s : Chain) : list (result (result unit DispatchError) TransactionValidityError) * Chain :=
  match xts with
  | [] => ([], s)
  | (ext, who, c) :: xts =>
      let '(r, s1) := apply_extrinsic db ext who c s in
      let '(rs, s2) := apply_all xts s1 in
      (r :: rs, s2)
  end.

Lemma apply_all_history xts s rs s' : apply_all xts s = (rs, s') → rtc block_step s s'.
Proof.
  revert s rs. induction xts as [|[[ext who] c] xts IH]; intros s rs; cbn.
  - intros H. by simplify_eq.
  - destruct (apply_extrinsic _ _ _ _ _) as [r s1] eqn:Hx.
    destruct (apply_all xts s1) as [rs' s2] eqn:Hrest. intros H. simplify_eq.
    eapply rtc_l; [by eapply block_extrinsic|by eapply IH].
Qed.

Lemma activity_run ph s s' :
  rtc activity s s' → bal_ok (world s) →
  rtc (step db) (ph, s) (ph, s') ∧ bal_ok (world s').
Proof.
  intros Hrun. induction Hrun as [s|s s1 s' Hact _ IH]; intros Hok; [done|].
  assert (Hst : step db (ph, s) (ph, s1) ∧ bal_ok (world s1)).
  { destruct Hact as [c o r s s1 Hd|s w Hw Hsame];
      [split; [by eapply step_dispatch|by eapply dispatch_bal_ok]|].
    split; [by apply step_other|done]. }
  destruct Hst as [Hst Hok1]. destruct (IH Hok1) as [Hrest Hok'].
  split; [by eapply rtc_l|done].
Qed.

Lemma dispatch_runtime_run ph c o s r s' :
  dispatch_runtime c o s = (r, s') → bal_ok (world s) →
  rtc (step db) (ph, s) (ph, s') ∧ bal_ok (world s').
Proof.
  destruct c as [c|m|c]; cbn; intros Hd Hok.
  - split; [by eapply rtc_once, step_dispatch|by eapply dispatch_bal_ok].
  - unfold mret, M_ret in Hd. by simplify_eq.
  - destruct r as [[]|e].
    + apply (proj1 (with_storage_layer_ok _ _ _ _)) in Hd. apply activity_run; [|done].
      by eapply dispatch_other_activity.
    + by apply with_storage_layer_err in Hd as [-> _].
Qed.

(** A computation of the standard extension is a step of other pallets. *)
Lemma external_run {A} (m : M World TransactionValidityError A) ph s a s' :
  (∀ w', m (world s) = (Ok a, w') → bal_ok (world s) →
     bal_ok w' ∧ same_holds (world s) w') →
  external m s = (Ok a, s') → bal_ok (world s) →
  step db (ph, s) (ph, s') ∧ bal_ok (world s').
Proof.
  unfold external, zoom. destruct (m (world s)) as [r w] eqn:Hm. intros Hframe H Hok.
  simplify_eq. destruct (Hframe w eq_refl Hok) as [Hok' Hsame]. split; [|done].
  apply step_other; [done|]. intros r who. apply Hsame.
Qed.

Lemma apply_extrinsic_inv ext who c s r s' :
  apply_extrinsic db ext who c s = (r, s') →
  s' = s ∨ ∃ v val o s1 pre s2 d s3 wt,
    validate ext (signed_origin who) (runtime_call c) (get_dispatch_info c) (encoded_len ext c)
      (implication c) InBlock s = (Ok (v, val, o), s1)
    ∧ prepare ext val o (runtime_call c) (get_dispatch_info c) (encoded_len ext c) s1
      = (Ok pre, s2)
    ∧ dispatch_runtime c o s2 = (d, s3)
    ∧ post_dispatch_details db pre (get_dispatch_info c) (post_dispatch_info c d)
        (encoded_len ext c) (dispatch_result d) s3 = (Ok wt, s')
    ∧ r = Ok d.
Proof.
  unfold apply_extrinsic. destruct r as [d|e];
    [intros H; apply (proj1 (with_storage_layer_ok _ _ _ _)) in H; right|intros [-> _]%with_storage_layer_err; by left].
  apply bind_ok in H as ([[v val] o] & s1 & Hv & H).
  apply bind_ok in H as (pre & s2 & Hp & H).
  apply bind_ok in H as (d' & s3 & Hd & H).
  apply bind_ok in H as (wt & s4 & Hpd & H). unfold mret, M_ret in H. simplify_eq.
  destruct (dispatch_runtime c o s2) as [d0 s3'] eqn:Hdr. simplify_eq.
  by exists v, val, o, s1, pre, s2, d, s3, wt.
Qed.

(** Applying an extrinsic is a run of the life cycle between idle states. *)
Lemma apply_extrinsic_run ext who c s r s' :
  apply_extrinsic db ext who c s = (r, s') → bal_ok (world s) →
  rtc (step db) (Idle, s) (Idle, s').
Proof.
  intros [->|(v & val & o & s1 & pre & s2 & d & s3 & wt & Hv & Hp & Hd & Hpd & _)]%apply_extrinsic_inv
    Hok; [done|].
  destruct val as [cv|sp signer est tp].
  - destruct (sponsor ext) as [sp|] eqn:Hsp.
    { rewrite (validate_sponsored ext sp) in Hv by done. repeat case_match; simplify_eq. }
    unfold validate in Hv. rewrite Hsp in Hv.
    apply bind_ok in Hv as ([[v' val'] o'] & s1' & Hcv & Hv). unfold mret, M_ret in Hv.
    simplify_eq.
    apply bind_ok in Hp as (cp & s2' & Hcp & Hp). unfold mret, M_ret in Hp. simplify_eq.
    apply (external_run _ Idle) in Hcv as [Hst1 Hok1];
      [|intros; by eapply charge_validate_frame|done].
    apply (external_run _ Idle) in Hcp as [Hst2 Hok2];
      [|intros; by eapply charge_prepare_frame|done].
    destruct (dispatch_runtime_run Idle _ _ _ _ _ Hd Hok2) as [Hst3 Hok3].
    apply (external_run _ Idle) in Hpd as [Hst4 _];
      [|intros; by eapply charge_post_dispatch_frame|done].
    eapply rtc_l; [exact Hst1|]. eapply rtc_l; [exact Hst2|].
    etrans; [exact Hst3|]. by apply rtc_once.
  - destruct (prepare_sponsored_ok _ _ _ _ _ _ _ _ _ _ _ _ Hp) as [-> Hm].
    pose proof (validate_val_sponsored _ _ _ _ _ _ _ _ _ _ _ _ _ _ _ Hv) as Hsp.
    destruct (validate_sponsored_ok _ sp _ _ _ _ _ _ _ _ _ _ _ Hsp Hv)
      as (-> & _ & sg & st & _ & _ & _ & _ & _ & Hle & Heq). simplify_eq.
    destruct (move_budget_to_pending_live sp _ s Hok Hle) as (s2' & Hm' & Hok2).
    rewrite Hm in Hm'. simplify_eq.
    destruct (dispatch_runtime_run (InFlight sp sg (worst_case_fee ext (get_dispatch_info c)
      (encoded_len ext c) s) (tip ext)) _ _ _ _ _ Hd Hok2) as [Hst3 _].
    eapply rtc_l; [exact (step_prepare db _ _ _ _ _ _ _ _ _ _ _ _ _ _ _ _ Hv Hp)|].
    etrans; [exact Hst3|]. by eapply rtc_once, step_settle.
Qed.

Lemma history_run s s' :
  rtc block_step s s' → good (Idle, s) → rtc (step db) (Idle, s) (Idle, s').
Proof.
  intros Hrun. induction Hrun as [s|s s1 s' Hstep _ IH]; intros Hg; [done|].
  assert (Hst : rtc (step db) (Idle, s) (Idle, s1)).
  { destruct Hstep; [by eapply apply_extrinsic_run; [|apply Hg]|by apply rtc_once, step_other]. }
  etrans; [exact Hst|]. by apply IH, (run_good db (Idle, s)).
Qed.

(** ** Booking a run *)

Definition escrow (who : AccountId) (s : Chain) : N := budget_on_hold who s + pending_on_hold who s.

(** A step appends events, and the books stay balanced with the escrow. *)
Lemma step_balanced m m' who :
  step db m m' → good m →
  ∃ evs, events m'.2 = events m.2 ++ evs
    ∧ ∀ f, balanced f (escrow who m.2) → balanced (fold_left (book who) evs f) (escrow who m'.2).
Proof.
  intros Hs Hg. destruct Hs as [ph s c o r s' Hd|ph s w Hok Hsame
    |self origin call info len imp src s v sp signer est tp o s1 s2 Hv Hp
    |sp signer est tp info post len res s wt s' Hpd]; cbn.
  - destruct (dispatch_inv _ _ _ _ _ Hd) as [->|Hrun]; [exists []; by rewrite app_nil_r|].
    apply run_call_ok_inv in Hrun as (caller & a' & ev & _ & Hspec & Hv & _ & Hoth & Hevs).
    exists [ev]. split; [done|]. intros f Hf. cbn.
    change (balanced (book who f ev) (acc_budget (view who s') + acc_pending (view who s'))).
    destruct (decide (who = caller)) as [->|Hne].
    + rewrite Hv. by apply (spec_call_balanced _ _ _ _ _ _ Hspec).
    + rewrite (Hoth _ Hne). by rewrite (spec_call_book_other _ _ _ _ _ _ f Hspec Hne).
  - exists []. rewrite app_nil_r. split; [done|]. intros f. cbn. unfold escrow.
    unfold budget_on_hold, pending_on_hold, budget_hold_reason, pending_hold_reason. cbn.
    by rewrite !Hsame.
  - pose proof (good_prepare _ _ _ _ _ _ _ _ _ _ _ _ _ _ _ _ Hv Hp Hg) as Hg'.
    apply prepare_sponsored_ok in Hp as [_ Hm].
    pose proof (validate_val_sponsored _ _ _ _ _ _ _ _ _ _ _ _ _ _ _ Hv) as Hsp.
    apply (validate_sponsored_ok _ sp) in Hv as (-> & _); [|done].
    apply move_budget_to_pending_ok in Hm as (_ & _ & _ & _ & Hevs).
    exists []. rewrite app_nil_r. split; [done|]. intros f. cbn. unfold escrow.
    rewrite <- (good_events _ Hg), <- (good_events _ Hg'). cbn. by rewrite Hevs.
  - apply post_dispatch_sponsored in Hpd as (wt' & _ & Hset).
    apply (settle_live db) in Hset as (_ & Hp & Hb & Hoth & _ & Hevs); [|apply Hg].
    pose proof (good_pending _ Hg sp) as Hpen. cbn in Hpen. rewrite decide_True in Hpen by done.
    eexists. split; [exact Hevs|]. intros f. cbn. unfold escrow, balanced.
    destruct (decide (sp = who)) as [<-|Hne]; cbn; [lia|].
    by destruct (Hoth who) as [-> ->]; [congruence|].
Qed.

Lemma run_balanced m m' who :
  rtc (step db) m m' → good m →
  ∃ evs, events m'.2 = events m.2 ++ evs
    ∧ ∀ f, balanced f (escrow who m.2) → balanced (fold_left (book who) evs f) (escrow who m'.2).
Proof.
  intros Hrun. induction Hrun as [m|m m1 m' Hstep _ IH]; intros Hg.
  - exists []. by rewrite app_nil_r.
  - destruct (step_balanced _ _ who Hstep Hg) as (evs1 & He1 & Hb1).
    destruct IH as (evs2 & He2 & Hb2); [by apply (step_good db m)|].
    exists (evs1 ++ evs2). rewrite He2, He1, app_assoc. split; [done|].
    intros f Hf. rewrite fold_left_app. by apply Hb2, Hb1.
Qed.

Lemma initial_balanced m0 m who :
  initial m0 → rtc (step db) m0 m → balanced (flows who (events m.2)) (escrow who m.2).
Proof.
  intros H0 Hrun. pose proof (initial_good _ H0) as Hg.
  destruct (run_balanced _ _ who Hrun Hg) as (evs & Hevs & Hbal).
  destruct H0 as (_ & _ & Hnil & _ & Hz). rewrite Hnil in Hevs. unfold flows. rewrite Hevs.
  apply Hbal. unfold balanced, escrow, budget_on_hold, pending_on_hold.
  unfold budget_hold_reason, pending_hold_reason. by rewrite !Hz.
Qed.

(** ** Measuring a run

    The books are made from events; here the same three amounts are measured on the balances
    themselves.  A call of the pallet deposits what it takes from the free balance of [who]
    and returns what it adds to it; a settlement spends what leaves the escrow. *)

(** By how much the free balance of [who] is less in [s'] than in [s]. *)
Definition taken (who : AccountId) (s s' : Chain) : N :=
  free_balance who (world s) - free_balance who (world s').

Inductive measured (who : AccountId) (m0 : phase * Chain) : Flows → phase * Chain → Prop :=
| measured_start : measured who m0 no_flows m0
| measured_call f ph s c o r s' :
    measured who m0 f (ph, s) → dispatch c o s = (r, s') →
    measured who m0
      {| deposited := deposited f + taken who s s';
         returned := returned f + taken who s' s; spent := spent f |} (ph, s')
| measured_other f ph s w :
    measured who m0 f (ph, s) → bal_ok w → sponsor_holds_same (world s) w →
    measured who m0 f (ph, set_world w s)
| measured_prepare f self origin call info len imp src s v sp signer est tp o s1 s2 :
    measured who m0 f (Idle, s) →
    validate self origin call info len imp src s
      = (Ok (v, Val_Sponsored sp signer est tp, o), s1) →
    prepare self (Val_Sponsored sp signer est tp) o call info len s1
      = (Ok (Pre_Sponsored sp signer est tp), s2) →
    measured who m0 f (InFlight sp signer est tp, s2)
| measured_settle f sp signer est tp info post len res s wt s' :
    measured who m0 f (InFlight sp signer est tp, s) →
    post_dispatch_details db (Pre_Sponsored sp signer est tp) info post len res s
      = (Ok wt, s') →
    measured who m0
      {| deposited := deposited f; returned := returned f;
         spent := spent f + (escrow who s - escrow who s') |} (Idle, s').

(** Every run can be measured, and what is measured is a run. *)
Lemma run_measured who m0 m : rtc (step db) m0 m → ∃ f, measured who m0 f m.
Proof.
  revert m. apply rtc_ind_r; [by eexists; constructor|].
  intros m m' _ Hs [f Hf]. destruct Hs; eexists.
  - by eapply measured_call.
  - by eapply measured_other.
  - by eapply measured_prepare.
  - by eapply measured_settle.
Qed.

Lemma measured_run who m0 f m : measured who m0 f m → rtc (step db) m0 m.
Proof.
  induction 1; [done|eapply rtc_r; [eassumption|]..].
  - by eapply step_dispatch.
  - by apply step_other.
  - by eapply step_prepare.
  - by eapply step_settle.
Qed.

(** The books are right: they record what was measured. *)
Lemma measured_books who m0 f m :
  initial m0 → measured who m0 f m → f = flows who (events m.2).
Proof.
  intros H0 Hm. induction Hm as [|f ph s c o r s' Hm IH Hd|f ph s w Hm IH Hok Hsame
    |f self origin call info len imp src s v sp sg est tp o s1 s2 Hm IH Hv Hp
    |f sp sg est tp info post len res s wt s' Hm IH Hpd]; cbn [snd] in *.
  - destruct H0 as (_ & _ & -> & _). done.
  - pose proof (measured_run _ _ _ _ Hm) as Hrun.
    pose proof (initial_balanced _ _ who H0 Hrun) as Hbal. cbn in Hbal. rewrite <- IH in Hbal.
    destruct (dispatch_inv _ _ _ _ _ Hd) as [->|Hc].
    { rewrite <- IH. unfold taken. destruct f. cbn. f_equal; lia. }
    apply run_call_ok_inv in Hc as (caller & a' & ev & _ & Hspec & Hv & Htot & Hoth & Hevs).
    unfold flows in *. rewrite Hevs, fold_left_app, <- IH. cbn.
    unfold taken.
    change (free_balance who (world s)) with (acc_free (view who s)).
    change (free_balance who (world s')) with (acc_free (view who s')).
    destruct (decide (who = caller)) as [->|Hne].
    + rewrite Hv. symmetry. by apply (spec_call_booked _ c).
    + rewrite (Hoth _ Hne), (spec_call_book_other _ _ _ _ _ _ f Hspec Hne).
      destruct f. cbn. f_equal; lia.
  - done.
  - apply prepare_sponsored_ok in Hp as [_ Hmv].
    apply move_budget_to_pending_ok in Hmv as (_ & _ & _ & _ & ->).
    pose proof (validate_val_sponsored _ _ _ _ _ _ _ _ _ _ _ _ _ _ _ Hv) as Hsp.
    by apply (validate_sponsored_ok _ sp) in Hv as (-> & _).
  - pose proof (run_good db _ _ (measured_run _ _ _ _ Hm) (initial_good _ H0)) as Hg.
    apply post_dispatch_sponsored in Hpd as (wt' & _ & Hset).
    apply (settle_live db) in Hset as (_ & Hp & Hb & Hoth & _ & Hevs); [|apply Hg].
    unfold flows in *. rewrite Hevs, fold_left_app, <- IH. cbn. unfold escrow.
    case_decide as Hwho; [subst sp; f_equal; lia|].
    destruct (Hoth who) as [-> ->]; [congruence|]. destruct f. cbn. f_equal; lia.
Qed.
End histories.
