(* ===== verification/Promise.v ===== *)
(** * What sponsorship promises

    The whole component, pallet and extension together, as a small machine on accounts: no
    storage, no balances pallet, no monad.  An account's owner may make the calls of
    [SponsorSpec]; free balances change as they like; a sponsor's consent lets a worst-case fee
    be reserved from its budget; and what is charged of it, never more, is settled.  The life
    cycle of [Lifecycle] implements this machine, step by step, and so do the histories of
    [Blocks]. *)

From S2P Require Import Prelude Types Frame Weights Payment Pallet SponsorSpec PalletProofs Extension ExtensionProofs Lifecycle Extrinsic Blocks.
Local Open Scope N_scope.

Section machine.
Context {T : Config}.

Record Promise : Type := {
  p_phase : phase;
  p_account : AccountId → Account;
  p_log : list Event;
}.

(** The sponsor consents to pay [fee] for a transaction of [signer]: it is registered and
    active, has the signer on its allowlist, and neither its cap nor its budget is exceeded. *)
Definition consents (a : Account) (signer : AccountId) (fee : N) : Prop :=
  ∃ st, acc_state a = Some st ∧ policy_refusal st signer fee (acc_budget a) = None.

(** All accounts are as before but that of [who], which is [a]. *)
Definition only (who : AccountId) (a : Account) (f f' : AccountId → Account) : Prop :=
  f' who = a ∧ ∀ who', who' ≠ who → f' who' = f who'.

(** Nothing but free balances differs. *)
Definition free_only (a a' : Account) : Prop :=
  acc_state a' = acc_state a ∧ acc_budget a' = acc_budget a ∧ acc_pending a' = acc_pending a.

Inductive promise_step : Promise → Promise → Prop :=
| promise_call who c a ev σ σ' :
    spec_call who c (p_account σ who) = Ok (a, ev) →
    only who a (p_account σ) (p_account σ') →
    p_phase σ' = p_phase σ → p_log σ' = p_log σ ++ [ev] →
    promise_step σ σ'
| promise_environment σ σ' :
    (∀ who, free_only (p_account σ who) (p_account σ' who)) →
    p_phase σ' = p_phase σ → p_log σ' = p_log σ →
    promise_step σ σ'
| promise_reserve sp signer est tip σ σ' :
    p_phase σ = Idle → consents (p_account σ sp) signer est →
    only sp (reserve est (p_account σ sp)) (p_account σ) (p_account σ') →
    p_phase σ' = InFlight sp signer est tip → p_log σ' = p_log σ →
    promise_step σ σ'
| promise_settle sp signer est tip charged σ σ' :
    p_phase σ = InFlight sp signer est tip → charged ≤ est →
    only sp (restore (take_pending charged (p_account σ sp))) (p_account σ) (p_account σ') →
    p_phase σ' = Idle →
    p_log σ' = p_log σ ++ [SponsoredTransactionFeePaid sp signer charged (N.min tip charged)] →
    promise_step σ σ'.
End machine.

Section refinement.
Context {T : Config} {F : FungibleHold} {FS : FungibleHoldSpec F} {L : FungibleHoldLive F}.
Context {D : FeeDestination} {DS : FeeDestinationSpec D} {DL : FeeDestinationLive D L}.
Context {W : Weights} {P : TransactionPayment} (db : RuntimeDbWeight).

(** What the machine sees of a state of the life cycle. *)
Definition promise_of (m : phase * Chain) : Promise := {|
  p_phase := m.1; p_account := λ who, view who m.2; p_log := events m.2;
|}.

Lemma validated_consents self origin call info len imp src s v sp signer est tp o s1 :
  validate self origin call info len imp src s
    = (Ok (v, Val_Sponsored sp signer est tp, o), s1) →
  s1 = s ∧ consents (view sp s) signer est.
Proof.
  intros Hv. pose proof (validate_val_sponsored _ _ _ _ _ _ _ _ _ _ _ _ _ _ _ Hv) as Hsp.
  destruct (validate_sponsored_ok _ sp _ _ _ _ _ _ _ _ _ _ _ Hsp Hv)
    as (-> & _ & sg & st & _ & Hst & Hact & Hin & Hcap & Hle & Heq). simplify_eq.
  split; [done|]. exists st. split; [done|]. by apply policy_refusal_None.
Qed.

(** A settlement is one of the machine, after which the fee destination may have paid the
    credit out to anybody. *)
Lemma settle_promise sp signer est tp info post len res s wt s' :
  post_dispatch_details db (Pre_Sponsored sp signer est tp) info post len res s = (Ok wt, s') →
  bal_ok (world s) →
  rtc promise_step (promise_of (InFlight sp signer est tp, s)) (promise_of (Idle, s')).
Proof.
  intros (wt' & _ & Hset)%post_dispatch_sponsored Hok.
  pose proof (settle_live db _ _ _ _ _ _ _ _ _ _ Hok Hset) as (_ & Hp & Hb & Hoth & Hsps & Hev).
  set (charged := charged_fee _ _ _ _ _ _ _) in *.
  assert (Hch : charged ≤ est ∧ charged ≤ pending_on_hold sp s)
    by (unfold charged, charged_fee; lia).
  set (paid := restore (take_pending charged (view sp s))).
  eapply rtc_l, rtc_once.
  - apply (promise_settle sp signer est tp charged _ {|
      p_phase := Idle;
      p_account := λ who, if decide (who = sp) then paid else view who s;
      p_log := events s' |}); cbn; [done|lia| |done|done].
    split; [by rewrite decide_True|]. intros who Hne. by rewrite decide_False.
  - apply promise_environment; cbn; [|done|done]. intros who. unfold free_only.
    case_decide as Hwho; [subst|destruct (Hoth _ Hwho)]; cbn; rewrite Hsps;
      split_and!; try done; lia.
Qed.

Lemma step_promise m m' :
  step db m m' → good m → rtc promise_step (promise_of m) (promise_of m').
Proof.
  intros Hs Hg. destruct Hs as [ph s c o r s' Hd|ph s w Hok Hsame
    |self origin call info len imp src s v sp signer est tp o s1 s2 Hv Hp
    |sp signer est tp info post len res s wt s' Hpd].
  - destruct (dispatch_inv _ _ _ _ _ Hd) as [->|Hrun]; [done|].
    apply run_call_ok_inv in Hrun as (caller & a' & ev & _ & Hspec & Hv & _ & Hoth & Hevs).
    apply rtc_once, (promise_call caller c a' ev); done.
  - apply rtc_once, promise_environment; [|done|done]. intros who. cbn.
    unfold free_only. cbn.
    unfold budget_on_hold, pending_on_hold, budget_hold_reason, pending_hold_reason. cbn.
    by rewrite !Hsame.
  - apply validated_consents in Hv as [-> Hc].
    apply prepare_sponsored_ok in Hp as [_ Hm].
    apply move_budget_to_pending_ok in Hm as (Hv & _ & Hoth & _ & Hevs).
    apply rtc_once, (promise_reserve sp signer est tp); done.
  - eapply settle_promise; [done|apply Hg].
Qed.

Lemma run_promise m m' :
  rtc (step db) m m' → good m → rtc promise_step (promise_of m) (promise_of m').
Proof.
  intros Hrun. induction Hrun as [m|m m1 m' Hs _ IH]; intros Hg; [done|].
  etrans; [by apply step_promise|]. by apply IH, (step_good db m).
Qed.

(** ** Consent *)

(** The transaction that an event or a phase says is paid for. *)
Definition paid_for (e : Event) : option (AccountId * AccountId * N) :=
  match e with
  | SponsoredTransactionFeePaid sp signer fee _ => Some (sp, signer, fee)
  | _ => None
  end.

(** Between [m0] and [m] there was a state, between transactions, in which the sponsor
    consented. *)
Definition consented (m0 m : phase * Chain) (sp signer : AccountId) (fee : N) : Prop :=
  ∃ s, rtc (step db) m0 (Idle, s) ∧ rtc (step db) (Idle, s) m ∧ consents (view sp s) signer fee.

Lemma consented_step m0 m m' sp signer fee :
  consented m0 m sp signer fee → step db m m' → consented m0 m' sp signer fee.
Proof. intros (s & H0 & H1 & Hc) Hs. exists s. split_and!; [done|by eapply rtc_r|done]. Qed.

Lemma consents_le a signer fee fee' :
  consents a signer fee → fee' ≤ fee → consents a signer fee'.
Proof.
  intros (st & Hst & (? & ? & ? & ?)%policy_refusal_None) Hle. exists st. split; [done|].
  apply policy_refusal_None. split_and!; [done|done|lia|lia].
Qed.

Lemma spec_call_pays_nothing who c a a' ev : spec_call who c a = Ok (a', ev) → paid_for ev = None.
Proof.
  destruct a as [[st|] f b p], c; cbn; intros H; repeat case_match; by simplify_eq/=.
Qed.

(** What has been paid, and what is in flight, the sponsors have consented to. *)
Record trusted (m0 m : phase * Chain) : Prop := {
  trusted_flight sp signer est tp :
    m.1 = InFlight sp signer est tp → consented m0 m sp signer est;
  trusted_events e sp signer fee :
    e ∈ drop (length (events m0.2)) (events m.2) → paid_for e = Some (sp, signer, fee) →
    consented m0 m sp signer fee;
}.

(** A step that appends [evs] keeps the record trusted if what it adds is. *)
Lemma trusted_step m0 m m' evs :
  step db m m' → trusted m0 m → events m'.2 = events m.2 ++ evs →
  (length (events m0.2) ≤ length (events m.2))%nat →
  (∀ sp signer est tp, m'.1 = InFlight sp signer est tp → consented m0 m' sp signer est) →
  (∀ e sp signer fee, e ∈ evs → paid_for e = Some (sp, signer, fee) →
     consented m0 m' sp signer fee) →
  trusted m0 m'.
Proof.
  intros Hs [_ Htr] Hevs Hlen Hfl Hnew. split; [done|]. intros e sp signer fee He Hp.
  rewrite Hevs, drop_app_le in He by done.
  apply elem_of_app in He as [He|He]; [|by eapply Hnew].
  eapply consented_step; [by eapply Htr|done].
Qed.

Lemma trusted_flight_same m0 m m' :
  step db m m' → trusted m0 m → m'.1 = m.1 →
  ∀ sp signer est tp, m'.1 = InFlight sp signer est tp → consented m0 m' sp signer est.
Proof.
  intros Hs Htr Hph sp signer est tp Hm'. eapply consented_step; [|done].
  eapply trusted_flight; [done|]. by rewrite <- Hph.
Qed.

Lemma run_trusted m0 m :
  rtc (step db) m0 m → good m0 → m0.1 = Idle →
  trusted m0 m ∧ (length (events m0.2) ≤ length (events m.2))%nat.
Proof.
  intros Hrun Hg0 Hidle. revert m Hrun.
  apply (rtc_ind_r (λ m, trusted m0 m ∧ (length (events m0.2) ≤ length (events m.2))%nat)).
  { split; [|done]. split; [by rewrite Hidle|]. intros e ???. rewrite drop_all.
    by intros ?%elem_of_nil. }
  intros m m' Hrun Hs [Htr Hlen]. pose proof (run_good db _ _ Hrun Hg0) as Hg.
  destruct Hs as [ph s c o r s' Hd|ph s w Hok Hsame
    |self origin call info len imp src s v sp signer est tp o s1 s2 Hv Hp
    |sp signer est tp info post len res s wt s' Hpd].
  - assert (Hs : step db (ph, s) (ph, s')) by by eapply step_dispatch.
    destruct (dispatch_inv _ _ _ _ _ Hd) as [->|Hcall]; [done|].
    apply run_call_ok_inv in Hcall as (caller & a' & ev & _ & Hspec & _ & _ & _ & Hevs).
    split; [|cbn in *; rewrite Hevs, length_app; lia].
    eapply trusted_step; [done..|by eapply trusted_flight_same|].
    intros e ??? ->%list_elem_of_singleton. by rewrite (spec_call_pays_nothing _ _ _ _ _ Hspec).
  - split; [|done].
    assert (Hs : step db (ph, s) (ph, set_world w s)) by by apply step_other.
    eapply (trusted_step _ _ _ []); [done|done|by rewrite app_nil_r|done
      |by eapply trusted_flight_same|]. by intros ???? ?%elem_of_nil.
  - assert (Hs : step db (Idle, s) (InFlight sp signer est tp, s2)) by by eapply step_prepare.
    pose proof (validated_consents _ _ _ _ _ _ _ _ _ _ _ _ _ _ _ Hv) as [-> Hc].
    apply prepare_sponsored_ok in Hp as [_ Hm].
    apply move_budget_to_pending_ok in Hm as (_ & _ & _ & _ & Hevs).
    split; [|cbn in *; by rewrite Hevs].
    eapply (trusted_step _ _ _ []); [done|done|by rewrite app_nil_r|done| |].
    + intros ???? [= <- <- <- <-]. exists s. split_and!; [done|by apply rtc_once|done].
    + by intros ???? ?%elem_of_nil.
  - assert (Hs : step db (InFlight sp signer est tp, s) (Idle, s')) by by eapply step_settle.
    apply post_dispatch_sponsored in Hpd as (wt' & _ & Hset).
    apply (settle_live db) in Hset as (_ & _ & _ & _ & _ & Hevs); [|apply Hg].
    split; [|cbn in *; rewrite Hevs, length_app; lia].
    eapply trusted_step; [done|done|exact Hevs|done|done|].
    intros e sp' signer' fee ->%list_elem_of_singleton [= <- <- <-].
    destruct (trusted_flight _ _ Htr sp signer est tp eq_refl) as (s0 & H0 & H1 & Hc).
    exists s0. split_and!; [done|by eapply rtc_r|].
    eapply consents_le; [done|]. unfold charged_fee. lia.
Qed.
End refinement.
