(* ===== verification/Demo.v ===== *)
(** * The demo script

    [main] of [examples/subxt-sponsor-client/src/main.rs] with [query_demo_state] and
    [print_state]: register a sponsor, submit a sponsored remark, pause the sponsor, and expect
    the next sponsored remark to be refused.  The script is a program over what Subxt offers
    ([ChainClient]); asynchronous calls run to completion where they are awaited. *)

From stdpp Require Import strings pretty.
From S2P Require Import Prelude Types Codec Client.
Local Open Scope N_scope.

(** What the script uses of Subxt, the standard library and the development keys.  [Remote]
    is everything outside the script: the chain, the connection and the terminal. *)
Class ChainClient {T : Config} {X : Client.DefaultExtrinsicParams} : Type := {
  Remote : Type;
  Connection : Type;
  Snapshot : Type;
  Keypair : Type;
  TxProgress : Type;
  env_var : string → Remote → option string;
  println : string → Remote → Remote;
  alice : Keypair;
  bob : Keypair;
  charlie : Keypair;
  to_account_id : Keypair → AccountId;
  account_bytes : AccountId → list N;
  from_url : string → M Remote string Connection;
  storage_at_latest : Connection → M Remote string Snapshot;
  (** [storage.fetch(dynamic::storage(pallet, entry, keys))], decoded. *)
  fetch : Snapshot → string → string → list Client.Value → M Remote string (option Client.Value);
  sign_and_submit_then_watch : Connection → Client.Payload → Keypair → Client.SponsoredParams →
    M Remote string TxProgress;
  wait_for_finalized_success : TxProgress →
    M Remote string (list (Client.anyhow Client.EventDetails));
}.

Section demo.
Context {T : Config} {X : Client.DefaultExtrinsicParams} {V : Client.ValueOps}.
Context {CC : ChainClient}.

Definition print (line : string) : M Remote string unit := modify (println line).

(** The bytes of an ASCII literal. *)
Definition ascii_bytes (s : string) : list N :=
  map (λ c, Ascii.N_of_ascii c) (String.list_ascii_of_string s).

Definition newline : string := String (Ascii.ascii_of_N 10) "".

Record DemoState : Type := {
  demo_sponsor_active : option bool;
  alice_free : N;
  bob_free : N;
  budget_hold : N;
  pending_hold : N;
}.

Definition account_key (account : AccountId) : list Client.Value :=
  [Client.from_bytes (account_bytes account)].

Definition account_free_balance (storage : Snapshot) (account : AccountId) :
    M Remote string N :=
  fetched ← fetch storage "System" "Account" (account_key account);
  lift_result (Client.account_free_balance fetched).

Definition sponsor_holds (storage : Snapshot) (account : AccountId) :
    M Remote string (N * N) :=
  fetched ← fetch storage "Balances" "Holds" (account_key account);
  mret (Client.sponsor_holds fetched).

(** [r.context(text)]: the error shows the text. *)
Definition context {A} (text : string) (m : M Remote string A) : M Remote string A :=
  map_err_m (λ _, text) m.

Definition query_demo_state (client : Connection) (sponsor sponsored_user : AccountId) :
    M Remote string DemoState :=
  storage ← storage_at_latest client;
  fetched ← fetch storage "SponsoredTx" "Sponsors" (account_key sponsor);
  let sponsor_active := Client.sponsor_active fetched in
  alice_free ← context "read Alice free balance" (account_free_balance storage sponsor);
  bob_free ← context "read Bob free balance" (account_free_balance storage sponsored_user);
  holds ← context "read Alice balance holds" (sponsor_holds storage sponsor);
  let '(budget_hold, pending_hold) := holds in
  mret {| demo_sponsor_active := sponsor_active; alice_free := alice_free;
          bob_free := bob_free; budget_hold := budget_hold; pending_hold := pending_hold |}.

(** The lines [print_state] writes. *)
Definition state_lines (label : string) (state : DemoState) : list string :=
  ([label;
    "  sponsor active: " +:+ Client.format_active (demo_sponsor_active state);
    "  Alice free: " +:+ Client.format_balance (alice_free state);
    "  Bob free: " +:+ Client.format_balance (bob_free state);
    "  Alice SponsorshipBudget hold: " +:+ Client.format_balance (budget_hold state);
    "  Alice SponsorshipPending hold: " +:+ Client.format_balance (pending_hold state)])%string.

Fixpoint print_lines (lines : list string) : M Remote string unit :=
  match lines with
  | [] => mret tt
  | line :: lines => _ ← print line; print_lines lines
  end.

Definition print_state (label : string) (state : DemoState) : M Remote string unit :=
  print_lines (state_lines label state).

Definition query_and_print (client : Connection) (label : string) : M Remote string unit :=
  state ← query_demo_state client (to_account_id alice) (to_account_id bob);
  print_state label state.

(** Submit and wait until the transaction is finalized and has succeeded. *)
Definition submit (client : Connection) (call : Client.Payload) (signer : Keypair)
    (params : Client.SponsoredParams) :
    M Remote string (list (Client.anyhow Client.EventDetails)) :=
  progress ← sign_and_submit_then_watch client call signer params;
  wait_for_finalized_success progress.

(** The parameters of the script's four transactions. *)
Definition unsponsored_params : Client.SponsoredParams :=
  Client.build (Client.unsponsored (Client.mortal 32 Client.builder_new)).
Definition sponsored_params : Client.SponsoredParams :=
  Client.build (Client.sponsor (to_account_id alice)
    (Client.tip Client.TIP (Client.mortal 32 Client.builder_new))).
Definition rejected_params : Client.SponsoredParams :=
  Client.build (Client.sponsor (to_account_id alice) (Client.mortal 32 Client.builder_new)).

Definition register_call : Client.Payload :=
  Client.register_sponsor_call
    [account_bytes (to_account_id bob); account_bytes (to_account_id charlie)]
    Client.INITIAL_BUDGET Client.MAX_FEE_PER_TX.

Definition sponsored_remark : Client.Payload :=
  Client.sponsored_remark_call (ascii_bytes "runtime native sponsored fees").
Definition rejected_remark : Client.Payload :=
  Client.sponsored_remark_call (ascii_bytes "should be rejected").

(** The last step: the submission or the wait must fail. *)
Definition expect_rejection (client : Connection) : M Remote string unit := λ r,
  match sign_and_submit_then_watch client rejected_remark bob rejected_params r with
  | (Ok progress, r) =>
      match wait_for_finalized_success progress r with
      | (Ok _, r) =>
          (Err "paused sponsored transaction unexpectedly succeeded"%string, r)
      | (Err error, r) => print ("  Rejected as expected: " +:+ error)%string r
      end
  | (Err error, r) => print ("  Rejected as expected: " +:+ error)%string r
  end.

(** The headings of the script's steps and the line about the event. *)
Definition line_register : string :=
  (newline +:+ "2. Registering Alice as sponsor (unsponsored tx)")%string.
Definition line_remark : string :=
  (newline +:+ "3. Bob submits sponsored System::remark; Alice pays")%string.
Definition line_event (paid : Client.SponsoredFeePaid) : string :=
  ("  Event: SponsoredTransactionFeePaid actual_fee="
   +:+ Client.format_balance (Client.paid_fee paid)
   +:+ " tip=" +:+ Client.format_balance (Client.paid_tip paid))%string.
Definition line_pause : string := (newline +:+ "4. Pausing Alice sponsor")%string.
Definition line_retry : string :=
  (newline +:+ "5. Bob tries another sponsored remark while Alice is paused")%string.

Definition main : M Remote string unit :=
  var ← gets (env_var "SPONSORED_TX_RPC_URL");
  let url := default "ws://127.0.0.1:9944"%string var in
  _ ← print ("1. Connecting to " +:+ url)%string;
  client ← from_url url;
  _ ← query_and_print client "Initial state";
  _ ← print line_register;
  _ ← submit client register_call alice unsponsored_params;
  _ ← query_and_print client "After registration";
  _ ← print line_remark;
  events ← submit client sponsored_remark bob sponsored_params;
  paid ← lift_result (Client.find_sponsored_fee_paid events);
  _ ← print (line_event paid);
  _ ← query_and_print client "After sponsored remark";
  _ ← print line_pause;
  _ ← submit client Client.pause_call alice unsponsored_params;
  _ ← query_and_print client "After pause";
  _ ← print line_retry;
  _ ← expect_rejection client;
  _ ← query_and_print client "Final state";
  mret tt.
End demo.
