(* ===== verification/RuntimeClient.v ===== *)
(** * A client of the modelled runtime

    An instance of [ChainClient] whose chain is the model of the runtime: the bytes the script
    signs are decoded as the runtime decodes them, its calls go through [apply_extrinsic], and
    what it reads back is the storage, decoded.  It connects the script of [Demo] to the
    pallet; [DemoTheorems] runs it. *)

From stdpp Require Import strings pretty.
From S2P Require Import Prelude Types Frame Ledger Weights Payment Pallet SponsorSpec PalletProofs Extension ExtensionProofs Mock Codec Client ClientTheorems Extrinsic Blocks Demo.
Local Open Scope N_scope.

(** ** A client of the modelled runtime *)

Section runtime_client.
Context {T : Config} {F : FungibleHold} {D : FeeDestination}.
Context {W : Weights} {P : TransactionPayment} {O : OtherPallets} {C : CallEnv} (db : RuntimeDbWeight).
Context {X : Client.DefaultExtrinsicParams} {V : Client.ValueOps}.
Context {compact_balance : Codec N} {option_account : Codec (option AccountId)}.
(** The development accounts and the bytes of an account. *)
Context (alice bob charlie : AccountId).
Context (to_bytes : AccountId → list N) (of_bytes : list N → option AccountId).
(** The holds of other pallets, as they are stored. *)
Context (other_holds : AccountId → World → list StoredHold).

(** ** Decoding what the client sends *)

Definition value_u128 (v : Client.Value) : option N :=
  match v with Client.Primitive (Client.U128 n) => Some n | _ => None end.

Definition value_bytes (v : Client.Value) : option (list N) :=
  match v with Client.Composite_Unnamed vs => mapM value_u128 vs | _ => None end.

Definition value_account (v : Client.Value) : option AccountId := value_bytes v ≫= of_bytes.

(** The call a dynamic payload stands for. *)
Definition resolve (p : Client.Payload) : option RuntimeCalls :=
  let named pallet call :=
    String.eqb (Client.pallet_name p) pallet && String.eqb (Client.call_name p) call in
  match Client.call_data p with
  | [] =>
      if named "SponsoredTx" "pause" then Some (SponsoredTx Call_pause) else None
  | [remark] =>
      if named "System" "remark" then System_remark <$> value_bytes remark else None
  | [Client.Primitive (Client.U128 budget);
     Client.Composite_Named [(_, Client.Composite_Unnamed callers);
                             (_, Client.Primitive (Client.U128 max_fee))]] =>
      if named "SponsoredTx" "register_sponsor" then
        callers ← mapM value_account callers;
        callers ← try_into_bounded MaxAllowedCallers callers;
        Some (SponsoredTx (Call_register_sponsor budget
          {| allowed_callers := callers; max_fee_per_tx := max_fee |}))
      else None
  | _ => None
  end.

(** ** Encoding what the client reads *)

Definition u128 (n : N) : Client.Value := Client.Primitive (Client.U128 n).
Definition account_value (a : AccountId) : Client.Value := Client.from_bytes (to_bytes a).

Definition sponsor_value (st : SponsorState) : Client.Value :=
  Client.Composite_Named
    [("active"%string, Client.Primitive (Client.Bool (active st)));
     ("policy"%string, Client.Composite_Named
       [("allowed_callers"%string,
         Client.Composite_Unnamed (map account_value (bv_items (allowed_callers (policy st)))));
        ("max_fee_per_tx"%string, u128 (max_fee_per_tx (policy st)))])].

Definition account_info (free : N) : Client.Value :=
  Client.Composite_Named
    [("data"%string, Client.Composite_Named [("free"%string, u128 free)])].

Definition own_hold (reason : string) (amount : N) : list StoredHold :=
  if is_zero amount then []
  else [{| hold_pallet := "SponsoredTx"; hold_reason := reason; hold_amount := amount |}].

Definition stored_holds (a : AccountId) (s : Chain) : list StoredHold :=
  other_holds a (world s)
  ++ own_hold "SponsorshipBudget" (budget_on_hold a s)
  ++ own_hold "SponsorshipPending" (pending_on_hold a s).

(** The name and the fields of a pallet event. *)
Definition event_fields (e : Event) : string * list (string * Client.Value) :=
  match e with
  | SponsorRegistered sp b =>
      ("SponsorRegistered", [("sponsor", account_value sp); ("initial_budget", u128 b)])
  | BudgetIncreased sp x b =>
      ("BudgetIncreased",
       [("sponsor", account_value sp); ("amount", u128 x); ("new_budget", u128 b)])
  | BudgetDecreased sp x b =>
      ("BudgetDecreased",
       [("sponsor", account_value sp); ("amount", u128 x); ("new_budget", u128 b)])
  | SponsorPolicyUpdated sp => ("SponsorPolicyUpdated", [("sponsor", account_value sp)])
  | SponsorPaused sp => ("SponsorPaused", [("sponsor", account_value sp)])
  | SponsorResumed sp => ("SponsorResumed", [("sponsor", account_value sp)])
  | SponsorUnregistered sp => ("SponsorUnregistered", [("sponsor", account_value sp)])
  | SponsoredTransactionFeePaid sp signer fee tip =>
      ("SponsoredTransactionFeePaid",
       [("sponsor", account_value sp); ("signer", account_value signer);
        ("actual_fee", u128 fee); ("tip", u128 tip)])
  end%string.

(** A pallet event as the client sees it. *)
Definition client_event (e : Event) : Client.EventDetails :=
  {| Client.event_pallet := "SponsoredTx"; Client.event_variant := (event_fields e).1;
     Client.field_values := Ok (Client.Composite_Named (event_fields e).2) |}.

(** ** The client *)

Record Session : Type := {
  chain : Chain;
  printed : list string;
}.

Definition fetch_from (s : Chain) (pallet entry : string) (keys : list Client.Value) :
    result (option Client.Value) string :=
  let named p e := String.eqb pallet p && String.eqb entry e in
  match keys with
  | [key] =>
      match value_account key with
      | Some a =>
          if named "SponsoredTx" "Sponsors" then Ok (sponsor_value <$> sponsors s !! a)
          else if named "System" "Account" then
            Ok (if is_zero (free_balance a (world s)) then None
                else Some (account_info (free_balance a (world s))))
          else if named "Balances" "Holds" then
            Ok (match stored_holds a s with [] => None | hs => Some (holds_value hs) end)
          else Err "no such storage entry"%string
      | None => Err "bad key"%string
      end
  | _ => Err "bad key"%string
  end.

Definition submit_extrinsic (p : Client.Payload) (who : AccountId)
    (params : Client.SponsoredParams) :
    M Session string (SponsoredChargeTransactionPayment * AccountId * RuntimeCalls) := λ r,
  let bytes := Client.encode_value_to (compact_balance := compact_balance)
                 (option_account := option_account)
                 (Client.extension_new (Client.sponsored_slot params)) [] in
  match decode_extension (compact_balance := compact_balance) (option_account := option_account)
          bytes, resolve p with
  | Some (ext, []), Some c =>
      match pool_validate ext who c (chain r) with
      | Ok _ => (Ok (ext, who, c), r)
      | Err _ => (Err "Invalid Transaction"%string, r)
      end
  | _, _ => (Err "Bad extrinsic format"%string, r)
  end.

Definition finalize_extrinsic
    (tx : SponsoredChargeTransactionPayment * AccountId * RuntimeCalls) :
    M Session string (list (Client.anyhow Client.EventDetails)) := λ r,
  let '(ext, who, c) := tx in
  match apply_extrinsic db ext who c (chain r) with
  | (Ok (Ok _), s') =>
      (Ok (map (λ e, Ok (client_event e)) (drop (length (events (chain r))) (events s'))),
       {| chain := s'; printed := printed r |})
  | (Ok (Err _), s') =>
      (Err "Extrinsic failed"%string, {| chain := s'; printed := printed r |})
  | (Err _, _) => (Err "Transaction is invalid"%string, r)
  end.

Definition runtime_client : ChainClient := {|
  Remote := Session;
  Connection := unit;
  Snapshot := Chain;
  Keypair := AccountId;
  TxProgress := SponsoredChargeTransactionPayment * AccountId * RuntimeCalls;
  env_var _ _ := None;
  println line r := {| chain := chain r; printed := printed r ++ [line] |};
  Demo.alice := alice;
  Demo.bob := bob;
  Demo.charlie := charlie;
  to_account_id := id;
  account_bytes := to_bytes;
  from_url _ := mret tt;
  storage_at_latest _ := gets chain;
  fetch s pallet entry keys := lift_result (fetch_from s pallet entry keys);
  sign_and_submit_then_watch _ p who params := submit_extrinsic p who params;
  wait_for_finalized_success := finalize_extrinsic;
|}.
End runtime_client.

(** ** On the ledger

    The client of a chain with the ledger and the flat fees of [Mock]. *)

#[export, refine] Instance ledger_funds : FungibleHoldFunds ledger_live := {|
  minimum_balance := Ledger.ExistentialDeposit;
|}.
Proof.
  intros r who amount w _ Hle. cbn. unfold Ledger.hold.
  rewrite (proj2 (Ledger.can_hold_spec amount (Ledger.free_of who w))) by (by right). eauto.
Defined.

Lemma ledger_free_moved who x w : free_moved who w (MockCharge.set_free who x w).
Proof.
  split; [done|]. intros who' Hne. cbn. unfold Ledger.free_of. cbn.
  by rewrite lookup_insert_ne.
Qed.

Lemma ledger_free_set who x w : Ledger.free_of who (MockCharge.set_free who x w) = x.
Proof. unfold Ledger.free_of. cbn. by rewrite lookup_insert_eq. Qed.

Lemma ledger_ok_set_free who x w :
  Ledger.ok w → Ledger.ExistentialDeposit ≤ x ∨ Ledger.free_of who w ≤ x →
  Ledger.ok (MockCharge.set_free who x w).
Proof.
  intros Hok Hx r who' Hpos. destruct (decide (who' = who)) as [->|Hne].
  - rewrite ledger_free_set. specialize (Hok r who Hpos). lia.
  - pose proof (free_moved_others _ _ _ (ledger_free_moved who x w) who' Hne) as Hf.
    cbn in Hf. rewrite Hf. by apply (Hok r).
Qed.

#[export] Instance mock_charge_spec : ChargeSpec mock_payment ledger_funds.
Proof.
  intros o who call info len imp src tip w Ho Hok Hle. cbn in *.
  set (f := MockCharge.fee (call_fee info) tip) in *.
  assert (Hcan : MockCharge.can_withdraw f who w = true)
    by (apply Ledger.can_hold_spec; by right).
  do 2 eexists. exists (Some who, f, tip), (MockCharge.set_free who (Ledger.free_of who w - f) w).
  split_and!.
  - unfold MockCharge.validate. rewrite Ho. fold f.
    by rewrite Hcan.
  - cbn. by rewrite Hcan.
  - apply ledger_ok_set_free; [done|]. unfold Ledger.ExistentialDeposit in *. lia.
  - apply ledger_free_moved.
  - rewrite ledger_free_set. lia.
  - intros post res w2 Hok2. do 2 eexists. split; [done|]. split_and!.
    + apply ledger_ok_set_free; [done|lia].
    + apply ledger_free_moved.
    + rewrite ledger_free_set. lia.
Qed.

(** Fees are taken and given back without touching a hold or the deposit. *)
#[export] Instance mock_charge_frame : ChargeFrame ledger_live mock_payment.
Proof.
  split; cbn.
  - intros tip o _ info _ _ _ w r w' H Hok. unfold MockCharge.validate in H.
    by repeat case_match; simplify_eq.
  - intros tip [[who|] f] o _ _ _ w pre w' H Hok; cbn in H;
      repeat case_match; simplify_eq; [|done].
    split; [|apply ledger_free_moved]. apply ledger_ok_set_free; [done|].
    destruct (MockCharge.can_withdraw f who w) eqn:Hcan; [|done].
    apply Ledger.can_hold_spec in Hcan. lia.
  - intros [[[who|] f] tip] _ post _ _ w wt w' H Hok; cbn in H; simplify_eq; [|done].
    split; [|apply ledger_free_moved]. apply ledger_ok_set_free; [done|lia].
Qed.

(** Another pallet that runs a batch of this pallet's calls as its caller, all or nothing,
    after a transfer of free balance between two accounts. *)
Module MockBatch.
Record t : Type := { sender : N; receiver : N; amount : N; batch : list (Call (T := Test)) }.

Definition transfer (c : t) : M (Chain (T := Test)) DispatchError unit := λ s,
  let w := world s : LedgerWorld in
  if (amount c + Ledger.ExistentialDeposit <=? Ledger.free_of (sender c) w) then
    let w1 := MockCharge.set_free (sender c) (Ledger.free_of (sender c) w - amount c) w in
    let w2 := MockCharge.set_free (receiver c) (Ledger.free_of (receiver c) w1 + amount c) w1 in
    (Ok tt, set_world (w2 : World) s)
  else (Err (Other FundsUnavailable), s).

Fixpoint run_all (cs : list Call) (o : RuntimeOrigin) : M (Chain (T := Test)) DispatchError unit :=
  match cs with
  | [] => mret tt
  | c :: cs => _ ← dispatch c o; run_all cs o
  end.

Definition execute (c : t) (o : RuntimeOrigin) : M (Chain (T := Test)) DispatchError unit :=
  _ ← transfer c; run_all (batch c) o.
End MockBatch.

#[export] Instance mock_others : OtherPallets := {|
  OtherCall := MockBatch.t; dispatch_other := MockBatch.execute |}.

Lemma mock_transfer_activity c s s' :
  MockBatch.transfer c s = (Ok tt, s') → bal_ok (world s) → activity s s'.
Proof.
  unfold MockBatch.transfer. intros H Hok. case_match eqn:Hle; simplify_eq.
  apply activity_world; [|done]. bool_to_prop.
  apply ledger_ok_set_free; [|lia].
  apply ledger_ok_set_free; [done|lia].
Qed.

#[export] Instance mock_others_spec : OtherPalletsSpec ledger_live mock_others.
Proof.
  intros c o s s' H Hok. apply bind_ok in H as ([] & s1 & Ht & H).
  eapply rtc_l; [by eapply mock_transfer_activity|]. clear Ht Hok.
  revert s1 H. induction (MockBatch.batch c) as [|call cs IH]; intros s1 H; cbn in H.
  - unfold mret, M_ret in H. by simplify_eq.
  - apply bind_ok in H as ([] & s2 & Hd & H). eapply rtc_l; [by eapply activity_call|].
    by apply IH.
Qed.

#[export] Instance mock_env : CallEnv := {|
  signed_origin := signed_by;
  runtime_call _ := remark_call;
  get_dispatch_info _ := remark_info;
  encoded_len _ _ := 10;
  post_dispatch_info _ _ := post_info 1;
  dispatch_result _ := dispatch_ok_result;
  implication _ := no_implication;
  External := external_source;
  InBlock := external_source;
|}.

#[export] Instance mock_env_spec : CallEnvSpec mock_env.
Proof. by split. Qed.

(** The development chain's endowment. *)
Definition dev_chain : Chain := {|
  world := {| free := {[ 1 := 2 ^ 60; 2 := 2 ^ 60; 3 := 2 ^ 60 ]}; held := ∅ |} : World;
  sponsors := ∅;
  events := [];
|}.

Definition acct_bytes (a : @AccountId Test) : list N := [a].
Definition bytes_acct (l : list N) : option (@AccountId Test) := head l.
Definition no_other_holds (_ : @AccountId Test) (_ : @World Test) : list StoredHold := [].

Definition mock_client : ChainClient :=
  runtime_client mock_db (compact_balance := compact_codec) (option_account := account_codec)
    (acct 1) (acct 2) (acct 3) acct_bytes bytes_acct no_other_holds.

Lemma own_reasons_printed r x :
  r ∈ ["SponsorshipBudget"; "SponsorshipPending"]%string →
  prints_reason {| hold_pallet := "SponsoredTx"; hold_reason := r; hold_amount := x |}.
Proof.
  intros Hr r' Hr'.
  repeat (apply elem_of_cons in Hr as [->|Hr];
    [repeat (apply elem_of_cons in Hr' as [->|Hr']; [reflexivity|]); by apply elem_of_nil in Hr'|]).
  by apply elem_of_nil in Hr.
Qed.

Lemma dev_chain_ok : bal_ok (world dev_chain) ∧ chain_inv dev_chain.
Proof.
  split; [intros r who; cbn; unfold Ledger.held_of; cbn; rewrite lookup_empty; cbn; lia|].
  intros who. unfold acc_inv. cbn. by rewrite lookup_empty.
Qed.
