(* ===== verification/BlockTheorems.v ===== *)
(** * Theorems about histories of the chain

    What holds after any sequence of extrinsics and other pallets' activity, from a chain
    without sponsors on: the refinement to the life cycle, the books of each sponsor, and the
    end of a budget nobody tops up. *)

From S2P Require Import Prelude Types Frame Ledger Weights Payment Pallet SponsorSpec PalletProofs Extension ExtensionProofs Lifecycle Mock LifecycleTheorems Extrinsic Blocks RuntimeClient.
Local Open Scope N_scope.

Section theorems.
Context {T : Config} {F : FungibleHold} {FS : FungibleHoldSpec F} {L : FungibleHoldLive F}.
Context {D : FeeDestination} {DS : FeeDestinationSpec D} {DL : FeeDestinationLive D L}.
Context {W : Weights} {P : TransactionPayment} {CF : ChargeFrame L P}.
Context {O : OtherPallets} {OS : OtherPalletsSpec L O} {C : CallEnv} (db : RuntimeDbWeight).

Lemma history_reachable s0 s :
  initial (Idle, s0) → rtc (block_step db) s0 s → reachable db (Idle, s).
Proof.
  intros H0 Hrun. exists (Idle, s0). split; [done|].
  by apply history_run; [|apply initial_good].
Qed.

(** C6: whatever extrinsics the executive applies, with calls of this pallet or any
    other, sponsored or paid by their signers, accepted or refused, and whatever other pallets
    do in between, the chain goes through the life cycle of sponsored transactions and is
    between transactions after each extrinsic: nothing is left pending for anybody, each
    sponsor's budget is what the events say, and accounts that are not registered have no
    budget. *)
Theorem blocks_refine_lifecycle s0 s :
  initial (Idle, s0) → rtc (block_step db) s0 s →
  reachable db (Idle, s)
  ∧ ∀ who, pending_on_hold who s = 0
      ∧ replay who (events s) = budget_on_hold who s
      ∧ (sponsors s !! who = None → budget_on_hold who s = 0).
Proof.
  intros H0 Hrun. pose proof (history_reachable _ _ H0 Hrun) as Hreach. split; [done|].
  destruct (reachable_is_good _ _ Hreach) as [_ Hinv Hpen Hev]. cbn in *. intros who.
  pose proof (Hpen who) as Hp. split_and!; [done|rewrite Hev; lia|].
  intros Hnone. specialize (Hinv who). unfold acc_inv in Hinv. cbn in Hinv.
  rewrite Hnone in Hinv. tauto.
Qed.

(** C7: the money is where the events say.  Measure, along any history, what the pallet's
    calls take from a sponsor's free balance, what they put back into it, and what settlements
    take out of its holds.  However the history is measured, these three amounts are the ones
    the events record as deposited, returned and spent; and what was deposited is exactly what
    was returned, what was spent, and what is still on hold. *)
Theorem deposits_are_accounted s0 s who :
  initial (Idle, s0) → rtc (block_step db) s0 s →
  (∃ f, measured db who (Idle, s0) f (Idle, s))
  ∧ ∀ f, measured db who (Idle, s0) f (Idle, s) →
      f = flows who (events s)
      ∧ deposited f = returned f + spent f + budget_on_hold who s.
Proof.
  intros H0 Hrun. pose proof (initial_good _ H0) as Hg.
  pose proof (history_run db _ _ Hrun Hg) as Hsteps. split; [by apply run_measured|].
  intros f Hf. pose proof (measured_books db _ _ _ _ H0 Hf) as ->. split; [done|].
  rewrite (initial_balanced db _ _ who H0 Hsteps). unfold escrow.
  pose proof (good_pending _ (run_good db _ _ Hsteps Hg) who) as Hp. cbn in *. lia.
Qed.

(** The books of a stretch of history in which [who] deposits nothing. *)
Lemma spending_bound s s' evs who m :
  reachable db (Idle, s) → rtc (block_step db) s s' → events s' = events s ++ evs →
  Forall (λ e, ¬ is_deposit who e) evs → Forall (λ fee, m ≤ fee) (omap (fee_of who) evs) →
  N.of_nat (length (omap (fee_of who) evs)) * m + budget_on_hold who s' ≤ budget_on_hold who s.
Proof.
  intros Hg%reachable_is_good Hrun Hevs Hdep Hfee.
  pose proof (history_run db _ _ Hrun Hg) as Hsteps.
  destruct (run_balanced db _ _ who Hsteps Hg) as (evs' & Hevs' & Hbal). cbn in *.
  rewrite Hevs in Hevs'. apply app_inv_head in Hevs' as <-.
  pose proof (good_pending _ Hg who) as Hp. cbn in Hp.
  specialize (Hbal {| deposited := escrow who s; returned := 0; spent := 0 |}).
  destruct (flows_spend who m evs {| deposited := escrow who s; returned := 0; spent := 0 |})
    as [Hd Hs]; [done..|]. cbn in *. unfold balanced in Hbal. rewrite Hd in Hbal. cbn in Hbal.
  unfold escrow in *. lia.
Qed.

(** C35: while a sponsor deposits nothing, the number of transactions it pays for at a
    fee of at least [m] is bounded by its budget divided by [m]; and what it has on hold never
    grows. *)
Theorem budget_bounds_sponsorship s s' evs who m :
  reachable db (Idle, s) → rtc (block_step db) s s' → events s' = events s ++ evs →
  Forall (λ e, ¬ is_deposit who e) evs → Forall (λ fee, m ≤ fee) (omap (fee_of who) evs) →
  0 < m →
  N.of_nat (length (omap (fee_of who) evs)) ≤ budget_on_hold who s / m
  ∧ budget_on_hold who s' ≤ budget_on_hold who s.
Proof.
  intros Hreach Hrun Hevs Hdep Hfee Hm.
  pose proof (spending_bound _ _ _ _ _ Hreach Hrun Hevs Hdep Hfee).
  split; [apply N.div_le_lower_bound|]; lia.
Qed.

(** [s'] follows [s] by a stretch of history in which [who] deposits nothing and pays for at
    least one transaction, never at a fee of zero. *)
Definition sponsors_more (who : AccountId) (s' s : Chain) : Prop :=
  reachable db (Idle, s) ∧ rtc (block_step db) s s'
  ∧ ∃ evs, events s' = events s ++ evs
    ∧ Forall (λ e, ¬ is_deposit who e) evs
    ∧ Forall (λ fee, 1 ≤ fee) (omap (fee_of who) evs) ∧ omap (fee_of who) evs ≠ [].

(** C8: sponsorship without deposits comes to an end: from no state is there an
    infinite history in which a sponsor that deposits nothing keeps paying for transactions. *)
Theorem sponsorship_terminates who s : Acc (sponsors_more who) s.
Proof.
  remember (budget_on_hold who s) as b eqn:Hb. revert s Hb.
  induction b as [b IH] using (well_founded_induction N.lt_wf_0). intros s ->.
  constructor. intros s' Hmore. eapply IH; [|done].
  destruct Hmore as (Hreach & Hrun & evs & Hevs & Hdep & Hfee & Hne).
  pose proof (spending_bound s s' evs who 1 Hreach Hrun Hevs Hdep Hfee).
  destruct (omap (fee_of who) evs); [done|]. cbn in *. lia.
Qed.
End theorems.

(** ** Witnesses *)

(** Account 1 registers, account 2 remarks twice and makes a transfer at its expense, account 3
    tries and is refused, and account 1 unregisters. *)
Definition register_200 : RuntimeCalls := SponsoredTx (Call_register_sponsor 200 policy_2_50).
Definition a_remark : RuntimeCalls := System_remark [1; 2; 3].
Definition a_transfer : RuntimeCalls :=
  OtherPallet ({| MockBatch.sender := 2; MockBatch.receiver := 3; MockBatch.amount := 10;
                  MockBatch.batch := [] |} : OtherCall).
Definition leave : RuntimeCalls := SponsoredTx Call_unregister.

Definition after_register : Chain :=
  (apply_all mock_db [(ext_unsponsored 0, acct 1, register_200)] new_test_ext).2.

Definition sponsored_block := [(ext_sponsored 5, acct 2, a_remark);
  (ext_sponsored 0, acct 3, a_remark); (ext_sponsored 0, acct 2, a_remark);
  (ext_sponsored 0, acct 2, a_transfer)].

Definition after_remarks : Chain := (apply_all mock_db sponsored_block after_register).2.

Definition after_leaving : Chain :=
  (apply_all mock_db [(ext_unsponsored 0, acct 1, leave)] after_remarks).2.

Lemma register_history : rtc (block_step mock_db) new_test_ext after_register.
Proof. by eapply apply_all_history, surjective_pairing. Qed.

Lemma remarks_history : rtc (block_step mock_db) after_register after_remarks.
Proof. by eapply apply_all_history, surjective_pairing. Qed.

Lemma whole_history : rtc (block_step mock_db) new_test_ext after_leaving.
Proof.
  etrans; [exact register_history|]. etrans; [exact remarks_history|].
  by eapply apply_all_history, surjective_pairing.
Qed.

(** The events of the three transactions: no deposit, and fees of 6, 1 and 1. *)
Definition remark_events : list (Event (T := Test)) :=
  [SponsoredTransactionFeePaid (acct 1) (acct 2) 6 5;
   SponsoredTransactionFeePaid (acct 1) (acct 2) 1 0;
   SponsoredTransactionFeePaid (acct 1) (acct 2) 1 0].

Lemma remark_events_spec :
  events after_remarks = events after_register ++ remark_events
  ∧ Forall (λ e, ¬ is_deposit (acct 1) e) remark_events
  ∧ Forall (λ fee, 1 ≤ fee) (omap (fee_of (acct 1)) remark_events).
Proof.
  assert (Hfees : omap (fee_of (acct 1)) remark_events = [6; 1; 1]) by reflexivity.
  rewrite Hfees. split_and!; [reflexivity|repeat constructor; by intros []|].
  repeat constructor; lia.
Qed.

Lemma blocks_refine_lifecycle_witness :
  reachable mock_db (Idle, after_remarks)
  ∧ pending_on_hold (acct 1) after_remarks = 0
  ∧ replay (acct 1) (events after_remarks) = 192.
Proof.
  destruct (blocks_refine_lifecycle mock_db new_test_ext after_remarks) as [Hr Hw].
  - exact new_test_ext_initial.
  - etrans; [exact register_history|exact remarks_history].
  - split; [exact Hr|]. destruct (Hw (acct 1)) as (Hp & He & _). split; [exact Hp|exact He].
Defined.

Lemma deposits_are_accounted_witness :
  ∃ f, measured mock_db (acct 1) (Idle, new_test_ext) f (Idle, after_leaving)
    ∧ f = {| deposited := 200; returned := 192; spent := 8 |}
    ∧ 200 = 192 + 8 + budget_on_hold (acct 1) after_leaving.
Proof.
  destruct (deposits_are_accounted mock_db new_test_ext after_leaving (acct 1)
    new_test_ext_initial whole_history) as [[f Hf] Hall].
  destruct (Hall f Hf) as [Heq Hbal]. exists f. split; [exact Hf|].
  assert (Hfl : f = {| deposited := 200; returned := 192; spent := 8 |})
    by (rewrite Heq; reflexivity).
  split; [exact Hfl|]. rewrite Hfl in Hbal. exact Hbal.
Defined.

Lemma budget_bounds_sponsorship_witness :
  3 ≤ budget_on_hold (acct 1) after_register / 1
  ∧ budget_on_hold (acct 1) after_remarks ≤ budget_on_hold (acct 1) after_register.
Proof.
  destruct remark_events_spec as (Hevs & Hdep & Hfee).
  exact (budget_bounds_sponsorship mock_db after_register after_remarks remark_events (acct 1) 1
    (history_reachable mock_db _ _ new_test_ext_initial register_history) remarks_history
    Hevs Hdep Hfee eq_refl).
Defined.

Lemma sponsorship_terminates_witness :
  sponsors_more mock_db (acct 1) after_remarks after_register
  ∧ Acc (sponsors_more mock_db (acct 1)) after_register.
Proof.
  split; [|apply sponsorship_terminates].
  destruct remark_events_spec as (Hevs & Hdep & Hfee).
  split; [exact (history_reachable mock_db _ _ new_test_ext_initial register_history)|].
  split; [exact remarks_history|]. exists remark_events. by split_and!.
Defined.
