(* ===== verification/PromiseTheorems.v ===== *)
(** * Theorems about what sponsorship promises

    The pallet and its extension implement the machine of [Promise], and no fee is ever paid
    without the sponsor's consent. *)

From S2P Require Import Prelude Types Frame Ledger Weights Payment Pallet SponsorSpec PalletProofs Extension ExtensionProofs Lifecycle Mock LifecycleTheorems Extrinsic Blocks Promise RuntimeClient BlockTheorems.
Local Open Scope N_scope.

Section theorems.
Context {T : Config} {F : FungibleHold} {FS : FungibleHoldSpec F} {L : FungibleHoldLive F}.
Context {D : FeeDestination} {DS : FeeDestinationSpec D} {DL : FeeDestinationLive D L}.
Context {W : Weights} {P : TransactionPayment} {CF : ChargeFrame L P}.
Context {O : OtherPallets} {OS : OtherPalletsSpec L O} {C : CallEnv} (db : RuntimeDbWeight).

(** C4: pallet and extension together refine the abstract machine of sponsorship: every
    step of the life cycle, from every reachable state, is matched by steps of the machine on
    what it sees of the state, and so is every history of extrinsics of this pallet and others,
    sponsored and not. *)
Theorem sponsorship_implements_promise :
  (∀ m m', reachable db m → step db m m' → rtc promise_step (promise_of m) (promise_of m'))
  ∧ (∀ s s', reachable db (Idle, s) → rtc (block_step db) s s' →
       rtc promise_step (promise_of (Idle, s)) (promise_of (Idle, s'))).
Proof.
  split.
  - intros m m' Hreach Hs. by eapply step_promise, reachable_is_good.
  - intros s s' Hg%reachable_is_good Hrun. by eapply run_promise; [apply history_run|].
Qed.

(** C5: nobody pays a fee without having agreed to.  For every fee that the events of a
    history say a sponsor paid there was a moment between transactions, on the way from the
    start of the chain to its present state, at which the sponsor was registered and active,
    had the signer on its allowlist, and at least the fee as its cap and as its budget. *)
Theorem fees_have_consent s0 s sp signer fee tip :
  initial (Idle, s0) → rtc (block_step db) s0 s →
  SponsoredTransactionFeePaid sp signer fee tip ∈ events s →
  ∃ s1 st, reachable db (Idle, s1) ∧ rtc (step db) (Idle, s1) (Idle, s)
    ∧ sponsors s1 !! sp = Some st ∧ active st = true
    ∧ signer ∈ bv_items (allowed_callers (policy st))
    ∧ fee ≤ max_fee_per_tx (policy st) ∧ fee ≤ budget_on_hold sp s1.
Proof.
  intros H0 Hhist He. pose proof (initial_good _ H0) as Hg.
  destruct (run_trusted db _ _ (history_run db _ _ Hhist Hg) Hg eq_refl) as [[_ Htr] _].
  destruct (Htr (SponsoredTransactionFeePaid sp signer fee tip) sp signer fee)
    as (s1 & Hto & Hfrom & st & Hst & (? & ? & ? & ?)%policy_refusal_None).
  - destruct H0 as (_ & _ & Hnil & _). cbn in *. by rewrite Hnil.
  - done.
  - exists s1, st. split_and!; try done. by exists (Idle, s0).
Qed.
End theorems.

(** ** Witnesses *)

Lemma sponsorship_implements_promise_witness :
  rtc promise_step (promise_of (Idle, new_test_ext)) (promise_of (Idle, after_leaving)).
Proof.
  destruct (sponsorship_implements_promise mock_db) as [_ H]. apply H; [|exact whole_history].
  exists (Idle, new_test_ext). split; [exact new_test_ext_initial|constructor].
Defined.

Lemma fees_have_consent_witness :
  ∃ s1 st, reachable mock_db (Idle, s1) ∧ sponsors s1 !! acct 1 = Some st
    ∧ acct 2 ∈ bv_items (allowed_callers (policy st)) ∧ 6 ≤ max_fee_per_tx (policy st).
Proof.
  destruct (fees_have_consent mock_db new_test_ext after_remarks (acct 1) (acct 2) 6 5)
    as (s1 & st & Hr & _ & Hst & _ & Hin & Hcap & _).
  - exact new_test_ext_initial.
  - etrans; [exact register_history|exact remarks_history].
  - rewrite (proj1 remark_events_spec). apply elem_of_app. right. apply list_elem_of_here.
  - exists s1, st. split_and!; [exact Hr|exact Hst|exact Hin|exact Hcap].
Defined.
