(* ===== verification/UnitTests.v ===== *)
(** * The unit tests of the sponsored-tx pallet

    [pallets/sponsored-tx/src/mock.rs] and [tests.rs]: the fees of the mock runtime, its pallet
    table and transaction extensions, and each test of the suite as a computation on the
    model, statement by statement.  A test is a computation that fails at its first failing
    assertion; [passes] says that it reaches its end from [new_test_ext]. *)

From stdpp Require Import strings.
From S2P Require Import Prelude Types Frame Ledger Weights Payment Pallet Extension Mock.
Local Open Scope N_scope.

(** ** Decidable equality of states *)

#[export] Instance LedgerWorld_eq_dec : EqDecision LedgerWorld.
Proof. solve_decision. Defined.

#[export] Instance TokenError_eq_dec : EqDecision TokenError.
Proof. solve_decision. Defined.

#[export] Instance BoundedVec_eq_dec {A max} `{EqDecision A} : EqDecision (BoundedVec A max).
Proof.
  intros v w. destruct (decide (bv_items v = bv_items w)) as [H|H];
    [left; by apply bounded_vec_eq|right; by intros ->].
Defined.

#[export] Instance SponsorPolicy_eq_dec {T : Config} : EqDecision SponsorPolicy.
Proof. solve_decision. Defined.

#[export] Instance SponsorState_eq_dec {T : Config} : EqDecision SponsorState.
Proof. solve_decision. Defined.

#[export] Instance Event_eq_dec {T : Config} : EqDecision Event.
Proof. solve_decision. Defined.

#[export] Instance DispatchError_eq_dec {T : Config} `{EqDecision OtherError} :
  EqDecision DispatchError.
Proof. solve_decision. Defined.

#[export] Instance TransactionValidityError_eq_dec {T : Config} `{EqDecision OtherInvalid} :
  EqDecision TransactionValidityError.
Proof. solve_decision. Defined.

#[export] Instance Chain_eq_dec {T : Config} `{EqDecision World} : EqDecision Chain.
Proof. solve_decision. Defined.

(** ** The mock runtime *)

(** The runtime's pallets and their indices. *)
Definition mock_pallets : list (string * N) :=
  [("System", 0); ("Balances", 1); ("TransactionPayment", 2); ("SponsoredTx", 3)]%string.

(** The transaction extensions, outermost first. *)
Definition mock_TxExtension : list string :=
  ["CheckNonZeroSender"; "CheckSpecVersion"; "CheckTxVersion"; "CheckGenesis"; "CheckMortality";
   "CheckNonce"; "CheckWeight"; "SponsoredChargeTransactionPayment"]%string.

Definition EXT_VERSION : N := 0.

(** [FixedFee<1>] and [NoFee]. *)
Definition mock_WeightToFee (weight : N) : N := 1.
Definition mock_LengthToFee (len : N) : N := 0.

(** The inclusion fee of a dispatch that pays: the base fee, the length fee and the fee of the
    call's weight. *)
Definition mock_inclusion_fee (len weight : N) : N :=
  mock_WeightToFee 0 + mock_LengthToFee len + mock_WeightToFee weight.

(** [remark_call()] and the size it encodes to: two indices, the length and the bytes. *)
Definition remark_bytes : list N := [1; 2; 3].
Definition remark_len : N := 2 + 1 + N.of_nat (length remark_bytes).

(** ** Assertions *)

Definition Test_M (A : Type) : Type := M (Chain (T := Test)) string A.

Definition assert (b : bool) : Test_M unit := ensure b "assertion failed"%string.

Definition assert_eq {A} `{EqDecision A} (x y : A) : Test_M unit := assert (bool_decide (x = y)).

(** [assert_ok!] and [unwrap] go on with the state; [assert_noop!] also wants the state to be
    what it was. *)
Definition unwrap {E A} (m : M (Chain (T := Test)) E A) : Test_M A :=
  map_err_m (λ _, "unexpected error"%string) m.

Definition assert_ok {E A} (m : M (Chain (T := Test)) E A) : Test_M unit := _ ← unwrap m; mret tt.

Definition unwrap_err {E A} (m : M (Chain (T := Test)) E A) : Test_M E := λ s,
  match m s with
  | (Err e, s') => (Ok e, s')
  | (Ok _, s') => (Err "unexpected success"%string, s')
  end.

Definition assert_noop {A} (m : M (Chain (T := Test)) DispatchError A) (e : Error) :
    Test_M unit := λ s,
  match m s with
  | (Err e', s') =>
      if decide (e' = Module e ∧ s' = s) then (Ok tt, s')
      else (Err "not a noop"%string, s')
  | (Ok _, s') => (Err "unexpected success"%string, s')
  end.

Definition passes (t : Test_M unit) : Prop := is_ok (t new_test_ext).1 = true.

(** ** The extension, as the tests drive it *)

Section tests.
(** The weight of the remark, which the SDK's benchmarks set. *)
Context (call_weight : N).

Definition info : @DispatchInfo _ _ mock_payment :=
  {| call_fee := mock_inclusion_fee remark_len call_weight |} : MockInfo.

(** [PostDispatchInfo { actual_weight: Some(info.call_weight / 2), pays_fee: Pays::Yes }]. *)
Definition half_weight : @PostDispatchInfo _ _ mock_payment :=
  {| paid_fee := mock_inclusion_fee remark_len (call_weight / 2) |} : MockPostInfo.

Definition policy_of (callers : list N) (max_fee : N) : Test_M SponsorPolicy :=
  lift_result (ok_or (mock_policy callers max_fee) "callers fit in bounded vec"%string).

Definition validate_only (ext : SponsoredChargeTransactionPayment) (who : N) :=
  validate ext (signed_by who) remark_call info remark_len no_implication external_source.

Definition validate_and_prepare (ext : SponsoredChargeTransactionPayment) (who : N) :
    M (Chain (T := Test)) TransactionValidityError (SponsoredPre * RuntimeOrigin) :=
  checked ← validate_only ext who;
  let '(_, val, origin) := checked in
  pre ← prepare ext val origin remark_call info remark_len;
  mret (pre, origin).

Definition post_dispatch (pre : SponsoredPre) :
    M (Chain (T := Test)) TransactionValidityError Weight :=
  post_dispatch_details mock_db pre info half_weight remark_len dispatch_ok_result.

(** A remark, once validated and prepared, succeeds, uses its declared weight and settles. *)
Definition dispatch_transaction (ext : SponsoredChargeTransactionPayment) (who : N) :
    M (Chain (T := Test)) TransactionValidityError unit :=
  prepared ← validate_and_prepare ext who;
  _ ← post_dispatch_details mock_db prepared.1 info
        (post_info (mock_inclusion_fee remark_len call_weight)) remark_len dispatch_ok_result;
  mret tt.

Definition compute_mock_fee (tip : N) : Test_M N :=
  gets (λ s, compute_fee (as_u32 remark_len) info tip (world s)).

Definition register (budget : N) (callers : list N) (max_fee : N) : Test_M unit :=
  p ← policy_of callers max_fee;
  assert_ok (register_sponsor (signed_by 1) budget p).

(** ** The tests *)

Definition register_sponsor_holds_budget : Test_M unit :=
  _ ← register 200 [2] 50;
  budget ← gets (budget_on_hold (acct 1));
  _ ← assert_eq budget 200;
  pending ← gets (pending_on_hold (acct 1));
  assert_eq pending 0.

Definition register_requires_non_empty_unique_allowlist : Test_M unit :=
  p ← policy_of [] 50;
  _ ← assert_noop (register_sponsor (signed_by 1) 200 p) EmptyAllowlist;
  dup_policy ← policy_of [2; 2] 50;
  assert_noop (register_sponsor (signed_by 1) 200 dup_policy) DuplicateAllowedCaller.

Definition can_increase_decrease_pause_resume_and_unregister : Test_M unit :=
  _ ← register 200 [2] 50;
  _ ← assert_ok (increase_budget (signed_by 1) 25);
  budget ← gets (budget_on_hold (acct 1));
  _ ← assert_eq budget 225;
  _ ← assert_ok (decrease_budget (signed_by 1) 20);
  budget ← gets (budget_on_hold (acct 1));
  _ ← assert_eq budget 205;
  _ ← assert_ok (pause (signed_by 1));
  _ ← assert_ok (resume (signed_by 1));
  _ ← assert_ok (unregister (signed_by 1));
  state ← gets (sponsor_state (acct 1));
  _ ← assert (bool_decide (state = None));
  budget ← gets (budget_on_hold (acct 1));
  assert_eq budget 0.

Definition sponsored_validation_accepts_allowlisted_signer : Test_M unit :=
  _ ← register 200 [2] 50;
  assert_ok (validate_only (new 0 (Some (acct 1))) 2).

Definition sponsored_validation_rejects_non_allowlisted_signer : Test_M unit :=
  _ ← register 200 [2] 50;
  err ← unwrap_err (validate_only (new 0 (Some (acct 1))) 3);
  assert_eq err (Invalid_Custom 3).

Definition sponsored_prepare_moves_budget_to_pending_and_post_dispatch_restores_refund :
    Test_M unit :=
  _ ← register 200 [2] 50;
  estimated_fee ← compute_mock_fee 0;
  prepared ← unwrap (validate_and_prepare (new 0 (Some (acct 1))) 2);
  budget ← gets (budget_on_hold (acct 1));
  _ ← assert_eq budget (200 - estimated_fee);
  pending ← gets (pending_on_hold (acct 1));
  _ ← assert_eq pending estimated_fee;
  actual_fee ← gets (λ s, compute_actual_fee (as_u32 remark_len) info half_weight 0 (world s));
  _ ← assert_ok (post_dispatch prepared.1);
  pending ← gets (pending_on_hold (acct 1));
  _ ← assert_eq pending 0;
  budget ← gets (budget_on_hold (acct 1));
  _ ← assert (budget <? 200);
  evs ← gets events;
  assert (bool_decide
    (SponsoredTransactionFeePaid (acct 1) (acct 2) actual_fee 0 ∈ evs)).

Definition unsponsored_path_keeps_signer_payment_behavior : Test_M unit :=
  signer_before ← gets (λ s, free_balance (acct 2) (world s));
  _ ← assert_ok (dispatch_transaction (new 0 None) 2);
  signer_after ← gets (λ s, free_balance (acct 2) (world s));
  assert (signer_after <? signer_before).

Definition sponsored_validation_rejects_inactive_sponsor : Test_M unit :=
  _ ← register 200 [2] 50;
  _ ← assert_ok (pause (signed_by 1));
  err ← unwrap_err (validate_only (new 0 (Some (acct 1))) 2);
  assert_eq err (Invalid_Custom 2).

Definition sponsored_validation_rejects_fee_cap_exceeded : Test_M unit :=
  _ ← register 200 [2] 1;
  fee ← compute_mock_fee 0;
  _ ← assert (1 <? fee);
  err ← unwrap_err (validate_only (new 0 (Some (acct 1))) 2);
  assert_eq err (Invalid_Custom 4).

Definition sponsored_validation_rejects_insufficient_budget : Test_M unit :=
  _ ← register 1 [2] 500;
  fee ← compute_mock_fee 0;
  _ ← assert (1 <? fee);
  err ← unwrap_err (validate_only (new 0 (Some (acct 1))) 2);
  assert_eq err (Invalid_Custom 5).

Definition unregister_blocked_while_pending_hold_exists : Test_M unit :=
  _ ← register 200 [2] 50;
  _ ← unwrap (validate_and_prepare (new 0 (Some (acct 1))) 2);
  pending ← gets (pending_on_hold (acct 1));
  _ ← assert (0 <? pending);
  assert_noop (unregister (signed_by 1)) PendingBudgetNotEmpty.

(** The tips of the settlement events. *)
Definition event_tip (e : Event (T := Test)) : option N :=
  match e with SponsoredTransactionFeePaid _ _ _ t => Some t | _ => None end.

Definition sponsored_tx_with_tip_splits_correctly : Test_M unit :=
  _ ← register 500 [2] 200;
  let tip := 5 in
  prepared ← unwrap (validate_and_prepare (new tip (Some (acct 1))) 2);
  _ ← assert_ok (post_dispatch prepared.1);
  pending ← gets (pending_on_hold (acct 1));
  _ ← assert_eq pending 0;
  evs ← gets (λ s, omap event_tip (events s));
  _ ← assert_eq (length evs) 1%nat;
  assert_eq evs [tip].

Definition test_suite : list (Test_M unit) := [
  register_sponsor_holds_budget;
  register_requires_non_empty_unique_allowlist;
  can_increase_decrease_pause_resume_and_unregister;
  sponsored_validation_accepts_allowlisted_signer;
  sponsored_validation_rejects_non_allowlisted_signer;
  sponsored_prepare_moves_budget_to_pending_and_post_dispatch_restores_refund;
  unsponsored_path_keeps_signer_payment_behavior;
  sponsored_validation_rejects_inactive_sponsor;
  sponsored_validation_rejects_fee_cap_exceeded;
  sponsored_validation_rejects_insufficient_budget;
  unregister_blocked_while_pending_hold_exists;
  sponsored_tx_with_tip_splits_correctly].

End tests.

(** Every test of the pallet's suite passes on the model, whatever the remark
    weighs. *)
Theorem unit_tests_pass call_weight : Forall passes (test_suite call_weight).
Proof. repeat constructor; vm_compute; reflexivity. Qed.
