(* ===== verification/DemoTheorems.v ===== *)
(** * The demo script against the pallet

    What the script of [Demo] establishes with any client, and the end-to-end theorem that on
    the modelled runtime it succeeds and reports what the chain did. *)

From stdpp Require Import strings pretty.
From S2P Require Import Prelude Types Frame Ledger Weights Payment Pallet SponsorSpec PalletProofs Extension ExtensionProofs Mock Codec Client ClientTheorems Extrinsic Demo RuntimeClient.
Local Open Scope N_scope.

(** ** The script on its own *)

Section any_client.
Context {T : Config} {X : Client.DefaultExtrinsicParams} {V : Client.ValueOps}.
Context {CC : ChainClient}.

(** The last submission came to nothing in [r]. *)
Definition refused (client : Connection) (r : Remote) : Prop :=
  match sign_and_submit_then_watch client rejected_remark bob rejected_params r with
  | (Err _, _) => True
  | (Ok progress, r') => is_ok (wait_for_finalized_success progress r').1 = false
  end.

Lemma expect_rejection_ok client r r' :
  expect_rejection client r = (Ok tt, r') → refused client r.
Proof.
  unfold expect_rejection, refused.
  destruct (sign_and_submit_then_watch _ _ _ _ _) as [[progress|e] r1]; [|done].
  by destruct (wait_for_finalized_success _ _) as [[evs|e] r2].
Qed.

(** Whatever client the script talks to, it ends successfully only when, in
    this order, the registration was finalized as successful, the sponsored remark was and had
    a settlement event among its events, the pause was, and the sponsored remark submitted
    after it was refused, at submission or in the block.  Between these steps the script only
    reads and prints. *)
Theorem demo_is_sound r r' :
  main r = (Ok tt, r') →
  ∃ client r0 r1 q1 r2 q2 r3 q3 evs0 evs paid evs1,
    submit client register_call alice unsponsored_params (println line_register r0)
      = (Ok evs0, r1)
    ∧ query_and_print client "After registration" r1 = (Ok tt, q1)
    ∧ submit client sponsored_remark bob sponsored_params (println line_remark q1)
      = (Ok evs, r2)
    ∧ Client.find_sponsored_fee_paid evs = Ok paid
    ∧ query_and_print client "After sponsored remark" (println (line_event paid) r2)
      = (Ok tt, q2)
    ∧ submit client Client.pause_call alice unsponsored_params (println line_pause q2)
      = (Ok evs1, r3)
    ∧ query_and_print client "After pause" r3 = (Ok tt, q3)
    ∧ refused client (println line_retry q3).
Proof.
  unfold main. intros Hmain.
  repeat match type of Hmain with
  | mbind _ _ _ = (Ok tt, _) => apply bind_ok in Hmain as (? & ? & ? & Hmain)
  end.
  unfold lift_result, print, modify in *. simplify_eq.
  repeat match goal with u : unit |- _ => destruct u end.
  match goal with H : expect_rejection _ _ = _ |- _ => apply expect_rejection_ok in H end.
  by eauto 30.
Qed.
End any_client.

(** ** The script succeeds *)

Section demo_succeeds.
Context {T : Config} {F : FungibleHold} {FS : FungibleHoldSpec F} {L : FungibleHoldLive F}.
Context {D : FeeDestination} {DS : FeeDestinationSpec D} {DL : FeeDestinationLive D L}.
Context {DB : FeeDestinationBurns D}.
Context {W : Weights} {P : TransactionPayment} {B : FungibleHoldFunds L} {PS : ChargeSpec P B}.
Context {O : OtherPallets} {C : CallEnv} {CS : CallEnvSpec C} (db : RuntimeDbWeight).
Context {X : Client.DefaultExtrinsicParams}.
Context {V : Client.ValueOps} {VS : Client.ValueOpsSpec V}.
Context {compact_balance : Codec N} {option_account : Codec (option AccountId)}.
Context (wire_account : option AccountId → Prop).
Context {CBS : CodecSpec compact_balance (λ t, t ≤ balance_max)}.
Context {OAS : CodecSpec option_account wire_account}.
Context (alice bob charlie : AccountId).
Context (to_bytes : AccountId → list N) (of_bytes : list N → option AccountId).
Context (of_to_bytes : ∀ a, of_bytes (to_bytes a) = Some a).
Context (other_holds : AccountId → World → list StoredHold).
(** The printed form of a hold's reason names it, and no other pallet's reason has the name of
    one of the pallet's own. *)
Context (others_named : ∀ a w, Forall (λ h, prints_reason h
  ∧ hold_reason h ∉ ["SponsorshipBudget"; "SponsorshipPending"]%string) (other_holds a w)).
Context (own_printed : ∀ r x, r ∈ ["SponsorshipBudget"; "SponsorshipPending"]%string →
  prints_reason {| hold_pallet := "SponsoredTx"; hold_reason := r; hold_amount := x |}).
Context (wire_alice : wire_account (Some alice)) (wire_none : wire_account None).

#[local] Abbreviation client := (runtime_client db (compact_balance := compact_balance)
  (option_account := option_account) alice bob charlie to_bytes of_bytes other_holds).

Lemma mapM_u128 l : mapM value_u128 (map (λ b, Client.Primitive (Client.U128 b)) l) = Some l.
Proof. induction l as [|x l IH]; [done|]. cbn in *. by rewrite IH. Qed.

Lemma value_account_bytes a : value_account of_bytes (Client.from_bytes (to_bytes a)) = Some a.
Proof. unfold value_account, value_bytes, Client.from_bytes. rewrite mapM_u128. apply of_to_bytes. Qed.

(** What the script would show of a chain. *)
Definition shown (s : Chain) : DemoState := {|
  demo_sponsor_active := active <$> sponsors s !! alice;
  alice_free := free_balance alice (world s);
  bob_free := free_balance bob (world s);
  budget_hold := budget_on_hold alice s;
  pending_hold := pending_on_hold alice s;
|}.

Lemma at_one name (fs : list (string * Client.Value)) v :
  bool_decide (NoDup fs.*1) = true → list_find (λ f, f.1 = name) fs = Some (0%nat, (name, v)) →
  Client.at_name name (Client.Composite_Named fs) = Some v.
Proof.
  intros Hnd Hf. apply Client.at_named; [by apply bool_decide_eq_true in Hnd|].
  apply list_find_Some in Hf as (Hl & _). by apply list_elem_of_lookup_2 in Hl.
Qed.

Lemma fetched_sponsor s :
  fetch_from to_bytes of_bytes other_holds s "SponsoredTx" "Sponsors"
    [Client.from_bytes (to_bytes alice)]
  = Ok (sponsor_value to_bytes <$> sponsors s !! alice)
  ∧ Client.sponsor_active (sponsor_value to_bytes <$> sponsors s !! alice)
    = active <$> sponsors s !! alice.
Proof.
  split. { unfold fetch_from. by rewrite value_account_bytes. }
  destruct (sponsors s !! alice) as [st|]; [|done].
  unfold Client.sponsor_active, sponsor_value. cbn [fmap option_fmap option_map mbind option_bind].
  rewrite (at_one "active" _ (Client.Primitive (Client.Bool (active st)))) by done.
  apply Client.as_bool_primitive.
Qed.

Lemma fetched_free a s :
  0 < free_balance a (world s) →
  fetch_from to_bytes of_bytes other_holds s "System" "Account" [Client.from_bytes (to_bytes a)]
  = Ok (Some (account_info (free_balance a (world s))))
  ∧ Client.account_free_balance (Some (account_info (free_balance a (world s))))
    = Ok (free_balance a (world s)).
Proof.
  intros Hpos. split.
  { unfold fetch_from. rewrite value_account_bytes. cbn -[is_zero].
    by destruct (is_zero_spec (free_balance a (world s))); [lia|]. }
  unfold Client.account_free_balance, account_info, Client.context, ok_or.
  cbn [mbind Client.anyhow_bind].
  rewrite (at_one "data" _ (Client.Composite_Named
    [("free"%string, u128 (free_balance a (world s)))])) by done.
  cbn [mbind option_bind]. rewrite (at_one "free" _ (u128 (free_balance a (world s)))) by done.
  cbn [mbind option_bind]. unfold u128. by rewrite Client.as_u128_primitive.
Qed.

Lemma collect_others hs acc :
  Forall (λ h, prints_reason h
    ∧ hold_reason h ∉ ["SponsorshipBudget"; "SponsorshipPending"]%string) hs →
  foldl (λ acc c, Client.collect_sponsor_holds c acc) acc (map hold_value hs) = acc.
Proof.
  intros Hall. revert acc. induction Hall as [|h hs [Hp Hn] _ IH]; intros acc; [done|].
  cbn [map foldl]. rewrite collect_hold, IH by done.
  rewrite !decide_False by set_solver. by destruct acc.
Qed.

Lemma collect_own r x acc :
  r ∈ ["SponsorshipBudget"; "SponsorshipPending"]%string →
  foldl (λ acc c, Client.collect_sponsor_holds c acc) acc (map hold_value (own_hold r x))
  = if decide (x = 0) then acc
    else (if decide (r = "SponsorshipBudget"%string) then x else acc.1,
          if decide (r = "SponsorshipPending"%string) then x else acc.2).
Proof.
  intros Hr. unfold own_hold. destruct (is_zero_spec x); [by rewrite decide_True|].
  rewrite (decide_False (P := x = 0)) by done. cbn [map foldl].
  by rewrite collect_hold by auto.
Qed.

Lemma fetched_holds s :
  ∃ fetched,
    fetch_from to_bytes of_bytes other_holds s "Balances" "Holds"
      [Client.from_bytes (to_bytes alice)] = Ok fetched
    ∧ Client.sponsor_holds fetched = (budget_on_hold alice s, pending_on_hold alice s).
Proof.
  eexists. split. { unfold fetch_from. by rewrite value_account_bytes. }
  assert (Hall : foldl (λ acc c, Client.collect_sponsor_holds c acc) (0, 0)
      (map hold_value (stored_holds other_holds alice s))
    = (budget_on_hold alice s, pending_on_hold alice s)).
  { unfold stored_holds. rewrite !map_app, !foldl_app, (collect_others (other_holds _ _)) by done.
    rewrite !collect_own by set_solver. cbn.
    repeat case_decide; cbn in *; congruence. }
  destruct (stored_holds other_holds alice s) as [|h hs]; [exact Hall|].
  unfold Client.sponsor_holds, holds_value. rewrite collect_unnamed. cbn [foldl].
  by rewrite collect_unnamed, !note_hold_none by apply Client.at_unnamed.
Qed.

(** ** Reading the chain *)

Definition shows (label : string) (r : @Remote _ _ client) : @Remote _ _ client :=
  {| chain := chain r; printed := printed r ++ state_lines label (shown (chain r)) |}.

Lemma print_lines_runs lines (r : @Remote _ _ client) :
  print_lines (CC := client) lines r
  = (Ok tt, {| chain := chain r; printed := printed r ++ lines |} : @Remote _ _ client).
Proof.
  revert r. induction lines as [|l lines IH]; intros r.
  - cbn. rewrite app_nil_r. by destruct r.
  - cbn [print_lines]. rewrite (bind_run _ _ _ tt (println l r)) by done. rewrite IH. cbn.
    by rewrite <- app_assoc.
Qed.

Lemma print_state_runs label s (r : @Remote _ _ client) :
  print_state (CC := client) label s r
  = (Ok tt, {| chain := chain r; printed := printed r ++ state_lines label s |}
       : @Remote _ _ client).
Proof. apply print_lines_runs. Qed.

Lemma read_free text a (r : @Remote _ _ client) :
  0 < free_balance a (world (chain r)) →
  context (CC := client) text (account_free_balance (CC := client) (chain r) a) r
  = (Ok (free_balance a (world (chain r))), r).
Proof.
  intros [Hf Hr]%fetched_free. unfold context, map_err_m, account_free_balance.
  rewrite (bind_run _ _ _ (Some (account_info (free_balance a (world (chain r))))) r)
    by (exact (f_equal (λ x, (x, r)) Hf)).
  unfold lift_result. by rewrite Hr.
Qed.

Lemma query_and_print_runs label (r : @Remote _ _ client) :
  0 < free_balance alice (world (chain r)) → 0 < free_balance bob (world (chain r)) →
  query_and_print (CC := client) tt label r = (Ok tt, shows label r).
Proof.
  intros Ha Hb.
  destruct (fetched_sponsor (chain r)) as [Hs1 Hs2].
  destruct (fetched_holds (chain r)) as (hs & Hh1 & Hh2).
  unfold query_and_print, query_demo_state.
  rewrite (bind_run _ _ _ (shown (chain r)) r); [by rewrite print_state_runs|].
  rewrite (bind_run _ _ _ (chain r) r) by done.
  rewrite (bind_run _ _ _ _ r) by (exact (f_equal (λ x, (x, r)) Hs1)).
  rewrite (bind_run _ _ _ _ r) by (by apply read_free).
  rewrite (bind_run _ _ _ _ r) by (by apply read_free).
  rewrite (bind_run _ _ _ (budget_on_hold alice (chain r), pending_on_hold alice (chain r)) r).
  { unfold mret, M_ret, shown. by rewrite Hs2. }
  unfold context, map_err_m, sponsor_holds.
  rewrite (bind_run _ _ _ hs r) by (exact (f_equal (λ x, (x, r)) Hh1)).
  unfold mret, M_ret. by rewrite Hh2.
Qed.
(** ** Submitting *)

Lemma resolve_remark m :
  resolve of_bytes (Client.sponsored_remark_call m) = Some (System_remark m).
Proof.
  unfold resolve, Client.sponsored_remark_call, Client.from_bytes, value_bytes. cbn.
  by rewrite mapM_u128.
Qed.

Lemma resolve_register :
  2 ≤ MaxAllowedCallers →
  ∃ callers, bv_items callers = [bob; charlie]
    ∧ resolve of_bytes (register_call (CC := client))
      = Some (SponsoredTx (Call_register_sponsor Client.INITIAL_BUDGET
          {| allowed_callers := callers; max_fee_per_tx := Client.MAX_FEE_PER_TX |})).
Proof.
  intros Hmax. pose proof (try_into_bounded_spec MaxAllowedCallers [bob; charlie]) as Hb.
  destruct (try_into_bounded MaxAllowedCallers [bob; charlie]) as [v|] eqn:Hv; [|cbn in Hb; lia].
  exists v. split; [done|]. unfold resolve, register_call, Client.register_sponsor_call.
  cbn -[value_account Client.from_bytes try_into_bounded].
  rewrite !value_account_bytes. cbn -[try_into_bounded]. by rewrite Hv.
Qed.

Lemma extension_decoded params tp sp :
  Client.sponsored_slot params = Client.Params_new tp sp → tp ≤ balance_max → wire_account sp →
  decode_extension (compact_balance := compact_balance) (option_account := option_account)
    (Client.encode_value_to (compact_balance := compact_balance)
       (option_account := option_account)
       (Client.extension_new (Client.sponsored_slot params)) [])
  = Some (new tp sp, []).
Proof.
  intros -> Ht Hsp. unfold Client.encode_value_to. cbn.
  rewrite <- (app_nil_r (encode sp)). by eapply decode_extension_parts.
Qed.

(** A valid extrinsic whose call succeeds is finalized with its events. *)
Lemma submit_runs p c who params tp sp v s s' evs out :
  Client.sponsored_slot params = Client.Params_new tp sp → tp ≤ balance_max → wire_account sp →
  resolve of_bytes p = Some c → pool_validate (new tp sp) who c s = Ok v →
  apply_extrinsic db (new tp sp) who c s = (Ok (Ok tt), s') →
  events s' = events s ++ evs →
  submit (CC := client) tt p who params {| chain := s; printed := out |}
  = (Ok (map (λ e, Ok (client_event to_bytes e)) evs),
     {| chain := s'; printed := out |} : @Remote _ _ client).
Proof.
  intros Hslot Ht Hsp Hres Hpool Happ Hev. unfold submit.
  rewrite (bind_run _ _ _ (new tp sp, who, c) ({| chain := s; printed := out |})).
  - cbn. unfold finalize_extrinsic. cbn. by rewrite Happ, Hev, drop_app_length.
  - cbn. unfold submit_extrinsic.
    by rewrite (extension_decoded _ tp sp), Hres by done; cbn; rewrite Hpool.
Qed.

(** One that validation refuses is not. *)
Lemma refused_at_pool p c who params tp sp e s out :
  Client.sponsored_slot params = Client.Params_new tp sp → tp ≤ balance_max → wire_account sp →
  resolve of_bytes p = Some c → pool_validate (new tp sp) who c s = Err e →
  sign_and_submit_then_watch (ChainClient := client) tt p who params
    {| chain := s; printed := out |}
  = (Err "Invalid Transaction"%string, {| chain := s; printed := out |}).
Proof.
  intros Hslot Ht Hsp Hres Hpool. cbn. unfold submit_extrinsic.
  by rewrite (extension_decoded _ tp sp), Hres by done; cbn; rewrite Hpool.
Qed.

Lemma expect_rejection_runs e s out :
  pool_validate (new 0 (Some alice)) bob (System_remark (ascii_bytes "should be rejected")) s
    = Err e →
  expect_rejection (CC := client) tt {| chain := s; printed := out |}
  = (Ok tt, {| chain := s;
      printed := out ++ ["  Rejected as expected: Invalid Transaction"%string] |}
      : @Remote _ _ client).
Proof.
  intros Hpool. unfold expect_rejection.
  erewrite refused_at_pool; [done|apply Client.sponsored_slot_build|cbn; lia|done| |exact Hpool].
  apply resolve_remark.
Qed.
(** ** The steps of the script *)

Context (fee_cap : N).
(** The script's transactions cost at most [fee_cap]. *)
Context (fees : ∀ p c ext w,
  p ∈ [register_call (CC := client); sponsored_remark; Client.pause_call] →
  resolve of_bytes p = Some c →
  compute_fee (as_u32 (encoded_len ext c)) (get_dispatch_info c) 0 w ≤ fee_cap).

(** Alice sponsors with state [st] and budget [b], has nothing pending and at least [f] free. *)
Record sponsoring (st : SponsorState) (b f : N) (s : Chain) : Prop := {
  sponsoring_ok : bal_ok (world s);
  sponsoring_state : sponsors s !! alice = Some st;
  sponsoring_budget : budget_on_hold alice s = b;
  sponsoring_pending : pending_on_hold alice s = 0;
  sponsoring_free : f ≤ free_balance alice (world s);
}.

Lemma fee_bound p c ext w :
  p ∈ [register_call (CC := client); sponsored_remark; Client.pause_call] →
  resolve of_bytes p = Some c →
  compute_fee (as_u32 (encoded_len ext c)) (get_dispatch_info c) (to_fee_balance 0) w ≤ fee_cap.
Proof.
  replace (to_fee_balance 0) with 0; [apply fees|]. unfold to_fee_balance, saturated_into. lia.
Qed.

Lemma unsponsored_slot :
  Client.sponsored_slot unsponsored_params = Client.Params_new 0 None.
Proof. apply Client.sponsored_slot_build. Qed.

Lemma demo_registers s :
  bal_ok (world s) → chain_inv s → sponsors s !! alice = None → bob ≠ charlie →
  2 ≤ MaxAllowedCallers →
  Client.INITIAL_BUDGET + fee_cap + minimum_balance ≤ free_balance alice (world s) →
  ∃ callers s' evs, bv_items callers = [bob; charlie]
    ∧ (∀ out, submit (CC := client) tt (register_call (CC := client)) alice unsponsored_params
        {| chain := s; printed := out |}
      = (Ok evs, {| chain := s'; printed := out |} : @Remote _ _ client))
    ∧ sponsoring {| active := true; policy := {| allowed_callers := callers;
          max_fee_per_tx := Client.MAX_FEE_PER_TX |} |} Client.INITIAL_BUDGET
        (free_balance alice (world s) - fee_cap - Client.INITIAL_BUDGET) s'
    ∧ others alice s s'
    ∧ events s' = events s ++ [SponsorRegistered alice Client.INITIAL_BUDGET].
Proof.
  intros Hok Hinv Hnone Hbc Hmax Hfree.
  destruct (resolve_register Hmax) as (callers & Hcallers & Hres).
  set (pol := {| allowed_callers := callers; max_fee_per_tx := Client.MAX_FEE_PER_TX |}) in *.
  set (c := Call_register_sponsor Client.INITIAL_BUDGET pol) in *.
  pose proof (fee_bound _ _ (new 0 None) (world s) (list_elem_of_here _ _) Hres) as Hcap.
  set (fee := compute_fee _ _ _ _) in Hcap.
  assert (Hpol : policy_fault pol = None).
  { apply policy_fault_None. cbn. rewrite Hcallers. split; [done|].
    apply NoDup_cons; split; [set_solver|apply NoDup_singleton]. }
  pose proof (Hinv alice) as Ha. unfold acc_inv in Ha. cbn in Ha. rewrite Hnone in Ha.
  destruct Ha as [Hb0 Hp0].
  destruct (apply_own_call db 0 alice c s
    (with_state (Some {| active := true; policy := pol |})
       (fund Client.INITIAL_BUDGET (pay fee (view alice s))))
    (SponsorRegistered alice Client.INITIAL_BUDGET))
    as ((v & Hpool) & s' & Happ & Hok' & Hoth & Hst & Hbu & Hpe & Hfr & Hev);
    [done|change (fee + minimum_balance ≤ free_balance alice (world s)); lia| | |].
  { unfold spec_call, c. rewrite decide_False by done. cbn. by rewrite Hnone, Hpol. }
  { intros w Hokw Hview. apply (register_live _ alice); [apply ensure_signed_origin|done..|].
    apply (f_equal acc_free) in Hview. cbn in Hview. cbn. rewrite Hview. lia. }
  exists callers, s'. eexists. split; [done|]. split.
  { intros out. eapply submit_runs; [apply unsponsored_slot|apply N.le_0_l|done|exact Hres|done..]. }
  split_and!; [split; [done| | | |]|done|done].
  - done.
  - rewrite Hbu. cbn. lia.
  - by rewrite Hpe.
  - cbn in Hfr. lia.
Qed.
Lemma demo_remarks st b f s :
  sponsoring st b f s → active st = true → bob ∈ bv_items (allowed_callers (policy st)) →
  fee_cap ≤ max_fee_per_tx (policy st) → fee_cap ≤ b →
  ∃ charged s', charged ≤ fee_cap
    ∧ (∀ out, submit (CC := client) tt sponsored_remark bob (sponsored_params (CC := client))
        {| chain := s; printed := out |}
      = (Ok [Ok (client_event to_bytes (SponsoredTransactionFeePaid alice bob charged 0))],
         {| chain := s'; printed := out |} : @Remote _ _ client))
    ∧ sponsoring st (b - charged) f s' ∧ others alice s s'
    ∧ events s' = events s ++ [SponsoredTransactionFeePaid alice bob charged 0].
Proof.
  intros [Hok Hst Hb Hp Hf] Hact Hin Hmax Hbud.
  set (m := ascii_bytes "runtime native sponsored fees").
  pose proof (resolve_remark m) as Hres.
  assert (Hest : quoted_fee (new 0 (Some alice)) (System_remark m) s ≤ fee_cap).
  { etrans; [apply N.le_min_l|]. eapply fee_bound; [|exact Hres]. set_solver. }
  destruct (apply_sponsored_remark db (new 0 (Some alice)) alice bob m s)
    as [(v & Hpool) (charged & s' & Happ & Hch & Hok' & Hoth & Hsps & Hb' & Hp' & Hf' & Hev)];
    [done..| |].
  { unfold refusal. rewrite origin_signer, Hst. apply policy_refusal_None. rewrite Hb.
    split_and!; [done..|lia|lia]. }
  exists charged, s'. split; [lia|].
  assert (Hev' : events s' = events s ++ [SponsoredTransactionFeePaid alice bob charged 0])
    by (rewrite Hev; cbn [tip]; by rewrite N.min_0_l).
  split_and!; [|split|done|done].
  - intros out. apply (submit_runs sponsored_remark (System_remark m) bob _ 0 (Some alice) v s s'
      [SponsoredTransactionFeePaid alice bob charged 0]);
      [apply Client.sponsored_slot_build|apply N.le_0_l|done..].
  - done.
  - by rewrite Hsps.
  - lia.
  - done.
  - by rewrite Hf'.
Qed.

Lemma demo_pauses st b f s :
  sponsoring st b f s → active st = true → fee_cap + minimum_balance ≤ f →
  ∃ s' evs,
    (∀ out, submit (CC := client) tt Client.pause_call alice unsponsored_params
        {| chain := s; printed := out |}
      = (Ok evs, {| chain := s'; printed := out |} : @Remote _ _ client))
    ∧ sponsoring {| active := false; policy := policy st |} b (f - fee_cap) s'
    ∧ others alice s s' ∧ events s' = events s ++ [SponsorPaused alice].
Proof.
  intros [Hok Hst Hb Hp Hf] Hact Hfee.
  assert (Hres : resolve of_bytes Client.pause_call = Some (SponsoredTx Call_pause)) by done.
  pose proof (fee_bound Client.pause_call _ (new 0 None) (world s) ltac:(set_solver) Hres) as Hcap.
  set (fee := compute_fee _ _ _ _) in Hcap.
  destruct (apply_own_call db 0 alice Call_pause s
    (with_state (Some {| active := false; policy := policy st |}) (pay fee (view alice s)))
    (SponsorPaused alice))
    as ((v & Hpool) & s' & Happ & Hok' & Hoth & Hst' & Hbu & Hpe & Hfr & Hev);
    [done|change (fee + minimum_balance ≤ free_balance alice (world s)); lia| | |].
  { cbn. by rewrite Hst, Hact. }
  { intros w _ _. pose proof (run_call_refines_signed Call_pause (signed_origin alice) alice
      (set_world w s) (ensure_signed_origin _)) as Hr.
    unfold refines in Hr. cbn in Hr. rewrite Hst, Hact in Hr.
    destruct Hr as (s' & Hr & _). eauto. }
  exists s'. eexists. split_and!; [|split|done|done].
  - intros out. eapply submit_runs; [apply unsponsored_slot|apply N.le_0_l|done|exact Hres|done..].
  - done.
  - done.
  - by rewrite Hbu.
  - by rewrite Hpe.
  - cbn in Hfr. lia.
Qed.

Lemma demo_is_refused st b f s ext m :
  sponsoring st b f s → active st = false → sponsor ext = Some alice →
  pool_validate ext bob (System_remark m) s = Err (invalid InactiveSponsor).
Proof.
  intros [_ Hst _ _ _] Hact Hsp. unfold pool_validate. rewrite (validate_sponsored _ alice) by done.
  unfold refusal. rewrite origin_signer, Hst. unfold policy_refusal. by rewrite decide_True.
Qed.
(** The script's control flow, given what its submissions did. *)
Lemma main_runs s s1 s2 s3 ev1 ev3 charged e out :
  (∀ x, x ∈ [s; s1; s2; s3] →
     0 < free_balance alice (world x) ∧ 0 < free_balance bob (world x)) →
  (∀ out, submit (CC := client) tt (register_call (CC := client)) alice unsponsored_params
     {| chain := s; printed := out |}
     = (Ok ev1, {| chain := s1; printed := out |} : @Remote _ _ client)) →
  (∀ out, submit (CC := client) tt sponsored_remark bob (sponsored_params (CC := client))
     {| chain := s1; printed := out |}
     = (Ok [Ok (client_event to_bytes (SponsoredTransactionFeePaid alice bob charged 0))],
        {| chain := s2; printed := out |} : @Remote _ _ client)) →
  (∀ out, submit (CC := client) tt Client.pause_call alice unsponsored_params
     {| chain := s2; printed := out |}
     = (Ok ev3, {| chain := s3; printed := out |} : @Remote _ _ client)) →
  pool_validate (new 0 (Some alice)) bob (System_remark (ascii_bytes "should be rejected")) s3
    = Err e →
  ∃ lines, main (CC := client) {| chain := s; printed := out |}
    = (Ok tt, {| chain := s3; printed := lines ++ state_lines "Final state" (shown s3) |}
         : @Remote _ _ client).
Proof.
  intros Hfree Hsub1 Hsub2 Hsub3 Hpool.
  assert (Hlook : ∀ label x o, x ∈ [s; s1; s2; s3] →
    query_and_print (CC := client) tt label {| chain := x; printed := o |}
    = (Ok tt, shows label {| chain := x; printed := o |}))
    by (intros label x o Hx; apply query_and_print_runs; by apply Hfree).
  eexists. unfold main.
  (* connect, look *)
  do 3 (erewrite bind_run by reflexivity). erewrite bind_run by (apply Hlook; set_solver).
  (* register, look *)
  erewrite bind_run by reflexivity. erewrite bind_run by apply Hsub1.
  erewrite bind_run by (apply Hlook; set_solver).
  (* the sponsored remark, its event, look *)
  erewrite bind_run by reflexivity. erewrite bind_run by apply Hsub2.
  erewrite bind_run by (apply (f_equal (λ x, (x, _))), find_settlement).
  erewrite bind_run by reflexivity. erewrite bind_run by (apply Hlook; set_solver).
  (* pause, look *)
  erewrite bind_run by reflexivity. erewrite bind_run by apply Hsub3.
  erewrite bind_run by (apply Hlook; set_solver).
  (* the refused remark, look *)
  erewrite bind_run by reflexivity. erewrite bind_run by (eapply expect_rejection_runs, Hpool).
  erewrite bind_run by (apply Hlook; set_solver). reflexivity.
Qed.

(** C16: on a chain where Alice is not a sponsor yet and can pay for the budget and
    two transaction fees, and where the fees of the script's transactions stay within the cap
    it sets, the script runs to its end.  It leaves Alice paused, with Bob and Charlie on her
    allowlist, nothing pending and the rest of the budget on hold; Bob has paid nothing; the
    chain has recorded the registration, one settlement and the pause; and the last thing the
    script prints is that state. *)
Theorem demo_succeeds s out :
  bal_ok (world s) → chain_inv s → sponsors s !! alice = None →
  alice ≠ bob → bob ≠ charlie → 2 ≤ MaxAllowedCallers →
  fee_cap ≤ Client.MAX_FEE_PER_TX →
  Client.INITIAL_BUDGET + 2 * fee_cap + minimum_balance < free_balance alice (world s) →
  0 < free_balance bob (world s) →
  ∃ s' callers charged lines,
    main (CC := client) {| chain := s; printed := out |}
      = (Ok tt, {| chain := s'; printed := lines ++ state_lines "Final state" (shown s') |}
           : @Remote _ _ client)
    ∧ bv_items callers = [bob; charlie]
    ∧ sponsors s' !! alice = Some {| active := false; policy :=
        {| allowed_callers := callers; max_fee_per_tx := Client.MAX_FEE_PER_TX |} |}
    ∧ budget_on_hold alice s' + charged = Client.INITIAL_BUDGET
    ∧ charged ≤ fee_cap
    ∧ pending_on_hold alice s' = 0
    ∧ free_balance bob (world s') = free_balance bob (world s)
    ∧ events s' = events s ++ [SponsorRegistered alice Client.INITIAL_BUDGET;
        SponsoredTransactionFeePaid alice bob charged 0; SponsorPaused alice].
Proof.
  intros Hok Hinv Hnone Hab Hbc Hmax Hcap Hfree Hbob.
  destruct (demo_registers s) as (callers & s1 & ev1 & Hcall & Hsub1 & Hsp1 & Ho1 & He1);
    [done..|lia|].
  set (st := {| active := true; policy := _ |}) in Hsp1.
  set (f1 := free_balance alice (world s) - fee_cap - Client.INITIAL_BUDGET) in Hsp1.
  assert (Hcap' : fee_cap ≤ Client.INITIAL_BUDGET) by (etrans; [exact Hcap|done]).
  destruct (demo_remarks st Client.INITIAL_BUDGET f1 s1)
    as (charged & s2 & Hch & Hsub2 & Hsp2 & Ho2 & He2); [done|done| |done|done|].
  { cbn. rewrite Hcall. set_solver. }
  destruct (demo_pauses st (Client.INITIAL_BUDGET - charged) f1 s2)
    as (s3 & ev3 & Hsub3 & Hsp3 & Ho3 & He3); [done|done|lia|].
  assert (Hb : ∀ s', others alice s s' → free_balance bob (world s') = free_balance bob (world s))
    by (intros s' Ho; exact (f_equal acc_free (Ho bob (not_eq_sym Hab)))).
  pose proof (others_trans _ _ _ _ Ho1 Ho2) as Ho12.
  pose proof (others_trans _ _ _ _ Ho12 Ho3) as Ho13.
  pose proof (sponsoring_free _ _ _ _ Hsp1) as Hf1.
  pose proof (sponsoring_free _ _ _ _ Hsp2) as Hf2.
  pose proof Hsp3 as [_ Hst3 Hb3 Hp3 Hf3].
  destruct (main_runs s s1 s2 s3 ev1 ev3 charged (invalid InactiveSponsor) out)
    as (lines & Hmain); [|done..|by eapply demo_is_refused|].
  { intros x Hx. repeat (apply elem_of_cons in Hx as [->|Hx]);
      [..|by apply elem_of_nil in Hx]; rewrite ?Hb by done; split; lia. }
  exists s3, callers, charged, lines. split_and!; [done..|lia|done|done|by apply Hb|].
  by rewrite He3, He2, He1, <- !app_assoc.
Qed.
End demo_succeeds.

(** ** The hypotheses hold *)

Lemma demo_is_sound_witness :
  ∃ client r evs paid, Client.find_sponsored_fee_paid evs = Ok paid
    ∧ refused (CC := mock_client) client r.
Proof.
  destruct (demo_is_sound (CC := mock_client) {| chain := dev_chain; printed := [] |}
    (main (CC := mock_client) {| chain := dev_chain; printed := [] |}).2)
    as (client & ? & ? & ? & ? & ? & ? & q3 & ? & evs & paid & ? & H); [reflexivity|].
  exists client, (println (ChainClient := mock_client) line_retry q3), evs, paid. tauto.
Defined.

Lemma demo_succeeds_witness :
  ∃ s' charged lines,
    main (CC := mock_client) {| chain := dev_chain; printed := [] |}
      = (Ok tt, {| chain := s'; printed := lines |} : @Remote _ _ mock_client)
    ∧ budget_on_hold (acct 1) s' + charged = 2000000000000
    ∧ free_balance (acct 2) (world s') = 2 ^ 60.
Proof.
  destruct dev_chain_ok as [Hok Hinv].
  destruct (demo_succeeds mock_db (compact_balance := compact_codec)
    (option_account := account_codec) wire_u64 (acct 1) (acct 2) (acct 3) acct_bytes bytes_acct
    (λ _, eq_refl) no_other_holds (λ _ _, Forall_nil_2 _) own_reasons_printed)
    with (fee_cap := 2) (s := dev_chain) (out := @nil string)
    as (s' & callers & charged & lines & Hmain & _ & _ & Hb & _ & _ & Hf & _).
  - by intros a [= <-].
  - done.
  - intros p c ext w _ _. by vm_compute.
  - exact Hok.
  - exact Hinv.
  - reflexivity.
  - done.
  - done.
  - by vm_compute.
  - by vm_compute.
  - by vm_compute.
  - by vm_compute.
  - exists s', charged. eexists. split_and!; [exact Hmain|exact Hb|exact Hf].
Defined.
