(* ===== verification/Service.v ===== *)
(** * The node service

    [node/src/service.rs] and [node/src/rpc.rs]: assembling the partial components, starting
    the parachain node and, on an authority, the consensus task.  What the functions call is
    SDK code, a class of operations on the state outside ([ServiceEnv]); what they do
    themselves is decide which calls to make, with which arguments and in which order, and
    spawn tasks, which the model records. *)

From stdpp Require Import strings.
From S2P Require Import Prelude.
Local Open Scope N_scope.

Module Service.

(** ** The SDK *)

Inductive HeapAllocStrategy : Set :=
| Dynamic (maximum_pages : option N)
| Static (extra_pages : N).

(** How a collator or a full node recovers blocks from availability. *)
Inductive DARecoveryProfile : Set :=
| Profile_Collator
| Profile_FullNode.

Inductive CollatorSybilResistance : Set :=
| Resistant
| Unresistant.

(** The inherent data a block is checked or authored with. *)
Inductive InherentDataProviders : Set :=
| SystemTimestamp
| NoProviders.

(** The types of the SDK's services. *)
Class ServiceTypes : Type := {
  Outside : Type;
  Error : Type;
  RelayChainError : Type;
  MergeError : Type;
  (** [Error::Application], and the conversion from a text. *)
  Application : RelayChainError → Error;
  other_error : string → Error;
  rpc_error : MergeError → Error;
  Endpoints : Type;
  Endpoints_is_empty : Endpoints → bool;
  WasmMethod : Type;
  PoolOptions : Type;
  Registry : Type;
  NetworkOptions : Type;
  Addresses : Type;
  CollatorOptions : Type;
  embedded_dht_bootnode : CollatorOptions → bool;
  dht_bootnode_discovery : CollatorOptions → bool;
  RelayConfiguration : Type;
  relay_fork_id : RelayConfiguration → option string;
  HwBench : Type;
  Executor : Type;
  Client : Type;
  Backend : Type;
  KeystoreContainer : Type;
  Keystore : Type;
  TaskManager : Type;
  TransactionPool : Type;
  BlockImport : Type;
  ImportQueue : Type;
  ImportQueueService : Type;
  TelemetryWorker : Type;
  TelemetryWorkerHandle : Type;
  Telemetry : Type;
  TelemetryHandle : Type;
  RelayChainInterface : Type;
  CollatorPair : Type;
  RelayChainNetwork : Type;
  RequestReceiver : Type;
  ParaId : Type;
  PeerId : Type;
  Hash : Type;
  ValidationCode : Type;
  NetConfig : Type;
  Network : Type;
  SystemRpcTx : Type;
  TxHandlerController : Type;
  SyncService : Type;
  AnnounceBlock : Type;
  Metrics : Type;
  OffchainStorage : Type;
  OffchainPoolFactory : Type;
  OffchainExtension : Type;
  OffchainWorkers : Type;
  TracingExecuteBlock : Type;
  SubscriptionTaskExecutor : Type;
  OverseerHandle : Type;
  Proposer : Type;
  CollatorService : Type;
  Future : Type;
  RpcModule : Type;
}.

Section service.
Context {Y : ServiceTypes}.

(** ** Data *)

(** The parts of [sc_service::Configuration] that the service reads. *)
Record Configuration : Type := {
  telemetry_endpoints : option Endpoints;
  wasm_method : WasmMethod;
  default_heap_pages : option N;
  max_runtime_instances : N;
  runtime_cache_size : N;
  is_authority : bool;
  transaction_pool_options : PoolOptions;
  prometheus_registry : option Registry;
  network_options : NetworkOptions;
  allow_non_globals_in_dht : bool;
  public_addresses : Addresses;
  fork_id : option string;
  offchain_worker_enabled : bool;
}.

(** [PartialComponents]; the triple [other] is spelled out. *)
Record PartialComponents : Type := {
  backend : Backend;
  client : Client;
  import_queue : ImportQueue;
  keystore_container : KeystoreContainer;
  task_manager : TaskManager;
  transaction_pool : TransactionPool;
  block_import : BlockImport;
  telemetry : option Telemetry;
  telemetry_worker_handle : option TelemetryWorkerHandle;
}.

Record BuildNetworkParams : Type := {
  net_parachain_config : Configuration;
  net_config : NetConfig;
  net_client : Client;
  net_transaction_pool : TransactionPool;
  net_para_id : ParaId;
  net_spawn_handle : TaskManager;
  net_relay_chain_interface : RelayChainInterface;
  net_import_queue : ImportQueue;
  sybil_resistance_level : CollatorSybilResistance;
  net_metrics : Metrics;
}.

Record OffchainWorkerOptions : Type := {
  runtime_api_provider : Client;
  offchain_keystore : option Keystore;
  offchain_db : option OffchainStorage;
  offchain_transaction_pool : option OffchainPoolFactory;
  network_provider : Network;
  is_validator : bool;
  enable_http_requests : bool;
  custom_extensions : Hash → list OffchainExtension;
}.

Record FullDeps : Type := {
  deps_client : Client;
  deps_pool : TransactionPool;
}.

Record SpawnTasksParams : Type := {
  rpc_builder : SubscriptionTaskExecutor → result RpcModule Error;
  spawn_client : Client;
  spawn_transaction_pool : TransactionPool;
  spawn_task_manager : TaskManager;
  spawn_config : Configuration;
  spawn_keystore : Keystore;
  spawn_backend : Backend;
  spawn_network : Network;
  spawn_sync_service : SyncService;
  system_rpc_tx : SystemRpcTx;
  tx_handler_controller : TxHandlerController;
  spawn_telemetry : option Telemetry;
  tracing_execute_block : option TracingExecuteBlock;
}.

Record StartRelayChainTasksParams : Type := {
  relay_client : Client;
  relay_announce_block : AnnounceBlock;
  relay_para_id : ParaId;
  relay_interface : RelayChainInterface;
  relay_task_manager : TaskManager;
  da_recovery_profile : DARecoveryProfile;
  relay_import_queue : ImportQueueService;
  relay_slot_duration : N;
  recovery_handle : OverseerHandle;
  relay_sync_service : SyncService;
  relay_prometheus_registry : option Registry;
}.

Record StartBootnodeTasksParams : Type := {
  boot_embedded_dht_bootnode : bool;
  boot_dht_bootnode_discovery : bool;
  boot_para_id : ParaId;
  boot_task_manager : TaskManager;
  boot_relay_chain_interface : RelayChainInterface;
  relay_chain_fork_id : option string;
  relay_chain_network : RelayChainNetwork;
  request_receiver : RequestReceiver;
  parachain_network : Network;
  advertise_non_global_ips : bool;
  parachain_genesis_hash : list N;
  parachain_fork_id : option string;
  parachain_public_addresses : Addresses;
}.

(** Durations are in milliseconds. *)
Record AuraParams : Type := {
  create_inherent_data_providers : InherentDataProviders;
  aura_block_import : BlockImport;
  para_client : Client;
  para_backend : Backend;
  aura_relay_client : RelayChainInterface;
  code_hash_provider : Hash → option Hash;
  aura_keystore : Keystore;
  collator_key : CollatorPair;
  collator_peer_id : PeerId;
  aura_para_id : ParaId;
  overseer_handle : OverseerHandle;
  relay_chain_slot_duration : N;
  proposer : Proposer;
  collator_service : CollatorService;
  authoring_duration : N;
  reinitialize : bool;
  max_pov_percentage : option N;
}.

(** A task handed to the task manager: its name and group, whether the node must stop when it
    ends, and what it runs. *)
Record Task : Type := {
  task_name : string;
  task_group : option string;
  essential : bool;
  future : Future;
}.

(** Why a function of the service ends early: an error it returns, or a panic. *)
Inductive Fault : Type :=
| Failed (e : Error)
| Panic (message : string).

(** The state: everything outside, and the tasks this file has spawned. *)
Record Node : Type := {
  outside : Outside;
  spawned : list Task;
}.

(** ** What the service calls *)

Class ServiceEnv : Type := {
  TelemetryWorker_new : N → M Outside Error TelemetryWorker;
  worker_handle : TelemetryWorker → TelemetryWorkerHandle;
  new_telemetry : TelemetryWorkerHandle → Endpoints → Telemetry;
  telemetry_handle : Telemetry → TelemetryHandle;
  worker_run : TelemetryWorker → Future;
  DEFAULT_HEAP_ALLOC_STRATEGY : HeapAllocStrategy;
  (** The executor's builder: method, on-chain and off-chain strategy, instances, cache. *)
  build_executor : WasmMethod → HeapAllocStrategy → HeapAllocStrategy → N → N → Executor;
  new_full_parts_record_import : Configuration → option TelemetryHandle → Executor → bool →
    M Outside Error (Client * Backend * KeystoreContainer * TaskManager);
  (** The pool's builder: essential spawn handle, client, authority, options, registry. *)
  build_pool : TaskManager → Client → bool → PoolOptions → option Registry → Outside →
    TransactionPool * Outside;
  ParachainBlockImport_new : Client → Backend → BlockImport;
  fully_verifying_import_queue : Client → BlockImport → InherentDataProviders → TaskManager →
    option Registry → option TelemetryHandle → Outside → ImportQueue * Outside;
  import_queue_service : ImportQueue → ImportQueueService;
  prepare_node_config : Configuration → Configuration;
  FullNetworkConfiguration_new : NetworkOptions → option Registry → NetConfig;
  build_relay_chain_interface : RelayConfiguration → Configuration →
    option TelemetryWorkerHandle → TaskManager → CollatorOptions → option HwBench →
    M Outside RelayChainError
      (RelayChainInterface * option CollatorPair * RelayChainNetwork * RequestReceiver);
  best_hash : Client → Outside → Hash;
  genesis_hash : Client → Outside → Hash;
  parachain_id : Client → Hash → M Outside Error ParaId;
  build_network : BuildNetworkParams →
    M Outside Error (Network * SystemRpcTx * TxHandlerController * SyncService);
  keystore : KeystoreContainer → Keystore;
  register_notification_metrics : option Registry → Metrics;
  local_peer_id : Network → PeerId;
  offchain_storage : Backend → option OffchainStorage;
  OffchainTransactionPoolFactory_new : TransactionPool → OffchainPoolFactory;
  OffchainWorkers_new : OffchainWorkerOptions → M Outside Error OffchainWorkers;
  offchain_workers_run : OffchainWorkers → Client → TaskManager → Future;
  ParachainTracingExecuteBlock_new : Client → TracingExecuteBlock;
  spawn_tasks : SpawnTasksParams → M Outside Error unit;
  print_hwbench : HwBench → Outside → Outside;
  check_hardware : HwBench → bool → result unit string;
  warn : string → Outside → Outside;
  initialize_hwbench_telemetry : TelemetryHandle → HwBench → Future;
  get_overseer_handle : RelayChainInterface → Outside → result OverseerHandle RelayChainError;
  announce_block : SyncService → AnnounceBlock;
  encode_hash : Hash → list N;
  start_relay_chain_tasks : StartRelayChainTasksParams → M Outside Error unit;
  start_bootnode_tasks : StartBootnodeTasksParams → Outside → Outside;
  with_proof_recording : TaskManager → Client → TransactionPool → option Registry →
    option TelemetryHandle → Proposer;
  CollatorService_new : Client → TaskManager → AnnounceBlock → Client → CollatorService;
  code_at : Client → Hash → result ValidationCode Error;
  validation_code_hash : ValidationCode → Hash;
  aura_run : AuraParams → Future;
  RpcModule_new : RpcModule;
  rpc_merge : RpcModule → RpcModule → result RpcModule MergeError;
  System_rpc : Client → TransactionPool → RpcModule;
  TransactionPayment_rpc : Client → RpcModule;
}.

Context {E : ServiceEnv}.

Definition set_outside (o : Outside) (n : Node) : Node :=
  {| outside := o; spawned := spawned n |}.

(** A call that may fail, with [?]. *)
Definition call {A} (m : M Outside Error A) : M Node Fault A :=
  map_err_m Failed (zoom outside set_outside m).

(** A call that cannot fail. *)
Definition does {A} (f : Outside → A * Outside) : M Node Fault A :=
  zoom outside set_outside (λ o, let '(a, o') := f o in (Ok a, o')).

(** [spawn_handle().spawn(name, group, future)], or the essential handle's. *)
Definition spawn (name : string) (group : option string) (essential : bool) (future : Future) :
    M Node Fault unit :=
  modify (λ n, {| outside := outside n; spawned := spawned n ++
    [{| task_name := name; task_group := group; essential := essential; future := future |}] |}).

(** ** RPC *)

(** [Result]'s [?] on merging. *)
Definition create_full (deps : FullDeps) : result RpcModule MergeError :=
  let module := RpcModule_new in
  match rpc_merge module (System_rpc (deps_client deps) (deps_pool deps)) with
  | Err e => Err e
  | Ok module =>
      match rpc_merge module (TransactionPayment_rpc (deps_client deps)) with
      | Err e => Err e
      | Ok module => Ok module
      end
  end.

(** ** Partial components *)

Definition build_import_queue (client : Client) (block_import : BlockImport)
    (config : Configuration) (telemetry : option TelemetryHandle) (task_manager : TaskManager) :
    M Node Fault ImportQueue :=
  does (fully_verifying_import_queue client block_import SystemTimestamp task_manager
          (prometheus_registry config) telemetry).

(** The telemetry worker, when there is an endpoint to report to. *)
Definition new_telemetry_worker (config : Configuration) :
    M Node Fault (option (TelemetryWorker * Telemetry)) :=
  match telemetry_endpoints config with
  | Some endpoints =>
      if negb (Endpoints_is_empty endpoints) then
        worker ← call (TelemetryWorker_new 16);
        let telemetry := new_telemetry (worker_handle worker) endpoints in
        mret (Some (worker, telemetry))
      else mret None
  | None => mret None
  end.

(** The configured number of heap pages, a 64-bit number, becomes a 32-bit one. *)
Definition heap_pages (config : Configuration) : HeapAllocStrategy :=
  match default_heap_pages config with
  | None => DEFAULT_HEAP_ALLOC_STRATEGY
  | Some h => Static (as_u32 h)
  end.

Definition new_partial (config : Configuration) : M Node Fault PartialComponents :=
  telemetry ← new_telemetry_worker config;
  let heap_pages := heap_pages config in
  let executor := build_executor (wasm_method config) heap_pages heap_pages
                    (max_runtime_instances config) (runtime_cache_size config) in
  parts ← call (new_full_parts_record_import config
                  ((λ t, telemetry_handle t.2) <$> telemetry) executor true);
  let '(client, backend, keystore_container, task_manager) := parts in
  let telemetry_worker_handle := (λ t, worker_handle t.1) <$> telemetry in
  telemetry ← (match telemetry with
               | Some (worker, telemetry) =>
                   _ ← spawn "telemetry" None false (worker_run worker);
                   mret (Some telemetry)
               | None => mret None
               end);
  transaction_pool ← does (build_pool task_manager client (is_authority config)
                             (transaction_pool_options config) (prometheus_registry config));
  let block_import := ParachainBlockImport_new client backend in
  import_queue ← build_import_queue client block_import config
                   (telemetry_handle <$> telemetry) task_manager;
  mret {| backend := backend; client := client; import_queue := import_queue;
          keystore_container := keystore_container; task_manager := task_manager;
          transaction_pool := transaction_pool; block_import := block_import;
          telemetry := telemetry; telemetry_worker_handle := telemetry_worker_handle |}.

(** ** Consensus *)

Definition start_consensus (client : Client) (backend : Backend) (block_import : BlockImport)
    (prometheus_registry : option Registry) (telemetry : option TelemetryHandle)
    (task_manager : TaskManager) (relay_chain_interface : RelayChainInterface)
    (transaction_pool : TransactionPool) (keystore : Keystore) (relay_chain_slot_duration : N)
    (para_id : ParaId) (collator_key : CollatorPair) (collator_peer_id : PeerId)
    (overseer_handle : OverseerHandle) (announce_block : AnnounceBlock) : M Node Fault unit :=
  let proposer := with_proof_recording task_manager client transaction_pool
                    prometheus_registry telemetry in
  let collator_service := CollatorService_new client task_manager announce_block client in
  let params := {|
    create_inherent_data_providers := NoProviders;
    aura_block_import := block_import;
    para_client := client;
    para_backend := backend;
    aura_relay_client := relay_chain_interface;
    code_hash_provider block_hash :=
      match code_at client block_hash with
      | Ok c => Some (validation_code_hash c)
      | Err _ => None
      end;
    aura_keystore := keystore;
    collator_key := collator_key;
    collator_peer_id := collator_peer_id;
    aura_para_id := para_id;
    overseer_handle := overseer_handle;
    relay_chain_slot_duration := relay_chain_slot_duration;
    proposer := proposer;
    collator_service := collator_service;
    authoring_duration := 2000;
    reinitialize := false;
    max_pov_percentage := None;
  |} in
  _ ← spawn "aura" None true (aura_run params);
  mret tt.

(** ** The node *)

(** The offchain workers, when they are enabled. *)
Definition start_offchain_workers (config : Configuration) (params : PartialComponents)
    (network : Network) : M Node Fault unit :=
  if offchain_worker_enabled config then
    offchain_workers ← call (OffchainWorkers_new {|
      runtime_api_provider := client params;
      offchain_keystore := Some (keystore (keystore_container params));
      offchain_db := offchain_storage (backend params);
      offchain_transaction_pool :=
        Some (OffchainTransactionPoolFactory_new (transaction_pool params));
      network_provider := network;
      is_validator := is_authority config;
      enable_http_requests := false;
      custom_extensions _ := [] |});
    spawn "offchain-workers-runner" (Some "offchain-work"%string) false
      (offchain_workers_run offchain_workers (client params) (task_manager params))
  else mret tt.

(** Show the hardware benchmark, warn an authority about weak hardware, and report it. *)
Definition report_hwbench (validator : bool) (hwbench : option HwBench)
    (telemetry : option Telemetry) : M Node Fault unit :=
  match hwbench with
  | None => mret tt
  | Some hwbench =>
      _ ← does (λ o, (tt, print_hwbench hwbench o));
      _ ← (match check_hardware hwbench false with
           | Err err =>
               if validator then
                 does (λ o, (tt, warn ("⚠️  The hardware does not meet the minimal requirements "
                   +:+ err +:+ " for role 'Authority'.")%string o))
               else mret tt
           | Ok _ => mret tt
           end);
      match telemetry with
      | Some telemetry =>
          spawn "telemetry_hwbench" None false
            (initialize_hwbench_telemetry (telemetry_handle telemetry) hwbench)
      | None => mret tt
      end
  end.

Definition no_parachain_id : string :=
  "Failed to retrieve parachain id from runtime. Make sure you implement `cumulus_primitives_core::GetParachaiNidentity` runtime API.".

(** [o.expect(message)]. *)
Definition expect {A} (o : option A) (message : string) : M Node Fault A :=
  lift_result (ok_or o (Panic message)).

Definition start_parachain_node (parachain_config : Configuration)
    (polkadot_config : RelayConfiguration) (collator_options : CollatorOptions)
    (hwbench : option HwBench) : M Node Fault (TaskManager * Client) :=
  let parachain_config := prepare_node_config parachain_config in
  params ← new_partial parachain_config;
  let registry := prometheus_registry parachain_config in
  let net_config := FullNetworkConfiguration_new (network_options parachain_config) registry in
  let task_manager := task_manager params in
  relay ← call (map_err_m Application
            (build_relay_chain_interface polkadot_config parachain_config
               (telemetry_worker_handle params) task_manager collator_options hwbench));
  let '(relay_chain_interface, collator_key, relay_chain_network, paranode_rx) := relay in
  let validator := is_authority parachain_config in
  best_hash ← gets (λ n, best_hash (client params) (outside n));
  para_id ← call (map_err_m (λ _, other_error no_parachain_id)
                    (parachain_id (client params) best_hash));
  net ← call (build_network {|
    net_parachain_config := parachain_config;
    net_config := net_config;
    net_client := client params;
    net_transaction_pool := transaction_pool params;
    net_para_id := para_id;
    net_spawn_handle := task_manager;
    net_relay_chain_interface := relay_chain_interface;
    net_import_queue := import_queue params;
    sybil_resistance_level := Resistant;
    net_metrics := register_notification_metrics registry |});
  let '(network, system_rpc_tx, tx_handler_controller, sync_service) := net in
  let collator_peer_id := local_peer_id network in
  _ ← start_offchain_workers parachain_config params network;
  let rpc_builder := λ _ : SubscriptionTaskExecutor, map_err rpc_error
    (create_full {| deps_client := client params; deps_pool := transaction_pool params |}) in
  _ ← call (spawn_tasks {|
    rpc_builder := rpc_builder;
    spawn_client := client params;
    spawn_transaction_pool := transaction_pool params;
    spawn_task_manager := task_manager;
    spawn_config := parachain_config;
    spawn_keystore := keystore (keystore_container params);
    spawn_backend := backend params;
    spawn_network := network;
    spawn_sync_service := sync_service;
    system_rpc_tx := system_rpc_tx;
    tx_handler_controller := tx_handler_controller;
    spawn_telemetry := telemetry params;
    tracing_execute_block := Some (ParachainTracingExecuteBlock_new (client params)) |});
  _ ← report_hwbench validator hwbench (telemetry params);
  let announce_block := announce_block sync_service in
  let relay_chain_slot_duration := 6 * 1000 in
  overseer ← gets (λ n, get_overseer_handle relay_chain_interface (outside n));
  overseer_handle ← lift_result (map_err (λ e, Failed (Application e)) overseer);
  _ ← call (start_relay_chain_tasks {|
    relay_client := client params;
    relay_announce_block := announce_block;
    relay_para_id := para_id;
    relay_interface := relay_chain_interface;
    relay_task_manager := task_manager;
    da_recovery_profile := if validator then Profile_Collator else Profile_FullNode;
    relay_import_queue := import_queue_service (import_queue params);
    relay_slot_duration := relay_chain_slot_duration;
    recovery_handle := overseer_handle;
    relay_sync_service := sync_service;
    relay_prometheus_registry := registry |});
  genesis ← gets (λ n, genesis_hash (client params) (outside n));
  _ ← does (λ o, (tt, start_bootnode_tasks {|
    boot_embedded_dht_bootnode := embedded_dht_bootnode collator_options;
    boot_dht_bootnode_discovery := dht_bootnode_discovery collator_options;
    boot_para_id := para_id;
    boot_task_manager := task_manager;
    boot_relay_chain_interface := relay_chain_interface;
    relay_chain_fork_id := relay_fork_id polkadot_config;
    relay_chain_network := relay_chain_network;
    request_receiver := paranode_rx;
    parachain_network := network;
    advertise_non_global_ips := allow_non_globals_in_dht parachain_config;
    parachain_genesis_hash := encode_hash genesis;
    parachain_fork_id := fork_id parachain_config;
    parachain_public_addresses := public_addresses parachain_config |} o));
  _ ← (if validator then
         collator_key ← expect collator_key "Command line arguments do not allow this. qed";
         start_consensus (client params) (backend params) (block_import params) registry
           (telemetry_handle <$> telemetry params) task_manager relay_chain_interface
           (transaction_pool params) (keystore (keystore_container params))
           relay_chain_slot_duration para_id collator_key collator_peer_id overseer_handle
           announce_block
       else mret tt);
  mret (task_manager, client params).
End service.
End Service.
