(* ===== verification/ServiceTheorems.v ===== *)
(** * Theorems about the node service

    Which tasks a node spawns and when, how starting it can fail, what the consensus task is
    given, and what the RPC module offers.  The reasoning is by a small logic of emitted
    tasks: [emits m Φ] says that [m] only adds tasks, and that its result and the tasks it
    adds satisfy [Φ]. *)

From stdpp Require Import strings.
From S2P Require Import Prelude Types Weights Runtime RuntimeTheorems Service.
Import Service.
Local Open Scope N_scope.

Section emits.
Context {Y : ServiceTypes} {E : ServiceEnv}.

Definition emits {A} (m : M Node Fault A) (Φ : result A Fault → list Task → Prop) : Prop :=
  ∀ n, ∃ ts, spawned (m n).2 = spawned n ++ ts ∧ Φ (m n).1 ts.

Lemma emits_mono {A} (m : M Node Fault A) (Φ Ψ : result A Fault → list Task → Prop) :
  emits m Φ → (∀ r ts, Φ r ts → Ψ r ts) → emits m Ψ.
Proof. intros Hm HΦ n. destruct (Hm n) as (ts & Hs & H). eauto. Qed.

Lemma emits_bind {A B} (m : M Node Fault A) (f : A → M Node Fault B) Ψ :
  emits m (λ r ts,
    match r with
    | Ok a => emits (f a) (λ r' ts', Ψ r' (ts ++ ts'))
    | Err e => Ψ (Err e) ts
    end) →
  emits (m ≫= f) Ψ.
Proof.
  intros Hm n. destruct (Hm n) as (ts & Hs & HΦ). unfold mbind, M_bind.
  destruct (m n) as [[a|e] n1]; cbn in *; [|eauto].
  destruct (HΦ n1) as (ts' & Hs' & HΨ). exists (ts ++ ts'). by rewrite Hs', Hs, <- app_assoc.
Qed.

Lemma emits_pure {A} (r : result A Fault) Φ : Φ r [] → emits (lift_result r) Φ.
Proof. intros H n. exists []. split; [symmetry; apply app_nil_r|apply H]. Qed.

Lemma emits_ret {A} (a : A) Φ : Φ (Ok a) [] → emits (mret a) Φ.
Proof. apply (emits_pure (Ok a)). Qed.

Lemma emits_gets {A} (f : Node → A) Φ : (∀ a, Φ (Ok a) []) → emits (gets f) Φ.
Proof. intros H n. exists []. split; [symmetry; apply app_nil_r|apply H]. Qed.

Lemma emits_call {A} (m : M Outside Error A) Φ :
  (∀ a o o', m o = (Ok a, o') → Φ (Ok a) []) → (∀ e, Φ (Err (Failed e)) []) →
  emits (call m) Φ.
Proof.
  intros Ha He n. exists []. unfold call, map_err_m, zoom. rewrite app_nil_r.
  destruct (m (outside n)) as [[a|e] o'] eqn:Hm; cbn; eauto.
Qed.

Lemma emits_does {A} (f : Outside → A * Outside) Φ : (∀ a, Φ (Ok a) []) → emits (does f) Φ.
Proof.
  intros H n. exists []. unfold does, zoom. rewrite app_nil_r.
  destruct (f (outside n)) as [a o']. cbn. auto.
Qed.

Lemma emits_spawn name group ess fut Φ :
  Φ (Ok tt) [{| task_name := name; task_group := group; essential := ess; future := fut |}] →
  emits (spawn name group ess fut) Φ.
Proof. intros H n. eexists. by split; [|exact H]. Qed.
End emits.

(** One step of a computation: the rule of its first operation. *)
Ltac emit :=
  cbv zeta;
  first
    [ apply emits_bind; emit
    | apply emits_ret
    | apply emits_pure
    | apply emits_spawn
    | apply emits_call; [intros|intros]
    | apply emits_does; intros
    | apply emits_gets; intros ];
  cbn [app].

Section tasks.
Context {Y : ServiceTypes} {E : ServiceEnv}.

(** A task as it appears to the task manager. *)
Definition describe (t : Task) : string * option string * bool :=
  (task_name t, task_group t, essential t).

(** Telemetry is on when there is an endpoint. *)
Definition reports (config : Configuration) : bool :=
  match telemetry_endpoints config with
  | Some endpoints => negb (Endpoints_is_empty endpoints)
  | None => false
  end.

Definition telemetry_tasks (config : Configuration) : list (string * option string * bool) :=
  if reports config then [("telemetry"%string, None, false)] else [].

Definition offchain_tasks (config : Configuration) : list (string * option string * bool) :=
  if offchain_worker_enabled config
  then [("offchain-workers-runner"%string, Some "offchain-work"%string, false)] else [].

Definition hwbench_tasks (config : Configuration) (hwbench : option HwBench) :
    list (string * option string * bool) :=
  match hwbench with
  | Some _ => if reports config then [("telemetry_hwbench"%string, None, false)] else []
  | None => []
  end.

(** Everything but consensus, in the order of its start. *)
Definition background_tasks (config : Configuration) (hwbench : option HwBench) :
    list (string * option string * bool) :=
  telemetry_tasks config ++ offchain_tasks config ++ hwbench_tasks config hwbench.

Definition authoring_tasks (config : Configuration) : list (string * option string * bool) :=
  if is_authority config then [("aura"%string, None, true)] else [].

Lemma emits_telemetry_worker config :
  emits (new_telemetry_worker config) (λ r ts,
    ts = [] ∧ match r with
              | Ok t => bool_decide (is_Some t) = reports config
              | Err (Failed _) => True
              | Err (Panic _) => False
              end).
Proof.
  unfold new_telemetry_worker, reports.
  destruct (telemetry_endpoints config) as [eps|]; [|by emit].
  destruct (negb (Endpoints_is_empty eps)); [|by emit].
  emit; [|done]. by emit.
Qed.

Lemma emits_new_partial config :
  emits (new_partial config) (λ r ts,
    match r with
    | Ok p => map describe ts = telemetry_tasks config
              ∧ bool_decide (is_Some (telemetry p)) = reports config
    | Err (Failed _) => ts = []
    | Err (Panic _) => False
    end).
Proof.
  unfold new_partial, telemetry_tasks. apply emits_bind.
  eapply emits_mono; [apply emits_telemetry_worker|]. intros [t|[]] ts [-> Ht]; [|done..].
  rewrite <- Ht. cbn [app]. emit; [|done].
  destruct a as [[[c b] k] tm]. apply emits_bind. destruct t as [[w tel]|].
  - emit. emit. cbn. emit. cbn. unfold build_import_queue. emit. by emit.
  - emit. emit. cbn. unfold build_import_queue. emit. by emit.
Qed.

Lemma emits_offchain config params network :
  emits (start_offchain_workers config params network) (λ r ts,
    match r with
    | Ok _ => map describe ts = offchain_tasks config
    | Err (Failed _) => ts = []
    | Err (Panic _) => False
    end).
Proof.
  unfold start_offchain_workers, offchain_tasks.
  destruct (offchain_worker_enabled config); [|by emit]. emit; [|done]. by emit.
Qed.

Lemma emits_hwbench config validator hwbench tel :
  bool_decide (is_Some tel) = reports config →
  emits (report_hwbench validator hwbench tel) (λ r ts,
    match r with
    | Ok _ => map describe ts = hwbench_tasks config hwbench
    | Err _ => False
    end).
Proof.
  unfold report_hwbench, hwbench_tasks. intros <-. destruct hwbench as [hw|]; [|by emit].
  emit. apply emits_bind.
  assert (Hlast : emits (match tel with
      | Some telemetry => spawn "telemetry_hwbench" None false
          (initialize_hwbench_telemetry (telemetry_handle telemetry) hw)
      | None => mret tt
      end) (λ r ts, match r with
        | Ok _ => map describe ts = if bool_decide (is_Some tel)
            then [("telemetry_hwbench"%string, None, false)] else []
        | Err _ => False
        end)) by (destruct tel; by emit).
  destruct (check_hardware hw false); [by emit|]. destruct validator; by emit.
Qed.

(** The relay chain interface came without a collator key. *)
Definition keyless (config : Configuration) (polkadot_config : RelayConfiguration)
    (options : CollatorOptions) (hwbench : option HwBench) : Prop :=
  ∃ handle tm relay network receiver o o',
    build_relay_chain_interface polkadot_config config handle tm options hwbench o
    = (Ok (relay, None, network, receiver), o').

Definition started (config : Configuration) (polkadot_config : RelayConfiguration)
    (options : CollatorOptions) (hwbench : option HwBench) {A} (r : result A Fault)
    (ts : list Task) : Prop :=
  match r with
  | Ok _ => map describe ts = background_tasks config hwbench ++ authoring_tasks config
  | Err (Failed _) => map describe ts `prefix_of` background_tasks config hwbench
  | Err (Panic _) => map describe ts = background_tasks config hwbench
      ∧ is_authority config = true ∧ keyless config polkadot_config options hwbench
  end.

Lemma emits_start parachain_config polkadot_config options hwbench :
  let config := prepare_node_config parachain_config in
  emits (start_parachain_node parachain_config polkadot_config options hwbench)
    (started config polkadot_config options hwbench).
Proof.
  intros config. unfold start_parachain_node, started, background_tasks, authoring_tasks.
  fold config. apply emits_bind. eapply emits_mono; [apply emits_new_partial|].
  intros [p|[]] ts1; [|by intros ->; apply prefix_nil|done]. intros [Hts1 Htel].
  emit; [|by intros; rewrite app_nil_r, Hts1; apply prefix_app_r].
  rename H into Hrelay. destruct a as [[[relay key] rnet] rx].
  emit. emit; [|rewrite !app_nil_r, Hts1; by apply prefix_app_r].
  emit; [|rewrite !app_nil_r, Hts1; by apply prefix_app_r].
  destruct a1 as [[[net sys] txh] sync].
  apply emits_bind. eapply emits_mono; [apply emits_offchain|].
  intros [[]|[]] ts2 Hts2; [|subst; rewrite !app_nil_r, Hts1; by apply prefix_app_r|done].
  emit; [|rewrite !app_nil_r, map_app, Hts1, Hts2; apply prefix_app, prefix_app_r; done].
  apply emits_bind. eapply emits_mono; [by apply emits_hwbench|].
  intros [[]|] ts3 Hts3; [|done].
  assert (Hall : map describe (ts1 ++ ts2 ++ ts3)
    = telemetry_tasks config ++ offchain_tasks config ++ hwbench_tasks config hwbench)
    by (by rewrite !map_app, Hts1, Hts2, Hts3).
  emit. emit. destruct a2 as [overseer|e]; cbn [map_err]; [|by rewrite !app_nil_r, Hall].
  emit; [|by rewrite !app_nil_r, Hall]. emit. emit. apply emits_bind.
  destruct (is_authority config) eqn:Hauth.
  - unfold expect. emit. destruct key as [key|]; cbn [ok_or].
    + unfold start_consensus. emit. emit. emit.
      by rewrite <- Hall, !map_app, <- !app_assoc.
    + rewrite !app_nil_r. split_and!; [done..|]. unfold keyless.
      unfold map_err_m in Hrelay.
      destruct (build_relay_chain_interface _ _ _ _ _ _ o) as [[]] eqn:Hb; cbn in Hrelay;
        simplify_eq. by repeat eexists.
  - emit. emit. by rewrite !app_nil_r, Hall.
Qed.
(** C23: a node that starts has spawned, in this order, the telemetry worker when
    there is an endpoint to report to, the offchain workers when they are enabled, the report
    of the hardware benchmark when there is one and telemetry is on, and on an authority the
    essential task that authors blocks; a node that fails to start has spawned a prefix of
    this, and never that last task.  It panics only as an authority that the relay chain
    interface gave no collator key. *)
Theorem node_tasks parachain_config polkadot_config options hwbench n :
  let config := prepare_node_config parachain_config in
  let '(r, n') := start_parachain_node parachain_config polkadot_config options hwbench n in
  ∃ ts, spawned n' = spawned n ++ ts
    ∧ match r with
      | Ok _ => map describe ts = background_tasks config hwbench ++ authoring_tasks config
      | Err (Failed _) => map describe ts `prefix_of` background_tasks config hwbench
      | Err (Panic _) => map describe ts = background_tasks config hwbench
          ∧ is_authority config = true ∧ keyless config polkadot_config options hwbench
      end.
Proof.
  intros config. destruct (emits_start parachain_config polkadot_config options hwbench n)
    as (ts & Hts & Hr).
  destruct (start_parachain_node _ _ _ _ n) as [r n']. by exists ts.
Qed.
End tasks.

(** ** Authoring *)

Section authoring.
Context {Y : ServiceTypes} {E : ServiceEnv}.
Context {W : Weights} {WS : WeightsSpec W} {K : SdkWeights} {KS : SdkWeightsSpec K}.

Lemma call_ok {A} (m : M Outside Error A) n a n' :
  call m n = (Ok a, n') → ∃ o', m (outside n) = (Ok a, o').
Proof.
  unfold call, map_err_m, zoom. destruct (m (outside n)) as [[] o']; cbn; intros; simplify_eq.
  eauto.
Qed.

Lemma map_err_m_ok {S E1 E2 A} (f : E1 → E2) (m : M S E1 A) s a s' :
  map_err_m f m s = (Ok a, s') → m s = (Ok a, s').
Proof. unfold map_err_m. destruct (m s) as [[]]; cbn; congruence. Qed.

(** C33: an authority that has started authors blocks with the collator key
    that the relay chain interface gave it, for the parachain that the runtime reports, on the
    returned client; the relay chain's slots are as long as the runtime assumes, and the time
    it may spend on a block is the reference time of a full block, within a slot. *)
Theorem authority_authors parachain_config polkadot_config options hwbench n tm c n' :
  let config := prepare_node_config parachain_config in
  start_parachain_node parachain_config polkadot_config options hwbench n = (Ok (tm, c), n') →
  is_authority config = true →
  ∃ ts p,
    spawned n' = ts ++ [{| task_name := "aura"; task_group := None; essential := true;
                           future := aura_run p |}]
    ∧ para_client p = c
    ∧ (∃ handle network receiver o o',
         build_relay_chain_interface polkadot_config config handle tm options hwbench o
         = (Ok (aura_relay_client p, Some (collator_key p), network, receiver), o'))
    ∧ (∃ o o', parachain_id c (best_hash c o) o = (Ok (aura_para_id p), o'))
    ∧ relay_chain_slot_duration p = RELAY_CHAIN_SLOT_DURATION_MILLIS
    ∧ authoring_duration p * WEIGHT_REF_TIME_PER_MILLIS = ref_time MAXIMUM_BLOCK_WEIGHT
    ∧ authoring_duration p < SLOT_DURATION.
Proof.
  intros config Hrun Hauth. unfold start_parachain_node in Hrun. fold config in Hrun.
  apply bind_ok in Hrun as (p & n1 & _ & Hrun).
  apply bind_ok in Hrun as ([[[relay key] rnet] rx] & n2 & Hrelay & Hrun).
  apply bind_ok in Hrun as (best & n3 & Hbest & Hrun).
  apply bind_ok in Hrun as (para & n4 & Hpara & Hrun).
  apply bind_ok in Hrun as ([[[net sys] txh] sync] & n5 & _ & Hrun).
  do 3 apply bind_ok in Hrun as (? & ? & _ & Hrun).
  apply bind_ok in Hrun as (? & ? & _ & Hrun).
  apply bind_ok in Hrun as (overseer & ? & _ & Hrun).
  do 3 apply bind_ok in Hrun as (? & ? & _ & Hrun).
  apply bind_ok in Hrun as (? & n6 & Hcons & Hrun).
  unfold mret, M_ret in Hrun. simplify_eq. rewrite Hauth in Hcons.
  apply bind_ok in Hcons as (k & ? & Hkey & Hcons).
  unfold expect, lift_result, ok_or in Hkey. destruct key as [key|]; [|done]. simplify_eq.
  unfold start_consensus, spawn, modify in Hcons. cbn in Hcons.
  unfold mbind, M_bind, mret, M_ret in Hcons. simplify_eq/=. do 2 eexists. split_and!; [reflexivity|done| | |done| |done].
  - apply call_ok in Hrelay as (o' & Hrelay%map_err_m_ok).
    do 5 eexists. exact Hrelay.
  - unfold gets in Hbest. simplify_eq. apply call_ok in Hpara as (o' & Hpara%map_err_m_ok).
    do 2 eexists. exact Hpara.
  - cbn. by rewrite ref_time_MAXIMUM_BLOCK_WEIGHT, per_millis.
Qed.
End authoring.

(** ** RPC *)

(** Merging two modules gives the methods of both, unless a name is registered twice. *)
Class RpcSpec {Y : ServiceTypes} (E : ServiceEnv) : Type := {
  method_names : RpcModule → list string;
  method_names_new : method_names RpcModule_new = [];
  rpc_merge_spec a b :
    match rpc_merge a b with
    | Ok m => method_names m = method_names a ++ method_names b
              ∧ method_names a ## method_names b
    | Err _ => ¬ (method_names a ## method_names b)
    end;
}.

Section rpc.
Context {Y : ServiceTypes} {E : ServiceEnv} {R : RpcSpec E}.

(** The RPC module is created exactly when the account-nonce methods and the
    fee-query methods have no name in common, and then it offers those methods and no
    others. *)
Theorem rpc_methods deps :
  let system := method_names (System_rpc (deps_client deps) (deps_pool deps)) in
  let payment := method_names (TransactionPayment_rpc (deps_client deps)) in
  match create_full deps with
  | Ok m => method_names m = system ++ payment ∧ system ## payment
  | Err _ => ¬ (system ## payment)
  end.
Proof.
  intros system payment. unfold create_full.
  pose proof (rpc_merge_spec RpcModule_new (System_rpc (deps_client deps) (deps_pool deps))) as H1.
  destruct (rpc_merge _ _) as [m1|e1]; rewrite method_names_new in H1.
  - destruct H1 as [H1 _]. cbn in H1.
    pose proof (rpc_merge_spec m1 (TransactionPayment_rpc (deps_client deps))) as H2.
    destruct (rpc_merge m1 _) as [m2|e2]; rewrite H1 in H2; exact H2.
  - destruct H1. set_solver.
Qed.
End rpc.

(** ** The hypotheses hold

    Services that log what they do; a module is its list of methods. *)

#[export] Instance log_types : ServiceTypes := {|
  Outside := list string; Error := string; RelayChainError := string; MergeError := string;
  Application := id; other_error := id; rpc_error := id;
  Endpoints := list string; Endpoints_is_empty e := bool_decide (e = []);
  WasmMethod := unit; PoolOptions := unit; Registry := unit; NetworkOptions := unit;
  Addresses := unit; CollatorOptions := bool; embedded_dht_bootnode := id;
  dht_bootnode_discovery := id; RelayConfiguration := unit; relay_fork_id _ := None;
  HwBench := unit; Executor := HeapAllocStrategy; Client := unit; Backend := unit;
  KeystoreContainer := unit; Keystore := unit; TaskManager := unit; TransactionPool := unit;
  BlockImport := unit; ImportQueue := unit; ImportQueueService := unit;
  TelemetryWorker := unit; TelemetryWorkerHandle := unit; Telemetry := unit;
  TelemetryHandle := unit; RelayChainInterface := unit; CollatorPair := string;
  RelayChainNetwork := unit; RequestReceiver := unit; ParaId := N; PeerId := unit;
  Hash := N; ValidationCode := N; NetConfig := unit; Network := unit; SystemRpcTx := unit;
  TxHandlerController := unit; SyncService := unit; AnnounceBlock := unit; Metrics := unit;
  OffchainStorage := unit; OffchainPoolFactory := unit; OffchainExtension := unit;
  OffchainWorkers := unit; TracingExecuteBlock := unit; SubscriptionTaskExecutor := unit;
  OverseerHandle := unit; Proposer := unit; CollatorService := unit; Future := string;
  RpcModule := list string;
|}.

Definition logs {A} (line : string) (a : A) : M Outside Error A := λ o, (Ok a, o ++ [line]).

Definition log_merge (a b : list string) : result (list string) string :=
  if decide (Forall (λ x, x ∉ b) a) then Ok (a ++ b) else Err "duplicate method"%string.

#[export] Instance log_services : ServiceEnv := {|
  TelemetryWorker_new _ := logs "telemetry" tt;
  worker_handle := id; new_telemetry _ _ := tt; telemetry_handle := id;
  worker_run _ := "telemetry"%string;
  DEFAULT_HEAP_ALLOC_STRATEGY := Static 2048;
  build_executor _ on_chain _ _ _ := on_chain;
  new_full_parts_record_import _ _ _ _ := logs "parts" (tt, tt, tt, tt);
  build_pool _ _ _ _ _ o := (tt, o);
  ParachainBlockImport_new _ _ := tt;
  fully_verifying_import_queue _ _ _ _ _ _ o := (tt, o);
  import_queue_service _ := tt; prepare_node_config := id;
  FullNetworkConfiguration_new _ _ := tt;
  build_relay_chain_interface _ config _ _ _ _ o :=
    (Ok (tt, if is_authority config then Some "a collator key"%string else None, tt, tt), o);
  best_hash _ _ := 7; genesis_hash _ _ := 0;
  parachain_id _ _ := logs "para id" 1000;
  build_network _ := logs "network" (tt, tt, tt, tt);
  keystore _ := tt; register_notification_metrics _ := tt; local_peer_id _ := tt;
  offchain_storage _ := None; OffchainTransactionPoolFactory_new _ := tt;
  OffchainWorkers_new _ := logs "offchain" tt;
  offchain_workers_run _ _ _ := "offchain"%string;
  ParachainTracingExecuteBlock_new _ := tt;
  spawn_tasks _ := logs "tasks" tt;
  print_hwbench _ o := o; check_hardware _ _ := Ok tt; warn line o := o ++ [line];
  initialize_hwbench_telemetry _ _ := "hwbench"%string;
  get_overseer_handle _ _ := Ok tt;
  announce_block _ := tt; encode_hash h := [h];
  start_relay_chain_tasks _ := logs "relay tasks" tt;
  start_bootnode_tasks _ o := o ++ ["bootnode tasks"%string];
  with_proof_recording _ _ _ _ _ := tt; CollatorService_new _ _ _ _ := tt;
  code_at _ h := Ok h; validation_code_hash h := h;
  aura_run p := collator_key p;
  RpcModule_new := []; rpc_merge := log_merge;
  System_rpc _ _ := ["system_accountNextIndex"; "system_dryRun"]%string;
  TransactionPayment_rpc _ := ["payment_queryInfo"; "payment_queryFeeDetails"]%string;
|}.

#[export, refine] Instance log_rpc_spec : RpcSpec log_services := {|
  method_names m := m : list string;
|}.
Proof.
  - done.
  - intros a b. cbn. unfold log_merge.
    pose proof (Forall_forall (λ x, x ∉ b) a) as Hd. case_decide; set_solver.
Defined.

Definition collator_config : Configuration := {|
  telemetry_endpoints := None; wasm_method := tt : WasmMethod; default_heap_pages := None;
  max_runtime_instances := 8; runtime_cache_size := 2; is_authority := true;
  transaction_pool_options := tt : PoolOptions; prometheus_registry := None;
  network_options := tt : NetworkOptions; allow_non_globals_in_dht := false;
  public_addresses := tt : Addresses; fork_id := None; offchain_worker_enabled := true;
|}.

Definition fresh_node : Node := {| outside := [] : Outside; spawned := [] |}.
Definition relay_config : RelayConfiguration := tt.
Definition default_options : CollatorOptions := false.
Definition the_client : Client := tt.
Definition the_task_manager : TaskManager := tt.

Lemma authority_authors_witness :
  ∃ ts p, spawned (start_parachain_node collator_config relay_config default_options None
                     fresh_node).2
    = ts ++ [{| task_name := "aura"; task_group := None; essential := true;
                future := aura_run p |}]
    ∧ authoring_duration p < SLOT_DURATION.
Proof.
  destruct (authority_authors collator_config relay_config default_options None fresh_node
    the_task_manager the_client
    (start_parachain_node collator_config relay_config default_options None fresh_node).2)
    as (ts & p & Hs & _ & _ & _ & _ & _ & Hlt); [by vm_compute|reflexivity|].
  exists ts, p. split; [exact Hs|exact Hlt].
Defined.

Lemma rpc_methods_witness :
  ∃ m, create_full {| deps_client := the_client; deps_pool := tt : TransactionPool |} = Ok m
    ∧ method_names m = ["system_accountNextIndex"; "system_dryRun"; "payment_queryInfo";
                        "payment_queryFeeDetails"]%string.
Proof.
  pose proof (rpc_methods {| deps_client := the_client; deps_pool := tt : TransactionPool |}) as H.
  eexists. split; [reflexivity|]. exact (proj1 H).
Defined.
