(* ===== verification/Command.v ===== *)
(** * The node's command line

    [node/src/cli.rs] and [run] of [node/src/command.rs]: which command does what, in which
    order, and how its errors surface.  Runners and commands are SDK code, so they are a class
    of operations on the process's state; the service they start is that of [Service], and the
    chain specifications are those of [Node]. *)

From stdpp Require Import strings.
From S2P Require Import Prelude Node Service.
Local Open Scope N_scope.

(** What runners, configurations and commands offer to [run].  [Cmd] is the union of the
    SDK's command structs; each has its own way to run.  The process holds the state of the
    node's service. *)
Class NodeEnv {Y : CliTypes} {V : Service.ServiceTypes} : Type := {
  Process : Type;
  Failure : Type;
  text_error : string → Failure;
  input_error : string → Failure;
  Cmd : Type;
  Runner : Type;
  Configuration : Type;
  Future : Type;
  (** What the service reads of a configuration, its state, and its errors as the command line
      reports them; a panic ends the process, too. *)
  service_config : Configuration → Service.Configuration;
  service_node : Process → Service.Node;
  set_service_node : Service.Node → Process → Process;
  service_failure : Service.Fault → Failure;
  create_runner : Cmd → M Process Failure Runner;
  sync_run : Runner → (Configuration → M Process Failure unit) → M Process Failure unit;
  async_run : Runner → (Configuration → M Process Failure (Future * Service.TaskManager)) →
    M Process Failure unit;
  run_node_until_exit : Runner → (Configuration → M Process Failure Service.TaskManager) →
    M Process Failure unit;
  (** The commands' own [run] methods, over the parts of the configuration and of the partial
      components that [run] hands to them. *)
  build_spec_run : Cmd → Configuration → M Process Failure unit;
  check_block_run : Cmd → Service.PartialComponents → Future;
  export_chain_spec_run : Cmd → ChainSpec → M Process Failure unit;
  export_blocks_run : Cmd → Service.PartialComponents → Configuration → Future;
  export_state_run : Cmd → Service.PartialComponents → Configuration → Future;
  import_blocks_run : Cmd → Service.PartialComponents → Future;
  revert_run : Cmd → Service.PartialComponents → Future;
  purge_chain_run : Cmd → Configuration → Service.RelayConfiguration → M Process Failure unit;
  export_genesis_head_run : Cmd → Service.PartialComponents → M Process Failure unit;
  export_genesis_wasm_run : Cmd → ChainSpec → M Process Failure unit;
  benchmark_pallet_run : Cmd → Configuration → M Process Failure unit;
  benchmark_block_run : Cmd → Service.PartialComponents → M Process Failure unit;
  benchmark_storage_run : Cmd → Configuration → Service.PartialComponents → M Process Failure unit;
  benchmark_machine_run : Cmd → Configuration → M Process Failure unit;
  (** [cmd.chain] and [cmd.shared_params.chain]. *)
  cmd_chain : Cmd → string;
  cmd_shared_chain : Cmd → option string;
  (** [ChainSpec::from_json_file], over the file system. *)
  from_json_file : string → Process → result ChainSpec string;
  normalize : Cmd → Cmd;
  collator_options : Cmd → Service.CollatorOptions;
  executable_name : string;
  spec_extension : Configuration → option Extensions;
  configuration_path : Configuration → string;
  database_path : Configuration → option string;
  (** [create_dir_all], its error ignored, and [gather_hwbench]. *)
  create_and_gather_hwbench : string → Process → Service.HwBench * Process;
  parse_from : list string → CliConfiguration;
  path_join : string → string → string;
  base_path_of : SharedParams → cli_result (option string);
  create_configuration : CliConfiguration → Configuration → M Process string Service.RelayConfiguration;
}.

(** A runner built for a command runs the closure it is given on its configuration. *)
Class NodeEnvSpec {Y : CliTypes} {V : Service.ServiceTypes} (E : NodeEnv) : Type := {
  configuration : Runner → Configuration;
  sync_run_closure r f p : sync_run r f p = f (configuration r) p;
  async_run_error r f p e p' :
    f (configuration r) p = (Err e, p') → async_run r f p = (Err e, p');
  run_node_error r f p e p' :
    f (configuration r) p = (Err e, p') → run_node_until_exit r f p = (Err e, p');
  (** Once started, the node runs; what the service has spawned stays. *)
  run_node_started r f p tm p' :
    f (configuration r) p = (Ok tm, p') →
    service_node (run_node_until_exit r f p).2 = service_node p';
  service_node_set n p : service_node (set_service_node n p) = n;
}.

(** ** How the node presents itself *)

(** [SubstrateCli], over the way a chain specification is loaded. *)
Record SubstrateCli (Spec : Type) : Type := {
  impl_name : string;
  impl_version : string;
  description : string;
  author : string;
  support_url : string;
  copyright_start_year : N;
  sc_load_spec : string → result Spec string;
}.

Arguments impl_name {Spec} _.
Arguments impl_version {Spec} _.
Arguments description {Spec} _.
Arguments author {Spec} _.
Arguments support_url {Spec} _.
Arguments copyright_start_year {Spec} _.
Arguments sc_load_spec {Spec} _ _.

Section identity.
(** The values the build sets, the name of the executable, and the relay chain's
    specifications. *)
Context (SUBSTRATE_CLI_IMPL_VERSION CARGO_PKG_AUTHORS executable : string).
Context {G : GenesisEnv} (read_json_file : string → result ChainSpec string).
Context {RelaySpec : Type} (polkadot_load_spec : list string → string → result RelaySpec string).

Definition newline : string := String (Ascii.ascii_of_nat 10) EmptyString.

(** The text of both descriptions; the line continuations of the literal drop the
    indentation. *)
Definition description_text : string :=
  ("Parachain Collator Template" +:+ newline +:+ newline
   +:+ "The command-line arguments provided first will be "
   +:+ "passed to the parachain node, while the arguments provided after -- will be passed "
   +:+ "to the relay chain node." +:+ newline +:+ newline
   +:+ executable +:+ " <parachain-args> -- <relay-chain-args>")%string.

Definition Cli_SubstrateCli : SubstrateCli ChainSpec := {|
  impl_name := "Parachain Collator Template";
  impl_version := SUBSTRATE_CLI_IMPL_VERSION;
  description := description_text;
  author := CARGO_PKG_AUTHORS;
  support_url := "https://github.com/paritytech/polkadot-sdk/issues/new";
  copyright_start_year := 2020;
  sc_load_spec := load_spec read_json_file;
|}.

(** The relay chain's specifications are those of the Polkadot node, started without
    arguments. *)
Definition RelayChainCli_SubstrateCli : SubstrateCli RelaySpec := {|
  impl_name := "Parachain Collator Template";
  impl_version := SUBSTRATE_CLI_IMPL_VERSION;
  description := description_text;
  author := CARGO_PKG_AUTHORS;
  support_url := "https://github.com/paritytech/polkadot-sdk/issues/new";
  copyright_start_year := 2020;
  sc_load_spec := polkadot_load_spec [executable];
|}.

(** Both command lines present one node; without a chain id, and for ["local"], the parachain
    side takes the local specification. *)
Theorem one_node_two_chains :
  impl_name Cli_SubstrateCli = impl_name RelayChainCli_SubstrateCli
  ∧ description Cli_SubstrateCli = description RelayChainCli_SubstrateCli
  ∧ copyright_start_year Cli_SubstrateCli = copyright_start_year RelayChainCli_SubstrateCli
  ∧ sc_load_spec Cli_SubstrateCli "" = sc_load_spec Cli_SubstrateCli "local".
Proof. done. Qed.
End identity.

Section command.
Context {Y : CliTypes} {V : Service.ServiceTypes} {VE : Service.ServiceEnv} {E : NodeEnv}.
Context {G : GenesisEnv}.
(** [cfg!(feature = "runtime-benchmarks")]. *)
Context (runtime_benchmarks : bool).

Inductive BenchmarkCmd : Type :=
| Benchmark_Pallet (cmd : Cmd)
| Benchmark_Block (cmd : Cmd)
| Benchmark_Storage (cmd : Cmd)
| Benchmark_Machine (cmd : Cmd)
| Benchmark_Other (cmd : Cmd).

Definition benchmark_cmd (b : BenchmarkCmd) : Cmd :=
  match b with
  | Benchmark_Pallet cmd | Benchmark_Block cmd | Benchmark_Storage cmd
  | Benchmark_Machine cmd | Benchmark_Other cmd => cmd
  end.

(** Sub-commands supported by the collator. *)
Inductive Subcommand : Type :=
| BuildSpec (cmd : Cmd)
| ExportChainSpec (cmd : Cmd)
| CheckBlock (cmd : Cmd)
| ExportBlocks (cmd : Cmd)
| ExportState (cmd : Cmd)
| ImportBlocks (cmd : Cmd)
| Revert (cmd : Cmd)
| PurgeChain (cmd : Cmd)
| ExportGenesisHead (cmd : Cmd)
| ExportGenesisWasm (cmd : Cmd)
| Benchmark (cmd : BenchmarkCmd).

Record Cli : Type := {
  subcommand : option Subcommand;
  run_args : Cmd;
  no_hardware_benchmarks : bool;
  relay_chain_args : list string;
}.

(** ** The service *)

(** [service::new_partial], [service::start_parachain_node] (less the client it returns) and
    [cli.load_spec], with their errors converted. *)
Definition on_service {A} (m : M Service.Node Service.Fault A) : M Process Failure A :=
  map_err_m service_failure (zoom service_node set_service_node m).

Definition new_partial (config : Configuration) : M Process Failure Service.PartialComponents :=
  on_service (Service.new_partial (service_config config)).

Definition start_parachain_node (config : Configuration)
    (polkadot_config : Service.RelayConfiguration) (collator_options : Service.CollatorOptions)
    (hwbench : option Service.HwBench) : M Process Failure Service.TaskManager :=
  r ← on_service (Service.start_parachain_node (service_config config) polkadot_config
                    collator_options hwbench);
  mret r.1.

Definition cli_load_spec (id : string) : M Process Failure ChainSpec := λ p,
  (map_err input_error (load_spec (λ path, from_json_file path p) id), p).

(** ** Commands *)

Definition construct_async_run (cmd : Cmd)
    (code : Service.PartialComponents → Configuration → M Process Failure Future) : M Process Failure unit :=
  runner ← create_runner cmd;
  async_run runner (λ config,
    components ← new_partial config;
    v ← code components config;
    mret (v, Service.task_manager components)).

(** The relay chain's configuration, from the arguments after [--]. *)
Definition relay_configuration (cli : Cli) (config : Configuration) :
    M Process Failure Service.RelayConfiguration :=
  let polkadot_cli :=
    RelayChainCli_new parse_from path_join (spec_extension config) (configuration_path config)
      (executable_name :: relay_chain_args cli) in
  map_err_m (λ err, text_error ("Relay chain argument error: " +:+ err)%string)
    (create_configuration (RelayChainCli_configuration base_path_of polkadot_cli) config).

Definition run_benchmark (b : BenchmarkCmd) : M Process Failure unit :=
  runner ← create_runner (benchmark_cmd b);
  match b with
  | Benchmark_Pallet cmd =>
      if runtime_benchmarks
      then sync_run runner (λ config, benchmark_pallet_run cmd config)
      else lift_result (Err (text_error "Benchmarking wasn't enabled when building the node. You can enable it with `--features runtime-benchmarks`."))
  | Benchmark_Block cmd =>
      sync_run runner (λ config,
        partials ← new_partial config;
        benchmark_block_run cmd partials)
  | Benchmark_Storage cmd =>
      if runtime_benchmarks
      then sync_run runner (λ config,
        partials ← new_partial config;
        benchmark_storage_run cmd config partials)
      else lift_result (Err (input_error "Compile with --features=runtime-benchmarks to enable storage benchmarks."))
  | Benchmark_Machine cmd => sync_run runner (λ config, benchmark_machine_run cmd config)
  | Benchmark_Other _ => lift_result (Err (text_error "Benchmarking sub-command unsupported"))
  end.

(** The hardware benchmark, unless it is turned off or there is no database to try. *)
Definition gather_hwbench (cli : Cli) (config : Configuration) :
    M Process Failure (option Service.HwBench) := λ p,
  match (if no_hardware_benchmarks cli then None else database_path config) with
  | Some path => let '(b, p') := create_and_gather_hwbench path p in (Ok (Some b), p')
  | None => (Ok None, p)
  end.

(** No sub-command: run a node. *)
Definition run_node (cli : Cli) : M Process Failure unit :=
  runner ← create_runner (normalize (run_args cli));
  let collator_options := collator_options (run_args cli) in
  run_node_until_exit runner (λ config,
    hwbench ← gather_hwbench cli config;
    polkadot_config ← relay_configuration cli config;
    start_parachain_node config polkadot_config collator_options hwbench).

(** [run], after the arguments have been parsed. *)
Definition run (cli : Cli) : M Process Failure unit :=
  match subcommand cli with
  | Some (BuildSpec cmd) =>
      runner ← create_runner cmd;
      sync_run runner (λ config, build_spec_run cmd config)
  | Some (CheckBlock cmd) =>
      construct_async_run cmd (λ components _, mret (check_block_run cmd components))
  | Some (ExportChainSpec cmd) =>
      chain_spec ← cli_load_spec (cmd_chain cmd);
      export_chain_spec_run cmd chain_spec
  | Some (ExportBlocks cmd) =>
      construct_async_run cmd (λ components config,
        mret (export_blocks_run cmd components config))
  | Some (ExportState cmd) =>
      construct_async_run cmd (λ components config,
        mret (export_state_run cmd components config))
  | Some (ImportBlocks cmd) =>
      construct_async_run cmd (λ components _, mret (import_blocks_run cmd components))
  | Some (Revert cmd) =>
      construct_async_run cmd (λ components _, mret (revert_run cmd components))
  | Some (PurgeChain cmd) =>
      runner ← create_runner cmd;
      sync_run runner (λ config,
        polkadot_config ← relay_configuration cli config;
        purge_chain_run cmd config polkadot_config)
  | Some (ExportGenesisHead cmd) =>
      runner ← create_runner cmd;
      sync_run runner (λ config,
        partials ← new_partial config;
        export_genesis_head_run cmd partials)
  | Some (ExportGenesisWasm cmd) =>
      runner ← create_runner cmd;
      sync_run runner (λ _,
        spec ← cli_load_spec (default ""%string (cmd_shared_chain cmd));
        export_genesis_wasm_run cmd spec)
  | Some (Benchmark cmd) => run_benchmark cmd
  | None => run_node cli
  end.

End command.
