(* ===== verification/CommandTheorems.v ===== *)
(** * Theorems about the node's command line

    How [run] fails, and what the node it starts has spawned: the composition of the command
    line with the service. *)

From stdpp Require Import strings.
From S2P Require Import Prelude Node NodeTheorems Service ServiceTheorems Command.
Local Open Scope N_scope.

Section command.
Context {Y : CliTypes} {V : Service.ServiceTypes} {VE : Service.ServiceEnv} {E : NodeEnv}.
Context {G : GenesisEnv} (runtime_benchmarks : bool).
Local Notation run := (Command.run runtime_benchmarks).



Context {ES : NodeEnvSpec E}.

Ltac run_cbn := unfold Command.run, run_node, run_benchmark, construct_async_run, mbind, M_bind; cbn.


(** C34: what running the node without a sub-command does.  Once its runner is made,
    its hardware benchmarked (unless that is turned off) and the relay chain's arguments read,
    it starts the service with just these, the collator options of the command line and the
    runner's configuration; if that succeeds the node runs with the background tasks of its
    configuration and, as an authority, the authoring task, all in their order; if not, the
    service's error is the command's, and what was spawned is a prefix of the background
    tasks. *)
Theorem node_runs cli p r p1 hwbench p2 relay p3 :
  subcommand cli = None →
  create_runner (normalize (run_args cli)) p = (Ok r, p1) →
  gather_hwbench cli (configuration r) p1 = (Ok hwbench, p2) →
  relay_configuration cli (configuration r) p2 = (Ok relay, p3) →
  let service := service_config (configuration r) in
  let options := collator_options (run_args cli) in
  let config := Service.prepare_node_config service in
  let '(result, p') := run cli p in
  ∃ ts, Service.spawned (service_node p') = Service.spawned (service_node p3) ++ ts
    ∧ match (Service.start_parachain_node service relay options hwbench (service_node p3)).1 with
      | Ok _ => map describe ts = background_tasks config hwbench ++ authoring_tasks config
      | Err fault =>
          result = Err (service_failure fault)
          ∧ map describe ts `prefix_of` background_tasks config hwbench
      end.
Proof.
  intros Hsub Hrunner Hhw Hrelay service options config.
  destruct (emits_start service relay options hwbench (service_node p3)) as (ts & Hts & Hstarted).
  set (start := λ config,
    hwbench ← gather_hwbench cli config;
    polkadot_config ← relay_configuration cli config;
    start_parachain_node config polkadot_config options hwbench).
  assert (Hrun : run cli p = run_node_until_exit r start p1)
    by (run_cbn; rewrite Hsub, Hrunner; done).
  rewrite Hrun.
  assert (Hstart : start (configuration r) p1
    = start_parachain_node (configuration r) relay options hwbench p3)
    by (unfold start, mbind, M_bind; by rewrite Hhw, Hrelay).
  unfold start_parachain_node, on_service, zoom, map_err_m, mbind, M_bind in Hstart.
  fold service in Hstart.
  destruct (Service.start_parachain_node service relay options hwbench (service_node p3))
    as [[x|fault] n] eqn:Hservice; cbn in Hstart, Hts, Hstarted.
  - pose proof (run_node_started r start p1 _ _ Hstart) as Hkept.
    destruct (run_node_until_exit r start p1) as [result p']. cbn in Hkept.
    exists ts. by rewrite Hkept, service_node_set.
  - rewrite (run_node_error r start p1 _ _ Hstart). exists ts. rewrite service_node_set.
    split; [done|]. cbn. split; [done|]. destruct fault; [done|].
    destruct Hstarted as [-> _]. done.
Qed.
End command.

(** ** The hypotheses hold *)

#[export] Instance plain_cli : CliTypes := {|
  SharedParams := unit; ImportParams := unit; NetworkParams := unit; KeystoreParams := unit;
  RpcEndpoint := unit; PrometheusConfig := unit; Role := unit; TransactionPoolOptions := unit;
  RpcMethods := unit; TelemetryEndpoints := unit; Spec := unit;
|}.

(** A process that logs what it does beside the service's state, in which the relay chain's
    arguments are refused if there are any. *)
Record LogProcess : Type := { lines : list string; log_service : Service.Node }.

Definition log_step {E A} (line : string) (a : A) : M LogProcess E A :=
  λ p, (Ok a, {| lines := lines p ++ [line]; log_service := log_service p |}).

(** A command line that only counts its arguments, as connections. *)
Definition log_configuration (args : list string) : CliConfiguration := {|
  shared_params := tt : SharedParams; import_params := None; network_params := None;
  keystore_params := None; base_path := Ok None; rpc_addr _ := Ok None;
  prometheus_config _ _ := Ok None; init := None; chain_id _ := Ok ""%string;
  role _ := Ok (tt : Role); transaction_pool _ := Ok (tt : TransactionPoolOptions);
  trie_cache_maximum_size := Ok None; Node.rpc_methods := Ok (tt : RpcMethods);
  rpc_max_connections := Ok (N.of_nat (length args)); rpc_cors _ := Ok None;
  default_heap_pages := Ok None; force_authoring := Ok false; disable_grandpa := Ok false;
  max_runtime_instances := Ok None; announce_block := Ok true;
  telemetry_endpoints _ := Ok None; node_name := Ok "node"%string;
|}.

#[export] Instance log_env : NodeEnv := {|
  Process := LogProcess; Failure := string; text_error := id; input_error := id;
  Cmd := string; Runner := unit; Configuration := unit; Future := unit;
  service_config _ := collator_config; service_node := log_service;
  set_service_node n p := {| lines := lines p; log_service := n |};
  service_failure f := match f with Service.Failed e => e | Service.Panic e => e end;
  create_runner cmd := log_step ("runner " +:+ cmd) tt;
  sync_run r f := f r;
  async_run r f p := match f r p with (Ok _, p') => (Ok tt, p') | (Err e, p') => (Err e, p') end;
  run_node_until_exit r f p :=
    match f r p with (Ok _, p') => (Ok tt, p') | (Err e, p') => (Err e, p') end;
  build_spec_run cmd _ := log_step cmd tt; check_block_run _ _ := tt;
  export_chain_spec_run _ spec := log_step (spec_id spec) tt; export_blocks_run _ _ _ := tt;
  export_state_run _ _ _ := tt; import_blocks_run _ _ := tt; revert_run _ _ := tt;
  purge_chain_run _ _ _ := log_step "deleted" tt;
  export_genesis_head_run cmd _ := log_step cmd tt;
  export_genesis_wasm_run _ spec := log_step (spec_id spec) tt;
  benchmark_pallet_run cmd _ := log_step cmd tt; benchmark_block_run cmd _ := log_step cmd tt;
  benchmark_storage_run cmd _ _ := log_step cmd tt;
  benchmark_machine_run cmd _ := log_step cmd tt;
  cmd_chain cmd := cmd; cmd_shared_chain cmd := Some cmd;
  from_json_file _ _ := Err "no such file"%string; normalize cmd := cmd;
  collator_options _ := default_options; executable_name := "node"%string;
  spec_extension _ := Some {| relay_chain := "rococo-local" |};
  configuration_path _ := "/data"%string; database_path _ := None;
  create_and_gather_hwbench _ p := (tt : Service.HwBench, p); parse_from := log_configuration;
  path_join a _ := a; base_path_of _ := Ok None;
  create_configuration c _ :=
    match rpc_max_connections c with
    | Ok 1 => lift_result (Ok relay_config)
    | _ => lift_result (Err "bad flag"%string)
    end;
|}.

#[export, refine] Instance log_env_spec : NodeEnvSpec log_env := {|
  configuration := (λ r, r) : Runner → Configuration;
|}.
Proof.
  - done.
  - intros r f p e p' H. cbn in *. by rewrite H.
  - intros r f p e p' H. cbn in *. by rewrite H.
  - intros r f p tm p' H. cbn in *. by rewrite H.
  - done.
Defined.

Definition a_cmd (name : string) : @Cmd _ _ log_env := name.
Definition log (ls : list string) : @Process _ _ log_env :=
  {| lines := ls; log_service := fresh_node |}.
Definition the_runner : @Runner _ _ log_env := tt.



(** A collator without further arguments. *)
Definition collator_cli : Cli := {|
  subcommand := None; run_args := a_cmd "collator"; no_hardware_benchmarks := true;
  relay_chain_args := [] |}.

Lemma node_runs_witness :
  ∃ ts, Service.spawned (service_node (run false collator_cli (log [])).2) = [] ++ ts
    ∧ map describe ts = background_tasks collator_config None ++ authoring_tasks collator_config.
Proof.
  pose proof (node_runs false collator_cli (log []) the_runner
    (log ["runner collator"%string]) None (log ["runner collator"%string]) relay_config
    (log ["runner collator"%string]) eq_refl eq_refl eq_refl eq_refl) as H.
  exact H.
Defined.
