(* ===== verification/Xcm.v ===== *)
(** * Cross-consensus configuration

    [runtime/src/configs/xcm_config.rs] and the delivery and origin settings of
    [runtime/src/configs/mod.rs]: which messages pass the barrier, which account and origin a
    location acts as, where messages are sent.  The file composes the SDK's building blocks at
    the level of types; here each composition is a value of a type of expressions whose leaves
    are the SDK's blocks, and what the blocks do is a class of operations with their documented
    behaviour. *)

From S2P Require Import Prelude Types Weights Runtime.
Local Open Scope N_scope.

Module Xcm.

(** ** Locations and messages *)

Inductive BodyId : Set :=
| Executive
| Defense
| OtherBody (tag : N).

Inductive BodyPart : Set :=
| Voice
| OtherPart (tag : N).

Inductive Junction : Set :=
| Parachain (id : N)
| AccountId32 (network : option N) (id : N)
| Plurality (id : BodyId) (part : BodyPart)
| OtherJunction (tag : N).

#[export] Instance BodyId_eq_dec : EqDecision BodyId.
Proof. solve_decision. Defined.
#[export] Instance BodyPart_eq_dec : EqDecision BodyPart.
Proof. solve_decision. Defined.
#[export] Instance Junction_eq_dec : EqDecision Junction.
Proof. solve_decision. Defined.

Record Location : Set := {
  parents : N;
  interior : list Junction;
}.

#[export] Instance Location_eq_dec : EqDecision Location.
Proof. solve_decision. Defined.

(** [Location::parent()]. *)
Definition parent : Location := {| parents := 1; interior := [] |}.

(** [Location::here()], the chain itself. *)
Definition here : Location := {| parents := 0; interior := [] |}.

(** Instructions, as far as the configured blocks tell them apart. *)
Inductive Instruction : Set :=
| WithdrawAsset
| ReserveAssetDeposited
| ReceiveTeleportedAsset
| ClaimAsset
(** Payment for the execution up to a weight limit, [None] for an unlimited one, and without
    one. *)
| BuyExecution (weight_limit : option (N * N))
| PayFees
(** With an unlimited weight. *)
| UnpaidExecution
(** With a weight limit. *)
| UnpaidExecutionUpTo (ref_time proof_size : N)
| DescendOrigin (into : list Junction)
| InitiateReserveWithdraw (reserve : Location)
| DepositReserveAsset (dest : Location)
| TransferReserveAsset (dest : Location)
| WithNested (program : list Instruction)
| SetTopic (topic : N)
| OtherInstruction (tag : N).

(** The kind of local origin a [Transact] asks for. *)
Inductive OriginKind : Set :=
| Native
| SovereignAccount
| Superuser
| Kind_Xcm.

(** The local origins that XCM can produce. *)
Inductive XcmOrigin : Set :=
| Origin_Root
| Origin_Signed (who : N)
| Origin_Relay
| Origin_SiblingPara (id : N)
| Origin_Xcm (location : Location).

#[export] Instance XcmOrigin_eq_dec : EqDecision XcmOrigin.
Proof. solve_decision. Defined.

(** ** Compositions *)

Inductive LocationFilter : Set :=
| Everything
| Nothing
| ParentOrParentsExecutivePlurality.

(** [Contains::contains]; the last one is the runtime's own. *)
Definition contains (f : LocationFilter) (location : Location) : bool :=
  match f with
  | Everything => true
  | Nothing => false
  | ParentOrParentsExecutivePlurality =>
      match parents location, interior location with
      | 1, [] => true
      | 1, [Plurality Executive _] => true
      | _, _ => false
      end
  end.

Inductive DenyExpr : Set :=
| DenyReserveTransferToRelayChain
| DenyRecursively (d : DenyExpr).

Inductive BarrierExpr : Set :=
| TakeWeightCredit
| AllowTopLevelPaidExecutionFrom (f : LocationFilter)
| AllowExplicitUnpaidExecutionFrom (f : LocationFilter)
| WithComputedOrigin (inner : BarrierExpr) (local_universal : list Junction) (max_prefixes : N)
| DenyThenTry (deny : DenyExpr) (allow : BarrierExpr)
| TrailingSetTopicAsId (inner : BarrierExpr)
| BarrierTuple (bs : list BarrierExpr).

Inductive ConvertLocationExpr : Set :=
| ParentIsPreset
| SiblingParachainConvertsVia
| AccountId32Aliases (network : option N)
| ConvertLocationTuple (cs : list ConvertLocationExpr).

Inductive ConvertOriginExpr : Set :=
| SovereignSignedViaLocation (via : ConvertLocationExpr)
| RelayChainAsNative (origin : XcmOrigin)
| SiblingParachainAsNative
| SignedAccountId32AsNative (network : option N)
| XcmPassthrough
| ConvertOriginTuple (cs : list ConvertOriginExpr).

(** Whose assets are trusted to stand in reserve where the message comes from. *)
Inductive ReserveExpr : Set :=
| NativeAsset.

(** The location that a local origin sends messages from. *)
Inductive OriginToLocationExpr : Set :=
| SignedToAccountId32 (network : option N).

(** Which local origins may send or execute messages, and from which location. *)
Inductive EnsureXcmExpr : Set :=
| EnsureXcmOrigin (conversion : OriginToLocationExpr).

(** [FungibleAdapter<Balances, IsConcrete<Asset>, Accounts, ..>] without teleport checking: the
    asset that stands for the native currency, and whose account holds it. *)
Record FungibleAdapter : Set := {
  IsConcrete : Location;
  adapter_accounts : ConvertLocationExpr;
}.

(** [FixedWeightBounds<Unit, _, Max>]. *)
Record FixedWeightBounds {W : Weights} : Type := {
  UnitWeight : Weight;
  MaxWeighed : N;
}.

Inductive RouterExpr : Set :=
| ParentAsUmp
| XcmpQueueRouter
| WithUniqueTopic (inner : RouterExpr)
| RouterTuple (rs : list RouterExpr).

(** The origins that a privileged call may come from. *)
Inductive EnsureExpr : Set :=
| EnsureRoot
| EnsureXcm_IsVoiceOfBody (prefix : Location) (body : BodyId)
| EitherOfDiverse (a b : EnsureExpr).

(** ** The configuration *)

Definition RelayLocation : Location := parent.
Definition RelayNetwork : option N := None.
Definition RelayChainOrigin : XcmOrigin := Origin_Relay.

Definition LocationToAccountId : ConvertLocationExpr :=
  ConvertLocationTuple [
    ParentIsPreset;
    SiblingParachainConvertsVia;
    AccountId32Aliases RelayNetwork].

Definition LocalAssetTransactor : FungibleAdapter := {|
  IsConcrete := RelayLocation; adapter_accounts := LocationToAccountId |}.

Definition XcmOriginToTransactDispatchOrigin : ConvertOriginExpr :=
  ConvertOriginTuple [
    SovereignSignedViaLocation LocationToAccountId;
    RelayChainAsNative RelayChainOrigin;
    SiblingParachainAsNative;
    SignedAccountId32AsNative RelayNetwork;
    XcmPassthrough].

(** The chain's own place, from its parachain id. *)
Definition UniversalLocation (parachain_id : N) : list Junction := [Parachain parachain_id].

Definition Barrier (parachain_id : N) : BarrierExpr :=
  TrailingSetTopicAsId
    (DenyThenTry
       (DenyRecursively DenyReserveTransferToRelayChain)
       (BarrierTuple [
          TakeWeightCredit;
          WithComputedOrigin
            (BarrierTuple [
               AllowTopLevelPaidExecutionFrom Everything;
               AllowExplicitUnpaidExecutionFrom ParentOrParentsExecutivePlurality])
            (UniversalLocation parachain_id)
            8])).

Definition XcmRouter : RouterExpr :=
  WithUniqueTopic (RouterTuple [ParentAsUmp; XcmpQueueRouter]).

Definition LocalOriginToLocation : OriginToLocationExpr := SignedToAccountId32 RelayNetwork.

Definition StakingAdminBodyId : BodyId := Defense.

Definition CollatorSelectionUpdateOrigin : EnsureExpr :=
  EitherOfDiverse EnsureRoot (EnsureXcm_IsVoiceOfBody RelayLocation StakingAdminBodyId).

Definition MaxInstructions : N := 100.
Definition MaxAssetsIntoHolding : N := 64.

Section weigher.
Context {W : Weights}.

Definition UnitWeightCost : Weight := from_parts 1000000000 (64 * 1024).

(** The weigher of the executor and of the XCM pallet. *)
Definition Weigher : FixedWeightBounds :=
  {| UnitWeight := UnitWeightCost; MaxWeighed := MaxInstructions |}.
End weigher.

(** [XcmConfig], the settings of the executor that bear on what messages may do; [None] stands
    for the unit type, which recognises nothing. *)
Record ExecutorConfig {W : Weights} : Type := {
  AssetTransactor : FungibleAdapter;
  XcmSender : RouterExpr;
  OriginConverter : ConvertOriginExpr;
  IsReserve : ReserveExpr;
  IsTeleporter : option ReserveExpr;
  config_UniversalLocation : list Junction;
  config_Barrier : BarrierExpr;
  config_Weigher : FixedWeightBounds;
  Trader_asset : Location;
  config_MaxAssetsIntoHolding : N;
  UniversalAliases : LocationFilter;
  SafeCallFilter : LocationFilter;
  Aliasers : LocationFilter;
}.

Definition XcmConfig {W : Weights} (parachain_id : N) : ExecutorConfig := {|
  AssetTransactor := LocalAssetTransactor;
  XcmSender := XcmRouter;
  OriginConverter := XcmOriginToTransactDispatchOrigin;
  IsReserve := NativeAsset;
  IsTeleporter := None;
  config_UniversalLocation := UniversalLocation parachain_id;
  config_Barrier := Barrier parachain_id;
  config_Weigher := Weigher;
  Trader_asset := RelayLocation;
  config_MaxAssetsIntoHolding := MaxAssetsIntoHolding;
  UniversalAliases := Nothing;
  SafeCallFilter := Everything;
  Aliasers := Nothing;
|}.

(** The settings of the XCM pallet: who may use its calls, and what it shares with the
    executor. *)
Record PalletXcmConfig {W : Weights} : Type := {
  SendXcmOrigin : EnsureXcmExpr;
  pallet_XcmRouter : RouterExpr;
  ExecuteXcmOrigin : EnsureXcmExpr;
  XcmExecuteFilter : LocationFilter;
  XcmExecutor_config : ExecutorConfig;
  XcmTeleportFilter : LocationFilter;
  XcmReserveTransferFilter : LocationFilter;
  pallet_Weigher : FixedWeightBounds;
  pallet_UniversalLocation : list Junction;
  VERSION_DISCOVERY_QUEUE_SIZE : N;
  SovereignAccountOf : ConvertLocationExpr;
  MaxLockers : N;
  AdminOrigin : EnsureExpr;
  MaxRemoteLockConsumers : N;
}.

Definition pallet_xcm_Config {W : Weights} (parachain_id : N) : PalletXcmConfig := {|
  SendXcmOrigin := EnsureXcmOrigin LocalOriginToLocation;
  pallet_XcmRouter := XcmRouter;
  ExecuteXcmOrigin := EnsureXcmOrigin LocalOriginToLocation;
  XcmExecuteFilter := Nothing;
  XcmExecutor_config := XcmConfig parachain_id;
  XcmTeleportFilter := Everything;
  XcmReserveTransferFilter := Nothing;
  pallet_Weigher := Weigher;
  pallet_UniversalLocation := UniversalLocation parachain_id;
  VERSION_DISCOVERY_QUEUE_SIZE := 100;
  SovereignAccountOf := LocationToAccountId;
  MaxLockers := 8;
  AdminOrigin := EnsureRoot;
  MaxRemoteLockConsumers := 0;
|}.

(** ** The SDK's blocks *)

Section meaning.

(** What [DenyReserveTransferToRelayChain] looks for in an instruction. *)
Definition reserve_transfer_to_relay (i : Instruction) : bool :=
  match i with
  | InitiateReserveWithdraw l | DepositReserveAsset l | TransferReserveAsset l =>
      bool_decide (l = parent)
  | _ => false
  end.

(** The same at any depth of nested programs. *)
Fixpoint nested_reserve_transfer (i : Instruction) : bool :=
  match i with
  | WithNested program => existsb nested_reserve_transfer program
  | _ => reserve_transfer_to_relay i
  end.

Definition denies (d : DenyExpr) (message : list Instruction) : bool :=
  match d with
  | DenyReserveTransferToRelayChain => existsb reserve_transfer_to_relay message
  | DenyRecursively DenyReserveTransferToRelayChain => existsb nested_reserve_transfer message
  | DenyRecursively (DenyRecursively _) => existsb nested_reserve_transfer message
  end.

(** An instruction without a nested program, of which a barrier checks a bounded depth. *)
Definition is_flat (i : Instruction) : bool :=
  match i with WithNested _ => false | _ => true end.

(** An instruction whose weight is a unit: not one with a program or a call inside. *)
Definition is_plain (i : Instruction) : bool :=
  match i with WithNested _ | OtherInstruction _ => false | _ => true end.

(** The instructions that put assets into the holding register, from which execution is
    paid. *)
Definition fills_holding (i : Instruction) : bool :=
  match i with
  | WithdrawAsset | ReserveAssetDeposited | ReceiveTeleportedAsset | ClaimAsset => true
  | _ => false
  end.

(** The instructions that pay for an execution of weight [w], as far as their limit goes. *)
Definition buys {W : Weights} (w : Weight) (i : Instruction) : bool :=
  match i with
  | BuyExecution None | PayFees => true
  | BuyExecution (Some (time, proof)) => (ref_time w <=? time) && (proof_size w <=? proof)
  | _ => false
  end.

(** A message that starts by putting assets into holding and pays from them for its weight. *)
Definition pays {W : Weights} (w : Weight) (message : list Instruction) : bool :=
  match message with
  | first :: rest => fills_holding first && existsb (buys w) rest
  | [] => false
  end.

(** The message without the topic it ends with. *)
Definition strip_topic (message : list Instruction) : list Instruction :=
  match last message with
  | Some (SetTopic _) => take (length message - 1) message
  | _ => message
  end.

(** A location from the point of view of its interior. *)
Definition descend (l : Location) (into : list Junction) : Location :=
  {| parents := parents l; interior := interior l ++ into |}.
End meaning.

Class XcmBuilder {W : Weights} : Type := {
  Properties : Type;
  ProcessMessageError : Type;
  SendError : Type;
  Queue : Type;
  weight_credit : Properties → Weight;
  should_execute : BarrierExpr → Location → list Instruction → Weight →
    M Properties ProcessMessageError unit;
  (** The origin that a message's prefix computes, and the rest of the message. *)
  computed_origin : list Junction → N → Location → list Instruction →
    Location * list Instruction;
  (** The effective origin where a message asks for unpaid execution, if it does. *)
  unpaid_origin : Location → list Instruction → option Location;
  convert_location : ConvertLocationExpr → Location → option N;
  parent_account : N;
  sibling_account : N → N;
  convert_origin : ConvertOriginExpr → Location → OriginKind → option XcmOrigin;
  (** The queue a router hands a message for a destination to; [None] when it does not
      apply. *)
  UpwardQueue : Queue;
  SiblingQueue : N → Queue;
  route : RouterExpr → Location → option Queue;
  ensure_origin : EnsureExpr → XcmOrigin → bool;
  (** [ContainsPair<Asset, Location>::contains], by the location that identifies the asset. *)
  trusts : ReserveExpr → Location → Location → bool;
  (** Whether the transactor takes the asset for its currency. *)
  transacts : FungibleAdapter → Location → bool;
  (** [TryConvert::try_convert] of a local origin to its location. *)
  try_convert : OriginToLocationExpr → XcmOrigin → option Location;
  (** [EnsureOrigin::try_origin]: the location that a local origin may act from. *)
  acting_location : EnsureXcmExpr → XcmOrigin → option Location;
  (** [WeightBounds::weight]; [None] for a message that is not weighed. *)
  message_weight : FixedWeightBounds → list Instruction → option Weight;
}.

Section acceptance.
Context {W : Weights} {B : XcmBuilder}.

(** The barrier lets a message in. *)
Definition accepts (b : BarrierExpr) (origin : Location) (message : list Instruction)
    (max_weight : Weight) (p : Properties) : Prop :=
  is_ok (should_execute b origin message max_weight p).1 = true.
End acceptance.

(** What the documentation of the blocks says. *)
Class XcmBuilderSpec {W : Weights} (B : XcmBuilder) : Prop := {
  (** Takes the weight from the credit, if there is that much. *)
  take_weight_credit o m w p :
    accepts TakeWeightCredit o m w p →
    ref_time w ≤ ref_time (weight_credit p) ∧ proof_size w ≤ proof_size (weight_credit p);
  allow_paid f o m w p :
    accepts (AllowTopLevelPaidExecutionFrom f) o m w p →
    contains f o = true ∧ pays w m = true;
  allow_unpaid f o m w p :
    accepts (AllowExplicitUnpaidExecutionFrom f) o m w p →
    ∃ o', unpaid_origin o m = Some o' ∧ contains f o' = true;
  allow_unpaid_first f o rest w p :
    contains f o = true →
    accepts (AllowExplicitUnpaidExecutionFrom f) o (UnpaidExecution :: rest) w p;
  with_computed_origin b u n o m w p :
    accepts (WithComputedOrigin b u n) o m w p ↔
    accepts b (computed_origin u n o m).1 (computed_origin u n o m).2 w p;
  deny_then_try d a o m w p :
    accepts (DenyThenTry d a) o m w p → denies d m = false ∧ accepts a o m w p;
  deny_then_try_flat d a o m w p :
    forallb is_flat m = true → denies d m = false → accepts a o m w p →
    accepts (DenyThenTry d a) o m w p;
  trailing_set_topic b o m w p :
    ∃ p', weight_credit p' = weight_credit p
      ∧ (accepts (TrailingSetTopicAsId b) o m w p ↔ accepts b o (strip_topic m) w p');
  (** The first element that lets the message in. *)
  barrier_tuple_nil o m w p : ¬ accepts (BarrierTuple []) o m w p;
  barrier_tuple_cons b bs o m w p :
    accepts (BarrierTuple (b :: bs)) o m w p ↔
    accepts b o m w p
    ∨ (¬ accepts b o m w p
       ∧ accepts (BarrierTuple bs) o m w (should_execute b o m w p).2);
  (** No prefix, nothing to compute; a descent moves the origin inwards. *)
  computed_none u n o i rest :
    (i = UnpaidExecution ∨ fills_holding i = true) →
    computed_origin u n o (i :: rest) = (o, i :: rest);
  computed_descend u n o into rest :
    0 < n →
    computed_origin u n o (DescendOrigin into :: rest)
    = computed_origin u (n - 1) (descend o into) rest;
  parent_is_preset l :
    convert_location ParentIsPreset l = if decide (l = parent) then Some parent_account else None;
  sibling_converts l :
    convert_location SiblingParachainConvertsVia l
    = match parents l, interior l with
      | 1, [Parachain id] => Some (sibling_account id)
      | _, _ => None
      end;
  account_aliases net l :
    convert_location (AccountId32Aliases net) l
    = match parents l, interior l with
      | 0, [AccountId32 n id] =>
          if decide (n = None ∨ n = net) then Some id else None
      | _, _ => None
      end;
  location_tuple_nil l : convert_location (ConvertLocationTuple []) l = None;
  location_tuple_cons c cs l :
    convert_location (ConvertLocationTuple (c :: cs)) l
    = match convert_location c l with
      | Some a => Some a
      | None => convert_location (ConvertLocationTuple cs) l
      end;
  sovereign_signed via l k :
    convert_origin (SovereignSignedViaLocation via) l k
    = match k with
      | SovereignAccount => Origin_Signed <$> convert_location via l
      | _ => None
      end;
  relay_native o l k :
    convert_origin (RelayChainAsNative o) l k
    = match k with
      | Native => if decide (l = parent) then Some o else None
      | _ => None
      end;
  sibling_native l k :
    convert_origin SiblingParachainAsNative l k
    = match k, parents l, interior l with
      | Native, 1, [Parachain id] => Some (Origin_SiblingPara id)
      | _, _, _ => None
      end;
  signed_native net l k :
    convert_origin (SignedAccountId32AsNative net) l k
    = match k, parents l, interior l with
      | Native, 0, [AccountId32 n id] =>
          if decide (n = None ∨ n = net) then Some (Origin_Signed id) else None
      | _, _, _ => None
      end;
  xcm_passthrough l k :
    convert_origin XcmPassthrough l k
    = match k with Kind_Xcm => Some (Origin_Xcm l) | _ => None end;
  origin_tuple_nil l k : convert_origin (ConvertOriginTuple []) l k = None;
  origin_tuple_cons c cs l k :
    convert_origin (ConvertOriginTuple (c :: cs)) l k
    = match convert_origin c l k with
      | Some a => Some a
      | None => convert_origin (ConvertOriginTuple cs) l k
      end;
  parent_as_ump l :
    route ParentAsUmp l = if decide (l = parent) then Some UpwardQueue else None;
  xcmp_queue l :
    route XcmpQueueRouter l
    = match parents l, interior l with
      | 1, [Parachain id] => Some (SiblingQueue id)
      | _, _ => None
      end;
  with_unique_topic r l : route (WithUniqueTopic r) l = route r l;
  router_tuple_nil l : route (RouterTuple []) l = None;
  router_tuple_cons r rs l :
    route (RouterTuple (r :: rs)) l
    = match route r l with Some q => Some q | None => route (RouterTuple rs) l end;
  ensure_root o : ensure_origin EnsureRoot o = true ↔ o = Origin_Root;
  ensure_voice prefix body o :
    ensure_origin (EnsureXcm_IsVoiceOfBody prefix body) o = true ↔
    o = Origin_Xcm (descend prefix [Plurality body Voice]);
  either_of a b o :
    ensure_origin (EitherOfDiverse a b) o = ensure_origin a o || ensure_origin b o;
  (** A location is the reserve of the asset it identifies. *)
  native_asset asset l : trusts NativeAsset asset l = bool_decide (asset = l);
  is_concrete a asset : transacts a asset = bool_decide (asset = IsConcrete a);
  signed_location net o :
    try_convert (SignedToAccountId32 net) o
    = match o with
      | Origin_Signed who => Some {| parents := 0; interior := [AccountId32 net who] |}
      | _ => None
      end;
  (** Root, where it does not convert, stands for the chain. *)
  ensure_xcm_origin c o :
    acting_location (EnsureXcmOrigin c) o
    = match try_convert c o with
      | Some l => Some l
      | None => if decide (o = Origin_Root) then Some here else None
      end;
  fixed_weight b m :
    forallb is_plain m = true →
    match message_weight b m with
    | Some w =>
        N.of_nat (length m) ≤ MaxWeighed b
        ∧ ref_time w = saturating_mul u64_max (ref_time (UnitWeight b)) (N.of_nat (length m))
        ∧ proof_size w
          = saturating_mul u64_max (proof_size (UnitWeight b)) (N.of_nat (length m))
    | None => MaxWeighed b < N.of_nat (length m)
    end;
}.
End Xcm.
