(* ===== verification/XcmTheorems.v ===== *)
(** * Theorems about the cross-consensus configuration

    Which incoming messages are executed and for whom they are free, what a location may act
    as, and who may administer the collators. *)

From S2P Require Import Prelude Types Weights Runtime Xcm.
Import Xcm.
Local Open Scope N_scope.

Section xcm.
Context {W : Weights} {WS : WeightsSpec W} {B : XcmBuilder} {BS : XcmBuilderSpec B}.

(** ** The barrier *)

(** The runtime's own filter. *)
Lemma contains_parent_plurality l :
  contains ParentOrParentsExecutivePlurality l = true ↔
  l = parent ∨ ∃ part, l = descend parent [Plurality Executive part].
Proof.
  destruct l as [ps ins]. cbn. split.
  - intros H. destruct ps as [|[]]; try done. destruct ins as [|[| |[] part|] []]; try done;
      [by left|right; by exists part].
  - intros [[= -> ->]|[part [= -> ->]]]; done.
Qed.

(** Two barriers, one after the other. *)
Lemma barrier_pair b1 b2 o m w p :
  accepts (BarrierTuple [b1; b2]) o m w p ↔
  accepts b1 o m w p ∨ ¬ accepts b1 o m w p ∧ accepts b2 o m w (should_execute b1 o m w p).2.
Proof.
  rewrite !barrier_tuple_cons. pose proof (barrier_tuple_nil (B := B)) as Hnil. naive_solver.
Qed.

(** C20: a message that arrives without prepaid weight passes the barrier only if
    no part of it, nested programs included, moves reserves to the relay chain, and if, for
    the origin its prefix computes, it either begins with putting assets into holding and buys
    execution of its weight from them, or asks for unpaid execution as the relay chain itself
    or its executive body. *)
Theorem barrier_admits parachain_id o m w p :
  accepts (config_Barrier (XcmConfig parachain_id)) o m w p →
  ref_time (weight_credit p) < ref_time w →
  existsb nested_reserve_transfer (strip_topic m) = false
  ∧ let '(o', m') := computed_origin (UniversalLocation parachain_id) 8 o (strip_topic m) in
    pays w m' = true
    ∨ ∃ o'', unpaid_origin o' m' = Some o''
        ∧ (o'' = parent ∨ ∃ part, o'' = descend parent [Plurality Executive part]).
Proof.
  intros Hacc Hcredit. unfold XcmConfig, Barrier in Hacc. cbn in Hacc.
  match type of Hacc with accepts (TrailingSetTopicAsId ?b) _ _ _ _ =>
    destruct (trailing_set_topic b o m w p) as (p' & Hp' & Hiff) end.
  apply Hiff, deny_then_try in Hacc as [Hdeny Hacc]. split; [exact Hdeny|].
  apply barrier_pair in Hacc as [Htake%take_weight_credit|[_ Hacc%with_computed_origin]].
  { rewrite Hp' in Htake. lia. }
  destruct (computed_origin _ _ _ _) as [o' m']. cbn in Hacc.
  apply barrier_pair in Hacc as [[_ Hpaid]%allow_paid|[_ Hfree]]; [by left|right].
  apply allow_unpaid in Hfree as (o'' & Ho & Hin%contains_parent_plurality). eauto.
Qed.

(** The relay chain and its executive body are served. *)
Lemma relay_is_served parachain_id o rest w p :
  contains ParentOrParentsExecutivePlurality o = true →
  let m := UnpaidExecution :: rest in
  strip_topic m = m → forallb is_flat m = true → existsb nested_reserve_transfer m = false →
  accepts (config_Barrier (XcmConfig parachain_id)) o m w p.
Proof.
  intros Hin m Hstrip Hflat Hdeny. unfold XcmConfig, Barrier. cbn.
  match goal with |- accepts (TrailingSetTopicAsId ?b) _ _ _ _ =>
    destruct (trailing_set_topic b o m w p) as (p' & _ & Hiff) end.
  apply Hiff. rewrite Hstrip. apply deny_then_try_flat; [done..|].
  apply barrier_pair.
  destruct (decide (is_ok (should_execute TakeWeightCredit o m w p').1 = true));
    [by left|right; split; [done|]].
  apply with_computed_origin. subst m. rewrite computed_none by (by left). cbn.
  apply barrier_pair. set (p2 := (should_execute TakeWeightCredit _ _ _ _).2).
  destruct (decide (is_ok (should_execute (AllowTopLevelPaidExecutionFrom Everything) o
    (UnpaidExecution :: rest) w p2).1 = true)); [by left|right; split; [done|]].
  by apply allow_unpaid_first.
Qed.

(** ** Accounts and origins *)

(** The accounts that locations own. *)
Lemma location_account l :
  convert_location LocationToAccountId l
  = match parents l, interior l with
    | 1, [] => Some parent_account
    | 1, [Parachain id] => Some (sibling_account id)
    | 0, [AccountId32 None id] => Some id
    | _, _ => None
    end.
Proof.
  unfold LocationToAccountId. rewrite !location_tuple_cons, location_tuple_nil.
  rewrite parent_is_preset, sibling_converts, account_aliases.
  destruct l as [ps ins]. cbn. case_decide as Hp; [by injection Hp as -> ->|].
  destruct ps as [|[]]; try done.
  - destruct ins as [|[|[n|] id| |] []]; done.
  - destruct ins as [|[] []]; done.
Qed.

(** The local origin of a sender, by the kind of origin it asks for. *)
Definition sender_origin (l : Location) (kind : OriginKind) : option XcmOrigin :=
  match kind, parents l, interior l with
  | SovereignAccount, 1, [] => Some (Origin_Signed parent_account)
  | SovereignAccount, 1, [Parachain id] => Some (Origin_Signed (sibling_account id))
  | SovereignAccount, 0, [AccountId32 None id] => Some (Origin_Signed id)
  | Native, 1, [] => Some Origin_Relay
  | Native, 1, [Parachain id] => Some (Origin_SiblingPara id)
  | Native, 0, [AccountId32 None id] => Some (Origin_Signed id)
  | Kind_Xcm, _, _ => Some (Origin_Xcm l)
  | _, _, _ => None
  end.

Lemma convert_sender_origin l kind :
  convert_origin XcmOriginToTransactDispatchOrigin l kind = sender_origin l kind.
Proof.
  unfold XcmOriginToTransactDispatchOrigin, sender_origin.
  rewrite !origin_tuple_cons, origin_tuple_nil, sovereign_signed, relay_native, sibling_native,
    signed_native, xcm_passthrough, location_account.
  destruct l as [ps ins]. destruct kind; cbn; try done.
  - case_decide as Hp; [by injection Hp as -> ->|]. destruct ps as [|[]]; try done.
    + destruct ins as [|[|[n|] id| |] []]; done.
    + destruct ins as [|[] []]; done.
  - destruct ps as [|[]]; try done; destruct ins as [|[|[n|] id| |] []]; done.
Qed.

Lemma sender_origin_cases l kind o :
  sender_origin l kind = Some o →
  match o with
  | Origin_Root => False
  | Origin_Xcm l' => kind = Kind_Xcm ∧ l' = l
  | Origin_Relay => kind = Native ∧ l = parent
  | Origin_SiblingPara id => kind = Native ∧ l = descend parent [Parachain id]
  | Origin_Signed _ => kind = Native ∨ kind = SovereignAccount
  end.
Proof.
  destruct l as [ps ins]. unfold sender_origin. cbn.
  destruct kind; destruct ps as [|[]]; cbn; try (intros [= <-]; done); try done;
    destruct ins as [|[|[n|] id| |] []]; intros; simplify_eq; eauto.
Qed.

(** C29: what a [Transact] dispatches as.  A sovereign-account call is signed
    by the account of the relay chain, of the sibling parachain or of the local account that
    sent it; a native call has the relay chain's, the sibling's or the account's own origin; a
    call of the XCM kind has the sender's location; and nothing else converts.  In particular
    no message dispatches as root, and asking for the superuser is refused. *)
Theorem transact_origins parachain_id l kind :
  let origin := convert_origin (OriginConverter (XcmConfig parachain_id)) l kind in
  origin = sender_origin l kind
  ∧ origin ≠ Some Origin_Root
  ∧ (kind = Superuser → origin = None).
Proof.
  intros origin. subst origin. cbn. rewrite convert_sender_origin. split_and!; [done| |].
  - intros H. by apply sender_origin_cases in H.
  - by intros ->.
Qed.

(** ** Routing *)

Lemma route_of parachain_id l :
  route (XcmSender (XcmConfig parachain_id)) l
  = match parents l, interior l with
    | 1, [] => Some UpwardQueue
    | 1, [Parachain id] => Some (SiblingQueue id)
    | _, _ => None
    end.
Proof.
  cbn. unfold XcmRouter.
  rewrite with_unique_topic, !router_tuple_cons, router_tuple_nil, parent_as_ump, xcmp_queue.
  destruct l as [ps ins]. cbn. case_decide as Hp; [by injection Hp as -> ->|].
  destruct ps as [|[]]; try done; destruct ins as [|[] []]; done.
Qed.

(** C21: messages can be sent to exactly the places outside this chain that own an
    account here, which are the relay chain and the sibling parachains: the relay chain is
    reached upwards and a sibling through its own queue, and a call that either of them makes
    here has an origin of its own. *)
Theorem routes_match_accounts parachain_id l :
  let c := XcmConfig parachain_id in
  let queue := route (XcmSender c) l in
  (is_Some queue ↔
     parents l ≠ 0 ∧ is_Some (convert_location (adapter_accounts (AssetTransactor c)) l))
  ∧ (∀ q, queue = Some q →
       (l = parent ∧ q = UpwardQueue
        ∧ convert_origin (OriginConverter c) l Native = Some Origin_Relay)
       ∨ ∃ id, l = descend parent [Parachain id] ∧ q = SiblingQueue id
           ∧ convert_origin (OriginConverter c) l Native = Some (Origin_SiblingPara id)).
Proof.
  intros c queue. subst c queue. rewrite route_of. cbn. rewrite location_account, convert_sender_origin. destruct l as [ps ins]. cbn.
  destruct ps as [|[]]; cbn; try (by split; [naive_solver|]);
    destruct ins as [|[id| | |] []]; cbn; try (by split; [naive_solver|]).
  - split; [naive_solver|]. intros q [= <-]. by left.
  - split; [naive_solver|]. intros q [= <-]. right. by exists id.
Qed.

(** ** Trust and local senders *)

(** C30: only the relay chain can make native currency appear here: of all assets and
    senders, an asset that the executor takes for the native currency is trusted, whether as
    held in reserve or as teleported, exactly if it is the relay chain's and the relay chain
    sends it.  Nobody may execute messages locally or move reserves through the XCM pallet. *)
Theorem native_currency_trust parachain_id asset l :
  let c := XcmConfig parachain_id in
  let p := pallet_xcm_Config parachain_id in
  (transacts (AssetTransactor c) asset = true
   ∧ (trusts (IsReserve c) asset l = true ∨ ∃ e, IsTeleporter c = Some e ∧ trusts e asset l = true)
   ↔ asset = parent ∧ l = parent)
  ∧ (∀ l', contains (XcmExecuteFilter p) l' = false)
  ∧ (∀ l', contains (XcmReserveTransferFilter p) l' = false).
Proof.
  cbn. split; [|done]. rewrite is_concrete, native_asset, !bool_decide_eq_true. cbn.
  split; [|intros [-> ->]; eauto]. intros [-> [<-|(e & [=] & _)]]. done.
Qed.

(** C31: a local account that sends a message is recognised as itself: the location it
    acts from owns the sender's account, and a call made from there natively, or as sovereign
    account, is signed by the sender.  Besides signed origins only root may send, as the chain
    itself, a location that owns no account and has no local origin but its own XCM one. *)
Theorem local_senders_roundtrip parachain_id o :
  let c := XcmConfig parachain_id in
  let account := convert_location (adapter_accounts (AssetTransactor c)) in
  let origin := convert_origin (OriginConverter c) in
  match acting_location (SendXcmOrigin (pallet_xcm_Config parachain_id)) o with
  | Some l =>
      (∃ who, o = Origin_Signed who ∧ account l = Some who
         ∧ origin l Native = Some o ∧ origin l SovereignAccount = Some o)
      ∨ (o = Origin_Root ∧ l = here ∧ account l = None
         ∧ ∀ kind o', origin l kind = Some o' → kind = Kind_Xcm ∧ o' = Origin_Xcm here)
  | None => o ≠ Origin_Root ∧ ∀ who, o ≠ Origin_Signed who
  end.
Proof.
  cbn. unfold LocalOriginToLocation. rewrite ensure_xcm_origin, signed_location.
  destruct o as [|who| | |]; cbn; try done.
  - right. rewrite location_account. split_and!; [done..|]. intros kind o'.
    rewrite convert_sender_origin. destruct kind; try done. by intros [= <-].
  - left. exists who. by rewrite location_account, !convert_sender_origin.
Qed.

(** ** Collators *)

(** C27: of all the calls that arrive in messages, exactly those that the relay
    chain's staking administration sends under its own location may administer the collators;
    besides them only root may. *)
Theorem collator_admin parachain_id l kind :
  ((∃ o, convert_origin (OriginConverter (XcmConfig parachain_id)) l kind = Some o
         ∧ ensure_origin CollatorSelectionUpdateOrigin o = true)
   ↔ kind = Kind_Xcm ∧ l = descend parent [Plurality Defense Voice])
  ∧ ∀ o, ensure_origin CollatorSelectionUpdateOrigin o = true ↔
      o = Origin_Root ∨ o = Origin_Xcm (descend parent [Plurality Defense Voice]).
Proof.
  assert (Hadmin : ∀ o, ensure_origin CollatorSelectionUpdateOrigin o = true ↔
     o = Origin_Root ∨ o = Origin_Xcm (descend parent [Plurality Defense Voice])).
  { intros o. unfold CollatorSelectionUpdateOrigin.
    by rewrite either_of, orb_true_iff, ensure_root, ensure_voice. }
  split; [|exact Hadmin]. cbn. setoid_rewrite convert_sender_origin. split.
  - intros (o & Hconv%sender_origin_cases & [-> | ->]%Hadmin); [done|]. by destruct Hconv.
  - intros [-> ->]. exists (Origin_Xcm (descend parent [Plurality Defense Voice])).
    split; [done|]. apply Hadmin. by right.
Qed.
End xcm.

(** ** The hypotheses hold *)

Module SampleBuilder.
Fixpoint compute (n : N) (o : Location) (m : list Instruction) : Location * list Instruction :=
  match m with
  | DescendOrigin into :: rest =>
      if 0 <? n then compute (n - 1) (descend o into) rest else (o, m)
  | _ => (o, m)
  end.

Fixpoint admits (b : BarrierExpr) (o : Location) (m : list Instruction) (w credit : Weight) :
    bool :=
  match b with
  | TakeWeightCredit =>
      (ref_time w <=? ref_time credit) && (proof_size w <=? proof_size credit)
  | AllowTopLevelPaidExecutionFrom f => contains f o && pays w m
  | AllowExplicitUnpaidExecutionFrom f =>
      match m with UnpaidExecution :: _ => contains f o | _ => false end
  | WithComputedOrigin inner _ n => let '(o', m') := compute n o m in admits inner o' m' w credit
  | DenyThenTry d a => negb (denies d m) && admits a o m w credit
  | TrailingSetTopicAsId inner => admits inner o (strip_topic m) w credit
  | BarrierTuple bs => existsb (λ b, admits b o m w credit) bs
  end.

Fixpoint account (c : ConvertLocationExpr) (l : Location) : option N :=
  match c with
  | ParentIsPreset => if decide (l = parent) then Some 7 else None
  | SiblingParachainConvertsVia =>
      match parents l, interior l with 1, [Parachain id] => Some (1000 + id) | _, _ => None end
  | AccountId32Aliases net =>
      match parents l, interior l with
      | 0, [AccountId32 n id] => if decide (n = None ∨ n = net) then Some id else None
      | _, _ => None
      end
  | ConvertLocationTuple cs =>
      foldr (λ c found, match account c l with Some a => Some a | None => found end) None cs
  end.

Fixpoint origin (c : ConvertOriginExpr) (l : Location) (k : OriginKind) : option XcmOrigin :=
  match c with
  | SovereignSignedViaLocation via =>
      match k with SovereignAccount => Origin_Signed <$> account via l | _ => None end
  | RelayChainAsNative o =>
      match k with Native => if decide (l = parent) then Some o else None | _ => None end
  | SiblingParachainAsNative =>
      match k, parents l, interior l with
      | Native, 1, [Parachain id] => Some (Origin_SiblingPara id)
      | _, _, _ => None
      end
  | SignedAccountId32AsNative net =>
      match k, parents l, interior l with
      | Native, 0, [AccountId32 n id] =>
          if decide (n = None ∨ n = net) then Some (Origin_Signed id) else None
      | _, _, _ => None
      end
  | XcmPassthrough => match k with Kind_Xcm => Some (Origin_Xcm l) | _ => None end
  | ConvertOriginTuple cs =>
      foldr (λ c found, match origin c l k with Some a => Some a | None => found end) None cs
  end.

Fixpoint queue (r : RouterExpr) (l : Location) : option (option N) :=
  match r with
  | ParentAsUmp => if decide (l = parent) then Some None else None
  | XcmpQueueRouter =>
      match parents l, interior l with 1, [Parachain id] => Some (Some id) | _, _ => None end
  | WithUniqueTopic r => queue r l
  | RouterTuple rs =>
      foldr (λ r found, match queue r l with Some q => Some q | None => found end) None rs
  end.

Fixpoint ensure (e : EnsureExpr) (o : XcmOrigin) : bool :=
  match e with
  | EnsureRoot => bool_decide (o = Origin_Root)
  | EnsureXcm_IsVoiceOfBody prefix body =>
      bool_decide (o = Origin_Xcm (descend prefix [Plurality body Voice]))
  | EitherOfDiverse a b => ensure a o || ensure b o
  end.

Definition convert '(SignedToAccountId32 net) (o : XcmOrigin) : option Location :=
  match o with
  | Origin_Signed who => Some {| parents := 0; interior := [AccountId32 net who] |}
  | _ => None
  end.

Definition weigh (b : FixedWeightBounds) (m : list Instruction) : option Weight :=
  let n := N.of_nat (length m) in
  if n <=? MaxWeighed b
  then Some (saturating_mul u64_max (ref_time (UnitWeight b)) n,
             saturating_mul u64_max (proof_size (UnitWeight b)) n)
  else None.
End SampleBuilder.

#[export] Instance sample_builder : XcmBuilder := {|
  Properties := Weight; ProcessMessageError := unit; SendError := unit; Queue := option N;
  weight_credit p := p;
  should_execute b o m w p := (if SampleBuilder.admits b o m w p then Ok tt else Err tt, p);
  computed_origin _ := SampleBuilder.compute;
  unpaid_origin o m := match m with UnpaidExecution :: _ => Some o | _ => None end;
  convert_location := SampleBuilder.account;
  parent_account := 7;
  sibling_account id := 1000 + id;
  convert_origin := SampleBuilder.origin;
  UpwardQueue := None;
  SiblingQueue := Some;
  route := SampleBuilder.queue;
  ensure_origin := SampleBuilder.ensure;
  trusts _ asset l := bool_decide (asset = l);
  transacts a asset := bool_decide (asset = IsConcrete a);
  try_convert := SampleBuilder.convert;
  acting_location '(EnsureXcmOrigin c) o :=
    match SampleBuilder.convert c o with
    | Some l => Some l
    | None => if decide (o = Origin_Root) then Some here else None
    end;
  message_weight := SampleBuilder.weigh;
|}.

Lemma sample_accepts b o m w p :
  accepts b o m w p ↔ SampleBuilder.admits b o m w p = true.
Proof. unfold accepts. cbn. by destruct (SampleBuilder.admits b o m w p). Qed.

#[export] Instance sample_builder_spec : XcmBuilderSpec sample_builder.
Proof.
  split; try done; intros; rewrite ?sample_accepts in *; cbn in *.
  - by bool_to_prop.
  - by bool_to_prop.
  - destruct m as [|[]]; try done. eauto.
  - done.
  - by destruct (SampleBuilder.compute n o m).
  - by bool_to_prop.
  - apply andb_true_iff. by rewrite H0.
  - exists p. split; [done|]. by rewrite !sample_accepts.
  - destruct (SampleBuilder.admits b o m w p); naive_solver.
  - by destruct i; destruct H.
  - by destruct n.
  - apply bool_decide_eq_true.
  - apply bool_decide_eq_true.
  - unfold SampleBuilder.weigh. by destruct (N.leb_spec (N.of_nat (length m)) (MaxWeighed b)).
Qed.

Definition sibling_location : Location := {| parents := 1; interior := [Parachain 2000] |}.
Definition a_weight : @Weight pair_weights := (1000, 0).
Definition no_credit : @Properties _ sample_builder := (0, 0).

(** A sibling parachain's paid message, with a topic. *)
Definition paid_message : list Instruction :=
  [WithdrawAsset; DescendOrigin []; BuyExecution (Some (1000, 0))].

Lemma barrier_admits_witness :
  existsb nested_reserve_transfer paid_message = false
  ∧ (pays a_weight paid_message = true
     ∨ ∃ o, unpaid_origin sibling_location paid_message = Some o
         ∧ (o = parent ∨ ∃ part, o = descend parent [Plurality Executive part])).
Proof.
  apply (barrier_admits 1000 sibling_location (paid_message ++ [SetTopic 5]) a_weight no_credit);
    [reflexivity|by vm_compute].
Defined.

Lemma transact_origins_witness :
  convert_origin (OriginConverter (XcmConfig 1000)) sibling_location Superuser = None.
Proof. by apply (transact_origins 1000 sibling_location Superuser). Defined.

Lemma native_currency_trust_witness :
  ¬ (transacts (AssetTransactor (XcmConfig 1000)) parent = true
     ∧ (trusts (IsReserve (XcmConfig 1000)) parent sibling_location = true
        ∨ ∃ e, IsTeleporter (XcmConfig 1000) = Some e ∧ trusts e parent sibling_location = true)).
Proof.
  destruct (native_currency_trust 1000 parent sibling_location) as [[H _] _].
  intros Ht. destruct (H Ht) as [_ [=]].
Defined.

Lemma local_senders_roundtrip_witness :
  acting_location (EnsureXcmOrigin LocalOriginToLocation) Origin_Root = Some here
  ∧ convert_location LocationToAccountId here = None.
Proof.
  split; [reflexivity|].
  destruct (local_senders_roundtrip 1000 Origin_Root) as [(who & [=] & _)|(_ & _ & Ha & _)].
  exact Ha.
Defined.

Lemma collator_admin_witness :
  ¬ ∃ o, convert_origin (OriginConverter (XcmConfig 1000)) parent Native = Some o
         ∧ ensure_origin CollatorSelectionUpdateOrigin o = true.
Proof.
  destruct (collator_admin 1000 parent Native) as [[H _] _].
  intros Ho. destruct (H Ho) as [[=] _].
Defined.

Lemma routes_match_accounts_witness :
  is_Some (route (XcmSender (XcmConfig 1000)) sibling_location)
  ∧ is_Some (convert_location LocationToAccountId sibling_location).
Proof.
  assert (Hr : is_Some (route (XcmSender (XcmConfig 1000)) sibling_location))
    by (by eexists).
  destruct (routes_match_accounts 1000 sibling_location) as [[H _] _].
  split; [exact Hr|]. exact (proj2 (H Hr)).
Defined.
