(* ===== verification/Apis.v ===== *)
(** * Runtime APIs

    [runtime/src/apis.rs]: what the node can ask of the runtime.  Each function hands the
    question to an SDK pallet or to the runtime's own constants and presets; [runtime_apis] is
    the table of these answers.  The SDK's side is a class of operations on the chain. *)

From stdpp Require Import strings.
From S2P Require Import Prelude Types Frame Weights Payment Pallet PalletProofs Extension ExtensionProofs Runtime Node Extrinsic.
Local Open Scope N_scope.

Module Apis.

Record RuntimeVersion : Type := {
  spec_name : string;
  impl_name : string;
  authoring_version : N;
  spec_version : N;
  impl_version : N;
  transaction_version : N;
  system_version : N;
}.

(** [VERSION], less the table of API versions that the macro fills in. *)
Definition VERSION : RuntimeVersion := {|
  spec_name := "parachain-template-runtime";
  impl_name := "parachain-template-runtime";
  authoring_version := 1;
  spec_version := 1;
  impl_version := 0;
  transaction_version := 1;
  system_version := 1;
|}.

(** The pallets by index. *)
Definition pallets : list (N * string) := [
  (0, "System"); (1, "ParachainSystem"); (2, "Timestamp"); (3, "ParachainInfo");
  (4, "WeightReclaim");
  (10, "Balances"); (11, "TransactionPayment"); (12, "SponsoredTx");
  (15, "Sudo");
  (20, "Authorship"); (21, "CollatorSelection"); (22, "Session"); (23, "Aura"); (24, "AuraExt");
  (30, "XcmpQueue"); (31, "PolkadotXcm"); (32, "CumulusXcm"); (33, "MessageQueue");
  (50, "TemplatePallet")]%string.

(** A stack of transaction extensions: the weight reclaim around others, by their types. *)
Inductive ExtensionStack : Set :=
| StorageWeightReclaim (inner : list string).

Definition TxExtension : ExtensionStack := StorageWeightReclaim [
  "AuthorizeCall"; "CheckNonZeroSender"; "CheckSpecVersion"; "CheckTxVersion"; "CheckGenesis";
  "CheckEra"; "CheckNonce"; "CheckWeight"; "SponsoredChargeTransactionPayment";
  "CheckMetadataHash"]%string.

(** The benchmarks the runtime defines: the crate of each and the pallet it is run on, which
    for the system and the session is a wrapper of the SDK around it. *)
Definition define_benchmarks : list (string * string) := [
  ("frame_system", "System"); ("pallet_balances", "Balances"); ("pallet_session", "Session");
  ("pallet_timestamp", "Timestamp"); ("pallet_message_queue", "MessageQueue");
  ("pallet_sudo", "Sudo"); ("pallet_collator_selection", "CollatorSelection");
  ("cumulus_pallet_parachain_system", "ParachainSystem");
  ("cumulus_pallet_xcmp_queue", "XcmpQueue");
  ("cumulus_pallet_weight_reclaim", "WeightReclaim")]%string.

(** What [query_info] answers. *)
Record RuntimeDispatchInfo {W : Weights} : Type := {
  info_weight : Weight;
  info_class : N;
  partial_fee : N;
}.

Record FeeDetails : Type := {
  inclusion_fee : option (N * N * N);
  details_tip : N;
}.

Class ApiEnv {T : Config} {W : Weights} {P : TransactionPayment} : Type := {
  Panicked : Type;
  AuraId : Type;
  BlockHash : Type;
  LazyBlock : Type;
  Header : Type;
  Extrinsic : Type;
  ExtrinsicInclusionMode : Type;
  ApplyResult : Type;
  InherentData : Type;
  CheckInherentsResult : Type;
  TransactionValidity : Type;
  Bytes : Type;
  ViewFunctionId : Type;
  ViewFunctionDispatchError : Type;
  KeyTypeId : Type;
  CollationInfo : Type;
  BenchmarkConfig : Type;
  BenchmarkBatch : Type;
  BenchmarkList : Type;
  StorageInfo : Type;
  StorageKey : Type;
  BuildStateResult : Type;
  Authorities_get : Chain → list AuraId;
  (** [FixedVelocityConsensusHook] with its three parameters. *)
  can_build_upon_hook : N → N → N → BlockHash → N → Chain → bool;
  Executive_execute_block : LazyBlock → M Chain Panicked unit;
  Executive_initialize_block : Header → M Chain Panicked ExtrinsicInclusionMode;
  Executive_apply_extrinsic : Extrinsic → M Chain Panicked ApplyResult;
  Executive_finalize_block : M Chain Panicked Header;
  Executive_validate_transaction :
    TransactionSource → Extrinsic → BlockHash → M Chain Panicked TransactionValidity;
  Executive_offchain_worker : Header → M Chain Panicked unit;
  Runtime_metadata : Bytes;
  Runtime_metadata_at_version : N → option Bytes;
  Runtime_metadata_versions : list N;
  Runtime_execute_view_function :
    ViewFunctionId → Bytes → Chain → result Bytes ViewFunctionDispatchError;
  create_extrinsics : InherentData → Chain → list Extrinsic;
  check_extrinsics : InherentData → LazyBlock → Chain → CheckInherentsResult;
  SessionKeys_generate : option Bytes → Bytes;
  SessionKeys_decode : Bytes → option (list (Bytes * KeyTypeId));
  System_account_nonce : Types.AccountId → Chain → N;
  TransactionPayment_query_info : Extrinsic → N → Chain → RuntimeDispatchInfo;
  TransactionPayment_query_fee_details : Extrinsic → N → Chain → FeeDetails;
  TransactionPayment_query_call_info : RuntimeCall → N → Chain → RuntimeDispatchInfo;
  TransactionPayment_query_call_fee_details : RuntimeCall → N → Chain → FeeDetails;
  TransactionPayment_weight_to_fee : Weight → Chain → N;
  TransactionPayment_length_to_fee : N → Chain → N;
  ParachainSystem_collect_collation_info : Header → Chain → CollationInfo;
  ParachainInfo_parachain_id : Chain → N;
  list_benchmarks : bool → list BenchmarkList;
  pallets_storage_info : list StorageInfo;
  pallets_whitelisted_storage_keys : list StorageKey;
  add_benchmarks : BenchmarkConfig → list StorageKey → list BenchmarkBatch;
  (** The genesis builder's helpers. *)
  build_state_helper : list N → M Chain Panicked BuildStateResult;
  get_preset_helper : option string → (string → option (list N)) → option (list N);
}.

(** What the try-runtime build asks of the executive. *)
Class TryRuntimeEnv {T : Config} {W : Weights} {P : TransactionPayment} {A : ApiEnv} : Type := {
  UpgradeCheckSelect : Type;
  TryStateSelect : Type;
  TryRuntimeError : Type;
  ExecutionError : Type;
  (** [unwrap] on an error. *)
  unwrap_upgrade : TryRuntimeError → Panicked;
  unwrap_execution : ExecutionError → Panicked;
  Executive_try_runtime_upgrade : UpgradeCheckSelect → M Chain TryRuntimeError Weight;
  Executive_try_execute_block :
    LazyBlock → bool → bool → TryStateSelect → M Chain ExecutionError Weight;
}.

(** Consensus, execution, metadata and block building. *)
Record NodeApis {T : Config} {W : Weights} {P : TransactionPayment} {A : ApiEnv} : Type := {
  slot_duration : N;
  authorities : Chain → list AuraId;
  relay_parent_offset : N;
  can_build_upon : BlockHash → N → Chain → bool;
  version : RuntimeVersion;
  execute_block : LazyBlock → M Chain Panicked unit;
  initialize_block : Header → M Chain Panicked ExtrinsicInclusionMode;
  metadata : Bytes;
  metadata_at_version : N → option Bytes;
  metadata_versions : list N;
  execute_view_function :
    ViewFunctionId → Bytes → Chain → result Bytes ViewFunctionDispatchError;
  api_apply_extrinsic : Extrinsic → M Chain Panicked ApplyResult;
  finalize_block : M Chain Panicked Header;
  inherent_extrinsics : InherentData → Chain → list Extrinsic;
  check_inherents : LazyBlock → InherentData → Chain → CheckInherentsResult;
}.

(** The pool, offchain workers, session keys, nonces, fees and collation. *)
Record TransactionApis {T : Config} {W : Weights} {P : TransactionPayment} {A : ApiEnv} : Type := {
  validate_transaction :
    TransactionSource → Extrinsic → BlockHash → M Chain Panicked TransactionValidity;
  offchain_worker : Header → M Chain Panicked unit;
  generate_session_keys : option Bytes → Bytes;
  decode_session_keys : Bytes → option (list (Bytes * KeyTypeId));
  account_nonce : Types.AccountId → Chain → N;
  query_info : Extrinsic → N → Chain → RuntimeDispatchInfo;
  query_fee_details : Extrinsic → N → Chain → FeeDetails;
  query_weight_to_fee : Weight → Chain → N;
  query_length_to_fee : N → Chain → N;
  query_call_info : RuntimeCall → N → Chain → RuntimeDispatchInfo;
  query_call_fee_details : RuntimeCall → N → Chain → FeeDetails;
  collect_collation_info : Header → Chain → CollationInfo;
}.

(** Benchmarks, genesis and the parachain's id. *)
Record ToolApis {T : Config} {W : Weights} {P : TransactionPayment} {A : ApiEnv} : Type := {
  benchmark_metadata : bool → list BenchmarkList * list StorageInfo;
  dispatch_benchmark : BenchmarkConfig → result (list BenchmarkBatch) string;
  build_state : list N → M Chain Panicked BuildStateResult;
  api_get_preset : option string → option (list N);
  api_preset_names : list string;
  parachain_id : Chain → N;
}.

(** The questions the runtime answers. *)
Record RuntimeApis {T : Config} {W : Weights} {P : TransactionPayment} {A : ApiEnv} : Type := {
  node_part : NodeApis;
  transaction_part : TransactionApis;
  tool_part : ToolApis;
}.

Section apis.
Context {T : Config} {W : Weights} {P : TransactionPayment} {A : ApiEnv}.
(** The presets and their serializer, as in [Node]. *)
Context {G : GenesisEnv} (to_json_bytes : RuntimeGenesisConfig → list N).

Definition impl_slot_duration : N := SLOT_DURATION.

Definition impl_can_build_upon (included_hash : BlockHash) (slot : N) : Chain → bool :=
  can_build_upon_hook RELAY_CHAIN_SLOT_DURATION_MILLIS BLOCK_PROCESSING_VELOCITY
    UNINCLUDED_SEGMENT_CAPACITY included_hash slot.

Definition run_benchmarks (config : BenchmarkConfig) : result (list BenchmarkBatch) string :=
  let whitelist := pallets_whitelisted_storage_keys in
  let batches := add_benchmarks config whitelist in
  match batches with
  | [] => Err "Benchmark not found for this pallet."%string
  | _ => Ok batches
  end.

(** The try-runtime APIs: errors panic, on purpose. *)
Definition try_on_runtime_upgrade {Y : TryRuntimeEnv} (max_block : Weight)
    (checks : UpgradeCheckSelect) : M Chain Panicked (Weight * Weight) :=
  weight ← map_err_m unwrap_upgrade (Executive_try_runtime_upgrade checks);
  mret (weight, max_block).

Definition try_execute_block {Y : TryRuntimeEnv} (block : LazyBlock)
    (state_root_check signature_check : bool) (select : TryStateSelect) :
    M Chain Panicked Weight :=
  map_err_m unwrap_execution
    (Executive_try_execute_block block state_root_check signature_check select).

Definition node_apis : NodeApis := {|
  slot_duration := impl_slot_duration;
  authorities := Authorities_get;
  relay_parent_offset := 0;
  can_build_upon := impl_can_build_upon;
  version := VERSION;
  execute_block := Executive_execute_block;
  initialize_block := Executive_initialize_block;
  metadata := Runtime_metadata;
  metadata_at_version := Runtime_metadata_at_version;
  metadata_versions := Runtime_metadata_versions;
  execute_view_function := Runtime_execute_view_function;
  api_apply_extrinsic := Executive_apply_extrinsic;
  finalize_block := Executive_finalize_block;
  inherent_extrinsics := create_extrinsics;
  check_inherents block data := check_extrinsics data block;
|}.

Definition transaction_apis : TransactionApis := {|
  validate_transaction := Executive_validate_transaction;
  offchain_worker := Executive_offchain_worker;
  generate_session_keys := SessionKeys_generate;
  decode_session_keys := SessionKeys_decode;
  account_nonce := System_account_nonce;
  query_info := TransactionPayment_query_info;
  query_fee_details := TransactionPayment_query_fee_details;
  query_weight_to_fee := TransactionPayment_weight_to_fee;
  query_length_to_fee := TransactionPayment_length_to_fee;
  query_call_info := TransactionPayment_query_call_info;
  query_call_fee_details := TransactionPayment_query_call_fee_details;
  collect_collation_info := ParachainSystem_collect_collation_info;
|}.

Definition tool_apis : ToolApis := {|
  benchmark_metadata extra := (list_benchmarks extra, pallets_storage_info);
  dispatch_benchmark := run_benchmarks;
  build_state := build_state_helper;
  api_get_preset id := get_preset_helper id (get_preset to_json_bytes);
  api_preset_names := preset_names;
  parachain_id := ParachainInfo_parachain_id;
|}.

Definition runtime_apis : RuntimeApis := {|
  node_part := node_apis; transaction_part := transaction_apis; tool_part := tool_apis;
|}.
End apis.
End Apis.
