(* ===== verification/ApisTheorems.v ===== *)
(** * Theorems about the runtime's names

    The names the client uses are those of the runtime. *)

From stdpp Require Import strings.
From S2P Require Import Prelude Types Frame Ledger Weights Payment Pallet PalletProofs Extension ExtensionProofs Mock Runtime Node NodeTheorems Client Extrinsic RuntimeClient Apis.
Local Open Scope N_scope.

(** ** Names *)

(** The pallet indices and names of the runtime are each unique, and the pallets that the
    client names in its calls, or that have benchmarks, are among them. *)
Theorem names_agree callers budget cap remark :
  NoDup Apis.pallets.*1 ∧ NoDup Apis.pallets.*2
  ∧ Forall (λ p, Client.pallet_name p ∈ Apis.pallets.*2)
      [Client.register_sponsor_call callers budget cap; Client.pause_call;
       Client.sponsored_remark_call remark]
  ∧ Forall (λ b, b.2 ∈ Apis.pallets.*2) Apis.define_benchmarks
  ∧ NoDup Apis.define_benchmarks.*2.
Proof. split_and!; by apply (bool_decide_unpack _). Qed.

(** What the SDK and Subxt document about extensions: the identifier of each of the SDK's, what
    the weight reclaim announces around the identifiers of those it wraps, whether an identifier
    stands for bytes in a transaction or in what is signed, and which identifiers an extension
    of the client's configuration answers to. *)
Class ExtensionNames : Type := {
  sdk_identifier : string → string;
  reclaim_metadata : list string → list string;
  carries_data : string → bool;
  answers_to : string → string → bool;
}.

(** The types of the SDK in the runtime's stack. *)
Definition sdk_types : list string :=
  ["AuthorizeCall"; "CheckNonZeroSender"; "CheckSpecVersion"; "CheckTxVersion"; "CheckGenesis";
   "CheckEra"; "CheckNonce"; "CheckWeight"; "CheckMetadataHash"]%string.

Section metadata.
Context {X : ExtensionNames}.

(** The identifier of an extension of the runtime: the repository's own, or one of the SDK's. *)
Definition identifier (x : string) : string :=
  if decide (x = "SponsoredChargeTransactionPayment"%string) then Extension.IDENTIFIER
  else sdk_identifier x.

(** What the runtime announces. *)
Definition metadata '(Apis.StorageWeightReclaim inner) : list string :=
  reclaim_metadata (identifier <$> inner).
End metadata.

Class ExtensionNamesSpec (X : ExtensionNames) : Prop := {
  sdk_identifiers x :
    x ∈ sdk_types →
    sdk_identifier x = if decide (x = "CheckEra"%string) then "CheckMortality"%string else x;
  reclaim_announces ids : reclaim_metadata ids = ids ++ ["StorageWeightReclaim"%string];
  no_data :
    Forall (λ i, carries_data i = false)
      ["AuthorizeCall"; "CheckNonZeroSender"; "CheckWeight"; "StorageWeightReclaim"]%string;
  standard_answers c i :
    c ≠ "SponsoredChargeTransactionPayment"%string → c ≠ "VerifySignature"%string →
    answers_to c i = bool_decide (i = c);
  signature_answers i :
    answers_to "VerifySignature" i = bool_decide (i = "VerifyMultiSignature"%string);
  (** The client's own extension. *)
  sponsored_answers i : answers_to "SponsoredChargeTransactionPayment" i = Client.matches i;
}.

Section serving.
Context {X : ExtensionNames} {XS : ExtensionNamesSpec X}.

Lemma runtime_metadata :
  metadata Apis.TxExtension
  = ["AuthorizeCall"; "CheckNonZeroSender"; "CheckSpecVersion"; "CheckTxVersion"; "CheckGenesis";
     "CheckMortality"; "CheckNonce"; "CheckWeight"; Extension.IDENTIFIER; "CheckMetadataHash";
     "StorageWeightReclaim"]%string.
Proof.
  assert (Hsdk : ∀ x, bool_decide (x ∈ sdk_types) = true →
    identifier x = if decide (x = "CheckEra"%string) then "CheckMortality"%string else x).
  { intros x Hx%bool_decide_eq_true. unfold identifier. rewrite decide_False.
    - by apply sdk_identifiers.
    - intros ->. by apply (bool_decide_eq_true_2 _) in Hx. }
  unfold metadata, Apis.TxExtension. rewrite reclaim_announces. cbn [fmap list_fmap app].
  change (identifier "SponsoredChargeTransactionPayment") with Extension.IDENTIFIER.
  rewrite !Hsdk by (by vm_compute). by vm_compute.
Qed.

(** The documented answers, executable. *)
Definition answering (i : string) : list string :=
  filter (λ c,
    (if decide (c = "SponsoredChargeTransactionPayment"%string) then Client.matches i
     else if decide (c = "VerifySignature"%string)
     then bool_decide (i = "VerifyMultiSignature"%string)
     else bool_decide (i = c)) = true) Client.SponsoredConfig_ExtrinsicParams.

Lemma answering_spec i :
  filter (λ c, answers_to c i = true) Client.SponsoredConfig_ExtrinsicParams = answering i.
Proof.
  unfold answering. apply list_filter_iff. intros c.
  case_decide as Hc; [by rewrite Hc, sponsored_answers|].
  case_decide as Hs; [by rewrite Hs, signature_answers|]. by rewrite standard_answers.
Qed.

Definition served (i : string) : bool :=
  match answering i with
  | [c] => bool_decide (c = "SponsoredChargeTransactionPayment"%string
                        ↔ i = Extension.IDENTIFIER)
  | _ => bool_decide (i ∈ ["AuthorizeCall"; "CheckNonZeroSender"; "CheckWeight";
                           "StorageWeightReclaim"]%string)
  end.

Lemma all_served : Forall (λ i, served i = true) (metadata Apis.TxExtension).
Proof. rewrite runtime_metadata. apply (bool_decide_unpack _). by vm_compute. Qed.

(** C36: every extension that the runtime announces and that puts bytes into a
    transaction is answered to by exactly one extension of the client's configuration; the
    client's own encoder answers to the identifier that the pallet gives its extension, and to
    no other. *)
Theorem client_serves_extensions i :
  i ∈ metadata Apis.TxExtension → carries_data i = true →
  ∃ c, filter (λ c, answers_to c i = true) Client.SponsoredConfig_ExtrinsicParams = [c]
    ∧ (c = "SponsoredChargeTransactionPayment"%string ↔ i = Extension.IDENTIFIER).
Proof.
  intros Hi Hd. rewrite answering_spec.
  pose proof (proj1 (Forall_forall _ _) all_served i Hi) as Hserved. unfold served in Hserved.
  assert (Hno : bool_decide (i ∈ ["AuthorizeCall"; "CheckNonZeroSender"; "CheckWeight";
                                  "StorageWeightReclaim"]%string) = true → False).
  { intros Hin%bool_decide_eq_true.
    pose proof (proj1 (Forall_forall _ _) no_data i Hin) as Hf. cbn in Hf. congruence. }
  destruct (answering i) as [|c [|? ?]]; [by apply Hno in Hserved| |by apply Hno in Hserved].
  exists c. split; [done|]. by apply bool_decide_eq_true in Hserved.
Qed.
End serving.

(** ** The hypotheses hold *)

#[export] Instance extension_names : ExtensionNames := {|
  sdk_identifier x := if decide (x = "CheckEra"%string) then "CheckMortality"%string else x;
  reclaim_metadata ids := ids ++ ["StorageWeightReclaim"%string];
  carries_data i :=
    negb (bool_decide (i ∈ ["AuthorizeCall"; "CheckNonZeroSender"; "CheckWeight";
                            "StorageWeightReclaim"]%string));
  answers_to c i :=
    if decide (c = "SponsoredChargeTransactionPayment"%string) then Client.matches i
    else if decide (c = "VerifySignature"%string)
    then bool_decide (i = "VerifyMultiSignature"%string)
    else bool_decide (i = c);
|}.

#[export] Instance extension_names_spec : ExtensionNamesSpec extension_names.
Proof.
  split; try done.
  - apply (bool_decide_unpack _). by vm_compute.
  - intros c i H1 H2. cbn. by rewrite decide_False, decide_False.
Qed.

Lemma client_serves_extensions_witness :
  ∃ c, filter (λ c, answers_to c Extension.IDENTIFIER = true)
         Client.SponsoredConfig_ExtrinsicParams = [c]
    ∧ c = "SponsoredChargeTransactionPayment"%string.
Proof.
  destruct (client_serves_extensions Extension.IDENTIFIER) as (c & Hc & Hown);
    [by apply (bool_decide_unpack _)|by vm_compute|].
  exists c. split; [exact Hc|]. by apply Hown.
Defined.
