(* ===== verification/Wiring.v ===== *)
(** * How the runtime's pallets are wired

    The [impl .. Config for Runtime] blocks of [runtime/src/configs/mod.rs]: which pallet each
    pallet hands its work to, through which adapters messages from other chains reach the
    message queue, and what delivering a message costs.  Adapters and prices are values of
    types of expressions whose leaves are the SDK's blocks; what a price amounts to is a class
    of operations with their documented behaviour.  A pallet is named as in the runtime's table
    ([Apis.pallets]); settings that stay at the SDK's defaults or only name types are left
    out. *)

From stdpp Require Import strings.
From S2P Require Import Prelude Types Weights Runtime Xcm.
Local Open Scope N_scope.

Module Wiring.

(** ** Adapters *)

(** Where a message comes from, as the message queue keys its queues. *)
Inductive AggregateMessageOrigin : Set :=
| Here
| Parent
| Sibling (id : N).

(** What accepts messages: a pallet's queues, the same under a fixed origin, or the same with
    parachain ids read as siblings. *)
Inductive EnqueueExpr : Set :=
| Queues (pallet : string)
| EnqueueWithOrigin (inner : EnqueueExpr) (origin : AggregateMessageOrigin)
| TransformOrigin_ParaIdToSibling (inner : EnqueueExpr).

(** What is told of, and may pause, the queues: a pallet that knows parachain ids, as seen
    through the origins. *)
Inductive QueueHooksExpr : Set :=
| NarrowOriginToSibling (pallet : string).

(** What executes the messages. *)
Inductive MessageProcessorExpr {W : Weights} : Type :=
| ProcessXcmMessage (executor : Xcm.ExecutorConfig).

(** [ExponentialPrice<FeeAsset, BaseFee, MessageFee, FeeFactor>]. *)
Record ExponentialPrice : Set := {
  FeeAsset : Xcm.Location;
  BaseFee : N;
  MessageFee : N;
  FeeFactor : string;
}.

(** [FixedVelocityConsensusHook] with its parameters. *)
Record FixedVelocityConsensusHook : Set := {
  hook_relay_slot_duration : N;
  hook_velocity : N;
  hook_capacity : N;
}.

Definition ConsensusHook : FixedVelocityConsensusHook := {|
  hook_relay_slot_duration := RELAY_CHAIN_SLOT_DURATION_MILLIS;
  hook_velocity := BLOCK_PROCESSING_VELOCITY;
  hook_capacity := UNINCLUDED_SEGMENT_CAPACITY;
|}.

(** [PeriodicSessions<Period, Offset>]. *)
Record PeriodicSessions : Set := { session_period : N; session_offset : N }.

(** The session keys, by the pallet each belongs to. *)
Definition SessionKeys : list string := ["Aura"%string].

(** ** Messages *)

Definition RelayOrigin : AggregateMessageOrigin := Parent.

Record ParachainSystemConfig {W : Weights} : Type := {
  SelfParaId : string;
  OutboundXcmpMessageSource : string;
  DmpQueue : EnqueueExpr;
  config_ReservedDmpWeight : Weight;
  XcmpMessageHandler : string;
  config_ReservedXcmpWeight : Weight;
  config_ConsensusHook : FixedVelocityConsensusHook;
  config_RelayParentOffset : N;
}.

Definition parachain_system_Config {W : Weights} {K : SdkWeights} : ParachainSystemConfig := {|
  SelfParaId := "ParachainInfo";
  OutboundXcmpMessageSource := "XcmpQueue";
  DmpQueue := EnqueueWithOrigin (Queues "MessageQueue") RelayOrigin;
  config_ReservedDmpWeight := ReservedDmpWeight;
  XcmpMessageHandler := "XcmpQueue";
  config_ReservedXcmpWeight := ReservedXcmpWeight;
  config_ConsensusHook := ConsensusHook;
  config_RelayParentOffset := RelayParentOffset;
|}.

Record MessageQueueConfig {W : Weights} : Type := {
  MessageProcessor : MessageProcessorExpr;
  QueueChangeHandler : QueueHooksExpr;
  QueuePausedQuery : QueueHooksExpr;
  HeapSize : N;
  MaxStale : N;
  ServiceWeight : Weight;
}.

(** Without the benchmarking build, whose processor does nothing. *)
Definition message_queue_Config {W : Weights} {K : SdkWeights} (max_block : Weight)
    (parachain_id : N) : MessageQueueConfig := {|
  MessageProcessor := ProcessXcmMessage (Xcm.XcmConfig parachain_id);
  QueueChangeHandler := NarrowOriginToSibling "XcmpQueue";
  QueuePausedQuery := NarrowOriginToSibling "XcmpQueue";
  HeapSize := MessageQueue_HeapSize;
  MaxStale := MessageQueue_MaxStale;
  ServiceWeight := MessageQueueServiceWeight max_block;
|}.

(** The asset that pays for deliveries. *)
Definition FeeAssetId : Xcm.Location := Xcm.RelayLocation.

Definition PriceForSiblingParachainDelivery : ExponentialPrice := {|
  FeeAsset := FeeAssetId;
  BaseFee := ToSiblingBaseDeliveryFee;
  MessageFee := TransactionByteFee;
  FeeFactor := "XcmpQueue";
|}.

Definition PriceForParentDelivery : ExponentialPrice := {|
  FeeAsset := FeeAssetId;
  BaseFee := ToParentBaseDeliveryFee;
  MessageFee := TransactionByteFee;
  FeeFactor := "ParachainSystem";
|}.

Record XcmpQueueConfig : Type := {
  ChannelInfo : string;
  XcmpQueue : EnqueueExpr;
  config_MaxInboundSuspended : N;
  config_MaxActiveOutboundChannels : N;
  config_MaxPageSize : N;
  ControllerOrigin : Xcm.EnsureExpr;
  ControllerOriginConverter : Xcm.ConvertOriginExpr;
  PriceForSiblingDelivery : ExponentialPrice;
}.

Definition xcmp_queue_Config : XcmpQueueConfig := {|
  ChannelInfo := "ParachainSystem";
  XcmpQueue := TransformOrigin_ParaIdToSibling (Queues "MessageQueue");
  config_MaxInboundSuspended := MaxInboundSuspended;
  config_MaxActiveOutboundChannels := MaxActiveOutboundChannels;
  config_MaxPageSize := MaxPageSize;
  ControllerOrigin := Xcm.EnsureRoot;
  ControllerOriginConverter := Xcm.XcmOriginToTransactDispatchOrigin;
  PriceForSiblingDelivery := PriceForSiblingParachainDelivery;
|}.

(** ** Blocks and collators *)

Record TimestampConfig : Set := { OnTimestampSet : string; config_MinimumPeriod : N }.

Definition timestamp_Config : TimestampConfig := {|
  OnTimestampSet := "Aura"; config_MinimumPeriod := MinimumPeriod |}.

(** [FindAccountFromAuthorIndex<_, Inner>] by its inner pallet. *)
Record AuthorshipConfig : Set := { FindAuthor_index : string; EventHandler : list string }.

Definition authorship_Config : AuthorshipConfig := {|
  FindAuthor_index := "Aura"; EventHandler := ["CollatorSelection"%string] |}.

Record SessionConfig : Set := {
  ShouldEndSession : PeriodicSessions;
  NextSessionRotation : PeriodicSessions;
  SessionManager : string;
  SessionHandler : list string;
  Keys : list string;
  Currency : string;
}.

Definition session_Config : SessionConfig := {|
  ShouldEndSession := {| session_period := Period; session_offset := Offset |};
  NextSessionRotation := {| session_period := Period; session_offset := Offset |};
  SessionManager := "CollatorSelection";
  SessionHandler := SessionKeys;
  Keys := SessionKeys;
  Currency := "Balances";
|}.

Record AuraConfig : Set := {
  config_MaxAuthorities : N;
  config_AllowMultipleBlocksPerSlot : bool;
  config_SlotDuration : N;
}.

Definition aura_Config : AuraConfig := {|
  config_MaxAuthorities := MaxAuthorities;
  config_AllowMultipleBlocksPerSlot := AllowMultipleBlocksPerSlot;
  config_SlotDuration := Aura_SlotDuration;
|}.

(** [*b"PotStake"]. *)
Definition PotId : list N := [80; 111; 116; 83; 116; 97; 107; 101].

Record CollatorSelectionConfig : Set := {
  collator_Currency : string;
  UpdateOrigin : Xcm.EnsureExpr;
  config_PotId : list N;
  config_MaxCandidates : N;
  config_MinEligibleCollators : N;
  config_MaxInvulnerables : N;
  config_KickThreshold : N;
  ValidatorRegistration : string;
}.

Definition collator_selection_Config : CollatorSelectionConfig := {|
  collator_Currency := "Balances";
  UpdateOrigin := Xcm.CollatorSelectionUpdateOrigin;
  config_PotId := PotId;
  config_MaxCandidates := MaxCandidates;
  config_MinEligibleCollators := MinEligibleCollators;
  config_MaxInvulnerables := MaxInvulnerables;
  config_KickThreshold := KickThreshold;
  ValidatorRegistration := "Session";
|}.

(** ** The system *)

(** The overrides of [ParaChainDefaultConfig] that are values or hooks; a code upgrade goes
    through the parachain system ([ParachainSetCode]). *)
Record SystemConfig {W : Weights} {K : SdkWeights} : Type := {
  config_DbWeight : RuntimeDbWeight;
  config_BlockWeights : BlockWeightsArgs;
  config_BlockLength : N * Perbill;
  config_SS58Prefix : N;
  OnSetCode : string;
  config_MaxConsumers : N;
  config_SingleBlockMigrations : list string;
}.

(** There are no migrations besides the pallets' own. *)
Definition SingleBlockMigrations : list string := [].

Definition system_Config {W : Weights} {K : SdkWeights} : SystemConfig := {|
  config_DbWeight := RocksDbWeight;
  config_BlockWeights := RuntimeBlockWeights;
  config_BlockLength := RuntimeBlockLength;
  config_SS58Prefix := SS58Prefix;
  OnSetCode := "ParachainSystem";
  config_MaxConsumers := MaxConsumers;
  config_SingleBlockMigrations := SingleBlockMigrations;
|}.

(** ** Money *)

(** What a unit of credit or dust that goes to [()] becomes. *)
Inductive CreditHandler : Set :=
| Burn.

Record BalancesConfig : Set := {
  config_MaxLocks : N;
  DustRemoval : CreditHandler;
  config_ExistentialDeposit : N;
  AccountStore : string;
  config_MaxReserves : N;
}.

Definition balances_Config : BalancesConfig := {|
  config_MaxLocks := MaxLocks;
  DustRemoval := Burn;
  config_ExistentialDeposit := ExistentialDeposit;
  AccountStore := "System";
  config_MaxReserves := MaxReserves;
|}.

(** [FungibleAdapter<Balances, ()>], [WeightToFee], [ConstantMultiplier<_, TransactionByteFee>]
    and the multiplier of operational extrinsics. *)
Record TransactionPaymentConfig {W : Weights} {K : SdkWeights} : Type := {
  OnChargeTransaction : string * CreditHandler;
  config_WeightToFee : list WeightToFeeCoefficient;
  LengthToFee_multiplier : N;
  config_OperationalFeeMultiplier : N;
}.

Definition transaction_payment_Config {W : Weights} {K : SdkWeights} :
    TransactionPaymentConfig := {|
  OnChargeTransaction := ("Balances"%string, Burn);
  config_WeightToFee := polynomial;
  LengthToFee_multiplier := TransactionByteFee;
  config_OperationalFeeMultiplier := OperationalFeeMultiplier;
|}.

(** [FeeDestination = ()] of the sponsored-tx pallet. *)
Definition sponsored_tx_FeeDestination : CreditHandler := Burn.

(** ** The SDK's blocks *)

Class DeliveryPrices : Type := {
  (** The amount of [PriceForMessageDelivery::price_for_delivery] for a message of a length,
      at a fee factor, which starts at [one] and never falls below it. *)
  Factor : Type;
  one : Factor;
  scale : Factor → N → N;
  delivery_amount : ExponentialPrice → Factor → N → N;
}.

(** What the documentation of the price says. *)
Class DeliveryPricesSpec (B : DeliveryPrices) : Prop := {
  scale_one x : x ≤ u128_max → scale one x = x;
  scale_at_least f x : x ≤ u128_max → x ≤ scale f x;
  exponential_price p f len :
    delivery_amount p f len
    = scale f (saturating_add u128_max (BaseFee p) (saturating_mul u128_max len (MessageFee p)));
}.
End Wiring.
