(* ===== verification/WiringTheorems.v ===== *)
(** * Theorems about the wiring of the runtime

    What deliveries cost, how messages are weighed, and that the pallets named in the
    configuration are those of the runtime. *)

From stdpp Require Import strings.
From S2P Require Import Prelude Types Weights Runtime Xcm XcmTheorems RuntimeTheorems Apis Wiring.
Import Xcm Wiring.
Local Open Scope N_scope.

Section delivery.
Context {B : DeliveryPrices} {BS : DeliveryPricesSpec B} {W : Weights}.

(** C22: delivering a message of [len] bytes, to the relay chain or to a sibling, costs at
    least three cents and ten micro-units a byte, exactly that where the channel is not
    congested, in the asset that the executor takes for the native currency and its fees. *)
Theorem delivery_price p f len parachain_id :
  p ∈ [PriceForParentDelivery; PriceForSiblingParachainDelivery] → len ≤ u32_max →
  let base := 3 * CENTS + len * (10 * MICRO_UNIT) in
  base ≤ delivery_amount p f len
  ∧ delivery_amount p one len = base
  ∧ FeeAsset p = Trader_asset (XcmConfig parachain_id)
  ∧ FeeAsset p = IsConcrete (AssetTransactor (XcmConfig parachain_id)).
Proof.
  intros Hp Hlen base. rewrite !exponential_price.
  assert (Hset : BaseFee p = 30000000000 ∧ MessageFee p = 10000000 ∧ FeeAsset p = RelayLocation).
  { repeat (apply elem_of_cons in Hp as [->|Hp]; [done|]); by apply elem_of_nil in Hp. }
  destruct Hset as (-> & -> & ->).
  change base with (30000000000 + len * 10000000).
  change u32_max with 4294967295 in Hlen.
  assert (Hmax : 30000000000 + len * 10000000 ≤ u128_max)
    by (change u128_max with 340282366920938463463374607431768211455; lia).
  unfold saturating_add, saturating_mul.
  replace (N.min _ _) with (30000000000 + len * 10000000) by lia.
  split_and!; [by apply scale_at_least|by apply scale_one|done|done].
Qed.
End delivery.

Section weights.
Context {W : Weights} {WS : WeightsSpec W} {K : SdkWeights} {KS : SdkWeightsSpec K}.
Context {X : XcmBuilder} {XS : XcmBuilderSpec X}.

Lemma service_time :
  ref_time (MessageQueueServiceWeight MAXIMUM_BLOCK_WEIGHT) = 700000000000.
Proof.
  unfold MessageQueueServiceWeight. rewrite ref_time_mul, ref_time_MAXIMUM_BLOCK_WEIGHT.
  apply perbill_mul_exact. rewrite parts_from_percent; lia.
Qed.

(** C32: a message of instructions without calls or programs inside is weighed exactly
    if it has at most a hundred of them, at a millisecond and 64 KiB of proof each; the queue's
    share of a full block has time for seven of the longest. *)
Theorem messages_are_weighed parachain_id m :
  forallb is_plain m = true →
  let n := N.of_nat (length m) in
  match message_weight (config_Weigher (XcmConfig parachain_id)) m with
  | Some w =>
      n ≤ MaxInstructions
      ∧ ref_time w = n * WEIGHT_REF_TIME_PER_MILLIS ∧ proof_size w = n * (64 * 1024)
      ∧ 7 * ref_time w ≤ ref_time (MessageQueueServiceWeight MAXIMUM_BLOCK_WEIGHT)
  | None => MaxInstructions < n
  end.
Proof.
  intros Hplain n. cbn. pose proof (fixed_weight Weigher m Hplain) as Hw. fold n in Hw.
  destruct (message_weight Weigher m) as [w|]; [|done].
  destruct Hw as (Hn & Ht & Hp). cbn in Hn, Ht, Hp. unfold UnitWeightCost in Ht, Hp.
  rewrite ref_time_from_parts in Ht. rewrite proof_size_from_parts in Hp.
  rewrite service_time, per_millis. rewrite Ht, Hp. unfold MaxInstructions in *.
  unfold saturating_mul. change u64_max with 18446744073709551615. lia.
Qed.
End weights.

Section hooks.
Context {W : Weights} {K : SdkWeights}.
Context {T : Config} {P : Payment.TransactionPayment} {A : Apis.ApiEnv}.

(** The pallets that the configuration of another pallet names. *)
Definition named_pallets : list string :=
  [SelfParaId parachain_system_Config; OutboundXcmpMessageSource parachain_system_Config;
   XcmpMessageHandler parachain_system_Config; ChannelInfo xcmp_queue_Config;
   FeeFactor PriceForParentDelivery; FeeFactor PriceForSiblingParachainDelivery;
   OnTimestampSet timestamp_Config; FindAuthor_index authorship_Config;
   SessionManager session_Config; Currency session_Config;
   collator_Currency collator_selection_Config; ValidatorRegistration collator_selection_Config;
   AccountStore balances_Config; OnSetCode system_Config; (OnChargeTransaction transaction_payment_Config).1]
  ++ EventHandler authorship_Config ++ SessionHandler session_Config.

(** The place of a pallet in the runtime. *)
Definition index_of (name : string) : option N :=
  (λ found, found.2.1) <$> list_find (λ p : N * string, p.2 = name) Apis.pallets.

(** The configuration of the pallets fits together.  Every pallet that another one
    names is in the runtime; messages go out through the pallet they come in by, which asks
    the parachain system for its channels; the sessions' keys are those of the pallet that
    sets the time and names the authors, its blocks are credited where the sessions' validators
    are chosen, and that pallet registers them with the sessions; the four pallets of collator
    support are in the order that the runtime says must not change; sponsored fees go where
    all fees go, which burns them; and the hook that limits unincluded blocks is the one the
    API answers with. *)
Theorem hooks_are_wired (hash : Apis.BlockHash) slot s :
  Forall (λ name, is_Some (index_of name)) named_pallets
  ∧ XcmpMessageHandler parachain_system_Config = OutboundXcmpMessageSource parachain_system_Config
  ∧ index_of (ChannelInfo xcmp_queue_Config) = Some 1
  ∧ SessionHandler session_Config = Keys session_Config
  ∧ Keys session_Config = [OnTimestampSet timestamp_Config]
  ∧ FindAuthor_index authorship_Config = OnTimestampSet timestamp_Config
  ∧ EventHandler authorship_Config = [SessionManager session_Config]
  ∧ index_of (ValidatorRegistration collator_selection_Config) = index_of "Session"
  ∧ map index_of ["Authorship"; SessionManager session_Config; "Session"; "Aura"]%string
    = map Some [20; 21; 22; 23]
  ∧ OnChargeTransaction transaction_payment_Config
    = (Currency session_Config, sponsored_tx_FeeDestination)
  ∧ Apis.impl_can_build_upon hash slot s
    = let hook := config_ConsensusHook parachain_system_Config in
      Apis.can_build_upon_hook (hook_relay_slot_duration hook) (hook_velocity hook)
        (hook_capacity hook) hash slot s.
Proof.
  split; [apply (bool_decide_unpack _); by vm_compute|]. split_and!; try done; by vm_compute.
Qed.
End hooks.

(** ** The hypotheses hold *)

(** Factors as powers of two. *)
#[export] Instance sample_prices : DeliveryPrices := {|
  Factor := nat; one := O; scale f x := x * 2 ^ N.of_nat f;
  delivery_amount p f len :=
    saturating_add u128_max (BaseFee p) (saturating_mul u128_max len (MessageFee p))
    * 2 ^ N.of_nat f;
|}.

#[export] Instance sample_prices_spec : DeliveryPricesSpec sample_prices.
Proof.
  split; try done.
  - intros x _. cbn. lia.
  - intros f x _. cbn. pose proof (N.pow_nonzero 2 (N.of_nat f) ltac:(lia)). nia.
Qed.

Lemma delivery_price_witness :
  delivery_amount PriceForParentDelivery one 100 = 3 * CENTS + 100 * (10 * MICRO_UNIT).
Proof.
  apply (delivery_price (B := sample_prices) PriceForParentDelivery one 100 1000);
    [apply list_elem_of_here|by vm_compute].
Defined.

Lemma messages_are_weighed_witness :
  message_weight Weigher (replicate 100 WithdrawAsset) = Some (100000000000, 6553600)
  ∧ 7 * 100000000000 ≤ ref_time (MessageQueueServiceWeight MAXIMUM_BLOCK_WEIGHT).
Proof.
  split; [reflexivity|].
  exact (proj2 (proj2 (proj2 (messages_are_weighed (X := sample_builder) 1000
    (replicate 100 WithdrawAsset) eq_refl)))).
Defined.
