(* ===== verification/Typing.v ===== *)
(** * Machine-width amounts

    The model computes with unbounded numbers where the source has the balance type.  Here the
    two are shown to agree: amounts that start within the balance type's range stay there, in
    storage, in balances and in events.  That the balances pallet keeps its own balances in
    range is an interface ([FungibleHoldTyped]) like the others of [Frame]. *)

From S2P Require Import Prelude Types Frame Ledger Weights Payment Pallet SponsorSpec PalletProofs Extension ExtensionProofs Mock.
Local Open Scope N_scope.

(** Balances are of the balance type, and stay so. *)
Class FungibleHoldTyped {T : Config} (F : FungibleHold) : Type := {
  bal_fits : World → Prop;
  free_fits who w : bal_fits w → free_balance who w ≤ balance_max;
  hold_fits r who w : bal_fits w → balance_on_hold r who w ≤ balance_max;
  hold_bal_fits r who amount w : bal_fits w → bal_fits (hold r who amount w).2;
  release_bal_fits r who amount p w : bal_fits w → bal_fits (release r who amount p w).2;
  slash_bal_fits r who amount w : bal_fits w → bal_fits (slash r who amount w).2;
}.

Class FeeDestinationTyped {T : Config} {F : FungibleHold} (D : FeeDestination)
    (Y : FungibleHoldTyped F) : Prop :=
  on_unbalanceds_bal_fits cs w : bal_fits w → bal_fits (on_unbalanceds cs w).

#[export] Hint Resolve hold_bal_fits release_bal_fits slash_bal_fits on_unbalanceds_bal_fits
  : frame.

Section fits.
Context {T : Config} {F : FungibleHold} {FS : FungibleHoldSpec F} {Y : FungibleHoldTyped F}.

Definition policy_fits (p : SponsorPolicy) : Prop := max_fee_per_tx p ≤ balance_max.

Definition state_fits (st : option SponsorState) : Prop :=
  match st with Some st => policy_fits (policy st) | None => True end.

Definition event_fits (e : Event) : Prop :=
  match e with
  | SponsorRegistered _ b => b ≤ balance_max
  | BudgetIncreased _ x b | BudgetDecreased _ x b => x ≤ balance_max ∧ b ≤ balance_max
  | SponsoredTransactionFeePaid _ _ fee tip => fee ≤ balance_max ∧ tip ≤ balance_max
  | SponsorPolicyUpdated _ | SponsorPaused _ | SponsorResumed _ | SponsorUnregistered _ => True
  end.

(** The arguments of a call. *)
Definition call_fits (c : Call) : Prop :=
  match c with
  | Call_register_sponsor b p => b ≤ balance_max ∧ policy_fits p
  | Call_increase_budget x | Call_decrease_budget x => x ≤ balance_max
  | Call_set_policy p => policy_fits p
  | Call_pause | Call_resume | Call_unregister => True
  end.

Record chain_fits (s : Chain) : Prop := {
  fits_world : bal_fits (world s);
  fits_states who : state_fits (sponsors s !! who);
  fits_events : Forall event_fits (events s);
}.

Lemma spec_call_fits who c a a' ev :
  spec_call who c a = Ok (a', ev) → call_fits c → state_fits (acc_state a) →
  acc_budget a ≤ balance_max → acc_budget a' ≤ balance_max →
  event_fits ev ∧ state_fits (acc_state a').
Proof.
  destruct a as [[st|] f b p], c; cbn; intros H; repeat case_match; simplify_eq/=;
    intros; try tauto; split_and?; (done || lia).
Qed.

Lemma run_call_bal_fits c o s s' :
  bal_fits (world s) → run_call c o s = (Ok tt, s') → bal_fits (world s').
Proof.
  intros Hok. destruct c; exec; repeat case_match; intros; simplify_eq/=; try done;
    match goal with
    | H : hold ?r ?who ?x ?w = _ |- _ =>
        pose proof (hold_bal_fits r who x w) as Hb; rewrite H in Hb
    | H : release ?r ?who ?x ?p ?w = _ |- _ =>
        pose proof (release_bal_fits r who x p w) as Hb; rewrite H in Hb
    end; by apply Hb.
Qed.

Lemma dispatch_fits c o s r s' :
  chain_fits s → call_fits c → dispatch c o s = (r, s') → chain_fits s'.
Proof.
  intros [Hw Hst Hev] Hc [->|Hrun]%dispatch_inv; [by split|].
  pose proof (run_call_bal_fits _ _ _ _ Hw Hrun) as Hw'.
  apply run_call_ok_inv in Hrun as (who & a' & ev & _ & Hspec & Hv & _ & Hoth & Hevs).
  destruct (spec_call_fits _ _ _ _ _ Hspec Hc) as [Hfe Hfs];
    [apply Hst|by apply hold_fits|subst; by apply hold_fits|].
  split; [done| |by rewrite Hevs; apply Forall_app; split; [|apply Forall_singleton]].
  intros who'. destruct (decide (who' = who)) as [->|Hne].
  - by rewrite <- Hv in Hfs.
  - specialize (Hoth who' Hne). apply (f_equal acc_state) in Hoth. cbn in Hoth.
    rewrite Hoth. apply Hst.
Qed.
End fits.

Section extension_fits.
Context {T : Config} {F : FungibleHold} {FS : FungibleHoldSpec F} {Y : FungibleHoldTyped F}.
Context {D : FeeDestination} {DY : FeeDestinationTyped D Y} {W : Weights}.
Context {P : TransactionPayment} (db : RuntimeDbWeight).

Lemma chain_fits_set_world s w : chain_fits s → bal_fits w → chain_fits (set_world w s).
Proof. intros [_ Hst Hev] Hw. by split. Qed.

Lemma chain_fits_push_event s e : chain_fits s → event_fits e → chain_fits (push_event e s).
Proof.
  intros [Hw Hst Hev] He. split; [done|done|]. cbn. apply Forall_app. by split; [|constructor].
Qed.

Lemma move_budget_to_pending_fits who x s :
  chain_fits s → chain_fits (move_budget_to_pending who x s).2.
Proof.
  intros Hs. pose proof (fits_world _ Hs) as Hw.
  unfold move_budget_to_pending, map_err_m, external, zoom, mbind, M_bind, mret, M_ret. cbn.
  pose proof (release_bal_fits budget_hold_reason who x Exact _ Hw) as Hr.
  destruct (release _ _ _ _ _) as [[y|e] w1]; cbn in *; [|by apply chain_fits_set_world].
  pose proof (hold_bal_fits pending_hold_reason who x _ Hr) as Hh.
  destruct (hold _ _ _ _) as [[u|e] w2]; cbn in *; apply (chain_fits_set_world s w2 Hs Hh).
Qed.

Lemma restore_pending_fits who s : chain_fits s → chain_fits (restore_pending_to_budget who s).
Proof.
  intros Hs. unfold restore_pending_to_budget. destruct (is_zero _); [done|].
  pose proof (release_bal_fits pending_hold_reason who (pending_on_hold who s) BestEffort _
    (fits_world _ Hs)) as Hr.
  destruct (release _ _ _ _ _) as [[y|e] w1]; cbn in Hr; [|by apply chain_fits_set_world].
  destruct (is_zero y); [by apply chain_fits_set_world|].
  pose proof (hold_bal_fits budget_hold_reason who y _ Hr) as Hh.
  destruct (hold _ _ _ _) as [[u|e] w2]; cbn in Hh; by apply chain_fits_set_world.
Qed.

Lemma settle_fits sp signer est tip info post len s :
  chain_fits s → est ≤ balance_max →
  chain_fits (settle_sponsored_fee db sp signer est tip info post len s).2.
Proof.
  intros Hs Hest.
  destruct (settle_spec db sp signer est tip info post len s)
    as (w & fc & tc & -> & _ & _ & _ & _ & c & missing & Hsl & _).
  pose proof (slash_bal_fits pending_hold_reason sp (N.min est (actual_fee tip info post len s))
    _ (fits_world _ Hs)) as Hw.
  rewrite Hsl in Hw. cbn [snd] in *. apply chain_fits_push_event.
  - apply restore_pending_fits, chain_fits_set_world; [done|]. by apply on_unbalanceds_bal_fits.
  - cbn. unfold charged_fee. lia.
Qed.

(** C17: every amount stays within the balance type.  If the balances, the stored
    fee caps and the recorded events are in range, then so are they after any call with
    arguments in range, after reserving an accepted sponsored transaction, whose worst-case
    fee is in range, and after settling one; the arithmetic of the pallet never leaves the
    width it has in the source. *)
Theorem amounts_fit s :
  chain_fits s →
  (∀ c o, call_fits c → chain_fits (dispatch c o s).2)
  ∧ (∀ ext o call info len imp src v sp signer est tp o' s',
       validate ext o call info len imp src s
         = (Ok (v, Val_Sponsored sp signer est tp, o'), s') →
       est ≤ balance_max
       ∧ chain_fits (prepare ext (Val_Sponsored sp signer est tp) o' call info len s').2)
  ∧ (∀ sp signer est tp info post len res, est ≤ balance_max →
       chain_fits
         (post_dispatch_details db (Pre_Sponsored sp signer est tp) info post len res s).2).
Proof.
  intros Hs. split_and!.
  - intros c o Hc. destruct (dispatch c o s) as [r s'] eqn:Hd. by eapply dispatch_fits.
  - intros ext o call info len imp src v sp signer est tp o' s' Hval.
    destruct (sponsor ext) as [sp'|] eqn:Hsp.
    + destruct (validate_sponsored_ok _ _ _ _ _ _ _ _ _ _ _ _ _ Hsp Hval)
        as (-> & _ & signer' & st & _ & _ & _ & _ & _ & _ & [= -> -> -> ->]).
      split; [apply saturated_into_le|]. cbn. unfold mbind, M_bind, mret, M_ret.
      pose proof (move_budget_to_pending_fits sp' (worst_case_fee ext info len s) s Hs) as Hm.
      by destruct (move_budget_to_pending _ _ _) as [[]].
    + unfold validate in Hval. rewrite Hsp in Hval. apply bind_ok in Hval as ([[] ?] & ? & _ & H).
      done.
  - intros sp signer est tp info post len res Hest. cbn.
    pose proof (settle_fits sp signer est tp info post len s Hs Hest) as H.
    by destruct (settle_sponsored_fee _ _ _ _ _ _ _ _ _).
Qed.
End extension_fits.

(** ** The hypotheses hold *)

(** On the ledger: nobody owns more than the balance type can express. *)
Definition ledger_total (who : N) (w : LedgerWorld) : N :=
  Ledger.free_of who w + Ledger.held_of SponsorshipBudget who w
  + Ledger.held_of SponsorshipPending who w.

Definition ledger_fits (w : LedgerWorld) : Prop := ∀ who, ledger_total who w ≤ u64_max.

Lemma ledger_fits_set r who f h w :
  ledger_fits w → f + h ≤ Ledger.free_of who w + Ledger.held_of r who w →
  ledger_fits (Ledger.set r who f h w).
Proof.
  intros Hw Hle who'. specialize (Hw who'). unfold ledger_total in *.
  rewrite Ledger.free_set, !Ledger.held_set. destruct (decide (who = who')) as [->|Hne].
  - destruct r; repeat case_decide; simplify_eq; lia.
  - rewrite !decide_False by congruence. done.
Qed.

#[export, refine] Instance ledger_typed : FungibleHoldTyped ledger_fungible := {|
  bal_fits := ledger_fits : World → Prop;
|}.
Proof.
  all: cbn; unfold Ledger.hold, Ledger.release, Ledger.slash.
  - intros who w Hw. specialize (Hw who). unfold ledger_total in Hw. lia.
  - intros r who w Hw. specialize (Hw who). unfold ledger_total in Hw. destruct r; lia.
  - intros r who amount w Hw. destruct (_ || _) eqn:Hb; [|done].
    apply Ledger.can_hold_spec in Hb. apply ledger_fits_set; [done|]. lia.
  - intros r who amount p w Hw. destruct (_ <=? _) eqn:Hb; [|done]. bool_to_prop.
    apply ledger_fits_set; [done|]. lia.
  - intros r who amount w Hw. apply ledger_fits_set; [done|]. lia.
Defined.

#[export] Instance burn_fees_typed : FeeDestinationTyped burn_fees ledger_typed.
Proof. by intros cs w. Qed.

Lemma new_test_ext_fits : chain_fits new_test_ext.
Proof.
  split; [|by intros who; cbn; rewrite lookup_empty|constructor].
  intros who. unfold ledger_total, Ledger.free_of, Ledger.held_of. cbn [new_test_ext world free held].
  rewrite !lookup_empty. unfold u64_max.
  destruct (decide (who = 1)) as [->|]; [by vm_compute|].
  destruct (decide (who = 2)) as [->|]; [by vm_compute|].
  destruct (decide (who = 3)) as [->|]; [by vm_compute|].
  rewrite !lookup_insert_ne, lookup_singleton_ne by done. cbn. lia.
Qed.

Lemma amounts_fit_witness :
  chain_fits (dispatch (Call_register_sponsor 200 policy_2_50) (signed_by 1) new_test_ext).2.
Proof.
  destruct (amounts_fit mock_db new_test_ext new_test_ext_fits) as [H _].
  apply H. split; by vm_compute.
Defined.
